(** * eNVMe PCI endpoint function driver: command/queue emulation engine

    Shallow embedding of [firmware/evil_nvme_oot/pci-epf-nvme.c] and the
    properties of its queue manager, PRP resolver, transfer engine,
    completion poster and controller life cycle.

    Conventions.
    - C integers are [Z]; every operation that can leave the range of its
      C type is written with its wrap-around ([u16], [u32], [u64]).
    - [ctrl->sq] and [ctrl->cq] are arrays: lists read with [!!] and
      written with [<[i:=q]>].  A read outside the array is reported as a
      fault of the operation, it is not given a value.
    - What the hardware, the host or the kernel allocator decide is an
      explicit argument of the function that consumes it.
    - Each function of the driver runs to its end before the next one
      starts: locks, workqueue scheduling and delays are not modelled.
      Where a work function releases its lock and others may run, their
      effect is an argument of the work function.
    - A loop of the driver whose end depends on what the host wrote is run
      with fuel; running out of fuel is reported, never given a result.

    The file has three parts: the embedding of the driver, the vocabulary
    of its properties with example inputs, and the properties. *)

From Stdlib Require Import ZArith Lia Bool.
From stdpp Require Import base numbers option list gmap.

Local Open Scope Z_scope.

(* ===================================================================== *)
(** ** Machine integers *)

Definition u16 (x : Z) : Z := x mod 2 ^ 16.
Definition u32 (x : Z) : Z := x mod 2 ^ 32.
Definition u64 (x : Z) : Z := x mod 2 ^ 64.

(** Conversion to a 32-bit [int] (two's complement). *)
Definition s32 (x : Z) : Z := (x + 2 ^ 31) mod 2 ^ 32 - 2 ^ 31.

(** Test of a flag: [x & mask] is non zero. *)
Definition has_bits (x mask : Z) : bool := negb (Z.land x mask =? 0).

(* ===================================================================== *)
(** ** Constants *)

(** Sizes of [linux/sizes.h]. *)
Definition SZ_1K : Z := 1024.
Definition SZ_4K : Z := 4096.
Definition SZ_128K : Z := 131072.

(** Error numbers of [errno.h]. *)
Definition EIO : Z := 5.
Definition ENOMEM : Z := 12.
Definition EINVAL : Z := 22.
Definition ETIMEDOUT : Z := 110.

(** Of the driver itself. *)
Definition NVME_EVIL_ACTIVATION_KEY_LEN : Z := 256.
Definition PCI_EPF_NVME_MAX_NR_QUEUES : Z := 16.
Definition PCI_EPF_NVME_MDTS_KB : Z := 128.
Definition PCI_EPF_NVME_MAX_MDTS_KB : Z := 1024.
Definition PCI_EPF_NVME_QUEUE_IS_SQ : Z := Z.shiftl 1 0.
Definition PCI_EPF_NVME_QUEUE_LIVE : Z := Z.shiftl 1 1.

(** Of [linux/nvme.h]: controller page, register offsets, register bits,
    queue flags, opcodes and status codes, with the values of the header. *)
Definition NVME_CTRL_PAGE_SHIFT : Z := 12.
Definition NVME_CTRL_PAGE_SIZE : Z := Z.shiftl 1 NVME_CTRL_PAGE_SHIFT.

Definition NVME_REG_CC : Z := 0x14.
Definition NVME_REG_CSTS : Z := 0x1c.
Definition NVME_REG_AQA : Z := 0x24.
Definition NVME_REG_ASQ : Z := 0x28.
Definition NVME_REG_ACQ : Z := 0x30.
Definition NVME_REG_DBS : Z := 0x1000.

Definition NVME_CC_MPS_SHIFT : Z := 7.
Definition NVME_CC_IOSQES_SHIFT : Z := 16.
Definition NVME_CC_IOCQES_SHIFT : Z := 20.
Definition NVME_ADM_SQES : Z := 6.
Definition sizeof_nvme_command : Z := 64.
Definition sizeof_nvme_completion : Z := 16.

Definition NVME_CC_ENABLE : Z := Z.shiftl 1 0.
Definition NVME_CC_SHN_NORMAL : Z := Z.shiftl 1 14.
Definition NVME_CSTS_RDY : Z := Z.shiftl 1 0.
Definition NVME_CSTS_SHST_CMPLT : Z := Z.shiftl 2 2.

Definition NVME_QUEUE_PHYS_CONTIG : Z := Z.shiftl 1 0.
Definition NVME_CQ_IRQ_ENABLED : Z := Z.shiftl 1 1.

Definition NVME_CMD_SGL_ALL : Z := 0xc0.

Definition nvme_cmd_flush : Z := 0x00.
Definition nvme_cmd_write : Z := 0x01.
Definition nvme_cmd_read : Z := 0x02.

Definition NVME_SC_SUCCESS : Z := 0x0.
Definition NVME_SC_INVALID_OPCODE : Z := 0x1.
Definition NVME_SC_INVALID_FIELD : Z := 0x2.
Definition NVME_SC_DATA_XFER_ERROR : Z := 0x4.
Definition NVME_SC_INTERNAL : Z := 0x6.
Definition NVME_SC_PRP_INVALID_OFFSET : Z := 0x13.
Definition NVME_SC_CQ_INVALID : Z := 0x100.
Definition NVME_SC_QID_INVALID : Z := 0x101.
Definition NVME_SC_QUEUE_SIZE : Z := 0x102.
Definition NVME_SC_INVALID_VECTOR : Z := 0x108.
Definition NVME_SC_INVALID_QUEUE : Z := 0x10c.
Definition NVME_STATUS_DNR : Z := 0x4000.

(** [NVME_CAP_MQES(cap)]. *)
Definition NVME_CAP_MQES (cap : Z) : Z := Z.land cap 0xffff.

(** Of [linux/pci.h]: interrupt types. *)
Definition PCI_IRQ_INTX : Z := 1.
Definition PCI_IRQ_MSI : Z := 2.
Definition PCI_IRQ_MSIX : Z := 4.

(** [enum dma_data_direction]. *)
Inductive dma_data_direction :=
  | DMA_BIDIRECTIONAL
  | DMA_TO_DEVICE
  | DMA_FROM_DEVICE
  | DMA_NONE.

(** [struct pci_epf_nvme_segment]: a host PCI memory segment. *)
Record pci_epf_nvme_segment := mk_segment {
  seg_pci_addr : Z;
  seg_size : Z
}.

(** Total length of a list of segments. *)
Definition segs_total (l : list pci_epf_nvme_segment) : Z :=
  foldr (fun s acc => seg_size s + acc) 0 l.

(* ===================================================================== *)
(** ** Transfer engine *)

(** What the endpoint controller and the DMA engine answer during one
    copy of a segment.  Each field is the return value of the kernel call
    named in its comment. *)
Record xfer_env := mk_xfer_env {
  env_mem_map : Z;          (* pci_epc_mem_map: 0 or a negative errno *)
  env_map_pci_size : Z;     (* map.pci_size of a successful mapping *)
  env_mapping_error : Z;    (* dma_mapping_error *)
  env_slave_config : Z;     (* dmaengine_slave_config *)
  env_prep_ok : bool;       (* the prep call returned a descriptor *)
  env_submit_error : Z;     (* dma_submit_error *)
  env_wait : Z              (* wait_for_completion_timeout: 0 on timeout *)
}.

(** Which of the two copy paths ran. *)
Inductive xfer_path := Bulk | Mmio.

(** Observable actions of the transfer engine. *)
Inductive xfer_event :=
  | EvAttempt (p : xfer_path) (remaining : Z)
  | EvMemMap (pci_addr size : Z)
  | EvMemUnmap
  | EvDmaMapSingle (size : Z)
  | EvDmaUnmapSingle
  | EvDmaIssue
  | EvDmaWait (msecs : Z)
  | EvDmaTimeout
  | EvDmaTerminate
  | EvMemcpyFromIo (size : Z)
  | EvMemcpyToIo (size : Z).

(** The fields of [struct pci_epf_nvme] the transfer engine reads;
    [dma_shared_chan] says that [dma_chan_tx == dma_chan_rx]. *)
Record xfer_cfg := mk_xfer_cfg {
  dma_enable : bool;
  dma_shared_chan : bool
}.

Definition wait_msecs : Z := 1000.

(** The submit-and-wait tail shared by both DMA flavours: the body from
    [dmaengine_submit] to the value returned on completion or timeout. *)
Definition dma_submit_wait (e : xfer_env) (done : Z) : Z * list xfer_event :=
  if negb (env_submit_error e =? 0) then (env_submit_error e, [])
  else if env_wait e =? 0
       then (- ETIMEDOUT,
             [EvDmaIssue; EvDmaWait wait_msecs; EvDmaTimeout; EvDmaTerminate])
       else (done, [EvDmaIssue; EvDmaWait wait_msecs]).

Definition pci_epf_nvme_dma_memcpy_transfer (e : xfer_env)
    (seg : pci_epf_nvme_segment) (dir : dma_data_direction)
    : Z * list xfer_event :=
  if negb (env_mem_map e =? 0) then (env_mem_map e, [])
  else
    let map_ev := EvMemMap (seg_pci_addr seg) (seg_size seg) in
    if negb (env_prep_ok e) then (- EIO, [map_ev; EvMemUnmap])
    else
      let '(ret, evs) := dma_submit_wait e (env_map_pci_size e) in
      (ret, map_ev :: evs ++ [EvMemUnmap]).

Definition pci_epf_nvme_dma_private_transfer (e : xfer_env)
    (seg : pci_epf_nvme_segment) (dir : dma_data_direction)
    : Z * list xfer_event :=
  match dir with
  | DMA_FROM_DEVICE | DMA_TO_DEVICE =>
      if negb (env_slave_config e =? 0) then (s32 (env_slave_config e), [])
      else if negb (env_prep_ok e) then (- EIO, [])
      else dma_submit_wait e (seg_size seg)
  | _ => (- EINVAL, [])
  end.

Definition pci_epf_nvme_dma_transfer (cfg : xfer_cfg) (e : xfer_env)
    (seg : pci_epf_nvme_segment) (dir : dma_data_direction)
    : Z * list xfer_event :=
  if negb (env_mapping_error e =? 0) then (env_mapping_error e, [])
  else
    let '(ret, evs) :=
      if dma_shared_chan cfg
      then pci_epf_nvme_dma_memcpy_transfer e seg dir
      else pci_epf_nvme_dma_private_transfer e seg dir in
    (ret, EvDmaMapSingle (seg_size seg) :: evs ++ [EvDmaUnmapSingle]).

Definition pci_epf_nvme_mmio_transfer (e : xfer_env)
    (seg : pci_epf_nvme_segment) (dir : dma_data_direction)
    : Z * list xfer_event :=
  if negb (env_mem_map e =? 0) then (s32 (env_mem_map e), [])
  else
    let map_ev := EvMemMap (seg_pci_addr seg) (seg_size seg) in
    match dir with
    | DMA_FROM_DEVICE =>
        (s32 (env_map_pci_size e),
         [map_ev; EvMemcpyFromIo (env_map_pci_size e); EvMemUnmap])
    | DMA_TO_DEVICE =>
        (s32 (env_map_pci_size e),
         [map_ev; EvMemcpyToIo (env_map_pci_size e); EvMemUnmap])
    | _ => (- EINVAL, [map_ev; EvMemUnmap])
    end.

(** One turn of the [while (size)] loop of [pci_epf_nvme_transfer]: the
    choice of the path under [xfer_lock] and the copy itself. *)
Definition transfer_attempt (cfg : xfer_cfg) (e : xfer_env)
    (seg : pci_epf_nvme_segment) (dir : dma_data_direction) (size : Z)
    : Z * list xfer_event :=
  if dma_enable cfg && (SZ_4K <? size)
  then let '(ret, evs) := pci_epf_nvme_dma_transfer cfg e seg dir in
       (ret, EvAttempt Bulk size :: evs)
  else let '(ret, evs) := pci_epf_nvme_mmio_transfer e seg dir in
       (ret, EvAttempt Mmio size :: evs).

(** The loop, run against the answers [envs] of the hardware, one per
    turn.  [None]: the answers ran out while bytes were still to copy. *)
Fixpoint transfer_loop (cfg : xfer_cfg) (envs : list xfer_env)
    (seg : pci_epf_nvme_segment) (dir : dma_data_direction) (size : Z)
    : option (Z * list xfer_event) :=
  if size =? 0 then Some (0, [])
  else
    match envs with
    | [] => None
    | e :: envs' =>
        let '(ret, evs) := transfer_attempt cfg e seg dir size in
        if ret <? 0 then Some (s32 ret, evs)
        else
          match transfer_loop cfg envs' seg dir (u64 (size - ret)) with
          | Some (r, evs') => Some (r, evs ++ evs')
          | None => None
          end
    end.

Definition pci_epf_nvme_transfer (cfg : xfer_cfg) (envs : list xfer_env)
    (seg : pci_epf_nvme_segment) (dir : dma_data_direction)
    : option (Z * list xfer_event) :=
  transfer_loop cfg envs seg dir (seg_size seg).

(* ===================================================================== *)
(** ** Data model *)

(** [struct nvme_completion]. *)
Record nvme_completion := mk_cqe {
  cqe_result : Z;
  cqe_sq_head : Z;
  cqe_sq_id : Z;
  cqe_command_id : Z;
  cqe_status : Z
}.

(** [struct nvme_command], a union in C: the common header, the two PRP
    entries and command dwords 10 to 12, which the views below decode. *)
Record nvme_command := mk_nvme_command {
  opcode : Z;
  flags : Z;
  command_id : Z;
  nsid : Z;
  prp1 : Z;
  prp2 : Z;
  cdw10 : Z;
  cdw11 : Z;
  cdw12 : Z
}.

Definition lo16 (dw : Z) : Z := Z.land dw 0xffff.
Definition hi16 (dw : Z) : Z := Z.land (Z.shiftr dw 16) 0xffff.

(** [cmd->create_cq]. *)
Definition create_cq_cqid (c : nvme_command) : Z := lo16 (cdw10 c).
Definition create_cq_qsize (c : nvme_command) : Z := hi16 (cdw10 c).
Definition create_cq_cq_flags (c : nvme_command) : Z := lo16 (cdw11 c).
Definition create_cq_irq_vector (c : nvme_command) : Z := hi16 (cdw11 c).

(** [cmd->create_sq]. *)
Definition create_sq_sqid (c : nvme_command) : Z := lo16 (cdw10 c).
Definition create_sq_qsize (c : nvme_command) : Z := hi16 (cdw10 c).
Definition create_sq_sq_flags (c : nvme_command) : Z := lo16 (cdw11 c).
Definition create_sq_cqid (c : nvme_command) : Z := hi16 (cdw11 c).

(** [struct pci_epf_nvme_cmd].  [c_ns] holds the [lba_shift] of the
    namespace when [epcmd->ns] is set; [c_buffer] is [None] for a NULL
    buffer and the bytes of the allocation otherwise; [c_segs] is the
    array [epcmd->segs] points to (empty for NULL). *)
Record pci_epf_nvme_cmd := mk_cmd {
  c_sqid : Z;
  c_cqid : Z;
  c_status : Z;
  c_ns : option Z;
  c_cmd : nvme_command;
  c_cqe : nvme_completion;
  c_buffer_size : Z;
  c_buffer : option (list Z);
  c_dma_dir : dma_data_direction;
  c_nr_segs : Z;
  c_segs : list pci_epf_nvme_segment
}.

Definition set_c_status (epcmd : pci_epf_nvme_cmd) (s : Z) : pci_epf_nvme_cmd :=
  mk_cmd (c_sqid epcmd) (c_cqid epcmd) s (c_ns epcmd) (c_cmd epcmd)
         (c_cqe epcmd) (c_buffer_size epcmd) (c_buffer epcmd)
         (c_dma_dir epcmd) (c_nr_segs epcmd) (c_segs epcmd).

Definition set_c_cqe (epcmd : pci_epf_nvme_cmd) (e : nvme_completion)
    : pci_epf_nvme_cmd :=
  mk_cmd (c_sqid epcmd) (c_cqid epcmd) (c_status epcmd) (c_ns epcmd)
         (c_cmd epcmd) e (c_buffer_size epcmd) (c_buffer epcmd)
         (c_dma_dir epcmd) (c_nr_segs epcmd) (c_segs epcmd).

Definition set_c_segs (epcmd : pci_epf_nvme_cmd) (n : Z)
    (l : list pci_epf_nvme_segment) : pci_epf_nvme_cmd :=
  mk_cmd (c_sqid epcmd) (c_cqid epcmd) (c_status epcmd) (c_ns epcmd)
         (c_cmd epcmd) (c_cqe epcmd) (c_buffer_size epcmd) (c_buffer epcmd)
         (c_dma_dir epcmd) n l.

(** The segments a command resolved to: the first [nr_segs] entries of
    its segment array. *)
Definition cmd_segments (epcmd : pci_epf_nvme_cmd) : list pci_epf_nvme_segment :=
  take (Z.to_nat (c_nr_segs epcmd)) (c_segs epcmd).

(** [struct pci_epf_nvme_queue].  [q_cmd_wq] says whether the queue owns a
    command workqueue, [q_list] is the list headed by [q->list], [q_sq]
    the index of the submission queue [cq->sq] points to. *)
Record pci_epf_nvme_queue := mk_queue {
  q_qflags : Z;
  q_ref : Z;
  q_pci_addr : Z;
  q_pci_size : Z;
  q_qid : Z;
  q_cqid : Z;
  q_size : Z;
  q_depth : Z;
  q_flags : Z;
  q_vector : Z;
  q_head : Z;
  q_tail : Z;
  q_phase : Z;
  q_db : Z;
  q_qes : Z;
  q_cmd_wq : bool;
  q_list : list pci_epf_nvme_cmd;
  q_sq : option Z
}.

(** A queue as [pci_epf_nvme_alloc_queues] leaves it (kcalloc). *)
Definition queue_zero : pci_epf_nvme_queue :=
  mk_queue 0 0 0 0 0 0 0 0 0 0 0 0 0 0 0 false [] None.

Definition set_q_qflags (q : pci_epf_nvme_queue) (v : Z) : pci_epf_nvme_queue :=
  mk_queue v (q_ref q) (q_pci_addr q) (q_pci_size q) (q_qid q) (q_cqid q)
           (q_size q) (q_depth q) (q_flags q) (q_vector q) (q_head q)
           (q_tail q) (q_phase q) (q_db q) (q_qes q) (q_cmd_wq q) (q_list q)
           (q_sq q).

Definition set_q_ref (q : pci_epf_nvme_queue) (v : Z) : pci_epf_nvme_queue :=
  mk_queue (q_qflags q) v (q_pci_addr q) (q_pci_size q) (q_qid q) (q_cqid q)
           (q_size q) (q_depth q) (q_flags q) (q_vector q) (q_head q)
           (q_tail q) (q_phase q) (q_db q) (q_qes q) (q_cmd_wq q) (q_list q)
           (q_sq q).

Definition set_q_head (q : pci_epf_nvme_queue) (v : Z) : pci_epf_nvme_queue :=
  mk_queue (q_qflags q) (q_ref q) (q_pci_addr q) (q_pci_size q) (q_qid q)
           (q_cqid q) (q_size q) (q_depth q) (q_flags q) (q_vector q) v
           (q_tail q) (q_phase q) (q_db q) (q_qes q) (q_cmd_wq q) (q_list q)
           (q_sq q).

Definition set_q_tail_phase (q : pci_epf_nvme_queue) (t p : Z)
    : pci_epf_nvme_queue :=
  mk_queue (q_qflags q) (q_ref q) (q_pci_addr q) (q_pci_size q) (q_qid q)
           (q_cqid q) (q_size q) (q_depth q) (q_flags q) (q_vector q)
           (q_head q) t p (q_db q) (q_qes q) (q_cmd_wq q) (q_list q) (q_sq q).

Definition set_q_cmd_wq (q : pci_epf_nvme_queue) (b : bool) : pci_epf_nvme_queue :=
  mk_queue (q_qflags q) (q_ref q) (q_pci_addr q) (q_pci_size q) (q_qid q)
           (q_cqid q) (q_size q) (q_depth q) (q_flags q) (q_vector q)
           (q_head q) (q_tail q) (q_phase q) (q_db q) (q_qes q) b (q_list q)
           (q_sq q).

Definition set_q_list (q : pci_epf_nvme_queue) (l : list pci_epf_nvme_cmd)
    : pci_epf_nvme_queue :=
  mk_queue (q_qflags q) (q_ref q) (q_pci_addr q) (q_pci_size q) (q_qid q)
           (q_cqid q) (q_size q) (q_depth q) (q_flags q) (q_vector q)
           (q_head q) (q_tail q) (q_phase q) (q_db q) (q_qes q) (q_cmd_wq q) l
           (q_sq q).

Definition set_q_sq (q : pci_epf_nvme_queue) (s : option Z) : pci_epf_nvme_queue :=
  mk_queue (q_qflags q) (q_ref q) (q_pci_addr q) (q_pci_size q) (q_qid q)
           (q_cqid q) (q_size q) (q_depth q) (q_flags q) (q_vector q)
           (q_head q) (q_tail q) (q_phase q) (q_db q) (q_qes q) (q_cmd_wq q)
           (q_list q) s.

(** [struct pci_epf_nvme_ctrl].  [ctrl_reg] is the register BAR, a map from
    byte offsets to 32-bit registers (absent registers read 0). *)
Record pci_epf_nvme_ctrl := mk_ctrl {
  ctrl_reg : gmap Z Z;
  ctrl_cap : Z;
  ctrl_cc : Z;
  ctrl_csts : Z;
  ctrl_aqa : Z;
  ctrl_asq : Z;
  ctrl_acq : Z;
  ctrl_adm_sqes : Z;
  ctrl_adm_cqes : Z;
  ctrl_io_sqes : Z;
  ctrl_io_cqes : Z;
  ctrl_mps_shift : Z;
  ctrl_mps : Z;
  ctrl_mps_mask : Z;
  ctrl_mdts : Z;
  ctrl_nr_queues : Z;
  ctrl_sq : list pci_epf_nvme_queue;
  ctrl_cq : list pci_epf_nvme_queue
}.

Definition set_ctrl_reg (c : pci_epf_nvme_ctrl) (r : gmap Z Z)
    : pci_epf_nvme_ctrl :=
  mk_ctrl r (ctrl_cap c) (ctrl_cc c) (ctrl_csts c) (ctrl_aqa c) (ctrl_asq c)
    (ctrl_acq c) (ctrl_adm_sqes c) (ctrl_adm_cqes c) (ctrl_io_sqes c)
    (ctrl_io_cqes c) (ctrl_mps_shift c) (ctrl_mps c) (ctrl_mps_mask c)
    (ctrl_mdts c) (ctrl_nr_queues c) (ctrl_sq c) (ctrl_cq c).

Definition set_ctrl_cc (c : pci_epf_nvme_ctrl) (v : Z) : pci_epf_nvme_ctrl :=
  mk_ctrl (ctrl_reg c) (ctrl_cap c) v (ctrl_csts c) (ctrl_aqa c) (ctrl_asq c)
    (ctrl_acq c) (ctrl_adm_sqes c) (ctrl_adm_cqes c) (ctrl_io_sqes c)
    (ctrl_io_cqes c) (ctrl_mps_shift c) (ctrl_mps c) (ctrl_mps_mask c)
    (ctrl_mdts c) (ctrl_nr_queues c) (ctrl_sq c) (ctrl_cq c).

Definition set_ctrl_csts (c : pci_epf_nvme_ctrl) (v : Z)
    : pci_epf_nvme_ctrl :=
  mk_ctrl (ctrl_reg c) (ctrl_cap c) (ctrl_cc c) v (ctrl_aqa c) (ctrl_asq c)
    (ctrl_acq c) (ctrl_adm_sqes c) (ctrl_adm_cqes c) (ctrl_io_sqes c)
    (ctrl_io_cqes c) (ctrl_mps_shift c) (ctrl_mps c) (ctrl_mps_mask c)
    (ctrl_mdts c) (ctrl_nr_queues c) (ctrl_sq c) (ctrl_cq c).

Definition set_ctrl_aq (c : pci_epf_nvme_ctrl) (a s q : Z)
    : pci_epf_nvme_ctrl :=
  mk_ctrl (ctrl_reg c) (ctrl_cap c) (ctrl_cc c) (ctrl_csts c) a s q
    (ctrl_adm_sqes c) (ctrl_adm_cqes c) (ctrl_io_sqes c) (ctrl_io_cqes c)
    (ctrl_mps_shift c) (ctrl_mps c) (ctrl_mps_mask c) (ctrl_mdts c)
    (ctrl_nr_queues c) (ctrl_sq c) (ctrl_cq c).

Definition set_ctrl_sizes (c : pci_epf_nvme_ctrl)
    (asq acq isq icq sh mps mask mdts : Z) : pci_epf_nvme_ctrl :=
  mk_ctrl (ctrl_reg c) (ctrl_cap c) (ctrl_cc c) (ctrl_csts c) (ctrl_aqa c)
    (ctrl_asq c) (ctrl_acq c) asq acq isq icq sh mps mask mdts
    (ctrl_nr_queues c) (ctrl_sq c) (ctrl_cq c).

Definition set_ctrl_sq (c : pci_epf_nvme_ctrl) (l : list pci_epf_nvme_queue)
    : pci_epf_nvme_ctrl :=
  mk_ctrl (ctrl_reg c) (ctrl_cap c) (ctrl_cc c) (ctrl_csts c) (ctrl_aqa c)
    (ctrl_asq c) (ctrl_acq c) (ctrl_adm_sqes c) (ctrl_adm_cqes c)
    (ctrl_io_sqes c) (ctrl_io_cqes c) (ctrl_mps_shift c) (ctrl_mps c)
    (ctrl_mps_mask c) (ctrl_mdts c) (ctrl_nr_queues c) l (ctrl_cq c).

Definition set_ctrl_cq (c : pci_epf_nvme_ctrl) (l : list pci_epf_nvme_queue)
    : pci_epf_nvme_ctrl :=
  mk_ctrl (ctrl_reg c) (ctrl_cap c) (ctrl_cc c) (ctrl_csts c) (ctrl_aqa c)
    (ctrl_asq c) (ctrl_acq c) (ctrl_adm_sqes c) (ctrl_adm_cqes c)
    (ctrl_io_sqes c) (ctrl_io_cqes c) (ctrl_mps_shift c) (ctrl_mps c)
    (ctrl_mps_mask c) (ctrl_mdts c) (ctrl_nr_queues c) (ctrl_sq c) l.

(** Interrupts raised through [pci_epc_raise_irq]. *)
Inductive irq_event := IrqRaise (type vector : Z).

(** Calls into the queue manager, in the order they are made. *)
Inductive queue_event :=
  | EvDeleteSq (qid : Z)
  | EvDeleteCq (qid : Z).

(** The driver: [struct pci_epf_nvme] with its controller, the module
    global [evil_activated], the work pending on [evil_wq], the completion
    entries written to host memory (by PCI address), and the records of
    interrupts raised, of queue manager calls and of commands released with
    [pci_epf_nvme_free_cmd]. *)
Record pci_epf_nvme := mk_epf {
  ctrl : pci_epf_nvme_ctrl;
  ctrl_enabled : bool;
  irq_type : Z;
  nr_vectors : Z;
  mdts_kb : Z;
  evil_activated : bool;
  evil_wq : list pci_epf_nvme_cmd;
  host_mem : gmap Z nvme_completion;
  irq_log : list irq_event;
  queue_log : list queue_event;
  freed : list pci_epf_nvme_cmd
}.

Definition set_ctrl (st : pci_epf_nvme) (c : pci_epf_nvme_ctrl)
    : pci_epf_nvme :=
  mk_epf c (ctrl_enabled st) (irq_type st) (nr_vectors st) (mdts_kb st)
    (evil_activated st) (evil_wq st) (host_mem st) (irq_log st) (queue_log st)
    (freed st).

Definition set_ctrl_enabled (st : pci_epf_nvme) (b : bool) : pci_epf_nvme :=
  mk_epf (ctrl st) b (irq_type st) (nr_vectors st) (mdts_kb st)
    (evil_activated st) (evil_wq st) (host_mem st) (irq_log st) (queue_log st)
    (freed st).

Definition set_evil_activated (st : pci_epf_nvme) (b : bool) : pci_epf_nvme :=
  mk_epf (ctrl st) (ctrl_enabled st) (irq_type st) (nr_vectors st)
    (mdts_kb st) b (evil_wq st) (host_mem st) (irq_log st) (queue_log st)
    (freed st).

Definition set_evil_wq (st : pci_epf_nvme) (l : list pci_epf_nvme_cmd)
    : pci_epf_nvme :=
  mk_epf (ctrl st) (ctrl_enabled st) (irq_type st) (nr_vectors st)
    (mdts_kb st) (evil_activated st) l (host_mem st) (irq_log st)
    (queue_log st) (freed st).

Definition set_host_mem (st : pci_epf_nvme) (m : gmap Z nvme_completion)
    : pci_epf_nvme :=
  mk_epf (ctrl st) (ctrl_enabled st) (irq_type st) (nr_vectors st)
    (mdts_kb st) (evil_activated st) (evil_wq st) m (irq_log st)
    (queue_log st) (freed st).

Definition set_irq_log (st : pci_epf_nvme) (l : list irq_event)
    : pci_epf_nvme :=
  mk_epf (ctrl st) (ctrl_enabled st) (irq_type st) (nr_vectors st)
    (mdts_kb st) (evil_activated st) (evil_wq st) (host_mem st) l
    (queue_log st) (freed st).

Definition set_queue_log (st : pci_epf_nvme) (l : list queue_event)
    : pci_epf_nvme :=
  mk_epf (ctrl st) (ctrl_enabled st) (irq_type st) (nr_vectors st)
    (mdts_kb st) (evil_activated st) (evil_wq st) (host_mem st) (irq_log st) l
    (freed st).

Definition set_freed (st : pci_epf_nvme) (l : list pci_epf_nvme_cmd)
    : pci_epf_nvme :=
  mk_epf (ctrl st) (ctrl_enabled st) (irq_type st) (nr_vectors st)
    (mdts_kb st) (evil_activated st) (evil_wq st) (host_mem st) (irq_log st)
    (queue_log st) l.

(** Faults of an operation: what C leaves undefined. *)
Inductive fault :=
  | OutOfBounds (index : Z)
  | NullDeref.

Inductive result (A : Type) :=
  | Ok (a : A)
  | Fault (f : fault).
Arguments Ok {A} a.
Arguments Fault {A} f.

Definition bind {A B} (r : result A) (k : A -> result B) : result B :=
  match r with
  | Ok a => k a
  | Fault f => Fault f
  end.

Notation "'do' x <- r ; k" := (bind r (fun x => k))
  (at level 10, x name, r at level 100, k at level 200).

(** [&array[i]] followed by a read of the element. *)
Definition array_get (l : list pci_epf_nvme_queue) (i : Z)
    : result pci_epf_nvme_queue :=
  if i <? 0 then Fault (OutOfBounds i)
  else match l !! Z.to_nat i with
       | Some q => Ok q
       | None => Fault (OutOfBounds i)
       end.

Definition array_set (l : list pci_epf_nvme_queue) (i : Z)
    (q : pci_epf_nvme_queue) : list pci_epf_nvme_queue :=
  <[Z.to_nat i := q]> l.

Definition get_sq (st : pci_epf_nvme) (i : Z) : result pci_epf_nvme_queue :=
  array_get (ctrl_sq (ctrl st)) i.

Definition get_cq (st : pci_epf_nvme) (i : Z) : result pci_epf_nvme_queue :=
  array_get (ctrl_cq (ctrl st)) i.

Definition put_sq (st : pci_epf_nvme) (i : Z) (q : pci_epf_nvme_queue)
    : pci_epf_nvme :=
  set_ctrl st (set_ctrl_sq (ctrl st) (array_set (ctrl_sq (ctrl st)) i q)).

Definition put_cq (st : pci_epf_nvme) (i : Z) (q : pci_epf_nvme_queue)
    : pci_epf_nvme :=
  set_ctrl st (set_ctrl_cq (ctrl st) (array_set (ctrl_cq (ctrl st)) i q)).

(** [pci_epf_nvme_reg_read32] and [pci_epf_nvme_reg_write32]. *)
Definition pci_epf_nvme_reg_read32 (c : pci_epf_nvme_ctrl) (reg : Z) : Z :=
  u32 (default 0 (ctrl_reg c !! reg)).

Definition pci_epf_nvme_reg_write32 (c : pci_epf_nvme_ctrl) (reg val : Z)
    : pci_epf_nvme_ctrl :=
  set_ctrl_reg c (<[reg := u32 val]> (ctrl_reg c)).

Definition pci_epf_nvme_ctrl_ready (st : pci_epf_nvme) : bool :=
  if negb (ctrl_enabled st) then false
  else has_bits (ctrl_cc (ctrl st)) NVME_CC_ENABLE
       && has_bits (ctrl_csts (ctrl st)) NVME_CSTS_RDY.

Definition pci_epf_nvme_free_cmd (st : pci_epf_nvme) (epcmd : pci_epf_nvme_cmd)
    : pci_epf_nvme :=
  set_freed st (freed st ++ [epcmd]).

(* ===================================================================== *)
(** ** Queue manager *)

(** [pci_epf_nvme_delete_queue]: the queue loses its LIVE flag and its
    command workqueue, and every command still on its list is released.
    (The flush of the work items the queue owns is scheduling, which this
    sequential embedding does not interleave.) *)
Definition pci_epf_nvme_delete_queue (st : pci_epf_nvme)
    (q : pci_epf_nvme_queue) : pci_epf_nvme * pci_epf_nvme_queue :=
  let q1 := set_q_qflags q (Z.ldiff (q_qflags q) PCI_EPF_NVME_QUEUE_LIVE) in
  let q2 := set_q_cmd_wq q1 false in
  (foldl pci_epf_nvme_free_cmd st (q_list q2), set_q_list q2 []).

Definition pci_epf_nvme_create_cq (st : pci_epf_nvme)
    (qid flags size vector pci_addr : Z) : result (Z * pci_epf_nvme) :=
  do cq <- get_cq st qid;
  let ref' := s32 (q_ref cq + 1) in
  if 1 <? ref' then Ok (0, put_cq st qid (set_q_ref cq ref'))
  else
    let depth := u16 (size + 1) in
    let db := u32 (NVME_REG_DBS + (qid * 2 + 1) * 4) in
    let qes := if qid =? 0 then ctrl_adm_cqes (ctrl st)
               else ctrl_io_cqes (ctrl st) in
    let cq' :=
      mk_queue PCI_EPF_NVME_QUEUE_LIVE ref' (u64 pci_addr) (u64 (qes * depth))
               (u16 qid) (u16 qid) (u16 size) depth (u16 flags) (u16 vector)
               0 0 1 db qes (q_cmd_wq cq) (q_list cq) (q_sq cq) in
    let st1 := set_ctrl st (pci_epf_nvme_reg_write32 (ctrl st) db 0) in
    Ok (0, put_cq st1 qid cq').

Definition pci_epf_nvme_delete_cq (st : pci_epf_nvme) (qid : Z)
    : result pci_epf_nvme :=
  let st := set_queue_log st (queue_log st ++ [EvDeleteCq qid]) in
  do cq <- get_cq st qid;
  if q_ref cq <? 1 then Ok st
  else
    let cq1 := set_q_ref cq (q_ref cq - 1) in
    if negb (q_ref cq1 =? 0) then Ok (put_cq st qid cq1)
    else
      let '(st1, cq2) := pci_epf_nvme_delete_queue st cq1 in
      Ok (put_cq st1 qid cq2).

(** [pci_epf_nvme_create_sq]; [wq_ok] is whether [alloc_workqueue]
    returned a workqueue.  On failure the slot is cleared with memset. *)
Definition pci_epf_nvme_create_sq (st : pci_epf_nvme)
    (qid cqid flags size pci_addr : Z) (wq_ok : bool)
    : result (Z * pci_epf_nvme) :=
  do sq <- get_sq st qid;
  let depth := u16 (size + 1) in
  let db := u32 (NVME_REG_DBS + qid * 2 * 4) in
  let qes := if qid =? 0 then ctrl_adm_sqes (ctrl st)
             else ctrl_io_sqes (ctrl st) in
  let sq' :=
    mk_queue PCI_EPF_NVME_QUEUE_IS_SQ 1 (u64 pci_addr) (u64 (qes * depth))
             (u16 qid) (u16 cqid) (u16 size) depth (u16 flags) (q_vector sq)
             0 0 0 db qes wq_ok (q_list sq) (q_sq sq) in
  let st1 := set_ctrl st (pci_epf_nvme_reg_write32 (ctrl st) db 0) in
  if negb wq_ok then Ok (- ENOMEM, put_sq st1 qid queue_zero)
  else
    let st2 := put_sq st1 qid sq' in
    do cq <- get_cq st2 cqid;
    let cq' := set_q_sq (set_q_ref cq (s32 (q_ref cq + 1))) (Some qid) in
    let st3 := put_cq st2 cqid cq' in
    let sq'' := set_q_qflags sq'
                  (Z.lor (q_qflags sq') PCI_EPF_NVME_QUEUE_LIVE) in
    Ok (0, put_sq st3 qid sq'').

Definition pci_epf_nvme_delete_sq (st : pci_epf_nvme) (qid : Z)
    : result pci_epf_nvme :=
  let st := set_queue_log st (queue_log st ++ [EvDeleteSq qid]) in
  do sq <- get_sq st qid;
  if q_ref sq =? 0 then Ok st
  else
    let sq1 := set_q_ref sq (q_ref sq - 1) in
    if negb (q_ref sq1 =? 0) then Ok (put_sq st qid sq1)
    else
      let '(st1, sq2) := pci_epf_nvme_delete_queue st sq1 in
      let st2 := put_sq st1 qid sq2 in
      do cq <- get_cq st2 (q_cqid sq2);
      if negb (q_ref cq =? 0)
      then Ok (put_cq st2 (q_cqid sq2) (set_q_ref cq (q_ref cq - 1)))
      else Ok st2.

(** [pci_epf_nvme_process_create_cq]. *)
Definition pci_epf_nvme_process_create_cq (st : pci_epf_nvme)
    (epcmd : pci_epf_nvme_cmd) : result (pci_epf_nvme * pci_epf_nvme_cmd) :=
  let cmd := c_cmd epcmd in
  let mqes := NVME_CAP_MQES (ctrl_cap (ctrl st)) in
  let fail sc := Ok (st, set_c_status epcmd (Z.lor sc NVME_STATUS_DNR)) in
  let cqid := create_cq_cqid cmd in
  if ctrl_nr_queues (ctrl st) <=? cqid then fail NVME_SC_QID_INVALID
  else
    do cq <- get_cq st cqid;
    if negb (q_ref cq =? 0) then fail NVME_SC_QID_INVALID
    else
      let cq_flags := create_cq_cq_flags cmd in
      if negb (has_bits cq_flags NVME_QUEUE_PHYS_CONTIG)
      then fail NVME_SC_INVALID_QUEUE
      else
        let qsize := create_cq_qsize cmd in
        if (qsize =? 0) || (mqes <? qsize) then fail NVME_SC_QUEUE_SIZE
        else
          let vector := create_cq_irq_vector cmd in
          if nr_vectors st <=? vector then fail NVME_SC_INVALID_VECTOR
          else
            do r <- pci_epf_nvme_create_cq st cqid cq_flags qsize vector
                      (u64 (prp1 cmd));
            let '(ret, st') := r in
            if negb (ret =? 0)
            then Ok (st', set_c_status epcmd
                            (Z.lor NVME_SC_INTERNAL NVME_STATUS_DNR))
            else Ok (st', epcmd).

(** [pci_epf_nvme_process_create_sq]. *)
Definition pci_epf_nvme_process_create_sq (st : pci_epf_nvme)
    (epcmd : pci_epf_nvme_cmd) (wq_ok : bool)
    : result (pci_epf_nvme * pci_epf_nvme_cmd) :=
  let cmd := c_cmd epcmd in
  let mqes := NVME_CAP_MQES (ctrl_cap (ctrl st)) in
  let fail sc := Ok (st, set_c_status epcmd (Z.lor sc NVME_STATUS_DNR)) in
  let sqid := create_sq_sqid cmd in
  if (sqid =? 0) || (ctrl_nr_queues (ctrl st) <? sqid)
  then fail NVME_SC_QID_INVALID
  else
    do sq <- get_sq st sqid;
    if negb (q_ref sq =? 0) then fail NVME_SC_QID_INVALID
    else
      let cqid := create_sq_cqid cmd in
      if cqid =? 0 then fail NVME_SC_CQ_INVALID
      else
        do cq <- get_cq st cqid;
        if q_ref cq =? 0 then fail NVME_SC_CQ_INVALID
        else
          let sq_flags := create_sq_sq_flags cmd in
          if negb (has_bits sq_flags NVME_QUEUE_PHYS_CONTIG)
          then fail NVME_SC_INVALID_QUEUE
          else
            let qsize := create_sq_qsize cmd in
            if (qsize =? 0) || (mqes <? qsize) then fail NVME_SC_QUEUE_SIZE
            else
              do r <- pci_epf_nvme_create_sq st sqid cqid sq_flags qsize
                        (u64 (prp1 cmd)) wq_ok;
              let '(ret, st') := r in
              if negb (ret =? 0)
              then Ok (st', set_c_status epcmd
                              (Z.lor NVME_SC_INTERNAL NVME_STATUS_DNR))
              else Ok (st', epcmd).

(* ===================================================================== *)
(** ** Activation key and the work run on [evil_wq] *)

(** [activation_key]: 256 words of 32 bits. *)
Definition activation_key : list Z :=
  [173;104;115;108;144; 88; 50; 76; 41;228;178; 51;145;254;156; 44;
    99; 98; 58;140;233;176;165;109;134;  8;181; 95; 26; 43;107; 60;
   161; 61;246; 87; 78; 73; 57;215; 53;175;  7; 11;184; 77; 37;  2;
   148;200;205; 19;137; 66; 13;186; 93;236;248;111; 21;177;120;234;
   163; 65;  4;133;141;243;151;174;129; 74; 64;  0;195;157;216;162;
   235; 45;249;213; 22;155;247; 14; 32; 75; 67;183; 63;139;  1; 59;
    20;113;136;138;187;154;223;189;193;110;225;101;203;222; 81;240;
   125; 72;238;204; 12; 55;231; 24;255;244;118; 17;152; 56; 97;116;
    80;135; 79; 70; 42;250;114;159;209;207; 52;237;188;167; 71; 40;
   160; 36; 82;182;142;126; 38; 10;103; 49; 27;106;194;226;253; 68;
   206; 69;201;171;251; 34;218;  3;128;170;121;146; 96;150;  6; 85;
    89;119;197;153; 86;202;  5;179; 91; 94;211;219;100;239; 35;217;
   224;149;105;196; 62; 90;117;191; 31;147;131;  9;185;230;158;166;
   199;232; 25;172;252; 46;242; 39;130;122;164;143; 48;124; 15;180;
   102;220;241;227;229;190;169;212;208; 33; 16; 28; 47;214; 18;123;
   245;198; 54;127;256; 23; 30;132; 92;210;192; 83;112; 84;221; 29].

(** The bytes of a [u32] in memory (the target, arm64, is little endian). *)
Definition u32_bytes (w : Z) : list Z :=
  [Z.land w 0xff; Z.land (Z.shiftr w 8) 0xff;
   Z.land (Z.shiftr w 16) 0xff; Z.land (Z.shiftr w 24) 0xff].

(** The array [activation_key] as [memcmp] reads it. *)
Definition activation_key_bytes : list Z :=
  concat (map u32_bytes activation_key).

(** [memcmp(a, b, n) == 0] on two byte arrays that both hold [n] bytes. *)
Definition memcmp_eq (a b : list Z) (n : Z) : bool :=
  bool_decide (take (Z.to_nat n) a = take (Z.to_nat n) b).

(** [pci_epf_nvme_evil_work].  [memcmp] reads 256 bytes of the buffer: a
    NULL buffer, or one shorter than that, is a fault. *)
Definition pci_epf_nvme_evil_work (st : pci_epf_nvme)
    (epcmd : pci_epf_nvme_cmd) : result pci_epf_nvme :=
  do st1 <-
    (if c_buffer_size epcmd <=? SZ_128K then
       match c_buffer epcmd with
       | None => Fault NullDeref
       | Some buf =>
           if Z.of_nat (length buf) <? NVME_EVIL_ACTIVATION_KEY_LEN
           then Fault (OutOfBounds (Z.of_nat (length buf)))
           else if memcmp_eq buf activation_key_bytes
                     NVME_EVIL_ACTIVATION_KEY_LEN
                then Ok (set_evil_activated st true)
                else Ok st
       end
     else Ok st);
  Ok (pci_epf_nvme_free_cmd st1 epcmd).

(** One item of [evil_wq] is run: the worker takes the oldest. *)
Definition evil_wq_run (st : pci_epf_nvme) : result pci_epf_nvme :=
  match evil_wq st with
  | [] => Ok st
  | epcmd :: rest => pci_epf_nvme_evil_work (set_evil_wq st rest) epcmd
  end.

(* ===================================================================== *)
(** ** Completion poster *)

(** [pci_epf_nvme_complete_cmd]. *)
Definition pci_epf_nvme_complete_cmd (st : pci_epf_nvme)
    (epcmd : pci_epf_nvme_cmd) : result pci_epf_nvme :=
  if negb (pci_epf_nvme_ctrl_ready st)
  then Ok (pci_epf_nvme_free_cmd st epcmd)
  else
    do cq <- get_cq st (c_cqid epcmd);
    Ok (put_cq st (c_cqid epcmd) (set_q_list cq (q_list cq ++ [epcmd]))).

(** [pci_epf_nvme_raise_irq]; [epc_ret] is what the first call of
    [pci_epc_raise_irq] returns. *)
Definition pci_epf_nvme_raise_irq (st : pci_epf_nvme)
    (cq : pci_epf_nvme_queue) (epc_ret : Z) : pci_epf_nvme :=
  if negb (has_bits (q_qflags cq) NVME_CQ_IRQ_ENABLED) then st
  else
    let raise ty v := IrqRaise ty v in
    if (irq_type st =? PCI_IRQ_MSIX) || (irq_type st =? PCI_IRQ_MSI) then
      let first := raise (irq_type st) (q_vector cq + 1) in
      if epc_ret =? 0 then set_irq_log st (irq_log st ++ [first])
      else set_irq_log st (irq_log st ++ [first; raise PCI_IRQ_INTX 0])
    else if irq_type st =? PCI_IRQ_INTX then
      set_irq_log st (irq_log st ++ [raise PCI_IRQ_INTX 0])
    else st.

(** The tail of [pci_epf_nvme_queue_response]: advance the tail, flip the
    phase when it wraps. *)
Definition cq_advance_tail (cq : pci_epf_nvme_queue) : pci_epf_nvme_queue :=
  let tail' := u16 (q_tail cq + 1) in
  if q_depth cq <=? tail'
  then set_q_tail_phase cq 0 (Z.lxor (q_phase cq) 1)
  else set_q_tail_phase cq tail' (q_phase cq).

(** [pci_epf_nvme_queue_response].  The host's doorbell is the register
    [cq->db] of the BAR. *)
Definition pci_epf_nvme_queue_response (st : pci_epf_nvme)
    (epcmd : pci_epf_nvme_cmd) : result (bool * pci_epf_nvme) :=
  if negb (pci_epf_nvme_ctrl_ready st)
  then Ok (true, pci_epf_nvme_free_cmd st epcmd)
  else
    do cq <- get_cq st (c_cqid epcmd);
    if negb (has_bits (q_qflags cq) PCI_EPF_NVME_QUEUE_LIVE)
    then Ok (true, pci_epf_nvme_free_cmd st epcmd)
    else
      let cq1 := set_q_head cq
                   (u16 (pci_epf_nvme_reg_read32 (ctrl st) (q_db cq))) in
      let st1 := put_cq st (c_cqid epcmd) cq1 in
      if q_head cq1 =? q_tail cq1 + 1 then Ok (false, st1)
      else
        do sq <- get_sq st1 (c_sqid epcmd);
        let cqe :=
          mk_cqe (cqe_result (c_cqe epcmd)) (q_head sq)
                 (u16 (c_sqid epcmd)) (command_id (c_cmd epcmd))
                 (u16 (Z.lor (Z.shiftl (c_status epcmd) 1) (q_phase cq1))) in
        let epcmd' := set_c_cqe epcmd cqe in
        let st2 :=
          set_host_mem st1
            (<[q_pci_addr cq1 + q_tail cq1 * q_qes cq1 := cqe]>
               (host_mem st1)) in
        let st3 := put_cq st2 (c_cqid epcmd) (cq_advance_tail cq1) in
        if negb (c_sqid epcmd =? 0)
           && (opcode (c_cmd epcmd) =? nvme_cmd_write)
        then Ok (true, set_evil_wq st3 (evil_wq st3 ++ [epcmd']))
        else Ok (true, pci_epf_nvme_free_cmd st3 epcmd').

(** The inner loop of [pci_epf_nvme_cq_work]: entries are taken off the
    on-stack list one by one and posted until one is refused.  Returns the
    state, what is left on the on-stack list, and the command that was
    taken off the list and refused, if any. *)
Fixpoint cq_post_list (st : pci_epf_nvme) (l : list pci_epf_nvme_cmd)
    : result (pci_epf_nvme * list pci_epf_nvme_cmd
              * option pci_epf_nvme_cmd) :=
  match l with
  | [] => Ok (st, [], None)
  | epcmd :: rest =>
      do r <- pci_epf_nvme_queue_response st epcmd;
      let '(posted, st') := r in
      if posted then cq_post_list st' rest
      else Ok (st', rest, Some epcmd)
  end.

(** What happens around one turn of the outer loop of
    [pci_epf_nvme_cq_work]: whether the queue could be mapped, what the
    interrupt controller answered, and the commands other contexts
    completed on this queue while [cq->lock] was released. *)
Record cq_env := mk_cq_env {
  env_map_ok : bool;
  env_irq_ret : Z;
  env_arrivals : list pci_epf_nvme_cmd
}.

(** Without interference: the mapping succeeds, nothing arrives. *)
Definition cq_env_quiet : cq_env := mk_cq_env true 0 [].

(** How [pci_epf_nvme_cq_work] returned, with the commands that were
    still on its on-stack list, or taken off it and not posted, at that
    point: no list of the driver holds them any more. *)
Record cq_work_result := mk_cq_work_result {
  cw_state : pci_epf_nvme;
  cw_lost : list pci_epf_nvme_cmd
}.

(** [pci_epf_nvme_cq_work] for the completion queue at index [qid].  Each
    turn of the outer loop consumes one element of [envs]; when they run
    out the turn runs without interference, after which [cq->list] is
    empty and the loop ends. *)
Fixpoint cq_work_loop (envs : list cq_env) (st : pci_epf_nvme) (qid : Z)
    (local lost : list pci_epf_nvme_cmd) : result cq_work_result :=
  do cq <- get_cq st qid;
  match q_list cq with
  | [] => Ok (mk_cq_work_result st (lost ++ local))
  | _ :: _ =>
      let e := match envs with [] => cq_env_quiet | e :: _ => e end in
      let local1 := local ++ q_list cq in
      let st1 := put_cq st qid (set_q_list cq []) in
      if negb (env_map_ok e)
      then Ok (mk_cq_work_result st1 (lost ++ local1))
      else
        do r <- cq_post_list st1 local1;
        let '(st2, local2, refused) := r in
        let lost2 := lost ++ option_list refused in
        do cq2 <- get_cq st2 qid;
        let st3 := if pci_epf_nvme_ctrl_ready st2
                   then pci_epf_nvme_raise_irq st2 cq2 (env_irq_ret e)
                   else st2 in
        match envs with
        | [] => Ok (mk_cq_work_result st3 (lost2 ++ local2))
        | _ :: envs' =>
            do cq3 <- get_cq st3 qid;
            let st4 := put_cq st3 qid
                         (set_q_list cq3 (q_list cq3 ++ env_arrivals e)) in
            cq_work_loop envs' st4 qid local2 lost2
        end
  end.

Definition pci_epf_nvme_cq_work (envs : list cq_env) (st : pci_epf_nvme)
    (qid : Z) : result cq_work_result :=
  cq_work_loop envs st qid [] [].

(* ===================================================================== *)
(** ** Controller life cycle *)

(** A [for] loop over queue identifiers with a body that can fault. *)
Fixpoint for_each_qid (body : pci_epf_nvme -> Z -> result pci_epf_nvme)
    (qids : list Z) (st : pci_epf_nvme) : result pci_epf_nvme :=
  match qids with
  | [] => Ok st
  | qid :: rest => do st' <- body st qid; for_each_qid body rest st'
  end.

(** The identifiers [for (qid = 1; qid < nr_queues; qid++)] visits. *)
Definition io_qids (nr_queues : Z) : list Z := seqZ 1 (nr_queues - 1).

(** [pci_epf_nvme_disable_ctrl]. *)
Definition pci_epf_nvme_disable_ctrl (st : pci_epf_nvme)
    : result pci_epf_nvme :=
  if negb (ctrl_enabled st) then Ok st
  else
    let qids := io_qids (ctrl_nr_queues (ctrl st)) in
    do st1 <- for_each_qid pci_epf_nvme_delete_sq qids st;
    do st2 <- for_each_qid pci_epf_nvme_delete_cq qids st1;
    do st3 <- pci_epf_nvme_delete_sq st2 0;
    do st4 <- pci_epf_nvme_delete_cq st3 0;
    let c := ctrl st4 in
    let csts1 := Z.ldiff (ctrl_csts c) NVME_CSTS_RDY in
    let '(csts2, cc1) :=
      if has_bits (ctrl_cc c) NVME_CC_SHN_NORMAL
      then (Z.lor csts1 NVME_CSTS_SHST_CMPLT,
            Z.ldiff (ctrl_cc c) NVME_CC_SHN_NORMAL)
      else (csts1, ctrl_cc c) in
    let cc2 := Z.ldiff cc1 NVME_CC_ENABLE in
    let c1 := set_ctrl_cc (set_ctrl_csts c csts2) cc2 in
    let c2 := pci_epf_nvme_reg_write32 c1 NVME_REG_CSTS csts2 in
    let c3 := pci_epf_nvme_reg_write32 c2 NVME_REG_CC cc2 in
    Ok (set_ctrl_enabled (set_ctrl st4 c3) false).

(** [pci_epf_nvme_reg_read64]. *)
Definition pci_epf_nvme_reg_read64 (c : pci_epf_nvme_ctrl) (reg : Z) : Z :=
  Z.lor (pci_epf_nvme_reg_read32 c reg)
        (u64 (Z.shiftl (pci_epf_nvme_reg_read32 c (u32 (reg + 4))) 32)).

(** [GENMASK(63, 12)]. *)
Definition GENMASK_63_12 : Z := 2 ^ 64 - 2 ^ 12.

(** [pci_epf_nvme_enable_ctrl]; [wq_ok] as in [pci_epf_nvme_create_sq]. *)
Definition pci_epf_nvme_enable_ctrl (st : pci_epf_nvme) (wq_ok : bool)
    : result pci_epf_nvme :=
  let c := ctrl st in
  let mps_shift := Z.land (Z.shiftr (ctrl_cc c) NVME_CC_MPS_SHIFT) 0xf + 12 in
  let mps := Z.shiftl 1 mps_shift in
  let io_sqes :=
    Z.shiftl 1 (Z.land (Z.shiftr (ctrl_cc c) NVME_CC_IOSQES_SHIFT) 0xf) in
  let io_cqes :=
    Z.shiftl 1 (Z.land (Z.shiftr (ctrl_cc c) NVME_CC_IOCQES_SHIFT) 0xf) in
  let c1 := set_ctrl_sizes c (Z.shiftl 1 NVME_ADM_SQES) sizeof_nvme_completion
              io_sqes io_cqes mps_shift mps (mps - 1)
              (u64 (mdts_kb st * SZ_1K)) in
  let st1 := set_ctrl st c1 in
  if io_sqes <? sizeof_nvme_command then Ok st1
  else if io_cqes <? sizeof_nvme_completion then Ok st1
  else
    let aqa := pci_epf_nvme_reg_read32 c1 NVME_REG_AQA in
    let asq := pci_epf_nvme_reg_read64 c1 NVME_REG_ASQ in
    let acq := pci_epf_nvme_reg_read64 c1 NVME_REG_ACQ in
    let st2 := set_ctrl st1 (set_ctrl_aq c1 aqa asq acq) in
    do r <- pci_epf_nvme_create_cq st2 0
              (Z.lor NVME_QUEUE_PHYS_CONTIG NVME_CQ_IRQ_ENABLED)
              (Z.shiftr (Z.land aqa 0x0fff0000) 16) 0
              (Z.land acq GENMASK_63_12);
    let '(ret, st3) := r in
    if negb (ret =? 0) then Ok st3
    else
      do r <- pci_epf_nvme_create_sq st3 0 0 NVME_QUEUE_PHYS_CONTIG
                (Z.land aqa 0x0fff) (Z.land asq GENMASK_63_12) wq_ok;
      let '(ret, st4) := r in
      if negb (ret =? 0) then pci_epf_nvme_delete_cq st4 0
      else
        let c4 := ctrl st4 in
        let csts := Z.lor (ctrl_csts c4) NVME_CSTS_RDY in
        let c5 := pci_epf_nvme_reg_write32 (set_ctrl_csts c4 csts)
                    NVME_REG_CSTS csts in
        Ok (set_ctrl_enabled (set_ctrl st4 c5) true).

(** [pci_epf_nvme_reg_poll], for a register BAR that is set. *)
Definition pci_epf_nvme_reg_poll (st : pci_epf_nvme) (wq_ok : bool)
    : result pci_epf_nvme :=
  let old_cc := ctrl_cc (ctrl st) in
  let cc := pci_epf_nvme_reg_read32 (ctrl st) NVME_REG_CC in
  let st1 := set_ctrl st (set_ctrl_cc (ctrl st) cc) in
  if negb (has_bits old_cc NVME_CC_ENABLE) && negb (has_bits cc NVME_CC_ENABLE)
  then Ok st1
  else if negb (has_bits old_cc NVME_CC_ENABLE) && has_bits cc NVME_CC_ENABLE
  then pci_epf_nvme_enable_ctrl st1 wq_ok
  else if (has_bits old_cc NVME_CC_ENABLE && negb (has_bits cc NVME_CC_ENABLE))
          || has_bits cc NVME_CC_SHN_NORMAL
  then pci_epf_nvme_disable_ctrl st1
  else Ok st1.


(* ===================================================================== *)
(** ** PRP resolver *)

Definition pci_epf_nvme_prp_addr (c : pci_epf_nvme_ctrl) (prp : Z) : Z :=
  Z.ldiff prp (ctrl_mps_mask c).

Definition pci_epf_nvme_prp_ofst (c : pci_epf_nvme_ctrl) (prp : Z) : Z :=
  Z.land prp (ctrl_mps_mask c).

Definition pci_epf_nvme_prp_size (c : pci_epf_nvme_ctrl) (prp : Z) : Z :=
  u64 (ctrl_mps c - pci_epf_nvme_prp_ofst c prp).

(** [pci_epf_nvme_alloc_cmd_segs]; [alloc_ok] is whether [kcalloc]
    returned memory.  One segment uses the structure embedded in the
    command, several a zeroed array. *)
Definition pci_epf_nvme_alloc_cmd_segs (epcmd : pci_epf_nvme_cmd)
    (nr_segs : Z) (alloc_ok : bool) : Z * pci_epf_nvme_cmd :=
  if nr_segs =? 1 then (0, set_c_segs epcmd 1 [mk_segment 0 0])
  else if negb alloc_ok then (- ENOMEM, epcmd)
  else (0, set_c_segs epcmd (u32 nr_segs)
             (replicate (Z.to_nat nr_segs) (mk_segment 0 0))).

(** [pci_epf_nvme_alloc_cmd_buffer]; [heap] is what [kmalloc] returned:
    [None] for NULL, else the bytes found in the allocation. *)
Definition pci_epf_nvme_alloc_cmd_buffer (epcmd : pci_epf_nvme_cmd)
    (heap : option (list Z)) : Z * pci_epf_nvme_cmd :=
  match heap with
  | None =>
      (- ENOMEM,
       mk_cmd (c_sqid epcmd) (c_cqid epcmd) (c_status epcmd) (c_ns epcmd)
              (c_cmd epcmd) (c_cqe epcmd) 0 (c_buffer epcmd)
              (c_dma_dir epcmd) (c_nr_segs epcmd) (c_segs epcmd))
  | Some bytes =>
      let buffer :=
        if c_sqid epcmd =? 0
        then replicate (Z.to_nat (c_buffer_size epcmd)) 0
        else bytes in
      (0,
       mk_cmd (c_sqid epcmd) (c_cqid epcmd) (c_status epcmd) (c_ns epcmd)
              (c_cmd epcmd) (c_cqe epcmd) (c_buffer_size epcmd) (Some buffer)
              (c_dma_dir epcmd) (c_nr_segs epcmd) (c_segs epcmd))
  end.

(** Writes through [seg] and [&epcmd->segs[k]]. *)
Definition seg_set (l : list pci_epf_nvme_segment) (k : Z)
    (s : pci_epf_nvme_segment) : list pci_epf_nvme_segment :=
  <[Z.to_nat k := s]> l.

Definition seg_get (l : list pci_epf_nvme_segment) (k : Z)
    : pci_epf_nvme_segment :=
  default (mk_segment 0 0) (l !! Z.to_nat k).

Definition status_dnr (sc : Z) : Z := Z.lor sc NVME_STATUS_DNR.

(** [pci_epf_nvme_cmd_parse_prp_simple]. *)
Definition pci_epf_nvme_cmd_parse_prp_simple (c : pci_epf_nvme_ctrl)
    (epcmd : pci_epf_nvme_cmd) (alloc_ok : bool) : Z * pci_epf_nvme_cmd :=
  let transfer_len := c_buffer_size epcmd in
  let p1 := prp1 (c_cmd epcmd) in
  let prp1_size := pci_epf_nvme_prp_size c p1 in
  let p2 := if prp1_size <? transfer_len then prp2 (c_cmd epcmd) else 0 in
  if (prp1_size <? transfer_len) && (p2 =? 0)
  then (- EINVAL, set_c_status epcmd (status_dnr NVME_SC_INVALID_FIELD))
  else if (prp1_size <? transfer_len)
          && negb (pci_epf_nvme_prp_ofst c p2 =? 0)
  then (- EINVAL, set_c_status epcmd (status_dnr NVME_SC_PRP_INVALID_OFFSET))
  else
    let nr_segs :=
      if (prp1_size <? transfer_len) && negb (p2 =? u64 (p1 + prp1_size))
      then 2 else 1 in
    let '(ret, epcmd1) := pci_epf_nvme_alloc_cmd_segs epcmd nr_segs alloc_ok in
    if negb (ret =? 0)
    then (ret, set_c_status epcmd1 (status_dnr NVME_SC_INTERNAL))
    else
      let segs :=
        if nr_segs =? 1
        then seg_set (c_segs epcmd1) 0 (mk_segment p1 transfer_len)
        else seg_set (seg_set (c_segs epcmd1) 0 (mk_segment p1 prp1_size))
                     1 (mk_segment p2 (u64 (transfer_len - prp1_size))) in
      (0, set_c_segs epcmd1 (c_nr_segs epcmd1) segs).

Section PrpList.

(** The controller, and the transfer of a PRP list from host memory into
    [prp_list_buf]: [xfer pci_addr size buf] is what
    [pci_epf_nvme_transfer] returned for the segment [(pci_addr, size)] and
    the buffer, as 64-bit entries, it left behind. *)
Variable c : pci_epf_nvme_ctrl.
Variable xfer : Z -> Z -> list Z -> Z * list Z.

(** [pci_epf_nvme_get_prp_list]. *)
Definition pci_epf_nvme_get_prp_list (prp xfer_len : Z) (buf : list Z)
    : Z * list Z :=
  let nr_prps := Z.shiftr (u64 (xfer_len + ctrl_mps_mask c))
                          (ctrl_mps_shift c) in
  let size := Z.min (pci_epf_nvme_prp_size c prp) (u64 (Z.shiftl nr_prps 3)) in
  let '(ret, buf') := xfer prp size buf in
  if negb (ret =? 0) then (ret, buf')
  else (s32 (Z.shiftr size 3), buf').

(** The local variables of [pci_epf_nvme_cmd_parse_prp_list] that live
    across turns of its loop; [w_seg] is the index [seg] points at. *)
Record prp_walk := mk_walk {
  w_segs : list pci_epf_nvme_segment;
  w_seg : Z;
  w_size : Z;
  w_pci_addr : Z;
  w_nr_segs : Z;
  w_nr_prps : Z;
  w_i : Z;
  w_prp : Z;
  w_buf : list Z
}.

(** How the loop is left. *)
Inductive prp_exit :=
  | PrpDone            (* the loop condition failed *)
  | PrpInternal
  | PrpInvalidOffset
  | PrpInvalidField.

(** What one turn of the loop does: go round again, or leave. *)
Inductive prp_turn :=
  | Next (w : prp_walk)
  | Leave (ex : prp_exit) (w : prp_walk).

(** The body of [while (size < transfer_len)], entered with
    [size < transfer_len]; [nr_alloc] is [epcmd->nr_segs].  A read of
    [prps[i]] past the end of the buffer is a fault. *)
Definition prp_list_turn (transfer_len nr_alloc : Z) (w : prp_walk)
    : result prp_turn :=
  let xfer_len := u64 (transfer_len - w_size w) in
  let '(nr_prps, i, buf) :=
    if w_nr_prps w =? 0
    then let '(n, buf') :=
           pci_epf_nvme_get_prp_list (w_prp w) xfer_len (w_buf w) in
         (n, 0, buf')
    else (w_nr_prps w, w_i w, w_buf w) in
  let w1 := mk_walk (w_segs w) (w_seg w) (w_size w) (w_pci_addr w)
                    (w_nr_segs w) nr_prps i (w_prp w) buf in
  if (w_nr_prps w =? 0) && (nr_prps <? 0) then Ok (Leave PrpInternal w1)
  else
    match buf !! Z.to_nat i with
    | None => Fault (OutOfBounds i)
    | Some prp =>
        let w2 := mk_walk (w_segs w) (w_seg w) (w_size w) (w_pci_addr w)
                          (w_nr_segs w) nr_prps i prp buf in
        if prp =? 0 then Ok (Leave PrpInvalidField w2)
        else if (ctrl_mps c <? xfer_len) && (i =? nr_prps - 1)
        then Ok (Next (mk_walk (w_segs w) (w_seg w) (w_size w)
                               (w_pci_addr w) (w_nr_segs w) 0 i prp buf))
        else if negb (pci_epf_nvme_prp_ofst c prp =? 0)
        then Ok (Leave PrpInvalidOffset w2)
        else
          let fresh := negb (prp =? w_pci_addr w) in
          let nr_segs :=
            if fresh then s32 (w_nr_segs w + 1) else w_nr_segs w in
          if fresh && (nr_alloc <? nr_segs)
          then Ok (Leave PrpInternal
                     (mk_walk (w_segs w) (w_seg w) (w_size w) (w_pci_addr w)
                              nr_segs nr_prps i prp buf))
          else
            let k := if fresh then w_seg w + 1 else w_seg w in
            let segs1 :=
              if fresh then seg_set (w_segs w) k (mk_segment prp 0)
              else w_segs w in
            let pci_addr := if fresh then prp else w_pci_addr w in
            let prp_size := Z.min (ctrl_mps c) xfer_len in
            let cur := seg_get segs1 k in
            let segs2 :=
              seg_set segs1 k
                (mk_segment (seg_pci_addr cur)
                            (u64 (seg_size cur + prp_size))) in
            Ok (Next (mk_walk segs2 k (u64 (w_size w + prp_size))
                              (u64 (pci_addr + prp_size)) nr_segs nr_prps
                              (s32 (i + 1)) prp buf))
    end.

(** The loop.  [None]: still running when the fuel ran out. *)
Fixpoint prp_list_loop (fuel : nat) (transfer_len nr_alloc : Z)
    (w : prp_walk) : option (result (prp_exit * prp_walk)) :=
  if negb (w_size w <? transfer_len) then Some (Ok (PrpDone, w))
  else
    match fuel with
    | O => None
    | S fuel' =>
        match prp_list_turn transfer_len nr_alloc w with
        | Fault f => Some (Fault f)
        | Ok (Leave ex w') => Some (Ok (ex, w'))
        | Ok (Next w') => prp_list_loop fuel' transfer_len nr_alloc w'
        end
    end.

(** [pci_epf_nvme_cmd_parse_prp_list], given the content [buf] of
    [prp_list_buf] on entry; returns the buffer it leaves. *)
Definition pci_epf_nvme_cmd_parse_prp_list (fuel : nat)
    (epcmd : pci_epf_nvme_cmd) (alloc_ok : bool) (buf : list Z)
    : option (result (Z * pci_epf_nvme_cmd * list Z)) :=
  let transfer_len := c_buffer_size epcmd in
  let fail sc e b :=
    Some (Ok (- EINVAL, set_c_status e (status_dnr sc), b)) in
  let p1 := prp1 (c_cmd epcmd) in
  if p1 =? 0 then fail NVME_SC_INVALID_FIELD epcmd buf
  else
    let ofst := pci_epf_nvme_prp_ofst c p1 in
    let nr_segs :=
      s32 (Z.shiftr (u64 (transfer_len + ofst + NVME_CTRL_PAGE_SIZE - 1))
                    NVME_CTRL_PAGE_SHIFT) in
    let '(ret, epcmd1) := pci_epf_nvme_alloc_cmd_segs epcmd nr_segs alloc_ok in
    if negb (ret =? 0) then fail NVME_SC_INTERNAL epcmd1 buf
    else
      let size := pci_epf_nvme_prp_size c p1 in
      let segs := seg_set (c_segs epcmd1) 0 (mk_segment p1 size) in
      let epcmd2 := set_c_segs epcmd1 (c_nr_segs epcmd1) segs in
      let p2 := prp2 (c_cmd epcmd) in
      if p2 =? 0 then fail NVME_SC_INVALID_FIELD epcmd2 buf
      else
        match prp_list_loop fuel transfer_len (c_nr_segs epcmd1)
                (mk_walk segs 0 size (u64 (p1 + size)) 1 0 0 p2 buf) with
        | None => None
        | Some (Fault f) => Some (Fault f)
        | Some (Ok (ex, w)) =>
            let epcmd3 := set_c_segs epcmd2 (c_nr_segs epcmd2) (w_segs w) in
            match ex with
            | PrpInternal => fail NVME_SC_INTERNAL epcmd3 (w_buf w)
            | PrpInvalidOffset =>
                fail NVME_SC_PRP_INVALID_OFFSET epcmd3 (w_buf w)
            | PrpInvalidField => fail NVME_SC_INVALID_FIELD epcmd3 (w_buf w)
            | PrpDone =>
                let epcmd4 := set_c_segs epcmd3 (w_nr_segs w) (w_segs w) in
                if negb (w_size w =? transfer_len)
                then fail NVME_SC_INTERNAL epcmd4 (w_buf w)
                else Some (Ok (0, epcmd4, w_buf w))
            end
        end.

(** [pci_epf_nvme_cmd_parse_dptr]; [heap] as in
    [pci_epf_nvme_alloc_cmd_buffer]. *)
Definition pci_epf_nvme_cmd_parse_dptr (fuel : nat)
    (epcmd : pci_epf_nvme_cmd) (alloc_ok : bool) (heap : option (list Z))
    (buf : list Z) : option (result (Z * pci_epf_nvme_cmd * list Z)) :=
  let fail sc := Some (Ok (- EINVAL, set_c_status epcmd (status_dnr sc), buf)) in
  if ctrl_mdts c <? c_buffer_size epcmd then fail NVME_SC_INVALID_FIELD
  else if has_bits (flags (c_cmd epcmd)) NVME_CMD_SGL_ALL
  then fail NVME_SC_INVALID_FIELD
  else
    let ofst := pci_epf_nvme_prp_ofst c (prp1 (c_cmd epcmd)) in
    if negb (Z.land ofst 0x3 =? 0) then fail NVME_SC_PRP_INVALID_OFFSET
    else
      let parsed :=
        if u64 (c_buffer_size epcmd + ofst) <=? NVME_CTRL_PAGE_SIZE * 2
        then let '(ret, e) :=
               pci_epf_nvme_cmd_parse_prp_simple c epcmd alloc_ok in
             Some (Ok (ret, e, buf))
        else pci_epf_nvme_cmd_parse_prp_list fuel epcmd alloc_ok buf in
      match parsed with
      | None => None
      | Some (Fault f) => Some (Fault f)
      | Some (Ok (ret, epcmd1, buf1)) =>
          if negb (ret =? 0) then Some (Ok (ret, epcmd1, buf1))
          else
            let '(ret2, epcmd2) := pci_epf_nvme_alloc_cmd_buffer epcmd1 heap in
            if negb (ret2 =? 0)
            then Some (Ok (ret2,
                           set_c_status epcmd2 (status_dnr NVME_SC_INTERNAL),
                           buf1))
            else Some (Ok (0, epcmd2, buf1))
      end.

End PrpList.

(* ===================================================================== *)
(** ** Register file: 64-bit writes and the initial register values *)

Definition NVME_REG_CAP : Z := 0x0.
Definition NVME_REG_VS : Z := 0x8.

(** [pci_epf_nvme_reg_write64]. *)
Definition pci_epf_nvme_reg_write64 (c : pci_epf_nvme_ctrl) (reg val : Z)
    : pci_epf_nvme_ctrl :=
  let c1 := pci_epf_nvme_reg_write32 c reg (Z.land val 0xFFFFFFFF) in
  pci_epf_nvme_reg_write32 c1 (u32 (reg + 4))
    (Z.land (Z.shiftr val 32) 0xFFFFFFFF).

Definition set_ctrl_cap (c : pci_epf_nvme_ctrl) (v : Z) : pci_epf_nvme_ctrl :=
  mk_ctrl (ctrl_reg c) v (ctrl_cc c) (ctrl_csts c) (ctrl_aqa c) (ctrl_asq c)
    (ctrl_acq c) (ctrl_adm_sqes c) (ctrl_adm_cqes c) (ctrl_io_sqes c)
    (ctrl_io_cqes c) (ctrl_mps_shift c) (ctrl_mps c) (ctrl_mps_mask c)
    (ctrl_mdts c) (ctrl_nr_queues c) (ctrl_sq c) (ctrl_cq c).

(** [GENMASK(35, 32)]. *)
Definition GENMASK_35_32 : Z := 2 ^ 36 - 2 ^ 32.

(** [pci_epf_nvme_init_ctrl_regs]; [fcap], [fvs] and [fctrl_config] are the
    fields [cap], [vs] and [ctrl_config] of the fabrics controller.  (The
    cached copy [ctrl->vs], which nothing else reads, is not kept.) *)
Definition pci_epf_nvme_init_ctrl_regs (st : pci_epf_nvme)
    (fcap fvs fctrl_config : Z) : pci_epf_nvme :=
  let cap0 := fcap in
  let cap1 := Z.lor cap0 (Z.shiftl 1 16) in
  let cap2 := Z.ldiff cap1 GENMASK_35_32 in
  let cap3 := Z.ldiff cap2 (Z.shiftl 1 36) in
  let cap4 := Z.ldiff cap3 (Z.shiftl 1 45) in
  let cap5 :=
    Z.lor cap4 (Z.shiftl (NVME_CTRL_PAGE_SHIFT - 12) NVME_CC_MPS_SHIFT) in
  let cap6 :=
    Z.lor cap5 (Z.shiftl (NVME_CTRL_PAGE_SHIFT - 12) NVME_CC_MPS_SHIFT) in
  let cap7 := Z.ldiff cap6 (Z.shiftl 1 56) in
  let cap8 := Z.ldiff cap7 (Z.shiftl 1 57) in
  let cc := Z.land fctrl_config (u32 (Z.lnot NVME_CC_ENABLE)) in
  let csts := 0 in
  let c1 := set_ctrl_csts (set_ctrl_cc (set_ctrl_cap (ctrl st) cap8) cc) csts in
  let c2 := pci_epf_nvme_reg_write64 c1 NVME_REG_CAP cap8 in
  let c3 := pci_epf_nvme_reg_write32 c2 NVME_REG_VS fvs in
  let c4 := pci_epf_nvme_reg_write32 c3 NVME_REG_CSTS csts in
  let c5 := pci_epf_nvme_reg_write32 c4 NVME_REG_CC cc in
  set_ctrl st c5.

(** [pci_epf_nvme_link_up]: the registers are initialised again; the
    polling it starts is scheduling. *)
Definition pci_epf_nvme_link_up (st : pci_epf_nvme)
    (fcap fvs fctrl_config : Z) : pci_epf_nvme :=
  pci_epf_nvme_init_ctrl_regs st fcap fvs fctrl_config.

(* ===================================================================== *)
(** ** Queue deletion commands *)

(** [cmd->delete_queue.qid]. *)
Definition delete_queue_qid (c : nvme_command) : Z := lo16 (cdw10 c).

(** [pci_epf_nvme_process_delete_cq]. *)
Definition pci_epf_nvme_process_delete_cq (st : pci_epf_nvme)
    (epcmd : pci_epf_nvme_cmd) : result (pci_epf_nvme * pci_epf_nvme_cmd) :=
  let cqid := delete_queue_qid (c_cmd epcmd) in
  let fail :=
    Ok (st, set_c_status epcmd (Z.lor NVME_SC_QID_INVALID NVME_STATUS_DNR)) in
  if (cqid =? 0) || (ctrl_nr_queues (ctrl st) <=? cqid) then fail
  else
    do cq <- get_cq st cqid;
    if q_ref cq =? 0 then fail
    else
      do st' <- pci_epf_nvme_delete_cq st cqid;
      Ok (st', epcmd).

(** [pci_epf_nvme_process_delete_sq]. *)
Definition pci_epf_nvme_process_delete_sq (st : pci_epf_nvme)
    (epcmd : pci_epf_nvme_cmd) : result (pci_epf_nvme * pci_epf_nvme_cmd) :=
  let sqid := delete_queue_qid (c_cmd epcmd) in
  let fail :=
    Ok (st, set_c_status epcmd (Z.lor NVME_SC_QID_INVALID NVME_STATUS_DNR)) in
  if (sqid =? 0) || (ctrl_nr_queues (ctrl st) <=? sqid) then fail
  else
    do sq <- get_sq st sqid;
    if q_ref sq =? 0 then fail
    else
      do st' <- pci_epf_nvme_delete_sq st sqid;
      Ok (st', epcmd).

(* ===================================================================== *)
(** ** Features handled by the endpoint itself *)

Definition NVME_FEAT_ARBITRATION : Z := 0x01.
Definition NVME_FEAT_NUM_QUEUES : Z := 0x07.
Definition NVME_FEAT_IRQ_COALESCE : Z := 0x08.
Definition NVME_SC_INVALID_NS : Z := 0xb.
Definition NVME_SC_CMD_SEQ_ERROR : Z := 0xc.

(** A store to [cqe.result.u32]: the low four bytes of the result. *)
Definition set_result_u32 (e : nvme_completion) (v : Z) : nvme_completion :=
  mk_cqe (Z.lor (Z.ldiff (cqe_result e) 0xffffffff) (u32 v))
         (cqe_sq_head e) (cqe_sq_id e) (cqe_command_id e) (cqe_status e).

(** The scan [for (qid = 1; qid < nr_queues; qid++)] of
    [pci_epf_nvme_process_set_features] for a queue in use; the test of
    the completion queue is not evaluated when the submission queue is in
    use. *)
Fixpoint io_queue_in_use (st : pci_epf_nvme) (qids : list Z) : result bool :=
  match qids with
  | [] => Ok false
  | qid :: rest =>
      do sq <- get_sq st qid;
      if negb (q_ref sq =? 0) then Ok true
      else
        do cq <- get_cq st qid;
        if negb (q_ref cq =? 0) then Ok true
        else io_queue_in_use st rest
  end.

(** The value both feature commands report for the number of queues. *)
Definition nr_ioq_result (c : pci_epf_nvme_ctrl) : Z :=
  let nr_ioq := u16 (ctrl_nr_queues c - 2) in
  u32 (Z.lor nr_ioq (Z.shiftl nr_ioq 16)).

(** [pci_epf_nvme_process_set_features]: whether the command was handled,
    and the command. *)
Definition pci_epf_nvme_process_set_features (st : pci_epf_nvme)
    (epcmd : pci_epf_nvme_cmd) : result (bool * pci_epf_nvme_cmd) :=
  let dw10 := u32 (cdw10 (c_cmd epcmd)) in
  let dw11 := u32 (cdw11 (c_cmd epcmd)) in
  let feat := Z.land dw10 0xff in
  if feat =? NVME_FEAT_NUM_QUEUES then
    let ncqr := Z.land (Z.shiftr dw11 16) 0xffff in
    let nsqr := Z.land dw11 0xffff in
    if (ncqr =? 0xffff) || (nsqr =? 0xffff)
    then Ok (true, set_c_status epcmd
                     (Z.lor NVME_SC_INVALID_FIELD NVME_STATUS_DNR))
    else
      do used <- io_queue_in_use st (io_qids (ctrl_nr_queues (ctrl st)));
      if used
      then Ok (true, set_c_status epcmd
                       (Z.lor NVME_SC_CMD_SEQ_ERROR NVME_STATUS_DNR))
      else Ok (true, set_c_cqe epcmd
                       (set_result_u32 (c_cqe epcmd) (nr_ioq_result (ctrl st))))
  else if (feat =? NVME_FEAT_IRQ_COALESCE) || (feat =? NVME_FEAT_ARBITRATION)
  then Ok (true, set_c_status epcmd NVME_SC_SUCCESS)
  else Ok (false, epcmd).

(** [pci_epf_nvme_process_get_features]. *)
Definition pci_epf_nvme_process_get_features (st : pci_epf_nvme)
    (epcmd : pci_epf_nvme_cmd) : bool * pci_epf_nvme_cmd :=
  let dw10 := u32 (cdw10 (c_cmd epcmd)) in
  let feat := Z.land dw10 0xff in
  if feat =? NVME_FEAT_NUM_QUEUES
  then (true, set_c_cqe epcmd
                (set_result_u32 (c_cqe epcmd) (nr_ioq_result (ctrl st))))
  else if (feat =? NVME_FEAT_IRQ_COALESCE) || (feat =? NVME_FEAT_ARBITRATION)
  then (true, set_c_status epcmd NVME_SC_SUCCESS)
  else (false, epcmd).

(* ===================================================================== *)
(** ** Fetching commands from a submission queue *)

Definition set_q_tail (q : pci_epf_nvme_queue) (t : Z) : pci_epf_nvme_queue :=
  set_q_tail_phase q t (q_phase q).

(** [pci_epf_nvme_init_cmd]: the descriptor is cleared, then tied to its
    queues. *)
Definition pci_epf_nvme_init_cmd (sqid cqid : Z) : pci_epf_nvme_cmd :=
  mk_cmd sqid cqid NVME_SC_SUCCESS None
    (mk_nvme_command 0 0 0 0 0 0 0 0 0) (mk_cqe 0 0 0 0 0)
    0 None DMA_NONE 0 [].

Definition set_c_cmd (epcmd : pci_epf_nvme_cmd) (c : nvme_command)
    : pci_epf_nvme_cmd :=
  mk_cmd (c_sqid epcmd) (c_cqid epcmd) (c_status epcmd) (c_ns epcmd) c
         (c_cqe epcmd) (c_buffer_size epcmd) (c_buffer epcmd)
         (c_dma_dir epcmd) (c_nr_segs epcmd) (c_segs epcmd).

(** [pci_epf_nvme_map_queue]; [map_ret] is what [pci_epc_mem_map]
    returned and [map_pci_size] the size it mapped. *)
Definition pci_epf_nvme_map_queue (q : pci_epf_nvme_queue)
    (map_ret map_pci_size : Z) : Z :=
  if negb (map_ret =? 0) then map_ret
  else if map_pci_size <? q_pci_size q then - ENOMEM
  else 0.

(** What surrounds one call of [pci_epf_nvme_fetch_cmd]: the answer of the
    mapping, the answers of [kmem_cache_alloc], one per call (whether it
    returned a descriptor), and what the host stored in its memory, by PCI
    address. *)
Record sq_env := mk_sq_env {
  sq_map_ret : Z;
  sq_map_pci_size : Z;
  sq_allocs : list bool;
  sq_host : Z -> nvme_command
}.

(** The command read from the slot at the head of the queue. *)
Definition fetch_slot (host : Z -> nvme_command) (sq : pci_epf_nvme_queue)
    : pci_epf_nvme_cmd :=
  set_c_cmd (pci_epf_nvme_init_cmd (q_qid sq) (q_cqid sq))
            (host (q_pci_addr sq + q_head sq * q_qes sq)).

(** The loop [while (sq->head != sq->tail)].  [None]: the loop was still
    running when the answers of the allocator ran out. *)
Fixpoint fetch_loop (allocs : list bool) (host : Z -> nvme_command)
    (sq : pci_epf_nvme_queue) : option pci_epf_nvme_queue :=
  if q_head sq =? q_tail sq then Some sq
  else
    match allocs with
    | [] => None
    | false :: _ => Some sq
    | true :: allocs' =>
        let epcmd := fetch_slot host sq in
        let head1 := u16 (q_head sq + 1) in
        let head2 := if head1 =? q_depth sq then 0 else head1 in
        fetch_loop allocs' host
          (set_q_list (set_q_head sq head2) (q_list sq ++ [epcmd]))
    end.

(** [pci_epf_nvme_fetch_cmd] for the submission queue at index [qid]. *)
Definition pci_epf_nvme_fetch_cmd (st : pci_epf_nvme) (qid : Z) (e : sq_env)
    : option (result (bool * pci_epf_nvme)) :=
  match get_sq st qid with
  | Fault f => Some (Fault f)
  | Ok sq =>
      if negb (has_bits (q_qflags sq) PCI_EPF_NVME_QUEUE_LIVE)
      then Some (Ok (false, st))
      else
        let sq1 :=
          set_q_tail sq (u16 (pci_epf_nvme_reg_read32 (ctrl st) (q_db sq))) in
        let st1 := put_sq st qid sq1 in
        if q_head sq1 =? q_tail sq1 then Some (Ok (false, st1))
        else if negb (pci_epf_nvme_map_queue sq1 (sq_map_ret e)
                        (sq_map_pci_size e) =? 0)
        then Some (Ok (false, st1))
        else
          match fetch_loop (sq_allocs e) (sq_host e) sq1 with
          | None => None
          | Some sq2 =>
              Some (Ok (match q_list sq2 with [] => false | _ => true end,
                        put_sq st1 qid sq2))
          end
  end.

(* ===================================================================== *)
(** ** Moving the data of a command *)

(** The loop of [pci_epf_nvme_transfer_cmd_data] with [n] segments to go,
    at segment [i], [size] bytes into the buffer.  [envs] holds the
    answers of the hardware, one list per segment.  The value is what the
    loop leaves through: 0 at its end, [-EIO] at [xfer_err]. *)
Fixpoint transfer_cmd_segs (cfg : xfer_cfg) (envs : list (list xfer_env))
    (epcmd : pci_epf_nvme_cmd) (n : nat) (i size : Z)
    : option (result (Z * list xfer_event)) :=
  match n with
  | O => Some (Ok (0, []))
  | S n' =>
      if c_buffer_size epcmd <=? size then Some (Ok (- EIO, []))
      else
        match c_segs epcmd !! Z.to_nat i with
        | None => Some (Fault (OutOfBounds i))
        | Some seg =>
            match pci_epf_nvme_transfer cfg (hd [] envs) seg
                    (c_dma_dir epcmd) with
            | None => None
            | Some (ret, tr) =>
                if negb (ret =? 0) then Some (Ok (- EIO, tr))
                else
                  match transfer_cmd_segs cfg (tl envs) epcmd n'
                          (s32 (i + 1)) (u64 (size + seg_size seg)) with
                  | Some (Ok (r, tr')) => Some (Ok (r, tr ++ tr'))
                  | other => other
                  end
            end
        end
  end.

(** [pci_epf_nvme_transfer_cmd_data]. *)
Definition pci_epf_nvme_transfer_cmd_data (cfg : xfer_cfg)
    (envs : list (list xfer_env)) (epcmd : pci_epf_nvme_cmd)
    : option (result (Z * pci_epf_nvme_cmd * list xfer_event)) :=
  match transfer_cmd_segs cfg envs epcmd (Z.to_nat (c_nr_segs epcmd)) 0 0 with
  | None => None
  | Some (Fault f) => Some (Fault f)
  | Some (Ok (ret, tr)) =>
      if ret =? 0 then Some (Ok (0, epcmd, tr))
      else Some (Ok (- EIO,
                     set_c_status epcmd
                       (Z.lor NVME_SC_DATA_XFER_ERROR NVME_STATUS_DNR),
                     tr))
  end.

(* ===================================================================== *)
(** ** Executing commands *)

(** Opcodes and sizes of [linux/nvme.h]. *)
Definition nvme_cmd_write_zeroes : Z := 0x08.
Definition nvme_cmd_dsm : Z := 0x09.
Definition nvme_admin_delete_sq : Z := 0x00.
Definition nvme_admin_create_sq : Z := 0x01.
Definition nvme_admin_get_log_page : Z := 0x02.
Definition nvme_admin_delete_cq : Z := 0x04.
Definition nvme_admin_create_cq : Z := 0x05.
Definition nvme_admin_identify : Z := 0x06.
Definition nvme_admin_abort_cmd : Z := 0x08.
Definition nvme_admin_set_features : Z := 0x09.
Definition nvme_admin_get_features : Z := 0x0a.
Definition nvme_admin_async_event : Z := 0x0c.
Definition NVME_IDENTIFY_DATA_SIZE : Z := 4096.
Definition NVME_ID_CNS_CTRL : Z := 0x01.
Definition NVME_LOG_CMD_EFFECTS : Z := 0x05.
Definition NVME_CMD_EFFECTS_CSUPP : Z := Z.shiftl 1 0.
Definition sizeof_nvme_dsm_range : Z := 16.

Definition set_c_ns (epcmd : pci_epf_nvme_cmd) (ns : option Z)
    : pci_epf_nvme_cmd :=
  mk_cmd (c_sqid epcmd) (c_cqid epcmd) (c_status epcmd) ns (c_cmd epcmd)
         (c_cqe epcmd) (c_buffer_size epcmd) (c_buffer epcmd)
         (c_dma_dir epcmd) (c_nr_segs epcmd) (c_segs epcmd).

(** Stores to [epcmd->buffer_size] and [epcmd->dma_dir]. *)
Definition set_c_data (epcmd : pci_epf_nvme_cmd) (size : Z)
    (dir : dma_data_direction) : pci_epf_nvme_cmd :=
  mk_cmd (c_sqid epcmd) (c_cqid epcmd) (c_status epcmd) (c_ns epcmd)
         (c_cmd epcmd) (c_cqe epcmd) size (c_buffer epcmd) dir
         (c_nr_segs epcmd) (c_segs epcmd).

Definition set_c_buffer (epcmd : pci_epf_nvme_cmd) (b : option (list Z))
    : pci_epf_nvme_cmd :=
  mk_cmd (c_sqid epcmd) (c_cqid epcmd) (c_status epcmd) (c_ns epcmd)
         (c_cmd epcmd) (c_cqe epcmd) (c_buffer_size epcmd) b
         (c_dma_dir epcmd) (c_nr_segs epcmd) (c_segs epcmd).

(** [cmd->rw.length], [cmd->dsm.nr], [cmd->identify.cns] and
    [cmd->get_log_page.lid]. *)
Definition rw_length (c : nvme_command) : Z := lo16 (cdw12 c).
Definition dsm_nr (c : nvme_command) : Z := u32 (cdw10 c).
Definition identify_cns (c : nvme_command) : Z := Z.land (cdw10 c) 0xff.
Definition get_log_page_lid (c : nvme_command) : Z := Z.land (cdw10 c) 0xff.

(** [pci_epf_nvme_rw_data_len]; the shift is done on 32 bits. *)
Definition pci_epf_nvme_rw_data_len (epcmd : pci_epf_nvme_cmd)
    (lba_shift : Z) : Z :=
  u32 (Z.shiftl (u32 (rw_length (c_cmd epcmd) + 1)) lba_shift).

(** [pci_epf_nvme_process_io_cmd]; [ns] is what [nvme_find_get_ns]
    returned (the [lba_shift] of the namespace, if there is one).  The
    second component is the command when its work was queued on the
    command workqueue of the submission queue. *)
Definition pci_epf_nvme_process_io_cmd (st : pci_epf_nvme)
    (epcmd : pci_epf_nvme_cmd) (ns : option Z)
    : result (pci_epf_nvme * option pci_epf_nvme_cmd) :=
  let epcmd1 := set_c_ns epcmd ns in
  let complete e := do st' <- pci_epf_nvme_complete_cmd st e; Ok (st', None) in
  match ns with
  | None =>
      complete (set_c_status epcmd1 (Z.lor NVME_SC_INVALID_NS NVME_STATUS_DNR))
  | Some lba_shift =>
      let op := opcode (c_cmd epcmd1) in
      if op =? nvme_cmd_read then
        Ok (st, Some (set_c_data epcmd1
                        (pci_epf_nvme_rw_data_len epcmd1 lba_shift)
                        DMA_TO_DEVICE))
      else if op =? nvme_cmd_write then
        Ok (st, Some (set_c_data epcmd1
                        (pci_epf_nvme_rw_data_len epcmd1 lba_shift)
                        DMA_FROM_DEVICE))
      else if op =? nvme_cmd_dsm then
        complete (set_c_data epcmd1
                    (u64 (u32 (dsm_nr (c_cmd epcmd1) + 1)
                          * sizeof_nvme_dsm_range))
                    DMA_FROM_DEVICE)
      else if (op =? nvme_cmd_flush) || (op =? nvme_cmd_write_zeroes) then
        Ok (st, Some epcmd1)
      else
        complete (set_c_status epcmd1
                    (Z.lor NVME_SC_INVALID_OPCODE NVME_STATUS_DNR))
  end.

(** *** Hooks run on the data of a command

    The buffer of a command is an array of bytes; the structures the hooks
    write through are laid out as in [linux/nvme.h]. *)

Definition u8 (x : Z) : Z := x mod 2 ^ 8.

(** Byte offsets in [struct nvme_id_ctrl] and [struct nvme_effects_log]. *)
Definition ID_CTRL_VID : Z := 0.
Definition ID_CTRL_SSVID : Z := 2.
Definition ID_CTRL_CMIC : Z := 76.
Definition ID_CTRL_MDTS : Z := 77.
Definition ID_CTRL_APSTA : Z := 265.
Definition ID_CTRL_SGLS : Z := 536.
Definition EFFECTS_LOG_ACS (k : Z) : Z := 4 * k.

(** A store of [n] bytes at [off], little endian; a store that does not
    fit the buffer is a fault. *)
Fixpoint store_bytes (buf : list Z) (off : nat) (n : nat) (v : Z) : list Z :=
  match n with
  | O => buf
  | S n' => store_bytes (<[off := Z.land v 0xff]> buf) (S off) n'
                        (Z.shiftr v 8)
  end.

Definition buf_store (buf : list Z) (off : Z) (n : nat) (v : Z)
    : result (list Z) :=
  if off + Z.of_nat n <=? Z.of_nat (length buf)
  then Ok (store_bytes buf (Z.to_nat off) n v)
  else Fault (OutOfBounds off).

(** A load of [n] bytes at [off], little endian. *)
Fixpoint load_bytes (buf : list Z) (off : nat) (n : nat) : Z :=
  match n with
  | O => 0
  | S n' => default 0 (buf !! off) + 256 * load_bytes buf (S off) n'
  end.

Definition buf_load (buf : list Z) (off : Z) (n : nat) : result Z :=
  if off + Z.of_nat n <=? Z.of_nat (length buf)
  then Ok (load_bytes buf (Z.to_nat off) n)
  else Fault (OutOfBounds off).

(** [NVME_CAP_MPSMIN(cap)] and [ilog2] of a [size_t]. *)
Definition NVME_CAP_MPSMIN (cap : Z) : Z := Z.land (Z.shiftr cap 48) 0xf.
Definition ilog2 (n : Z) : Z := if n <=? 0 then -1 else Z.log2 n.

(** [pci_epf_nvme_identify_hook]; [vendorid] is the vendor identifier of
    the function's PCI header and [fcap] the capabilities of the fabrics
    controller. *)
Definition pci_epf_nvme_identify_hook (c : pci_epf_nvme_ctrl)
    (vendorid fcap : Z) (epcmd : pci_epf_nvme_cmd) : result pci_epf_nvme_cmd :=
  if negb (identify_cns (c_cmd epcmd) =? NVME_ID_CNS_CTRL) then Ok epcmd
  else
    match c_buffer epcmd with
    | None => Fault NullDeref
    | Some buf =>
        do b1 <- buf_store buf ID_CTRL_VID 2 (u16 vendorid);
        do vid <- buf_load b1 ID_CTRL_VID 2;
        do b2 <- buf_store b1 ID_CTRL_SSVID 2 vid;
        let page_shift := u32 (NVME_CAP_MPSMIN fcap + 12) in
        do b3 <- buf_store b2 ID_CTRL_MDTS 1
                   (u8 (ilog2 (ctrl_mdts c) - page_shift));
        do b4 <- buf_store b3 ID_CTRL_CMIC 1 0;
        do b5 <- buf_store b4 ID_CTRL_APSTA 1 0;
        do b6 <- buf_store b5 ID_CTRL_SGLS 4 0;
        Ok (set_c_buffer epcmd (Some b6))
    end.

(** [log->acs[k] |= cpu_to_le32(NVME_CMD_EFFECTS_CSUPP)]. *)
Definition acs_set_csupp (buf : list Z) (k : Z) : result (list Z) :=
  do w <- buf_load buf (EFFECTS_LOG_ACS k) 4;
  buf_store buf (EFFECTS_LOG_ACS k) 4 (Z.lor w NVME_CMD_EFFECTS_CSUPP).

(** [pci_epf_nvme_get_log_hook]. *)
Definition pci_epf_nvme_get_log_hook (epcmd : pci_epf_nvme_cmd)
    : result pci_epf_nvme_cmd :=
  if negb (get_log_page_lid (c_cmd epcmd) =? NVME_LOG_CMD_EFFECTS)
  then Ok epcmd
  else
    match c_buffer epcmd with
    | None => Fault NullDeref
    | Some buf =>
        do b1 <- acs_set_csupp buf 0;
        do b2 <- acs_set_csupp b1 1;
        do b3 <- acs_set_csupp b2 4;
        do b4 <- acs_set_csupp b3 5;
        Ok (set_c_buffer epcmd (Some b4))
    end.

(** *** The execution of one command *)

(** What surrounds the execution of a command: the fuel and the answers
    of the allocator for the resolution of its data pointer, the answers
    of the hardware for the copy of its data from the host and to the
    host, and what [__nvme_submit_sync_cmd] did: its return value, the
    value it left in [cqe.result] and the buffer it left. *)
Record exec_env := mk_exec_env {
  ex_fuel : nat;
  ex_alloc_ok : bool;
  ex_heap : option (list Z);
  ex_in : list (list xfer_env);
  ex_submit_ret : Z;
  ex_submit_result : Z;
  ex_submit_buffer : option (list Z) -> option (list Z);
  ex_out : list (list xfer_env)
}.

(** What a run of [pci_epf_nvme_exec_cmd] did, in order. *)
Inductive exec_event :=
  | ExResolve (ret : Z)
  | ExDataIn (ret : Z) (tr : list xfer_event)
  | ExSubmit (cmd : nvme_command) (buffer : option (list Z)) (len : Z)
  | ExHook
  | ExDataOut (ret : Z) (tr : list xfer_event).

Definition set_cqe_result (e : nvme_completion) (v : Z) : nvme_completion :=
  mk_cqe v (cqe_sq_head e) (cqe_sq_id e) (cqe_command_id e) (cqe_status e).

(** [dir == DMA_TO_DEVICE] and [dir == DMA_FROM_DEVICE]. *)
Definition is_to_device (dir : dma_data_direction) : bool :=
  match dir with DMA_TO_DEVICE => true | _ => false end.
Definition is_from_device (dir : dma_data_direction) : bool :=
  match dir with DMA_FROM_DEVICE => true | _ => false end.

Section Exec.

(** The controller, the configuration of the transfer engine and the
    transfer of PRP lists, as in the PRP resolver. *)
Variable c : pci_epf_nvme_ctrl.
Variable cfg : xfer_cfg.
Variable xfer : Z -> Z -> list Z -> Z * list Z.

(** The part of [pci_epf_nvme_exec_cmd] from the submission on. *)
Definition exec_submit (e : exec_env) (epcmd : pci_epf_nvme_cmd)
    (hook : option (pci_epf_nvme_cmd -> result pci_epf_nvme_cmd))
    : option (result (pci_epf_nvme_cmd * list exec_event)) :=
  let ret := ex_submit_ret e in
  let epcmd1 :=
    set_c_buffer
      (set_c_cqe epcmd (set_cqe_result (c_cqe epcmd) (ex_submit_result e)))
      (ex_submit_buffer e (c_buffer epcmd)) in
  let epcmd2 :=
    if ret <? 0
    then set_c_status epcmd1 (Z.lor NVME_SC_INTERNAL NVME_STATUS_DNR)
    else if 0 <? ret then set_c_status epcmd1 (u32 ret)
    else epcmd1 in
  let submitted :=
    ExSubmit (c_cmd epcmd) (c_buffer epcmd) (c_buffer_size epcmd) in
  if negb (c_status epcmd2 =? NVME_SC_SUCCESS)
  then Some (Ok (epcmd2, [submitted]))
  else
    match (match hook with
           | None => Ok (epcmd2, [])
           | Some h => do e' <- h epcmd2; Ok (e', [ExHook])
           end) with
    | Fault f => Some (Fault f)
    | Ok (epcmd3, hooked) =>
        if negb (c_buffer_size epcmd3 =? 0)
           && is_to_device (c_dma_dir epcmd3)
        then
          match pci_epf_nvme_transfer_cmd_data cfg (ex_out e) epcmd3 with
          | None => None
          | Some (Fault f) => Some (Fault f)
          | Some (Ok (r, epcmd4, tr)) =>
              Some (Ok (epcmd4, submitted :: hooked ++ [ExDataOut r tr]))
          end
        else Some (Ok (epcmd3, submitted :: hooked))
    end.

(** [pci_epf_nvme_exec_cmd]; [buf] is the content of [prp_list_buf]. *)
Definition pci_epf_nvme_exec_cmd (e : exec_env) (epcmd : pci_epf_nvme_cmd)
    (hook : option (pci_epf_nvme_cmd -> result pci_epf_nvme_cmd))
    (buf : list Z)
    : option (result (pci_epf_nvme_cmd * list Z * list exec_event)) :=
  let continue epcmd1 buf1 evs :=
    match exec_submit e epcmd1 hook with
    | None => None
    | Some (Fault f) => Some (Fault f)
    | Some (Ok (epcmd2, evs')) => Some (Ok (epcmd2, buf1, evs ++ evs'))
    end in
  if c_buffer_size epcmd =? 0 then continue epcmd buf []
  else
    match pci_epf_nvme_cmd_parse_dptr c xfer (ex_fuel e) epcmd
            (ex_alloc_ok e) (ex_heap e) buf with
    | None => None
    | Some (Fault f) => Some (Fault f)
    | Some (Ok (ret, epcmd1, buf1)) =>
        if negb (ret =? 0) then Some (Ok (epcmd1, buf1, [ExResolve ret]))
        else if is_from_device (c_dma_dir epcmd1) then
          match pci_epf_nvme_transfer_cmd_data cfg (ex_in e) epcmd1 with
          | None => None
          | Some (Fault f) => Some (Fault f)
          | Some (Ok (r, epcmd2, tr)) =>
              if negb (r =? 0)
              then Some (Ok (epcmd2, buf1, [ExResolve 0; ExDataIn r tr]))
              else continue epcmd2 buf1 [ExResolve 0; ExDataIn r tr]
          end
        else continue epcmd1 buf1 [ExResolve 0]
    end.

(** [pci_epf_nvme_exec_cmd_work]: the command is executed without a hook,
    then completed. *)
Definition pci_epf_nvme_exec_cmd_work (st : pci_epf_nvme) (e : exec_env)
    (epcmd : pci_epf_nvme_cmd) (buf : list Z)
    : option (result (pci_epf_nvme * list Z * list exec_event)) :=
  match pci_epf_nvme_exec_cmd e epcmd None buf with
  | None => None
  | Some (Fault f) => Some (Fault f)
  | Some (Ok (epcmd1, buf1, evs)) =>
      match pci_epf_nvme_complete_cmd st epcmd1 with
      | Fault f => Some (Fault f)
      | Ok st' => Some (Ok (st', buf1, evs))
      end
  end.

End Exec.

(** [pci_epf_nvme_process_admin_cmd].  [wq_ok] is the answer of the
    workqueue allocator for a Create I/O Submission Queue, [log_len] what
    [nvme_get_log_page_len] computed for the command, [vendorid] and
    [fcap] what the identify hook reads. *)
Definition pci_epf_nvme_process_admin_cmd (cfg : xfer_cfg)
    (xfer : Z -> Z -> list Z -> Z * list Z) (st : pci_epf_nvme)
    (e : exec_env) (wq_ok : bool) (log_len vendorid fcap : Z)
    (epcmd : pci_epf_nvme_cmd) (buf : list Z)
    : option (result (pci_epf_nvme * list Z * list exec_event)) :=
  let op := opcode (c_cmd epcmd) in
  let complete st1 epcmd1 buf1 evs :=
    match pci_epf_nvme_complete_cmd st1 epcmd1 with
    | Fault f => Some (Fault f)
    | Ok st2 => Some (Ok (st2, buf1, evs))
    end in
  let exec epcmd1 hook :=
    match pci_epf_nvme_exec_cmd (ctrl st) cfg xfer e epcmd1 hook buf with
    | None => None
    | Some (Fault f) => Some (Fault f)
    | Some (Ok (epcmd2, buf1, evs)) => complete st epcmd2 buf1 evs
    end in
  let managed r :=
    match r with
    | Fault f => Some (Fault f)
    | Ok (st1, epcmd1) => complete st1 epcmd1 buf []
    end in
  if op =? nvme_admin_identify then
    exec (set_c_data epcmd NVME_IDENTIFY_DATA_SIZE DMA_TO_DEVICE)
         (Some (pci_epf_nvme_identify_hook (ctrl st) vendorid fcap))
  else if op =? nvme_admin_get_log_page then
    exec (set_c_data epcmd log_len DMA_TO_DEVICE)
         (Some pci_epf_nvme_get_log_hook)
  else if op =? nvme_admin_async_event then
    Some (Ok (pci_epf_nvme_free_cmd st epcmd, buf, []))
  else if op =? nvme_admin_set_features then
    match pci_epf_nvme_process_set_features st epcmd with
    | Fault f => Some (Fault f)
    | Ok (handled, epcmd1) =>
        if handled then complete st epcmd1 buf [] else exec epcmd1 None
    end
  else if op =? nvme_admin_get_features then
    let '(handled, epcmd1) := pci_epf_nvme_process_get_features st epcmd in
    if handled then complete st epcmd1 buf [] else exec epcmd1 None
  else if op =? nvme_admin_abort_cmd then exec epcmd None
  else if op =? nvme_admin_create_cq then
    managed (pci_epf_nvme_process_create_cq st epcmd)
  else if op =? nvme_admin_create_sq then
    managed (pci_epf_nvme_process_create_sq st epcmd wq_ok)
  else if op =? nvme_admin_delete_cq then
    managed (pci_epf_nvme_process_delete_cq st epcmd)
  else if op =? nvme_admin_delete_sq then
    managed (pci_epf_nvme_process_delete_sq st epcmd)
  else
    complete st
      (set_c_status epcmd (Z.lor NVME_SC_INVALID_OPCODE NVME_STATUS_DNR))
      buf [].

(* ===================================================================== *)
(** * Specification vocabulary and example inputs *)






Definition cfg_dma : xfer_cfg := mk_xfer_cfg true true.

(** ** Example controller

    An endpoint with four queue pairs and MSI-X, as
    [pci_epf_nvme_create_ctrl] leaves it, and a host that has programmed
    the admin queues (32 entries each) and set CC.EN with 64-byte
    submission and 16-byte completion entries. *)
Definition regs_boot : gmap Z Z :=
  {[ NVME_REG_CC := 0x00460001; NVME_REG_AQA := 0x001f001f;
     NVME_REG_ASQ := 0x10000; NVME_REG_ACQ := 0x20000 ]}.

Definition ctrl_boot : pci_epf_nvme_ctrl :=
  mk_ctrl regs_boot 0x3ff 0x00460000 0 0 0 0 0 0 0 0 0 0 0 0 4
    (replicate 4 queue_zero) (replicate 4 queue_zero).

Definition st_boot : pci_epf_nvme :=
  mk_epf ctrl_boot false PCI_IRQ_MSIX 4 PCI_EPF_NVME_MDTS_KB false [] ∅ [] []
    [].

(** The state of a run that did not fault ([d] otherwise). *)
Definition state_of {A} (d : A) (r : result A) : A :=
  match r with Ok a => a | Fault _ => d end.

(** After the register poll saw CC.EN: the controller is ready. *)
Definition st_ready : pci_epf_nvme :=
  state_of st_boot (pci_epf_nvme_reg_poll st_boot true).

Definition cqe_zero : nvme_completion := mk_cqe 0 0 0 0 0.

(** A Create I/O Completion Queue command (opcode 0x05). *)
Definition create_cq_cmd (cqid qsize cq_flags vector : Z) : pci_epf_nvme_cmd :=
  mk_cmd 0 0 NVME_SC_SUCCESS None
    (mk_nvme_command 0x05 0 1 0 0x30000 0 (cqid + qsize * 65536)
       (cq_flags + vector * 65536) 0)
    cqe_zero 0 None DMA_NONE 0 [].

(** A Create I/O Submission Queue command (opcode 0x01). *)
Definition create_sq_cmd (sqid qsize sq_flags cqid : Z) : pci_epf_nvme_cmd :=
  mk_cmd 0 0 NVME_SC_SUCCESS None
    (mk_nvme_command 0x01 0 2 0 0x40000 0 (sqid + qsize * 65536)
       (sq_flags + cqid * 65536) 0)
    cqe_zero 0 None DMA_NONE 0 [].

(** The host creates completion queue 1 with two entries (depth 3),
    physically contiguous, interrupts NOT enabled, then submission queue 1
    bound to it. *)
Definition st_cq1 : pci_epf_nvme :=
  (state_of (st_ready, create_cq_cmd 0 0 0 0)
     (pci_epf_nvme_process_create_cq st_ready
        (create_cq_cmd 1 2 NVME_QUEUE_PHYS_CONTIG 0))).1.

Definition st_io : pci_epf_nvme :=
  (state_of (st_cq1, create_sq_cmd 0 0 0 0)
     (pci_epf_nvme_process_create_sq st_cq1
        (create_sq_cmd 1 2 NVME_QUEUE_PHYS_CONTIG 1) true)).1.

(** A command of submission queue 1 that finished executing (flush, no
    data), with command identifier [cid]. *)
Definition io_cmd (cid : Z) : pci_epf_nvme_cmd :=
  mk_cmd 1 1 NVME_SC_SUCCESS (Some 9)
    (mk_nvme_command nvme_cmd_flush 0 cid 1 0 0 0 0 0)
    cqe_zero 0 None DMA_NONE 0 [].

(** The completion entry the poster builds for [io_cmd cid] under phase
    [phase]. *)
Definition io_cqe (cid phase : Z) : nvme_completion :=
  mk_cqe 0 0 1 cid phase.

(** Commands [cids] completed on completion queue 1, oldest first. *)
Definition complete_all (st : pci_epf_nvme) (cids : list Z) : pci_epf_nvme :=
  foldl (fun s cid => state_of s (pci_epf_nvme_complete_cmd s (io_cmd cid)))
        st cids.

(** The host writes [v] to the head doorbell of completion queue 1. *)
Definition host_rings_cq1 (st : pci_epf_nvme) (v : Z) : pci_epf_nvme :=
  set_ctrl st (pci_epf_nvme_reg_write32 (ctrl st) (NVME_REG_DBS + 12) v).

(** Two completions posted and not consumed: the ring of depth 3 holds
    entries in slots 0 and 1, tail is 2, the host's head is still 0. *)
Definition st_tail2 : pci_epf_nvme :=
  match pci_epf_nvme_cq_work [] (complete_all st_io [10; 11]) 1 with
  | Ok w => cw_state w
  | Fault _ => st_io
  end.

(** Host address of slot [k] of completion queue 1. *)
Definition cq1_slot (k : Z) : Z := 0x30000 + k * 16.

(** The ring is full for the host when the head it published is one past
    the tail, modulo the depth. *)
Definition ring_full (cq : pci_epf_nvme_queue) (head : Z) : Prop :=
  head = (q_tail cq + 1) mod q_depth cq.

(** The state the work leaves ([st] if it faulted). *)
Definition after_cq_work (st : pci_epf_nvme) : pci_epf_nvme :=
  match pci_epf_nvme_cq_work [] st 1 with
  | Ok w => cw_state w
  | Fault _ => st
  end.

(** Completion queue 1 full with a host that follows the protocol: the
    host consumed entries 10 and 11 (head 2), entries 12 and 13 were posted
    to slots 2 and 0 (tail 1) and are not consumed yet.  Then commands 14
    and 15 are queued for completion. *)
Definition st_full : pci_epf_nvme :=
  complete_all
    (after_cq_work (complete_all (host_rings_cq1 st_tail2 2) [12; 13]))
    [14; 15].

(** The queue arrays hold [nr_queues] entries each, as
    [pci_epf_nvme_create_ctrl] allocates them. *)
Definition queues_wf (st : pci_epf_nvme) : Prop :=
  Z.of_nat (length (ctrl_sq (ctrl st))) = ctrl_nr_queues (ctrl st) /\
  Z.of_nat (length (ctrl_cq (ctrl st))) = ctrl_nr_queues (ctrl st).

(** C6 as the specification words it: a create-CQ command whose queue id
    is out of range, or whose flags lack "physically contiguous", fails
    with Invalid Queue Identifier and leaves the state unchanged. *)
Definition create_cq_spec (st : pci_epf_nvme) (epcmd : pci_epf_nvme_cmd)
    : Prop :=
  ctrl_nr_queues (ctrl st) <= create_cq_cqid (c_cmd epcmd) \/
  has_bits (create_cq_cq_flags (c_cmd epcmd)) NVME_QUEUE_PHYS_CONTIG = false ->
  pci_epf_nvme_process_create_cq st epcmd
  = Ok (st, set_c_status epcmd (status_dnr NVME_SC_QID_INVALID)).

(** What the controller needs for a disable to run without touching memory
    outside the queue arrays: the arrays are as allocated, the admin pair
    exists, and every submission queue names a completion queue of the
    array. *)
Definition disable_wf (st : pci_epf_nvme) : Prop :=
  queues_wf st /\ 1 <= ctrl_nr_queues (ctrl st) /\
  Forall (fun cqid => 0 <= cqid < ctrl_nr_queues (ctrl st))
         (map q_cqid (ctrl_sq (ctrl st))).

(** What deleting queues leaves alone. *)
Definition delete_frame (st st' : pci_epf_nvme) : Prop :=
  ctrl_reg (ctrl st') = ctrl_reg (ctrl st) /\
  ctrl_cc (ctrl st') = ctrl_cc (ctrl st) /\
  ctrl_csts (ctrl st') = ctrl_csts (ctrl st) /\
  ctrl_nr_queues (ctrl st') = ctrl_nr_queues (ctrl st) /\
  ctrl_enabled st' = ctrl_enabled st /\
  length (ctrl_sq (ctrl st')) = length (ctrl_sq (ctrl st)) /\
  length (ctrl_cq (ctrl st')) = length (ctrl_cq (ctrl st)) /\
  map q_cqid (ctrl_sq (ctrl st')) = map q_cqid (ctrl_sq (ctrl st)).

(** The queue manager calls a disable makes on a controller with [n]
    queues, in order. *)
Definition disable_order (n : Z) : list queue_event :=
  map EvDeleteSq (io_qids n) ++ map EvDeleteCq (io_qids n)
  ++ [EvDeleteSq 0; EvDeleteCq 0].

(** A completion ring in use: a depth that [u16] can hold and a tail inside
    the ring. *)
Definition cq_ring_wf (cq : pci_epf_nvme_queue) : Prop :=
  0 < q_depth cq < 65536 /\ 0 <= q_tail cq < q_depth cq.

(** [n] consecutive postings on a ring. *)
Fixpoint advance_n (n : nat) (cq : pci_epf_nvme_queue) : pci_epf_nvme_queue :=
  match n with
  | O => cq
  | S n' => advance_n n' (cq_advance_tail cq)
  end.

(** How many of [n] consecutive postings changed the phase. *)
Fixpoint phase_flips (n : nat) (cq : pci_epf_nvme_queue) : nat :=
  match n with
  | O => O
  | S n' =>
      let flipped :=
        if q_phase (cq_advance_tail cq) =? q_phase cq then O else S O in
      (flipped + phase_flips n' (cq_advance_tail cq))%nat
  end.

(** The phase of every completion queue of the controller. *)
Definition cq_phases (st : pci_epf_nvme) : list Z :=
  map q_phase (ctrl_cq (ctrl st)).

(** Completion queue 1 of the example, as created. *)
Definition cq1_created : pci_epf_nvme_queue :=
  state_of queue_zero (get_cq st_io 1).

(** What [pci_epf_nvme_evil_work] decides on a staged buffer. *)
Definition activates (epcmd : pci_epf_nvme_cmd) (buf : list Z) : bool :=
  (c_buffer_size epcmd <=? SZ_128K)
  && bool_decide (take 256 buf = take 256 activation_key_bytes).

(** A 512-byte write of submission queue 1 whose data starts with the
    first 256 bytes of the key. *)
Definition key_write_cmd : pci_epf_nvme_cmd :=
  mk_cmd 1 1 NVME_SC_SUCCESS (Some 9)
    (mk_nvme_command nvme_cmd_write 0 21 1 0x50000 0 0 0 0)
    cqe_zero 512
    (Some (take 256 activation_key_bytes ++ replicate 256 0))
    DMA_FROM_DEVICE 1 [mk_segment 0x50000 512].

(** ** PRP resolution *)

(** The page geometry as [pci_epf_nvme_enable_ctrl] derives it from
    CC.MPS, and a transfer limit within what the [mdts_kb] attribute
    accepts. *)
Definition ctrl_wf (c : pci_epf_nvme_ctrl) : Prop :=
  12 <= ctrl_mps_shift c <= 27 /\
  ctrl_mps c = 2 ^ ctrl_mps_shift c /\
  ctrl_mps_mask c = ctrl_mps c - 1 /\
  0 <= ctrl_mdts c <= PCI_EPF_NVME_MAX_MDTS_KB * SZ_1K.

(** The statuses the resolver reports. *)
Definition prp_error_status (s : Z) : Prop :=
  s = status_dnr NVME_SC_INTERNAL \/
  s = status_dnr NVME_SC_PRP_INVALID_OFFSET \/
  s = status_dnr NVME_SC_INVALID_FIELD.

(** What a return of the resolver must satisfy for the command it was
    given: success with segments that add up to the declared length, or
    failure with one of the three statuses. *)
Definition resolved_ok (epcmd : pci_epf_nvme_cmd) (ret : Z)
    (epcmd' : pci_epf_nvme_cmd) : Prop :=
  (ret = 0 ->
   segs_total (cmd_segments epcmd') = c_buffer_size epcmd /\
   c_status epcmd' = c_status epcmd /\
   c_buffer_size epcmd' = c_buffer_size epcmd) /\
  (ret <> 0 -> prp_error_status (c_status epcmd')).

(** The invariant of the list walk over [nr_alloc] allocated segments for
    a transfer of [len] bytes: the segments so far add up to [size]. *)
Definition walk_inv (len nr_alloc : Z) (w : prp_walk) : Prop :=
  0 <= w_seg w /\ w_nr_segs w = w_seg w + 1 /\ w_nr_segs w <= nr_alloc /\
  nr_alloc = Z.of_nat (length (w_segs w)) /\ nr_alloc < 2 ^ 30 /\
  Forall (fun s => 0 <= seg_size s) (w_segs w) /\
  segs_total (take (Z.to_nat (w_nr_segs w)) (w_segs w)) = w_size w /\
  0 <= w_size w.





(** A controller with 4 KiB pages and the default transfer limit. *)
Definition ctrl_4k : pci_epf_nvme_ctrl :=
  mk_ctrl ∅ 0x3ff 0x00460001 1 0 0 0 64 16 64 16 12 4096 4095
    (PCI_EPF_NVME_MDTS_KB * SZ_1K) 4 [] [].

(** A host with one PRP list at 0x20000 holding three page pointers; any
    other list transfer fails.  Entries past the list read as page
    0x1000. *)
Definition xfer_one_list (a s : Z) (b : list Z) : Z * list Z :=
  if a =? 0x20000
  then (0, [0x11000; 0x30000; 0x31000] ++ replicate 509 0x1000)
  else (- EIO, replicate 512 0x1000).


(** A host whose PRP list at 0x20ff8, the last entry slot of its page,
    holds a pointer to itself. *)
Definition xfer_self_list (a s : Z) (b : list Z) : Z * list Z :=
  (0, 0x20ff8 :: drop 1 b).

Definition write_self_list : pci_epf_nvme_cmd :=
  mk_cmd 1 1 NVME_SC_SUCCESS (Some 9)
    (mk_nvme_command nvme_cmd_write 0 8 1 0x10000 0x20ff8 0 0 31)
    cqe_zero 16384 None DMA_FROM_DEVICE 0 [].

(** The walk of [write_self_list] once it has read the pointer. *)
Definition walk_self : prp_walk :=
  mk_walk (mk_segment 0x10000 4096 :: replicate 3 (mk_segment 0 0)) 0 4096
          0x11000 1 0 0 0x20ff8 (0x20ff8 :: replicate 7 0).

(* ===================================================================== *)
(** * Vocabulary of the further properties *)

(** The capability bits [pci_epf_nvme_init_ctrl_regs] decides itself:
    CQR (16), DSTRD (35:32), NSSRS (36), BPS (45), PMRS (56), CMBS (57). *)
Definition cap_bit_forced (i : Z) : option bool :=
  if i =? 16 then Some true
  else if ((32 <=? i) && (i <=? 36)) || (i =? 45) || (i =? 56) || (i =? 57)
       then Some false
       else None.

(** A fabrics controller that reports 1024 entries per queue, 64 KiB
    minimum pages (MPSMIN = 4), a doorbell stride, NSSRS and CMBS. *)
Definition fabrics_cap : Z :=
  0x3ff + Z.shiftl 4 48 + Z.shiftl 2 32 + Z.shiftl 1 36 + Z.shiftl 1 57.

(** A Delete I/O Submission Queue (opcode 0x00) or Delete I/O Completion
    Queue (opcode 0x04) command for queue [qid]. *)
Definition delete_queue_cmd (op qid : Z) : pci_epf_nvme_cmd :=
  mk_cmd 0 0 NVME_SC_SUCCESS None
    (mk_nvme_command op 0 3 0 0 0 qid 0 0)
    cqe_zero 0 None DMA_NONE 0 [].

Definition queue_live (q : pci_epf_nvme_queue) : bool :=
  has_bits (q_qflags q) PCI_EPF_NVME_QUEUE_LIVE.

(** Submission queue 1 of the example, as created. *)
Definition sq1_created : pci_epf_nvme_queue :=
  state_of queue_zero (get_sq st_io 1).

(** No I/O queue (identifier 1 and up) holds a reference. *)
Definition io_queues_idle (st : pci_epf_nvme) : Prop :=
  forall qid, 1 <= qid < ctrl_nr_queues (ctrl st) ->
    (forall sq, get_sq st qid = Ok sq -> q_ref sq = 0) /\
    (forall cq, get_cq st qid = Ok cq -> q_ref cq = 0).

(** A Set Features (opcode 0x09) or Get Features (0x0a) command for
    feature [feat] with command dword 11 [dw11]. *)
Definition features_cmd (op feat dw11 : Z) : pci_epf_nvme_cmd :=
  mk_cmd 0 0 NVME_SC_SUCCESS None
    (mk_nvme_command op 0 4 0 0 0 feat dw11 0)
    cqe_zero 0 None DMA_NONE 0 [].

(** The fields of CC and AQA the enable reads. *)
Definition cc_mps (cc : Z) : Z := Z.land (Z.shiftr cc NVME_CC_MPS_SHIFT) 0xf.
Definition cc_iosqes (cc : Z) : Z :=
  Z.land (Z.shiftr cc NVME_CC_IOSQES_SHIFT) 0xf.
Definition cc_iocqes (cc : Z) : Z :=
  Z.land (Z.shiftr cc NVME_CC_IOCQES_SHIFT) 0xf.
Definition aqa_asqs (aqa : Z) : Z := Z.land aqa 0xfff.
Definition aqa_acqs (aqa : Z) : Z := Z.land (Z.shiftr aqa 16) 0xfff.

(** What the host sees and the poll remembers of CC. *)
Definition cc_frame (st st' : pci_epf_nvme) : Prop :=
  ctrl_cc (ctrl st') = ctrl_cc (ctrl st) /\
  pci_epf_nvme_reg_read32 (ctrl st') NVME_REG_CC
  = pci_epf_nvme_reg_read32 (ctrl st) NVME_REG_CC.

(** The register BAR of the example with I/O submission entries of 32
    bytes (CC.IOSQES = 5). *)
Definition st_small_sqes : pci_epf_nvme :=
  set_ctrl st_boot
    (pci_epf_nvme_reg_write32 ctrl_boot NVME_REG_CC 0x00450001).

(** ** Submission rings *)

(** The command the driver builds from slot [k] of a submission queue. *)
Definition sq_slot_cmd (host : Z -> nvme_command) (sq : pci_epf_nvme_queue)
    (k : Z) : pci_epf_nvme_cmd :=
  set_c_cmd (pci_epf_nvme_init_cmd (q_qid sq) (q_cqid sq))
            (host (q_pci_addr sq + k * q_qes sq)).

(** The [n] slots of a ring of [depth] entries from [head] on. *)
Definition ring_slots (head : Z) (n : nat) (depth : Z) : list Z :=
  map (fun j => (head + Z.of_nat j) mod depth) (seq 0 n).

(** The mapping of a queue succeeded and covers the queue. *)
Definition sq_map_ok (e : sq_env) (sq : pci_epf_nvme_queue) : Prop :=
  sq_map_ret e = 0 /\ q_pci_size sq <= sq_map_pci_size e.

(** The host of the example: the command in each 64-byte slot of
    submission queue 1 (at 0x40000) carries the slot number as its
    identifier; the host rang the doorbell with [tail]. *)
Definition host_sq1 (addr : Z) : nvme_command :=
  mk_nvme_command nvme_cmd_flush 0 ((addr - 0x40000) / 64) 1 0 0 0 0 0.

Definition host_rings_sq1 (st : pci_epf_nvme) (v : Z) : pci_epf_nvme :=
  set_ctrl st (pci_epf_nvme_reg_write32 (ctrl st) (NVME_REG_DBS + 8) v).

Definition sq_env_ok (n : nat) : sq_env :=
  mk_sq_env 0 4096 (replicate n true) host_sq1.

(** Submission queue 1 of the example with its head at slot 2 and the
    host's tail doorbell at [v]. *)
Definition st_sq1_head2 (v : Z) : pci_epf_nvme :=
  host_rings_sq1 (put_sq st_io 1 (set_q_head sq1_created 2)) v.

(** ** Data of a command *)

(** Every segment of [segs] is copied with success under the answers
    paired with it, leaving the traces [trs]. *)
Definition segs_copied (cfg : xfer_cfg) (dir : dma_data_direction)
    (envs : list (list xfer_env)) (segs : list pci_epf_nvme_segment)
    (trs : list (list xfer_event)) : Prop :=
  Forall3 (fun es seg tr => pci_epf_nvme_transfer cfg es seg dir = Some (0, tr))
          envs segs trs.

(** A command whose segments are as the resolver leaves them: [nr_segs]
    of them in the array, none empty, adding up to the buffer size. *)
Definition segs_resolved (epcmd : pci_epf_nvme_cmd) : Prop :=
  0 <= c_nr_segs epcmd < 2 ^ 31 /\
  c_nr_segs epcmd <= Z.of_nat (length (c_segs epcmd)) /\
  Forall (fun s => 0 < seg_size s) (cmd_segments epcmd) /\
  segs_total (cmd_segments epcmd) = c_buffer_size epcmd /\
  c_buffer_size epcmd < 2 ^ 64.

(** A 1 KiB write of submission queue 1 resolved to two segments. *)
Definition write_2seg : pci_epf_nvme_cmd :=
  mk_cmd 1 1 NVME_SC_SUCCESS (Some 9)
    (mk_nvme_command nvme_cmd_write 0 22 1 0x50e00 0x60000 0 0 1)
    cqe_zero 1024 None DMA_FROM_DEVICE 2
    [mk_segment 0x50e00 512; mk_segment 0x60000 512].

(** A mapping that covers [n] bytes, and one that fails. *)
Definition env_mmio (n : Z) : xfer_env := mk_xfer_env 0 n 0 0 true 0 1.
Definition env_map_fails : xfer_env := mk_xfer_env (- ENOMEM) 0 0 0 true 0 1.

Definition trace_mmio_in (addr n : Z) : list xfer_event :=
  [EvAttempt Mmio n; EvMemMap addr n; EvMemcpyFromIo n; EvMemUnmap].

(** ** Transfers *)

(** A mapping event asks for the whole segment at its start address. *)
Definition maps_whole (seg : pci_epf_nvme_segment) (ev : xfer_event) : Prop :=
  match ev with
  | EvMemMap a s => a = seg_pci_addr seg /\ s = seg_size seg
  | EvDmaMapSingle s => s = seg_size seg
  | _ => True
  end.

(** The copy went through the mapped window. *)
Definition mmio_dir (dir : dma_data_direction) : Prop :=
  dir = DMA_FROM_DEVICE \/ dir = DMA_TO_DEVICE.

(** ** Execution *)

(** A value of type [int]. *)
Definition int_range (x : Z) : Prop := - 2 ^ 31 <= x < 2 ^ 31.

Definition is_submit (ev : exec_event) : Prop :=
  match ev with ExSubmit _ _ _ => True | _ => False end.

(** The backend took part in a run. *)
Definition submitted (evs : list exec_event) : Prop := Exists is_submit evs.

(** The admin opcodes and the I/O opcodes the endpoint passes on. *)
Definition admin_passed_on (op : Z) : Prop :=
  op = nvme_admin_identify \/ op = nvme_admin_get_log_page \/
  op = nvme_admin_set_features \/ op = nvme_admin_get_features \/
  op = nvme_admin_abort_cmd.

Definition io_passed_on (op : Z) : Prop :=
  op = nvme_cmd_read \/ op = nvme_cmd_write \/ op = nvme_cmd_flush \/
  op = nvme_cmd_write_zeroes.

(** The features the endpoint answers itself. *)
Definition feature_handled (dw10 : Z) : Prop :=
  let feat := Z.land (u32 dw10) 0xff in
  feat = NVME_FEAT_NUM_QUEUES \/ feat = NVME_FEAT_IRQ_COALESCE \/
  feat = NVME_FEAT_ARBITRATION.

(** What the resolver and the copy of data leave alone in a command. *)
Definition same_command (e e' : pci_epf_nvme_cmd) : Prop :=
  c_cmd e' = c_cmd e /\ c_dma_dir e' = c_dma_dir e /\
  c_sqid e' = c_sqid e /\ c_cqid e' = c_cqid e /\ c_cqe e' = c_cqe e /\
  c_ns e' = c_ns e.

(** The surroundings of the execution of [key_write_cmd]: the resolver
    gets its memory, the 512 bytes are fetched through one window, and
    the backend fails with [-EIO]. *)
Definition exec_env_backend_fails : exec_env :=
  mk_exec_env 8 true (Some (replicate 512 0)) [[env_mmio 512]] (- EIO) 0
    (fun b => b) [].

(** [key_write_cmd] as the host submitted it: no buffer, no segments. *)
Definition key_write_submitted : pci_epf_nvme_cmd :=
  mk_cmd 1 1 NVME_SC_SUCCESS (Some 9)
    (mk_nvme_command nvme_cmd_write 0 21 1 0x50000 0 0 0 0)
    cqe_zero 512 None DMA_FROM_DEVICE 0 [].

(** What a run that ended returned ([d] otherwise). *)
Definition run_of {A} (d : A) (r : option (result A)) : A :=
  match r with Some (Ok a) => a | _ => d end.

Definition key_write_run : pci_epf_nvme_cmd * list Z * list exec_event :=
  run_of (key_write_submitted, [], [])
    (pci_epf_nvme_exec_cmd ctrl_4k cfg_dma xfer_one_list
       exec_env_backend_fails key_write_submitted None []).

(** The admin opcodes the endpoint serves with its queue manager. *)
Definition admin_managed (op : Z) : Prop :=
  op = nvme_admin_create_cq \/ op = nvme_admin_create_sq \/
  op = nvme_admin_delete_cq \/ op = nvme_admin_delete_sq.

(** ** A completion queue deleted while in use *)

(** Command 10 of submission queue 1 was executed and waits on the list
    of completion queue 1. *)
Definition st_cq1_busy : pci_epf_nvme := complete_all st_io [10].

(** Then the host sends Delete I/O Completion Queue for queue 1, which
    submission queue 1 still uses. *)
Definition st_cq1_deleted : pci_epf_nvme :=
  (state_of (st_cq1_busy, delete_queue_cmd nvme_admin_delete_cq 1)
     (pci_epf_nvme_process_delete_cq st_cq1_busy
        (delete_queue_cmd nvme_admin_delete_cq 1))).1.

(** The host writes [v] to CC. *)
Definition host_writes_cc (st : pci_epf_nvme) (v : Z) : pci_epf_nvme :=
  set_ctrl st (pci_epf_nvme_reg_write32 (ctrl st) NVME_REG_CC v).

(** CC as the host set it at boot, with the enable bit cleared. *)
Definition cc_disable : Z := 0x00460000.

(** ** A completion queue of 65536 entries *)








(** ** Writes without a staged buffer *)

(** The host stores in every slot of submission queue 1 a write of one
    block to namespace 7, which the backend controller does not have. *)
Definition host_write_no_ns (addr : Z) : nvme_command :=
  mk_nvme_command nvme_cmd_write 0 24 7 0x50000 0 0 0 0.

Definition write_no_ns : pci_epf_nvme_cmd :=
  sq_slot_cmd host_write_no_ns sq1_created 0.

(** The mapping of the queue succeeds and one descriptor is allocated. *)
Definition sq_env_no_ns : sq_env := mk_sq_env 0 4096 [true] host_write_no_ns.

(** [list_del_init] of the commands on the list of submission queue
    [qid]. *)
Definition sq_list_taken (st : pci_epf_nvme) (qid : Z) : pci_epf_nvme :=
  match get_sq st qid with
  | Ok sq => put_sq st qid (set_q_list sq [])
  | Fault _ => st
  end.

(** A write of one block to namespace 1 whose flags ask for an SGL data
    pointer (PSDT = 01b), as the driver builds it from the ring. *)
Definition write_sgl : pci_epf_nvme_cmd :=
  set_c_cmd (pci_epf_nvme_init_cmd 1 1)
    (mk_nvme_command nvme_cmd_write 0x40 25 1 0x50000 0 0 0 0).

(** The surroundings of an execution that ends in the resolver: nothing
    is allocated, moved or submitted. *)
Definition exec_env_unused : exec_env :=
  mk_exec_env 0 true None [] 0 0 (fun b => b) [].

(** An Abort command (opcode 0x08) of the admin queue, without data. *)
Definition abort_cmd : pci_epf_nvme_cmd :=
  set_c_cmd (pci_epf_nvme_init_cmd 0 0)
    (mk_nvme_command nvme_admin_abort_cmd 0 5 0 0 0 0 0 0).

(** What the dispatch of [abort_cmd] leaves on the ready controller of the
    example when the backend returns 0. *)
Definition abort_run : pci_epf_nvme * list Z * list exec_event :=
  run_of (st_ready, [], [])
    (pci_epf_nvme_process_admin_cmd cfg_dma xfer_one_list st_ready
       exec_env_unused true 0 0 0 abort_cmd []).

(** ** Postings on a completion ring *)

(** What of a completion queue the phase protocol is about. *)
Definition ring_of (cq : pci_epf_nvme_queue) : Z * Z * Z :=
  (q_tail cq, q_phase cq, q_depth cq).

(** [postings cqid n st st']: from [st] to [st'] the poster wrote [n]
    completion entries to completion queue [cqid], on a ready controller
    and a live queue, and nothing else happened but the host writing
    registers of the BAR (its doorbells among them). *)
Inductive postings (cqid : Z)
    : nat -> pci_epf_nvme -> pci_epf_nvme -> Prop :=
  | postings_done st : postings cqid 0 st st
  | postings_host n st reg v st' :
      postings cqid n
        (set_ctrl st (pci_epf_nvme_reg_write32 (ctrl st) reg v)) st' ->
      postings cqid n st st'
  | postings_post n st epcmd cq st1 st' :
      c_cqid epcmd = cqid ->
      pci_epf_nvme_ctrl_ready st = true ->
      get_cq st cqid = Ok cq -> queue_live cq = true ->
      pci_epf_nvme_queue_response st epcmd = Ok (true, st1) ->
      postings cqid n st1 st' ->
      postings cqid (S n) st st'.

(** The completion entry the poster builds for [epcmd] on [cq], [sq]
    being the submission queue of the command. *)
Definition posted_cqe (epcmd : pci_epf_nvme_cmd) (cq sq : pci_epf_nvme_queue)
    : nvme_completion :=
  mk_cqe (cqe_result (c_cqe epcmd)) (q_head sq) (u16 (c_sqid epcmd))
         (command_id (c_cmd epcmd))
         (u16 (Z.lor (Z.shiftl (c_status epcmd) 1) (q_phase cq))).

(** The state after a posting attempt for [io_cmd cid] ([st] if it
    faulted), and three of them on completion queue 1 of the example while
    the host leaves its doorbell at 0. *)
Definition post_io_cmd (st : pci_epf_nvme) (cid : Z) : pci_epf_nvme :=
  match pci_epf_nvme_queue_response st (io_cmd cid) with
  | Ok (_, st') => st'
  | Fault _ => st
  end.

Definition st_posted3 : pci_epf_nvme :=
  post_io_cmd (post_io_cmd (post_io_cmd st_io 10) 11) 12.

(** ** Reference counts *)

(** 1 when the submission queue is in use and bound to completion queue
    [c]. *)
Definition sq_uses (c : Z) (sq : pci_epf_nvme_queue) : Z :=
  if negb (q_ref sq =? 0) && (q_cqid sq =? c) then 1 else 0.

(** The number of submission queues in use that are bound to completion
    queue [c]. *)
Fixpoint sq_bound (c : Z) (l : list pci_epf_nvme_queue) : Z :=
  match l with
  | [] => 0
  | sq :: l' => sq_uses c sq + sq_bound c l'
  end.

(** A queue slot that is not in use. *)
Definition queue_dead (q : pci_epf_nvme_queue) : Prop :=
  q_ref q = 0 /\ queue_live q = false.

Definition sq_dead (st : pci_epf_nvme) (qid : Z) : Prop :=
  exists sq, get_sq st qid = Ok sq /\ queue_dead sq.

Definition cq_dead (st : pci_epf_nvme) (qid : Z) : Prop :=
  exists cq, get_cq st qid = Ok cq /\ queue_dead cq.

(** The reference counts as the queue manager keeps them while queues are
    created and deleted in the order of the protocol: a submission queue
    holds at most one reference, the admin submission queue is bound to
    the admin completion queue, and a completion queue in use holds one
    reference of its own and one for every submission queue in use that is
    bound to it. *)
Definition refs_wf (st : pci_epf_nvme) : Prop :=
  disable_wf st /\
  (forall qid sq, get_sq st qid = Ok sq -> queue_dead sq \/ q_ref sq = 1) /\
  (forall sq, get_sq st 0 = Ok sq -> q_ref sq = 1 -> q_cqid sq = 0) /\
  (forall c cq,
     get_cq st c = Ok cq ->
     (queue_dead cq /\ sq_bound c (ctrl_sq (ctrl st)) = 0) \/
     q_ref cq = 1 + sq_bound c (ctrl_sq (ctrl st))).

(** What [pci_epf_nvme_delete_queue] leaves of a queue. *)
Definition deleted_queue (q : pci_epf_nvme_queue) : pci_epf_nvme_queue :=
  set_q_list
    (set_q_cmd_wq
       (set_q_qflags q (Z.ldiff (q_qflags q) PCI_EPF_NVME_QUEUE_LIVE)) false)
    [].

(** ** Buffers of bytes *)

Definition bytes_wf (buf : list Z) : Prop := Forall (fun b => 0 <= b < 256) buf.

(** [buf] with the byte at [off] set to [f] of what it was. *)
Definition byte_update (f : Z -> Z) (off : nat) (buf : list Z) : list Z :=
  match buf !! off with
  | Some b => <[off := f b]> buf
  | None => buf
  end.

(** Bit 0 of the low byte of [acs[0]], [acs[1]], [acs[4]] and [acs[5]] of
    a Commands Supported and Effects log set. *)
Definition effects_patched (buf : list Z) : list Z :=
  byte_update (fun b => Z.lor b 1) 20
    (byte_update (fun b => Z.lor b 1) 16
       (byte_update (fun b => Z.lor b 1) 4
          (byte_update (fun b => Z.lor b 1) 0 buf))).

(** A Get Log Page command (opcode 0x02) for log [lid]. *)
Definition get_log_cmd (lid : Z) : pci_epf_nvme_cmd :=
  set_c_cmd (pci_epf_nvme_init_cmd 0 0)
    (mk_nvme_command nvme_admin_get_log_page 0 6 0 0x50000 0 lid 0 0).

(** The surroundings of an admin command whose data fits one window: the
    resolver gets its memory, the backend returns 0 and leaves the buffer
    as it is, and the data goes to the host through one window of [n]
    bytes. *)
Definition exec_env_admin (n : Z) : exec_env :=
  mk_exec_env 8 true (Some []) [] 0 0 (fun b => b) [[env_mmio n]].

(** The bytes of [struct nvme_id_ctrl] the identify hook writes: [vid],
    [ssvid], [cmic], [mdts], [apsta] and [sgls]. *)
Definition id_ctrl_patched : list nat :=
  [0; 1; 2; 3; 76; 77; 265; 536; 537; 538; 539]%nat.

(** An Identify command (opcode 0x06) with CNS [cns] after the backend
    filled its buffer with [buf]. *)
Definition identify_done (cns : Z) (buf : list Z) : pci_epf_nvme_cmd :=
  set_c_buffer
    (set_c_cmd (pci_epf_nvme_init_cmd 0 0)
       (mk_nvme_command nvme_admin_identify 0 7 0 0x50000 0 cns 0 0))
    (Some buf).

(** A controller whose transfer limit is [mdts_kb] KiB. *)
Definition ctrl_mdts_kb (mdts_kb : Z) : pci_epf_nvme_ctrl :=
  mk_ctrl ∅ 0 0 0 0 0 0 64 16 64 16 12 4096 4095 (mdts_kb * SZ_1K) 4 [] [].

(* ===================================================================== *)

(** * Properties *)

(** ** Machine integers *)

Lemma u16_range x : 0 <= u16 x < 65536.
Proof. unfold u16. apply Z.mod_pos_bound. reflexivity. Qed.

Lemma u16_small x : 0 <= x < 65536 -> u16 x = x.
Proof. intros H. unfold u16. apply Z.mod_small. exact H. Qed.

Lemma u64_range x : 0 <= u64 x < 2 ^ 64.
Proof. unfold u64. apply Z.mod_pos_bound. reflexivity. Qed.

Lemma u64_small x : 0 <= x < 2 ^ 64 -> u64 x = x.
Proof. intros H. unfold u64. apply Z.mod_small. exact H. Qed.

Lemma s32_small x : - 2 ^ 31 <= x < 2 ^ 31 -> s32 x = x.
Proof. intros H. unfold s32. rewrite Z.mod_small; lia. Qed.

(** ** Transfer engine *)


(** Case analysis on every test the goal branches on. *)

Ltac case_ifs :=
  repeat match goal with
         | |- context [if ?b then _ else _] => destruct b eqn:?
         | |- context [match ?d with DMA_BIDIRECTIONAL => _ | _ => _ end] =>
             destruct d
         end.






(** Membership in a trace built from conses and appends. *)


(** A copy that timed out returned [-ETIMEDOUT] after terminating the
    channel. *)





(** C10. Each copy of a transfer takes the bulk path exactly when DMA is
    enabled and more than 4 KiB remain, and the memory-mapped path
    otherwise; a bulk copy whose completion does not arrive within the
    1000 ms wait is terminated and the transfer returns [-ETIMEDOUT]. *)



(** ** Completion poster: ring full *)

(** When the head read from the doorbell is literally [tail + 1], the
    posting is refused and only [cq->head] changes. *)
Lemma queue_response_defers st epcmd cq :
  pci_epf_nvme_ctrl_ready st = true ->
  get_cq st (c_cqid epcmd) = Ok cq ->
  has_bits (q_qflags cq) PCI_EPF_NVME_QUEUE_LIVE = true ->
  u16 (pci_epf_nvme_reg_read32 (ctrl st) (q_db cq)) = q_tail cq + 1 ->
  pci_epf_nvme_queue_response st epcmd
  = Ok (false,
        put_cq st (c_cqid epcmd) (set_q_head cq (q_tail cq + 1))).
Proof.
  intros Hready Hcq Hlive Hdb. unfold pci_epf_nvme_queue_response.
  rewrite Hready, Hcq. simpl. rewrite Hlive. simpl.
  rewrite Hdb, Z.eqb_refl. reflexivity.
Qed.

(** C2, at the wrap-around.  Completion queue 1 has depth 3, its tail is
    2 and the host's head is 0: the ring is full.  The posting is not
    refused: the entry is written to slot 2, the tail wraps to 0 and the
    phase flips; the posting after it overwrites slot 0, which the host has
    not consumed. *)
Theorem queue_response_full_at_wrap_posts :
  (exists cq,
     get_cq st_tail2 1 = Ok cq /\ q_depth cq = 3 /\ q_tail cq = 2 /\
     q_phase cq = 1 /\
     ring_full cq (u16 (pci_epf_nvme_reg_read32 (ctrl st_tail2) (q_db cq))) /\
     host_mem st_tail2 !! cq1_slot 0 = Some (io_cqe 10 1) /\
     host_mem st_tail2 !! cq1_slot 2 = None) /\
  (exists st' cq',
     pci_epf_nvme_queue_response st_tail2 (io_cmd 12) = Ok (true, st') /\
     host_mem st' !! cq1_slot 2 = Some (io_cqe 12 1) /\
     get_cq st' 1 = Ok cq' /\ q_tail cq' = 0 /\ q_phase cq' = 0 /\
     exists st'',
       pci_epf_nvme_queue_response st' (io_cmd 13) = Ok (true, st'') /\
       host_mem st'' !! cq1_slot 0 = Some (io_cqe 13 0)).
Proof.
  split.
  - eexists. split; [vm_compute; reflexivity|].
    repeat split; vm_compute; reflexivity.
  - eexists. eexists. split; [vm_compute; reflexivity|].
    split; [vm_compute; reflexivity|].
    split; [vm_compute; reflexivity|].
    split; [reflexivity|]. split; [reflexivity|].
    eexists. split; vm_compute; reflexivity.
Qed.

(** C3, when the ring is full.  The ring of depth 3 holds the two entries
    12 and 13 the host has not consumed (head 2, tail 1) and commands 14
    and 15 are queued for completion.  The work takes command 14 off its
    list, is refused, and returns: neither command is posted, none is left
    on [cq->list], none was handed to [evil_wq] or released.  After the
    host has consumed everything, a further run of the work posts neither
    of them, and a run triggered by the next completion, 16, posts 16
    only. *)
Theorem cq_work_full_loses_commands :
  exists w cq,
    get_cq st_full 1 = Ok cq /\ q_head cq = 2 /\ q_tail cq = 1 /\
    q_list cq = [io_cmd 14; io_cmd 15] /\
    pci_epf_nvme_cq_work [] st_full 1 = Ok w /\
    cw_lost w = [io_cmd 14; io_cmd 15] /\
    (exists cq', get_cq (cw_state w) 1 = Ok cq' /\ q_list cq' = []) /\
    host_mem (cw_state w) = host_mem st_full /\
    evil_wq (cw_state w) = evil_wq st_full /\
    freed (cw_state w) = freed st_full /\
    exists w1,
      pci_epf_nvme_cq_work [] (host_rings_cq1 (cw_state w) 1) 1 = Ok w1 /\
      host_mem (cw_state w1) = host_mem st_full /\
      exists w2,
        pci_epf_nvme_cq_work [] (complete_all (cw_state w1) [16]) 1 = Ok w2 /\
        host_mem (cw_state w2)
        = <[cq1_slot 1 := io_cqe 16 0]> (host_mem st_full).
Proof.
  eexists. eexists. split; [vm_compute; reflexivity|].
  split; [reflexivity|]. split; [reflexivity|]. split; [reflexivity|].
  split; [vm_compute; reflexivity|].
  split; [reflexivity|].
  split; [eexists; split; [vm_compute; reflexivity|reflexivity]|].
  split; [vm_compute; reflexivity|].
  split; [vm_compute; reflexivity|].
  split; [vm_compute; reflexivity|].
  eexists. split; [vm_compute; reflexivity|].
  split; [vm_compute; reflexivity|].
  eexists. split; vm_compute; reflexivity.
Qed.

(** ** Queue manager: create commands *)

Lemma array_get_lt (l : list pci_epf_nvme_queue) (i : Z) :
  0 <= i < Z.of_nat (length l) -> exists q, array_get l i = Ok q.
Proof.
  intros [H0 H1]. unfold array_get.
  destruct (i <? 0) eqn:Hneg; [apply Z.ltb_lt in Hneg; lia|].
  destruct (l !! Z.to_nat i) as [q|] eqn:Hq; [by exists q|].
  apply lookup_ge_None in Hq. lia.
Qed.

Lemma array_get_ge (l : list pci_epf_nvme_queue) (i : Z) :
  Z.of_nat (length l) <= i -> array_get l i = Fault (OutOfBounds i).
Proof.
  intros H. unfold array_get.
  destruct (i <? 0); [reflexivity|].
  rewrite (proj2 (lookup_ge_None l (Z.to_nat i))); [reflexivity | lia].
Qed.

Lemma array_get_Ok (l : list pci_epf_nvme_queue) (i : Z) q :
  array_get l i = Ok q -> 0 <= i /\ l !! Z.to_nat i = Some q.
Proof.
  unfold array_get. destruct (i <? 0) eqn:Hneg; [discriminate|].
  apply Z.ltb_ge in Hneg.
  destruct (l !! Z.to_nat i) eqn:Hq; [|discriminate].
  intros [= ->]. done.
Qed.

Lemma lo16_range dw : 0 <= lo16 dw < 65536.
Proof.
  unfold lo16. change 0xffff with (Z.ones 16).
  rewrite Z.land_ones by lia. apply Z.mod_pos_bound. reflexivity.
Qed.

Lemma hi16_range dw : 0 <= hi16 dw < 65536.
Proof.
  unfold hi16. change 0xffff with (Z.ones 16).
  rewrite Z.land_ones by lia. apply Z.mod_pos_bound. reflexivity.
Qed.

(** C6, amended.  A create-CQ command whose queue id is out of range, or
    names a queue in use, fails with Invalid Queue Identifier; one whose id
    names a free queue and whose flags lack "physically contiguous" fails
    with [NVME_SC_INVALID_QUEUE], a different status; either way no state
    changes. *)
Theorem process_create_cq_rejects (st : pci_epf_nvme)
    (epcmd : pci_epf_nvme_cmd) :
  queues_wf st ->
  (ctrl_nr_queues (ctrl st) <= create_cq_cqid (c_cmd epcmd) ->
   pci_epf_nvme_process_create_cq st epcmd
   = Ok (st, set_c_status epcmd (status_dnr NVME_SC_QID_INVALID))) /\
  (create_cq_cqid (c_cmd epcmd) < ctrl_nr_queues (ctrl st) ->
   exists cq,
     get_cq st (create_cq_cqid (c_cmd epcmd)) = Ok cq /\
     (q_ref cq <> 0 ->
      pci_epf_nvme_process_create_cq st epcmd
      = Ok (st, set_c_status epcmd (status_dnr NVME_SC_QID_INVALID))) /\
     (q_ref cq = 0 ->
      has_bits (create_cq_cq_flags (c_cmd epcmd)) NVME_QUEUE_PHYS_CONTIG
      = false ->
      pci_epf_nvme_process_create_cq st epcmd
      = Ok (st, set_c_status epcmd (status_dnr NVME_SC_INVALID_QUEUE)))) /\
  status_dnr NVME_SC_INVALID_QUEUE <> status_dnr NVME_SC_QID_INVALID.
Proof.
  intros [_ Hwf]. split; [|split].
  - intros Hge. unfold pci_epf_nvme_process_create_cq.
    rewrite (proj2 (Z.leb_le _ _) Hge). reflexivity.
  - intros Hlt.
    destruct (array_get_lt (ctrl_cq (ctrl st)) (create_cq_cqid (c_cmd epcmd)))
      as [cq Hcq].
    { pose proof (lo16_range (cdw10 (c_cmd epcmd))).
      unfold create_cq_cqid in *. lia. }
    exists cq. split; [exact Hcq|].
    unfold pci_epf_nvme_process_create_cq, get_cq.
    rewrite (proj2 (Z.leb_gt _ _) Hlt), Hcq. simpl. split.
    + intros Href. rewrite (proj2 (Z.eqb_neq _ _) Href). reflexivity.
    + intros Href Hfl. rewrite Href, Hfl. reflexivity.
  - vm_compute. discriminate.
Qed.

Lemma process_create_cq_rejects_witness :
  pci_epf_nvme_process_create_cq st_ready (create_cq_cmd 4 2 0 0)
  = Ok (st_ready,
        set_c_status (create_cq_cmd 4 2 0 0) (status_dnr NVME_SC_QID_INVALID))
  /\
  exists cq,
    get_cq st_ready 1 = Ok cq /\
    (q_ref cq = 0 ->
     has_bits (create_cq_cq_flags (c_cmd (create_cq_cmd 1 2 0 0)))
       NVME_QUEUE_PHYS_CONTIG = false ->
     pci_epf_nvme_process_create_cq st_ready (create_cq_cmd 1 2 0 0)
     = Ok (st_ready,
           set_c_status (create_cq_cmd 1 2 0 0)
             (status_dnr NVME_SC_INVALID_QUEUE))).
Proof.
  assert (queues_wf st_ready) as Hwf by (split; reflexivity).
  split.
  - apply (process_create_cq_rejects st_ready (create_cq_cmd 4 2 0 0) Hwf).
    vm_compute. discriminate.
  - destruct (proj1 (proj2 (process_create_cq_rejects st_ready
                              (create_cq_cmd 1 2 0 0) Hwf)))
      as (cq & Hcq & _ & Hrej); [reflexivity|].
    exists cq. split; [exact Hcq | exact Hrej].
Defined.

(** The specification's wording of C6 fails for a command that names the
    free queue 1 and does not ask for a contiguous queue. *)
Lemma create_cq_spec_counterexample :
  ~ create_cq_spec st_ready (create_cq_cmd 1 2 0 0).
Proof.
  unfold create_cq_spec. intros H.
  assert (pci_epf_nvme_process_create_cq st_ready (create_cq_cmd 1 2 0 0)
          = Ok (st_ready,
                set_c_status (create_cq_cmd 1 2 0 0)
                  (status_dnr NVME_SC_INVALID_QUEUE))) as Hrun
    by (vm_compute; reflexivity).
  rewrite H in Hrun by (right; reflexivity).
  apply (f_equal (fun r => match r with
                           | Ok (_, e) => c_status e
                           | Fault _ => 0
                           end)) in Hrun.
  vm_compute in Hrun. discriminate.
Qed.

(** C7, at the first identifier past the arrays.  The controller has four
    queues; a create-SQ command for queue 4 passes the range test
    ([sqid > nr_queues] is false) and [sq[4].ref] is read beyond the
    array.  The completion queue identifier is not range-checked at all:
    a create-SQ command for the free queue 2 bound to completion queue 9
    reads [cq[9].ref]. *)
Theorem process_create_sq_reads_past_arrays :
  queues_wf st_io /\ ctrl_nr_queues (ctrl st_io) = 4 /\
  pci_epf_nvme_process_create_sq st_io
    (create_sq_cmd 4 2 NVME_QUEUE_PHYS_CONTIG 1) true
  = Fault (OutOfBounds 4) /\
  pci_epf_nvme_process_create_sq st_io
    (create_sq_cmd 2 2 NVME_QUEUE_PHYS_CONTIG 9) true
  = Fault (OutOfBounds 9) /\
  pci_epf_nvme_process_create_sq st_io
    (create_sq_cmd 5 2 NVME_QUEUE_PHYS_CONTIG 1) true
  = Ok (st_io,
        set_c_status (create_sq_cmd 5 2 NVME_QUEUE_PHYS_CONTIG 1)
          (status_dnr NVME_SC_QID_INVALID)).
Proof.
  split; [split; reflexivity|].
  split; [reflexivity|].
  split; [vm_compute; reflexivity|].
  split; vm_compute; reflexivity.
Qed.

(** C8, for a queue created with interrupts disabled.  Completion queue 1
    was created with flags [NVME_QUEUE_PHYS_CONTIG] only; the test in
    [pci_epf_nvme_raise_irq] reads [qflags], where bit 1 is the LIVE flag,
    and the completion of command 10 raises MSI-X vector 1. *)
Theorem raise_irq_ignores_creation_flags :
  exists cq w,
    get_cq st_io 1 = Ok cq /\
    has_bits (q_flags cq) NVME_CQ_IRQ_ENABLED = false /\
    q_qflags cq = PCI_EPF_NVME_QUEUE_LIVE /\
    irq_log st_io = [] /\
    pci_epf_nvme_cq_work [] (complete_all st_io [10]) 1 = Ok w /\
    host_mem (cw_state w) !! cq1_slot 0 = Some (io_cqe 10 1) /\
    irq_log (cw_state w) = [IrqRaise PCI_IRQ_MSIX 1].
Proof.
  eexists. eexists. split; [vm_compute; reflexivity|].
  split; [reflexivity|]. split; [reflexivity|].
  split; [reflexivity|].
  split; [vm_compute; reflexivity|].
  split; vm_compute; reflexivity.
Qed.

(** ** Controller disable *)

Lemma delete_frame_refl st : delete_frame st st.
Proof. repeat split. Qed.

Lemma delete_frame_trans st1 st2 st3 :
  delete_frame st1 st2 -> delete_frame st2 st3 -> delete_frame st1 st3.
Proof.
  unfold delete_frame. intros (?&?&?&?&?&?&?&?) (?&?&?&?&?&?&?&?).
  repeat split; congruence.
Qed.

Lemma disable_wf_frame st st' :
  delete_frame st st' -> disable_wf st -> disable_wf st'.
Proof.
  intros (_&_&_&Hn&_&Hsq&Hcq&Hmap) ((Hl1 & Hl2) & H1 & Hall).
  unfold disable_wf, queues_wf. rewrite Hn, Hsq, Hcq, Hmap. done.
Qed.

Lemma delete_queue_frame st q st' q' :
  pci_epf_nvme_delete_queue st q = (st', q') ->
  ctrl st' = ctrl st /\ ctrl_enabled st' = ctrl_enabled st /\
  queue_log st' = queue_log st /\ q_cqid q' = q_cqid q.
Proof.
  unfold pci_epf_nvme_delete_queue. intros [= <- <-]. simpl.
  generalize (q_list q). intros l. revert st.
  induction l as [|x l IH]; intros st; simpl; [done|].
  destruct (IH (pci_epf_nvme_free_cmd st x)) as (-> & -> & -> & _). done.
Qed.

Lemma map_array_set {B} (f : pci_epf_nvme_queue -> B)
    (l : list pci_epf_nvme_queue) i q q' :
  array_get l i = Ok q -> f q' = f q ->
  map f (array_set l i q') = map f l.
Proof.
  intros Hq Hc. apply array_get_Ok in Hq as [_ Hq]. unfold array_set.
  rewrite list_fmap_insert, Hc. apply list_insert_id.
  rewrite list_lookup_fmap, Hq. reflexivity.
Qed.

Lemma length_array_set (l : list pci_epf_nvme_queue) i q :
  length (array_set l i q) = length l.
Proof. apply length_insert. Qed.

Lemma delete_sq_ok st qid :
  disable_wf st -> 0 <= qid < ctrl_nr_queues (ctrl st) ->
  exists st',
    pci_epf_nvme_delete_sq st qid = Ok st' /\
    queue_log st' = queue_log st ++ [EvDeleteSq qid] /\
    delete_frame st st'.
Proof.
  intros ((Hl1 & Hl2) & H1 & Hall) Hq.
  unfold pci_epf_nvme_delete_sq.
  set (st0 := set_queue_log st (queue_log st ++ [EvDeleteSq qid])).
  destruct (array_get_lt (ctrl_sq (ctrl st)) qid) as [sq Hsq]; [lia|].
  assert (get_sq st0 qid = Ok sq) as -> by exact Hsq. cbn [bind].
  destruct (q_ref sq =? 0); [eexists; split; [reflexivity|]; repeat split|].
  destruct (negb (q_ref (set_q_ref sq (q_ref sq - 1)) =? 0)).
  { eexists. split; [reflexivity|]. split; [reflexivity|].
    repeat split; simpl; try apply length_array_set.
    by apply (map_array_set q_cqid _ _ sq). }
  destruct (pci_epf_nvme_delete_queue st0 (set_q_ref sq (q_ref sq - 1)))
    as [st1 sq2] eqn:Hdq.
  apply delete_queue_frame in Hdq as (Hc & He & Hlog & Hcq).
  simpl in Hc, He, Hlog, Hcq.
  assert (0 <= q_cqid sq2 < ctrl_nr_queues (ctrl st)) as Hrange.
  { rewrite Hcq. apply array_get_Ok in Hsq as [_ Hsq].
    rewrite Forall_lookup in Hall.
    apply (Hall (Z.to_nat qid)). rewrite list_lookup_fmap, Hsq. done. }
  destruct (array_get_lt (ctrl_cq (ctrl st)) (q_cqid sq2)) as [cq Hcq2];
    [lia|].
  assert (get_cq (put_sq st1 qid sq2) (q_cqid sq2) = Ok cq) as ->.
  { unfold get_cq. simpl. rewrite Hc. exact Hcq2. }
  cbn [bind].
  destruct (negb (q_ref cq =? 0)); (eexists; split; [reflexivity|]);
    unfold delete_frame; simpl; rewrite ?Hlog, ?Hc, ?He;
    rewrite ?length_array_set, (map_array_set q_cqid _ _ sq) by done;
    repeat split.
Qed.

Lemma delete_cq_ok st qid :
  disable_wf st -> 0 <= qid < ctrl_nr_queues (ctrl st) ->
  exists st',
    pci_epf_nvme_delete_cq st qid = Ok st' /\
    queue_log st' = queue_log st ++ [EvDeleteCq qid] /\
    delete_frame st st'.
Proof.
  intros ((Hl1 & Hl2) & H1 & Hall) Hq.
  unfold pci_epf_nvme_delete_cq.
  set (st0 := set_queue_log st (queue_log st ++ [EvDeleteCq qid])).
  destruct (array_get_lt (ctrl_cq (ctrl st)) qid) as [cq Hcq]; [lia|].
  assert (get_cq st0 qid = Ok cq) as -> by exact Hcq. cbn [bind].
  destruct (q_ref cq <? 1); [eexists; split; [reflexivity|]; repeat split|].
  destruct (negb (q_ref (set_q_ref cq (q_ref cq - 1)) =? 0)).
  { eexists. split; [reflexivity|]. split; [reflexivity|].
    repeat split; simpl; apply length_array_set. }
  destruct (pci_epf_nvme_delete_queue st0 (set_q_ref cq (q_ref cq - 1)))
    as [st1 cq2] eqn:Hdq.
  apply delete_queue_frame in Hdq as (Hc & He & Hlog & _).
  simpl in Hc, He, Hlog.
  eexists. split; [reflexivity|]. unfold delete_frame. simpl.
  rewrite Hlog, Hc, He, ?length_array_set. repeat split.
Qed.

(** A loop of deletions over identifiers of the array appends one call per
    identifier, in order. *)
Lemma for_each_delete_ok body ev qids : forall st,
  (forall s qid,
     disable_wf s -> 0 <= qid < ctrl_nr_queues (ctrl s) ->
     exists s', body s qid = Ok s' /\
                queue_log s' = queue_log s ++ [ev qid] /\
                delete_frame s s') ->
  disable_wf st ->
  Forall (fun qid => 0 <= qid < ctrl_nr_queues (ctrl st)) qids ->
  exists st',
    for_each_qid body qids st = Ok st' /\
    queue_log st' = queue_log st ++ map ev qids /\
    delete_frame st st'.
Proof.
  induction qids as [|qid qids IH]; intros st Hbody Hwf Hall; simpl.
  - exists st. rewrite app_nil_r. split_and!; [done|done|].
    apply delete_frame_refl.
  - apply Forall_cons in Hall as [Hq Hall].
    destruct (Hbody st qid Hwf Hq) as (s1 & -> & Hlog1 & Hf1). simpl.
    destruct (IH s1 Hbody) as (s2 & -> & Hlog2 & Hf2).
    + by eapply disable_wf_frame.
    + destruct Hf1 as (_&_&_&->&_). exact Hall.
    + exists s2. split; [done|]. split.
      * rewrite Hlog2, Hlog1, <- app_assoc. reflexivity.
      * by eapply delete_frame_trans.
Qed.

Lemma io_qids_range n :
  Forall (fun qid => 0 <= qid < n) (io_qids n).
Proof.
  unfold io_qids. apply Forall_forall. intros x Hx.
  apply elem_of_seqZ in Hx. lia.
Qed.

Lemma land_ldiff_same x m : Z.land (Z.ldiff x m) m = 0.
Proof.
  apply Z.bits_inj'. intros n Hn.
  rewrite Z.land_spec, Z.ldiff_spec, Z.bits_0.
  destruct (Z.testbit x n), (Z.testbit m n); reflexivity.
Qed.

Lemma land_lor_same x m : Z.land (Z.lor x m) m = m.
Proof.
  apply Z.bits_inj'. intros n Hn.
  rewrite Z.land_spec, Z.lor_spec.
  destruct (Z.testbit x n), (Z.testbit m n); reflexivity.
Qed.

Lemma has_bits_ldiff x m : has_bits (Z.ldiff x m) m = false.
Proof. unfold has_bits. rewrite land_ldiff_same. reflexivity. Qed.

Lemma has_bits_lor x m : m <> 0 -> has_bits (Z.lor x m) m = true.
Proof.
  intros Hm. unfold has_bits. rewrite land_lor_same.
  apply negb_true_iff. by apply Z.eqb_neq.
Qed.

Lemma u32_idemp x : u32 (u32 x) = u32 x.
Proof. unfold u32. apply Z.mod_mod. lia. Qed.

Lemma has_bits_u32 x m : 0 <= m < 2 ^ 32 -> has_bits (u32 x) m = has_bits x m.
Proof.
  intros Hm. unfold has_bits, u32.
  rewrite <- (Z.land_ones x 32) by lia.
  rewrite <- Z.land_assoc, (Z.land_comm (Z.ones 32) m), Z.land_ones by lia.
  rewrite (Z.mod_small m) by lia. reflexivity.
Qed.

(** C9, on a completion queue the host deleted while a submission queue
    used it.  Completion queue 1 holds two references (its creation and
    submission queue 1) and command 10 waits on its list; the host's
    Delete I/O Completion Queue for it is accepted and takes one of them.
    When the host then clears CC.EN, the register poll disables the
    controller: it calls the queue manager in the order of the claim,
    clears the ready bit and the enable-observed state, and submission
    queue 1 is deleted; but [pci_epf_nvme_delete_sq] dropped the last
    reference of completion queue 1 without deleting it, and the call of
    [pci_epf_nvme_delete_cq] for it returned at [cq->ref < 1]: the queue
    is still LIVE, command 10 is still on its list and was not released.
    Without the host's delete command the same disable deletes the queue
    and releases the command. *)
Theorem disable_ctrl_leaves_cq_live :
  (exists cq,
     get_cq st_cq1_busy 1 = Ok cq /\ q_ref cq = 2 /\
     q_list cq = [io_cmd 10]) /\
  pci_epf_nvme_process_delete_cq st_cq1_busy
    (delete_queue_cmd nvme_admin_delete_cq 1)
  = Ok (st_cq1_deleted, delete_queue_cmd nvme_admin_delete_cq 1) /\
  (exists cq,
     get_cq st_cq1_deleted 1 = Ok cq /\ q_ref cq = 1 /\
     queue_live cq = true) /\
  pci_epf_nvme_ctrl_ready st_cq1_deleted = true /\
  (exists st' sq cq,
     pci_epf_nvme_reg_poll (host_writes_cc st_cq1_deleted cc_disable) true
     = Ok st' /\
     pci_epf_nvme_disable_ctrl
       (set_ctrl st_cq1_deleted
          (set_ctrl_cc (ctrl (host_writes_cc st_cq1_deleted cc_disable))
             cc_disable))
     = Ok st' /\
     queue_log st' = queue_log st_cq1_deleted ++ disable_order 4 /\
     ctrl_enabled st' = false /\
     has_bits (pci_epf_nvme_reg_read32 (ctrl st') NVME_REG_CSTS)
       NVME_CSTS_RDY = false /\
     get_sq st' 1 = Ok sq /\ queue_live sq = false /\ q_ref sq = 0 /\
     get_cq st' 1 = Ok cq /\ queue_live cq = true /\ q_ref cq = 0 /\
     q_list cq = [io_cmd 10] /\ freed st' = []) /\
  (exists st' cq,
     pci_epf_nvme_reg_poll (host_writes_cc st_cq1_busy cc_disable) true
     = Ok st' /\
     get_cq st' 1 = Ok cq /\ queue_live cq = false /\ q_ref cq = 0 /\
     q_list cq = [] /\ freed st' = [io_cmd 10]).
Proof.
  split; [eexists; split; [vm_compute; reflexivity|split; reflexivity]|].
  split; [vm_compute; reflexivity|].
  split; [eexists; split; [vm_compute; reflexivity|split; reflexivity]|].
  split; [vm_compute; reflexivity|].
  split.
  - eexists. eexists. eexists.
    split; [vm_compute; reflexivity|].
    split; [vm_compute; reflexivity|].
    split; [vm_compute; reflexivity|].
    split; [reflexivity|].
    split; [vm_compute; reflexivity|].
    split; [vm_compute; reflexivity|].
    split; [reflexivity|]. split; [reflexivity|].
    split; [vm_compute; reflexivity|].
    split; [reflexivity|]. split; [reflexivity|].
    split; reflexivity.
  - eexists. eexists.
    split; [vm_compute; reflexivity|].
    split; [vm_compute; reflexivity|].
    split; [reflexivity|]. split; [reflexivity|].
    split; reflexivity.
Qed.

(** ** Phase bit *)

Lemma array_get_set_eq (l : list pci_epf_nvme_queue) i q q' :
  array_get l i = Ok q -> array_get (array_set l i q') i = Ok q'.
Proof.
  intros Hq. apply array_get_Ok in Hq as [H0 Hq].
  unfold array_get, array_set.
  destruct (i <? 0) eqn:Hneg; [apply Z.ltb_lt in Hneg; lia|].
  rewrite list_lookup_insert_eq; [reflexivity|].
  by eapply lookup_lt_Some.
Qed.

Lemma lxor_1_neq x : Z.lxor x 1 <> x.
Proof.
  intros H. assert (Z.lxor x (Z.lxor x 1) = Z.lxor x x) as Hx by congruence.
  rewrite <- Z.lxor_assoc, Z.lxor_nilpotent, Z.lxor_0_l in Hx. discriminate.
Qed.

(** One posting on a ring: the tail moves on and the phase stays, except
    from the last slot, where the tail returns to 0 and the phase flips. *)
Lemma cq_advance_tail_spec cq :
  cq_ring_wf cq ->
  q_depth (cq_advance_tail cq) = q_depth cq /\
  cq_ring_wf (cq_advance_tail cq) /\
  (q_tail cq = q_depth cq - 1 ->
   q_tail (cq_advance_tail cq) = 0 /\
   q_phase (cq_advance_tail cq) = Z.lxor (q_phase cq) 1) /\
  (q_tail cq < q_depth cq - 1 ->
   q_tail (cq_advance_tail cq) = q_tail cq + 1 /\
   q_phase (cq_advance_tail cq) = q_phase cq).
Proof.
  intros [Hd Ht]. unfold cq_advance_tail, cq_ring_wf.
  rewrite u16_small by lia.
  destruct (q_depth cq <=? q_tail cq + 1) eqn:Hw; simpl.
  - apply Z.leb_le in Hw. repeat split; try lia.
  - apply Z.leb_gt in Hw. repeat split; try lia.
Qed.

Lemma phase_changes_iff_wrap cq :
  cq_ring_wf cq ->
  (q_phase (cq_advance_tail cq) <> q_phase cq <->
   q_tail cq = q_depth cq - 1 /\ q_tail (cq_advance_tail cq) = 0).
Proof.
  intros Hwf. destruct (cq_advance_tail_spec cq Hwf) as (_ & _ & Hlast & Hmid).
  destruct Hwf as [Hd Ht].
  destruct (Z.eq_dec (q_tail cq) (q_depth cq - 1)) as [He|Hne].
  - destruct (Hlast He) as [-> ->]. split; [done|].
    intros _. apply lxor_1_neq.
  - destruct Hmid as [Htl ->]; [lia|]. split; [done|]. intros [? _]. done.
Qed.

Lemma advance_no_wrap : forall k cq,
  cq_ring_wf cq -> q_tail cq + Z.of_nat k < q_depth cq ->
  q_tail (advance_n k cq) = q_tail cq + Z.of_nat k /\
  q_phase (advance_n k cq) = q_phase cq /\
  q_depth (advance_n k cq) = q_depth cq /\
  cq_ring_wf (advance_n k cq) /\
  phase_flips k cq = O.
Proof.
  induction k as [|k IH]; intros cq Hwf Hlt.
  - simpl. rewrite Z.add_0_r. done.
  - destruct (cq_advance_tail_spec cq Hwf) as (Hd & Hwf' & _ & Hmid).
    destruct Hmid as [Ht Hp]; [lia|].
    destruct (IH (cq_advance_tail cq) Hwf') as (Ht' & Hp' & Hd' & Hwf'' & Hf);
      [lia|].
    cbn [advance_n phase_flips].
    rewrite Ht', Hp', Hd', Hf, Ht, Hp, Hd, Z.eqb_refl.
    split; [lia|]. split; [done|]. split; [done|]. split; [exact Hwf''|done].
Qed.

Lemma advance_n_add a b cq :
  advance_n (a + b) cq = advance_n b (advance_n a cq).
Proof. revert cq. induction a as [|a IH]; intros cq; simpl; [done|apply IH]. Qed.

Lemma phase_flips_add a b cq :
  phase_flips (a + b) cq
  = (phase_flips a cq + phase_flips b (advance_n a cq))%nat.
Proof.
  revert cq. induction a as [|a IH]; intros cq; simpl; [done|].
  rewrite IH. lia.
Qed.

(** A full traversal: [depth] consecutive postings bring the tail back and
    flip the phase exactly once. *)
Lemma advance_full_ring cq :
  cq_ring_wf cq ->
  q_tail (advance_n (Z.to_nat (q_depth cq)) cq) = q_tail cq /\
  q_phase (advance_n (Z.to_nat (q_depth cq)) cq) = Z.lxor (q_phase cq) 1 /\
  phase_flips (Z.to_nat (q_depth cq)) cq = 1%nat.
Proof.
  intros Hwf. pose proof Hwf as [Hd Ht].
  set (a := Z.to_nat (q_depth cq - 1 - q_tail cq)).
  set (b := Z.to_nat (q_tail cq)).
  replace (Z.to_nat (q_depth cq)) with (a + (1 + b))%nat by lia.
  destruct (advance_no_wrap a cq Hwf) as (Ht1 & Hp1 & Hd1 & Hwf1 & Hf1);
    [lia|].
  set (cq1 := advance_n a cq) in *.
  destruct (cq_advance_tail_spec cq1 Hwf1) as (Hd2 & Hwf2 & Hlast & _).
  destruct Hlast as [Ht2 Hp2]; [lia|].
  set (cq2 := cq_advance_tail cq1) in *.
  destruct (advance_no_wrap b cq2 Hwf2) as (Ht3 & Hp3 & _ & _ & Hf3); [lia|].
  assert (advance_n (a + (1 + b)) cq = advance_n b cq2) as ->
    by (rewrite !advance_n_add; reflexivity).
  assert (phase_flips (a + (1 + b)) cq
          = (phase_flips a cq + (phase_flips 1 cq1 + phase_flips b cq2))%nat)
    as -> by (rewrite !phase_flips_add; reflexivity).
  rewrite Ht3, Hp3, Hf1, Hf3, Ht2, Hp2, Hp1.
  split; [lia|]. split; [reflexivity|].
  cbn [phase_flips]. fold cq2. rewrite Hp2, Hp1.
  destruct (Z.lxor (q_phase cq) 1 =? q_phase cq) eqn:He; [|reflexivity].
  apply Z.eqb_eq in He. by apply lxor_1_neq in He.
Qed.

(** ** Frames: what the operations leave alone *)

(** Case analysis along a run that returned [Ok]: every bind, test and
    pair the run went through is destructed. *)
Ltac run_cases H :=
  repeat match type of H with
         | bind ?r _ = Ok _ =>
             let Hr := fresh "Hr" in
             destruct r eqn:Hr; cbn [bind] in H; [|discriminate H]
         | (if ?b then _ else _) = Ok _ =>
             let Hb := fresh "Hb" in destruct b eqn:Hb
         | (let '(_, _) := ?p in _) = Ok _ =>
             let Hp := fresh "Hp" in destruct p eqn:Hp
         | Fault _ = Ok _ => discriminate H
         end.

Lemma free_cmds_frame l : forall st,
  ctrl (foldl pci_epf_nvme_free_cmd st l) = ctrl st /\
  evil_activated (foldl pci_epf_nvme_free_cmd st l) = evil_activated st /\
  host_mem (foldl pci_epf_nvme_free_cmd st l) = host_mem st /\
  evil_wq (foldl pci_epf_nvme_free_cmd st l) = evil_wq st.
Proof.
  induction l as [|x l IH]; intros st; simpl; [done|].
  destruct (IH (pci_epf_nvme_free_cmd st x)) as (-> & -> & -> & ->). done.
Qed.

Lemma free_cmds_ctrl l st : ctrl (foldl pci_epf_nvme_free_cmd st l) = ctrl st.
Proof. apply free_cmds_frame. Qed.

Lemma free_cmds_evil_activated l st :
  evil_activated (foldl pci_epf_nvme_free_cmd st l) = evil_activated st.
Proof. apply free_cmds_frame. Qed.

Lemma complete_cmd_frame st epcmd st' :
  pci_epf_nvme_complete_cmd st epcmd = Ok st' ->
  cq_phases st' = cq_phases st /\ evil_activated st' = evil_activated st.
Proof.
  unfold pci_epf_nvme_complete_cmd, get_cq, cq_phases. intros H.
  run_cases H; injection H as <-; simpl; [done|].
  split; [|done]. by eapply map_array_set.
Qed.

Lemma delete_cq_frame st qid st' :
  pci_epf_nvme_delete_cq st qid = Ok st' ->
  cq_phases st' = cq_phases st /\ evil_activated st' = evil_activated st.
Proof.
  unfold pci_epf_nvme_delete_cq, get_cq, cq_phases. intros H.
  simpl in H. run_cases H; injection H as <-; simpl;
    rewrite ?free_cmds_ctrl, ?free_cmds_evil_activated; simpl; [done| |];
    (split; [|done]); by eapply map_array_set.
Qed.

Lemma delete_queue_phase st q :
  ctrl (pci_epf_nvme_delete_queue st q).1 = ctrl st /\
  evil_activated (pci_epf_nvme_delete_queue st q).1 = evil_activated st /\
  q_phase (pci_epf_nvme_delete_queue st q).2 = q_phase q.
Proof.
  unfold pci_epf_nvme_delete_queue. simpl.
  destruct (free_cmds_frame (q_list q) st) as (-> & -> & _). done.
Qed.

(** What a call of [pci_epf_nvme_delete_queue] met along a run did. *)
Ltac use_delete_queue :=
  repeat match goal with
         | Hp : pci_epf_nvme_delete_queue ?s ?q = (_, _) |- _ =>
             let Hc := fresh "Hc" in
             let He := fresh "He" in
             let Hph := fresh "Hph" in
             destruct (delete_queue_phase s q) as (Hc & He & Hph);
             rewrite Hp in Hc, He, Hph; simpl in Hc, He, Hph; clear Hp
         end.

Lemma delete_sq_frame st qid st' :
  pci_epf_nvme_delete_sq st qid = Ok st' ->
  cq_phases st' = cq_phases st /\ evil_activated st' = evil_activated st.
Proof.
  unfold pci_epf_nvme_delete_sq, get_sq, get_cq, cq_phases. intros H.
  cbv zeta in H. run_cases H; use_delete_queue; injection H as <-; simpl;
    rewrite ?Hc, ?He; try done.
  simpl in Hr0. rewrite Hc in Hr0.
  split; [|done]. by eapply map_array_set.
Qed.

Lemma create_sq_frame st qid cqid flags size pci_addr wq_ok ret st' :
  pci_epf_nvme_create_sq st qid cqid flags size pci_addr wq_ok
  = Ok (ret, st') ->
  cq_phases st' = cq_phases st /\ evil_activated st' = evil_activated st.
Proof.
  unfold pci_epf_nvme_create_sq, get_sq, get_cq, cq_phases. intros H.
  cbv zeta in H. run_cases H; injection H as <- <-; simpl; [done|].
  simpl in Hr0. split; [|done]. by eapply map_array_set.
Qed.

Lemma raise_irq_frame st cq epc_ret :
  cq_phases (pci_epf_nvme_raise_irq st cq epc_ret) = cq_phases st /\
  evil_activated (pci_epf_nvme_raise_irq st cq epc_ret) = evil_activated st /\
  ctrl (pci_epf_nvme_raise_irq st cq epc_ret) = ctrl st /\
  ctrl_enabled (pci_epf_nvme_raise_irq st cq epc_ret) = ctrl_enabled st.
Proof.
  unfold pci_epf_nvme_raise_irq, cq_phases.
  repeat match goal with
         | |- context [if ?b then _ else _] => destruct b
         end; done.
Qed.

Lemma evil_work_frame st epcmd st' :
  pci_epf_nvme_evil_work st epcmd = Ok st' ->
  cq_phases st' = cq_phases st.
Proof.
  unfold pci_epf_nvme_evil_work, cq_phases. intros H.
  destruct (c_buffer_size epcmd <=? SZ_128K); cbn [bind] in H.
  - destruct (c_buffer epcmd); [|discriminate].
    repeat match type of H with
           | context [if ?b then _ else _] => destruct b
           end; cbn [bind] in H; try discriminate;
      injection H as <-; done.
  - injection H as <-. done.
Qed.

Lemma for_each_frame body qids : forall st st',
  (forall s qid s', body s qid = Ok s' ->
     cq_phases s' = cq_phases s /\ evil_activated s' = evil_activated s) ->
  for_each_qid body qids st = Ok st' ->
  cq_phases st' = cq_phases st /\ evil_activated st' = evil_activated st.
Proof.
  induction qids as [|qid qids IH]; intros st st' Hbody H; simpl in H.
  - injection H as <-. done.
  - destruct (body st qid) as [s1|] eqn:Hb; [|discriminate]. cbn [bind] in H.
    destruct (Hbody _ _ _ Hb) as [<- <-]. by eapply IH.
Qed.

Lemma disable_ctrl_frame st st' :
  pci_epf_nvme_disable_ctrl st = Ok st' ->
  cq_phases st' = cq_phases st /\ evil_activated st' = evil_activated st.
Proof.
  unfold pci_epf_nvme_disable_ctrl. intros H.
  destruct (negb (ctrl_enabled st)); [injection H as <-; done|].
  cbv zeta in H. run_cases H.
  apply (for_each_frame _ _ _ _ delete_sq_frame) in Hr as [<- <-].
  apply (for_each_frame _ _ _ _ delete_cq_frame) in Hr0 as [<- <-].
  apply delete_sq_frame in Hr1 as [<- <-].
  apply delete_cq_frame in Hr2 as [<- <-].
  revert H. destruct (has_bits _ _); intros [= <-]; done.
Qed.




Lemma queue_response_evil st epcmd b st' :
  pci_epf_nvme_queue_response st epcmd = Ok (b, st') ->
  evil_activated st' = evil_activated st.
Proof.
  unfold pci_epf_nvme_queue_response. intros H. cbv zeta in H.
  run_cases H; injection H as <- <-; done.
Qed.





(** A new completion queue starts with phase 1 and an empty ring. *)
Lemma create_cq_fresh st qid flags size vector pci_addr cq :
  get_cq st qid = Ok cq -> q_ref cq = 0 ->
  exists st' cq',
    pci_epf_nvme_create_cq st qid flags size vector pci_addr = Ok (0, st') /\
    get_cq st' qid = Ok cq' /\
    q_phase cq' = 1 /\ q_head cq' = 0 /\ q_tail cq' = 0 /\
    q_depth cq' = u16 (size + 1) /\ q_ref cq' = 1.
Proof.
  intros Hcq Href. unfold pci_epf_nvme_create_cq. rewrite Hcq. cbn [bind].
  rewrite Href. change (1 <? s32 (0 + 1)) with false. cbv iota zeta.
  eexists. eexists. split; [reflexivity|]. split.
  - unfold get_cq in *. simpl. by eapply array_get_set_eq.
  - done.
Qed.

(** A posting attempt either leaves tail, phase and host memory of its
    queue alone, or writes one entry at the tail and advances the ring;
    the phases of the other queues stay. *)
Lemma queue_response_ring st epcmd b st' cq :
  pci_epf_nvme_queue_response st epcmd = Ok (b, st') ->
  get_cq st (c_cqid epcmd) = Ok cq ->
  (cq_phases st' = cq_phases st /\ host_mem st' = host_mem st /\
   exists cq', get_cq st' (c_cqid epcmd) = Ok cq' /\ q_tail cq' = q_tail cq)
  \/
  (b = true /\
   cq_phases st'
   = <[Z.to_nat (c_cqid epcmd) := q_phase (cq_advance_tail cq)]> (cq_phases st)
   /\
   (exists cqe,
      host_mem st'
      = <[q_pci_addr cq + q_tail cq * q_qes cq := cqe]> (host_mem st)) /\
   exists cq', get_cq st' (c_cqid epcmd) = Ok cq' /\
               q_tail cq' = q_tail (cq_advance_tail cq) /\
               q_phase cq' = q_phase (cq_advance_tail cq) /\
               q_depth cq' = q_depth cq).
Proof.
  unfold pci_epf_nvme_queue_response. intros H Hcq. cbv zeta in H.
  destruct (negb (pci_epf_nvme_ctrl_ready st)).
  { injection H as <- <-. left. split_and!; [done|done|]. by exists cq. }
  rewrite Hcq in H. cbn [bind] in H.
  destruct (negb (has_bits (q_qflags cq) PCI_EPF_NVME_QUEUE_LIVE)).
  { injection H as <- <-. left. split_and!; [done|done|]. by exists cq. }
  set (cq1 := set_q_head cq _) in *.
  assert (get_cq (put_cq st (c_cqid epcmd) cq1) (c_cqid epcmd) = Ok cq1)
    as Hget1 by (unfold get_cq in *; simpl; by eapply array_get_set_eq).
  destruct (q_head cq1 =? q_tail cq1 + 1).
  { injection H as <- <-. left. split_and!.
    - unfold cq_phases. simpl. by eapply map_array_set.
    - done.
    - by exists cq1. }
  destruct (get_sq _ _) as [sq|]; [|discriminate]. cbn [bind] in H.
  assert (q_phase (cq_advance_tail cq1) = q_phase (cq_advance_tail cq) /\
          q_tail (cq_advance_tail cq1) = q_tail (cq_advance_tail cq) /\
          q_depth (cq_advance_tail cq1) = q_depth cq)
    as (Hph & Htl & Hdp).
  { unfold cq_advance_tail. simpl.
    destruct (q_depth cq <=? u16 (q_tail cq + 1)); done. }
  right.
  assert (b = true /\
          ctrl_cq (ctrl st')
          = array_set (array_set (ctrl_cq (ctrl st)) (c_cqid epcmd) cq1)
              (c_cqid epcmd) (cq_advance_tail cq1) /\
          exists cqe,
            host_mem st'
            = <[q_pci_addr cq + q_tail cq * q_qes cq := cqe]> (host_mem st))
    as (-> & Harr & Hmem).
  { destruct (negb (c_sqid epcmd =? 0) && _); injection H as <- <-;
      (split; [done|]); (split; [done|]); eexists; reflexivity. }
  split; [done|]. split; [|split; [exact Hmem|]].
  - unfold cq_phases. rewrite Harr. unfold array_set.
    rewrite list_insert_insert_eq, list_fmap_insert, Hph. reflexivity.
  - exists (cq_advance_tail cq1). split; [|done].
    unfold get_cq. rewrite Harr. eapply array_get_set_eq.
    unfold get_cq in Hget1. simpl in Hget1. exact Hget1.
Qed.


(** ** Activation by write data *)

Lemma queue_response_posts st epcmd cq sq :
  pci_epf_nvme_ctrl_ready st = true ->
  get_cq st (c_cqid epcmd) = Ok cq ->
  has_bits (q_qflags cq) PCI_EPF_NVME_QUEUE_LIVE = true ->
  u16 (pci_epf_nvme_reg_read32 (ctrl st) (q_db cq)) <> q_tail cq + 1 ->
  get_sq st (c_sqid epcmd) = Ok sq ->
  exists st' cqe,
    pci_epf_nvme_queue_response st epcmd = Ok (true, st') /\
    host_mem st' = <[q_pci_addr cq + q_tail cq * q_qes cq := cqe]> (host_mem st)
    /\
    cqe_command_id cqe = command_id (c_cmd epcmd) /\
    (c_sqid epcmd <> 0 /\ opcode (c_cmd epcmd) = nvme_cmd_write ->
     evil_wq st' = evil_wq st ++ [set_c_cqe epcmd cqe] /\
     freed st' = freed st) /\
    (c_sqid epcmd = 0 \/ opcode (c_cmd epcmd) <> nvme_cmd_write ->
     evil_wq st' = evil_wq st /\
     freed st' = freed st ++ [set_c_cqe epcmd cqe]).
Proof.
  intros Hready Hcq Hlive Hdb Hsq. unfold pci_epf_nvme_queue_response.
  rewrite Hready, Hcq. cbn [negb bind]. rewrite Hlive. cbn [negb].
  cbv zeta. cbn [q_head q_tail set_q_head].
  rewrite (proj2 (Z.eqb_neq _ _) Hdb).
  assert (forall q, get_sq (put_cq st (c_cqid epcmd) q) (c_sqid epcmd) = Ok sq)
    as -> by (intros q; exact Hsq).
  cbn [bind].
  destruct (negb (c_sqid epcmd =? 0) && (opcode (c_cmd epcmd) =? nvme_cmd_write))
    eqn:Hw; (eexists; eexists; split; [reflexivity|]); simpl;
    (split; [reflexivity|]); (split; [reflexivity|]).
  - split; [done|]. apply andb_true_iff in Hw as [Hs Ho].
    apply negb_true_iff, Z.eqb_neq in Hs. apply Z.eqb_eq in Ho.
    intros [?|?]; done.
  - split; [|done]. intros [Hs Ho].
    apply Z.eqb_neq in Hs. apply Z.eqb_eq in Ho.
    rewrite Hs, Ho in Hw. discriminate.
Qed.

Lemma evil_work_run st epcmd buf :
  c_buffer epcmd = Some buf ->
  NVME_EVIL_ACTIVATION_KEY_LEN <= Z.of_nat (length buf) ->
  exists st',
    pci_epf_nvme_evil_work st epcmd = Ok st' /\
    evil_activated st' = evil_activated st || activates epcmd buf /\
    freed st' = freed st ++ [epcmd] /\
    host_mem st' = host_mem st /\ ctrl st' = ctrl st.
Proof.
  intros Hbuf Hlen. unfold pci_epf_nvme_evil_work, activates, memcmp_eq.
  rewrite Hbuf. rewrite (proj2 (Z.ltb_ge _ _) Hlen).
  change (Z.to_nat NVME_EVIL_ACTIVATION_KEY_LEN) with 256%nat.
  destruct (c_buffer_size epcmd <=? SZ_128K); cbn [andb].
  - destruct (bool_decide _); cbn [bind]; eexists; (split; [reflexivity|]);
      simpl; rewrite ?orb_true_r, ?orb_false_r; done.
  - cbn [bind]. eexists. split; [reflexivity|]. simpl.
    rewrite orb_false_r. done.
Qed.

(** C1, on writes that are posted without a staged buffer.

    First a write to a namespace the backend does not have: the driver
    fetches it from slot 0 of submission queue 1,
    [pci_epf_nvme_process_io_cmd] finds no namespace and completes it with
    Invalid Namespace, its buffer NULL and its buffer size 0.  The
    completion work posts its entry and, the command being a write of an
    I/O queue, hands it to [evil_wq]; the work run there finds a size of
    at most 128 KiB and has [memcmp] read 256 bytes through the NULL
    buffer.

    Then a write to an existing namespace whose flags ask for an SGL:
    it is queued for execution with a buffer size of 512, the resolver
    refuses it before any buffer is allocated, the command is completed
    with Invalid Field and posted, and the work on [evil_wq] reads through
    the NULL buffer as well.

    In both runs the compare of the claim never takes place and
    [evil_activated] is not what the run ends on: it ends on the fault. *)
Theorem evil_work_reads_null_buffer :
  (exists st1 sq st2 w epcmd,
     pci_epf_nvme_fetch_cmd (host_rings_sq1 st_io 1) 1 sq_env_no_ns
     = Some (Ok (true, st1)) /\
     get_sq st1 1 = Ok sq /\ q_list sq = [write_no_ns] /\
     c_sqid write_no_ns = 1 /\
     opcode (c_cmd write_no_ns) = nvme_cmd_write /\
     pci_epf_nvme_process_io_cmd (sq_list_taken st1 1) write_no_ns None
     = Ok (st2, None) /\
     pci_epf_nvme_cq_work [] st2 1 = Ok w /\ cw_lost w = [] /\
     host_mem (cw_state w) !! cq1_slot 0
     = Some (mk_cqe 0 1 1 24
               (Z.lor (Z.shiftl (status_dnr NVME_SC_INVALID_NS) 1) 1)) /\
     evil_wq (cw_state w) = [epcmd] /\
     c_cmd epcmd = c_cmd write_no_ns /\
     c_buffer epcmd = None /\ c_buffer_size epcmd = 0 /\
     evil_wq_run (cw_state w) = Fault NullDeref) /\
  (exists queued st2 w epcmd,
     pci_epf_nvme_process_io_cmd st_io write_sgl (Some 9)
     = Ok (st_io, Some queued) /\
     c_buffer_size queued = 512 /\
     pci_epf_nvme_exec_cmd_work (ctrl st_io) cfg_dma xfer_one_list st_io
       exec_env_unused queued []
     = Some (Ok (st2, [], [ExResolve (- EINVAL)])) /\
     pci_epf_nvme_cq_work [] st2 1 = Ok w /\ cw_lost w = [] /\
     host_mem (cw_state w) !! cq1_slot 0
     = Some (mk_cqe 0 0 1 25
               (Z.lor (Z.shiftl (status_dnr NVME_SC_INVALID_FIELD) 1) 1)) /\
     evil_wq (cw_state w) = [epcmd] /\
     c_cmd epcmd = c_cmd write_sgl /\
     c_buffer epcmd = None /\ c_buffer_size epcmd = 512 /\
     evil_wq_run (cw_state w) = Fault NullDeref).
Proof.
  split.
  - eexists. eexists. eexists. eexists. eexists.
    split; [vm_compute; reflexivity|].
    split; [vm_compute; reflexivity|].
    split; [vm_compute; reflexivity|].
    split; [reflexivity|]. split; [reflexivity|].
    split; [vm_compute; reflexivity|].
    split; [vm_compute; reflexivity|].
    split; [reflexivity|].
    split; [vm_compute; reflexivity|].
    split; [vm_compute; reflexivity|].
    split; [reflexivity|]. split; [reflexivity|]. split; [reflexivity|].
    vm_compute. reflexivity.
  - eexists. eexists. eexists. eexists.
    split; [vm_compute; reflexivity|].
    split; [reflexivity|].
    split; [vm_compute; reflexivity|].
    split; [vm_compute; reflexivity|].
    split; [reflexivity|].
    split; [vm_compute; reflexivity|].
    split; [vm_compute; reflexivity|].
    split; [reflexivity|]. split; [reflexivity|]. split; [reflexivity|].
    vm_compute. reflexivity.
Qed.

(** ** PRP resolver *)

Lemma segs_total_app l1 l2 :
  segs_total (l1 ++ l2) = segs_total l1 + segs_total l2.
Proof.
  unfold segs_total. induction l1 as [|s l1 IH]; simpl; [done|].
  rewrite IH. lia.
Qed.

Lemma segs_total_nonneg l :
  Forall (fun s => 0 <= seg_size s) l -> 0 <= segs_total l.
Proof.
  unfold segs_total. induction 1 as [|s l Hs Hl IH]; simpl; lia.
Qed.

Lemma segs_total_take_S (l : list pci_epf_nvme_segment) k s :
  l !! k = Some s ->
  segs_total (take (S k) l) = segs_total (take k l) + seg_size s.
Proof.
  intros H. rewrite (take_S_r _ _ _ H), segs_total_app.
  unfold segs_total at 2. simpl. lia.
Qed.

Lemma segs_total_take_insert (l : list pci_epf_nvme_segment) k s :
  (k < length l)%nat ->
  segs_total (take (S k) (<[k := s]> l))
  = segs_total (take k l) + seg_size s.
Proof.
  intros H.
  rewrite (segs_total_take_S _ k s) by (by apply list_lookup_insert_eq).
  rewrite take_insert_ge by lia. reflexivity.
Qed.

Lemma status_dnr_error sc :
  sc = NVME_SC_INTERNAL \/ sc = NVME_SC_PRP_INVALID_OFFSET \/
  sc = NVME_SC_INVALID_FIELD ->
  prp_error_status (status_dnr sc).
Proof. unfold prp_error_status. intros [-> | [-> | ->]]; auto. Qed.

Lemma prp_size_range c prp : 0 <= pci_epf_nvme_prp_size c prp < 2 ^ 64.
Proof. apply u64_range. Qed.

(** The simple path: one segment of the whole length, or the rest of the
    first page and the remainder. *)
Lemma parse_prp_simple_ok c epcmd alloc_ok ret epcmd' :
  0 <= c_buffer_size epcmd < 2 ^ 64 ->
  pci_epf_nvme_cmd_parse_prp_simple c epcmd alloc_ok = (ret, epcmd') ->
  resolved_ok epcmd ret epcmd'.
Proof.
  intros HL. unfold pci_epf_nvme_cmd_parse_prp_simple, resolved_ok.
  cbv zeta.
  pose proof (prp_size_range c (prp1 (c_cmd epcmd))) as Hps.
  set (ps := pci_epf_nvme_prp_size c (prp1 (c_cmd epcmd))) in *.
  destruct (ps <? c_buffer_size epcmd) eqn:Hlt; cbn [andb].
  - apply Z.ltb_lt in Hlt.
    destruct (prp2 (c_cmd epcmd) =? 0).
    { intros [= <- <-]. split; [discriminate|]. intros _.
      apply status_dnr_error. auto. }
    destruct (negb (pci_epf_nvme_prp_ofst c (prp2 (c_cmd epcmd)) =? 0)).
    { intros [= <- <-]. split; [discriminate|]. intros _.
      apply status_dnr_error. auto. }
    destruct (negb (prp2 (c_cmd epcmd) =? u64 (prp1 (c_cmd epcmd) + ps))).
    + unfold pci_epf_nvme_alloc_cmd_segs. cbn [Z.eqb Pos.eqb].
      destruct alloc_ok; cbn [negb].
      * intros [= <- <-]. split; [|done]. intros _. split; [|done].
        unfold cmd_segments. simpl. unfold segs_total. simpl.
        change (Z.to_nat (u32 2)) with 2%nat. simpl.
        rewrite u64_small by lia. lia.
      * intros [= <- <-]. split; [discriminate|]. intros _.
        apply status_dnr_error. auto.
    + intros [= <- <-]. split; [|done]. intros _. split; [|done].
      unfold cmd_segments, segs_total. simpl. lia.
  - intros [= <- <-]. split; [|done]. intros _. split; [|done].
    unfold cmd_segments, segs_total. simpl. lia.
Qed.

Lemma seg_get_lookup (l : list pci_epf_nvme_segment) k s :
  0 <= k -> l !! Z.to_nat k = Some s -> seg_get l k = s.
Proof. intros _ H. unfold seg_get. rewrite H. reflexivity. Qed.

(** Appending [p] bytes to segment [k], the last one in use. *)
Lemma walk_append (l : list pci_epf_nvme_segment) k cur p size len :
  0 <= k -> l !! Z.to_nat k = Some cur ->
  Forall (fun s => 0 <= seg_size s) l ->
  segs_total (take (Z.to_nat (k + 1)) l) = size ->
  0 <= p -> size + p <= len -> len < 2 ^ 64 ->
  let l' := seg_set l k (mk_segment (seg_pci_addr cur)
                                    (u64 (seg_size cur + p))) in
  Forall (fun s => 0 <= seg_size s) l' /\
  length l' = length l /\
  segs_total (take (Z.to_nat (k + 1)) l') = u64 (size + p) /\
  u64 (size + p) = size + p.
Proof.
  intros Hk Hcur Hall Htot Hp Hle Hlen. cbv zeta. unfold seg_set.
  assert (Z.to_nat k < length l)%nat as Hlt by (by eapply lookup_lt_Some).
  replace (Z.to_nat (k + 1)) with (S (Z.to_nat k)) in * by lia.
  rewrite (segs_total_take_S _ _ _ Hcur) in Htot.
  assert (0 <= seg_size cur)
    by (rewrite Forall_lookup in Hall; by apply (Hall _ _ Hcur)).
  assert (0 <= segs_total (take (Z.to_nat k) l))
    by (apply segs_total_nonneg; by apply Forall_take).
  rewrite (u64_small (seg_size cur + p)) by lia.
  rewrite !(u64_small (size + p)) by lia.
  split; [|split; [|split]].
  - apply Forall_insert; [done|]. simpl. lia.
  - apply length_insert.
  - rewrite segs_total_take_insert by done. simpl. lia.
  - reflexivity.
Qed.

(** One turn keeps the invariant of the walk, and a turn that leaves the
    loop does so with an error. *)
Lemma prp_list_turn_inv c xfer len n w :
  0 <= ctrl_mps c -> 0 <= len < 2 ^ 64 ->
  walk_inv len n w -> w_size w < len ->
  match prp_list_turn c xfer len n w with
  | Ok (Next w') => walk_inv len n w' /\ w_size w <= w_size w' <= len
  | Ok (Leave ex w') => ex <> PrpDone
  | Fault _ => True
  end.
Proof.
  intros Hmps Hlen (Hseg & Hnr & Hle & Hn & Hn30 & Hall & Htot & Hsz) Hlt.
  unfold prp_list_turn. cbv zeta.
  rewrite (u64_small (len - w_size w)) by lia.
  set (fetched := if w_nr_prps w =? 0 then _ else _).
  destruct fetched as [[nr_prps i] buf].
  destruct ((w_nr_prps w =? 0) && (nr_prps <? 0)); [done|].
  destruct (buf !! Z.to_nat i) as [prp|]; [|done].
  destruct (prp =? 0); [done|].
  destruct ((ctrl_mps c <? len - w_size w) && (i =? nr_prps - 1)).
  { split; [|simpl; lia]. unfold walk_inv. simpl. done. }
  destruct (negb (pci_epf_nvme_prp_ofst c prp =? 0)); [done|].
  set (p := Z.min (ctrl_mps c) (len - w_size w)).
  assert (0 <= p /\ w_size w + p <= len) as [Hp Hple] by (unfold p; lia).
  destruct (negb (prp =? w_pci_addr w)); cbn [andb].
  - rewrite (s32_small (w_nr_segs w + 1)) by lia.
    destruct (n <? w_nr_segs w + 1) eqn:Hfull; [done|].
    apply Z.ltb_ge in Hfull.
    remember (w_seg w + 1) as k eqn:Hkdef.
    assert (Z.to_nat k < length (w_segs w))%nat as Hk by lia.
    set (segs1 := seg_set (w_segs w) k (mk_segment prp 0)).
    assert (segs1 !! Z.to_nat k = Some (mk_segment prp 0)) as Hcur
      by (by apply list_lookup_insert_eq).
    assert (0 <= k) as Hk0 by lia.
    rewrite (seg_get_lookup _ _ _ Hk0 Hcur).
    destruct (walk_append segs1 k (mk_segment prp 0) p (w_size w) len)
      as (Hall' & Hlen' & Htot' & Hsz'); try done; try lia.
    { apply Forall_insert; [done|]. simpl. lia. }
    { replace (Z.to_nat (k + 1)) with (S (Z.to_nat k)) by lia.
      unfold segs1, seg_set. rewrite segs_total_take_insert by done.
      simpl. rewrite <- Htot, Hnr. lia. }
    split; [|simpl; lia]. unfold walk_inv. cbn [w_segs w_seg w_size w_nr_segs].
    split; [lia|]. split; [lia|]. split; [lia|]. split.
    { rewrite Hlen'. unfold segs1, seg_set. rewrite length_insert. done. }
    split; [done|]. split; [done|]. split; [|lia].
    rewrite Hnr, <- Htot'. reflexivity.
  - remember (w_seg w) as k eqn:Hkdef.
    assert (Z.to_nat k < length (w_segs w))%nat as Hk by lia.
    destruct (lookup_lt_is_Some_2 _ _ Hk) as [cur Hcur].
    assert (0 <= k) as Hk0 by lia.
    rewrite (seg_get_lookup _ _ _ Hk0 Hcur).
    destruct (walk_append (w_segs w) k cur p (w_size w) len)
      as (Hall' & Hlen' & Htot' & Hsz'); try done; try lia.
    { rewrite <- Htot, Hnr. reflexivity. }
    split; [|simpl; lia]. unfold walk_inv. cbn [w_segs w_seg w_size w_nr_segs].
    split; [lia|]. split; [lia|]. split; [lia|]. split.
    { rewrite Hlen'. done. }
    split; [done|]. split; [done|]. split; [|lia].
    rewrite <- Htot', Hnr. reflexivity.
Qed.

(** The walk, however long it runs, leaves by [PrpDone] only with the
    invariant and with [transfer_len] reached. *)
Lemma prp_list_loop_inv c xfer len n : forall fuel w ex w',
  0 <= ctrl_mps c -> 0 <= len < 2 ^ 64 -> walk_inv len n w ->
  prp_list_loop c xfer fuel len n w = Some (Ok (ex, w')) ->
  ex = PrpDone -> walk_inv len n w' /\ len <= w_size w'.
Proof.
  induction fuel as [|fuel IH]; intros w ex w' Hmps Hlen Hinv Hrun Hex;
    cbn [prp_list_loop] in Hrun.
  - destruct (w_size w <? len) eqn:Hlt; cbn [negb] in Hrun; [discriminate|].
    injection Hrun as <- <-. apply Z.ltb_ge in Hlt. done.
  - destruct (w_size w <? len) eqn:Hlt; cbn [negb] in Hrun.
    + apply Z.ltb_lt in Hlt.
      pose proof (prp_list_turn_inv c xfer len n w Hmps Hlen Hinv Hlt) as Ht.
      destruct (prp_list_turn c xfer len n w) as [[w1|ex1 w1]|];
        [|injection Hrun as <- <-; done|discriminate].
      destruct Ht as [Hinv1 _]. by eapply IH.
    + injection Hrun as <- <-. apply Z.ltb_ge in Hlt. done.
Qed.

Lemma prp_ofst_range c prp :
  ctrl_wf c ->
  0 <= pci_epf_nvme_prp_ofst c prp < ctrl_mps c /\
  4096 <= ctrl_mps c <= 2 ^ 27.
Proof.
  intros (Hs & Hm & Hk & _). unfold pci_epf_nvme_prp_ofst.
  rewrite Hk, Hm. change (2 ^ ctrl_mps_shift c - 1) with
    (Z.pred (2 ^ ctrl_mps_shift c)).
  rewrite <- Z.ones_equiv, Z.land_ones by lia.
  split; [apply Z.mod_pos_bound; lia|].
  split.
  - change 4096 with (2 ^ 12). apply Z.pow_le_mono_r; lia.
  - apply Z.pow_le_mono_r; lia.
Qed.

Lemma prp_size_small c prp :
  ctrl_wf c ->
  pci_epf_nvme_prp_size c prp = ctrl_mps c - pci_epf_nvme_prp_ofst c prp /\
  0 < pci_epf_nvme_prp_size c prp <= ctrl_mps c.
Proof.
  intros Hwf. destruct (prp_ofst_range c prp Hwf) as [Ho Hm].
  unfold pci_epf_nvme_prp_size. rewrite u64_small by lia. lia.
Qed.

(** The list path: a success describes exactly [transfer_len] bytes. *)
Lemma parse_prp_list_ok c xfer fuel epcmd alloc_ok buf ret epcmd' buf' :
  ctrl_wf c ->
  0 <= c_buffer_size epcmd <= ctrl_mdts c ->
  NVME_CTRL_PAGE_SIZE * 2
  < c_buffer_size epcmd + pci_epf_nvme_prp_ofst c (prp1 (c_cmd epcmd)) ->
  pci_epf_nvme_cmd_parse_prp_list c xfer fuel epcmd alloc_ok buf
  = Some (Ok (ret, epcmd', buf')) ->
  resolved_ok epcmd ret epcmd'.
Proof.
  intros Hwf HL Hpath. pose proof Hwf as (_ & _ & _ & Hmdts).
  destruct (prp_ofst_range c (prp1 (c_cmd epcmd)) Hwf) as [Ho Hm].
  destruct (prp_size_small c (prp1 (c_cmd epcmd)) Hwf) as [Hps Hpsr].
  unfold PCI_EPF_NVME_MAX_MDTS_KB, SZ_1K in Hmdts.
  change (NVME_CTRL_PAGE_SIZE * 2) with 8192 in Hpath.
  unfold pci_epf_nvme_cmd_parse_prp_list, resolved_ok. cbv zeta.
  destruct (prp1 (c_cmd epcmd) =? 0).
  { intros [= <- <- <-]. split; [discriminate|]. intros _.
    apply status_dnr_error. auto. }
  set (ofst := pci_epf_nvme_prp_ofst c (prp1 (c_cmd epcmd))) in *.
  set (L := c_buffer_size epcmd) in *.
  change NVME_CTRL_PAGE_SIZE with 4096. change NVME_CTRL_PAGE_SHIFT with 12.
  rewrite (u64_small (L + ofst + 4096 - 1)) by lia.
  rewrite Z.shiftr_div_pow2 by lia.
  set (nr := (L + ofst + 4096 - 1) / 2 ^ 12).
  assert (3 <= nr < 2 ^ 16) as Hnr.
  { unfold nr. split.
    - apply Z.div_le_lower_bound; lia.
    - apply Z.div_lt_upper_bound; lia. }
  rewrite (s32_small nr) by lia.
  unfold pci_epf_nvme_alloc_cmd_segs.
  destruct (nr =? 1) eqn:Hnr1; [apply Z.eqb_eq in Hnr1; lia|].
  destruct alloc_ok; cbn [negb].
  2:{ cbn [Z.eqb negb Z.opp ENOMEM]. intros [= <- <- <-].
      split; [discriminate|]. intros _. apply status_dnr_error. auto. }
  cbn [Z.eqb negb]. cbn [c_segs set_c_segs c_nr_segs c_cmd].
  assert (u32 nr = nr) as -> by (unfold u32; apply Z.mod_small; lia).
  destruct (prp2 (c_cmd epcmd) =? 0).
  { intros [= <- <- <-]. split; [discriminate|]. intros _.
    apply status_dnr_error. auto. }
  set (segs0 := seg_set _ 0 _).
  set (w0 := mk_walk segs0 _ _ _ _ _ _ _ _).
  assert (walk_inv L nr w0) as Hinv0.
  { unfold walk_inv, w0, segs0, seg_set. simpl.
    split; [lia|]. split; [lia|]. split; [lia|]. split.
    { rewrite length_insert, length_replicate. lia. }
    split; [lia|]. split.
    { apply Forall_insert; [|simpl; lia].
      apply Forall_replicate. simpl. lia. }
    split; [|lia].
    change (Z.to_nat 1) with 1%nat. change (Z.to_nat 0) with 0%nat.
    rewrite segs_total_take_insert
      by (rewrite length_replicate; lia).
    simpl. unfold segs_total. simpl. lia. }
  destruct (prp_list_loop c xfer fuel L nr w0) as [[[ex w']|f]|] eqn:Hloop;
    [|discriminate|discriminate].
  destruct ex.
  - destruct (prp_list_loop_inv c xfer L nr fuel w0 PrpDone w')
      as [Hinv' Hge]; [lia|lia|done|done|done|].
    destruct (negb (w_size w' =? L)) eqn:Hne.
    + intros [= <- <- <-]. split; [discriminate|]. intros _.
      apply status_dnr_error. auto.
    + intros [= <- <- <-]. split; [|done]. intros _. split; [|done].
      apply negb_false_iff, Z.eqb_eq in Hne.
      destruct Hinv' as (_ & _ & _ & _ & _ & _ & Htot & _).
      unfold cmd_segments. simpl. rewrite Htot. exact Hne.
  - intros [= <- <- <-]. split; [discriminate|]. intros _.
    apply status_dnr_error. auto.
  - intros [= <- <- <-]. split; [discriminate|]. intros _.
    apply status_dnr_error. auto.
  - intros [= <- <- <-]. split; [discriminate|]. intros _.
    apply status_dnr_error. auto.
Qed.

Lemma alloc_cmd_buffer_segments epcmd heap ret epcmd' :
  pci_epf_nvme_alloc_cmd_buffer epcmd heap = (ret, epcmd') ->
  cmd_segments epcmd' = cmd_segments epcmd /\
  c_status epcmd' = c_status epcmd /\
  (ret = 0 -> c_buffer_size epcmd' = c_buffer_size epcmd /\
              is_Some (c_buffer epcmd')).
Proof.
  unfold pci_epf_nvme_alloc_cmd_buffer.
  destruct heap; intros [= <- <-]; (split; [done|]); (split; [done|]).
  - intros _. simpl. split; [done|]. eexists. reflexivity.
  - discriminate.
Qed.

(** The resolver as the dispatcher calls it. *)
Lemma parse_dptr_ok c xfer fuel epcmd alloc_ok heap buf ret epcmd' buf' :
  ctrl_wf c -> 0 <= c_buffer_size epcmd ->
  pci_epf_nvme_cmd_parse_dptr c xfer fuel epcmd alloc_ok heap buf
  = Some (Ok (ret, epcmd', buf')) ->
  (ret = 0 ->
   segs_total (cmd_segments epcmd') = c_buffer_size epcmd /\
   c_buffer_size epcmd' = c_buffer_size epcmd /\
   is_Some (c_buffer epcmd')) /\
  (ret <> 0 -> prp_error_status (c_status epcmd')).
Proof.
  intros Hwf HL. pose proof Hwf as (_ & _ & _ & Hmdts).
  destruct (prp_ofst_range c (prp1 (c_cmd epcmd)) Hwf) as [Ho Hm].
  unfold PCI_EPF_NVME_MAX_MDTS_KB, SZ_1K in Hmdts.
  unfold pci_epf_nvme_cmd_parse_dptr. cbv zeta.
  destruct (ctrl_mdts c <? c_buffer_size epcmd) eqn:Hmd.
  { intros [= <- <- <-]. split; [discriminate|]. intros _.
    apply status_dnr_error. auto. }
  apply Z.ltb_ge in Hmd.
  destruct (has_bits (flags (c_cmd epcmd)) NVME_CMD_SGL_ALL).
  { intros [= <- <- <-]. split; [discriminate|]. intros _.
    apply status_dnr_error. auto. }
  destruct (negb (Z.land _ 3 =? 0)).
  { intros [= <- <- <-]. split; [discriminate|]. intros _.
    apply status_dnr_error. auto. }
  set (ofst := pci_epf_nvme_prp_ofst c (prp1 (c_cmd epcmd))) in *.
  rewrite (u64_small (c_buffer_size epcmd + ofst)) by lia.
  set (parsed := if _ <=? _ then _ else _).
  assert (forall r e b, parsed = Some (Ok (r, e, b)) -> resolved_ok epcmd r e)
    as Hparsed.
  { intros r e b. unfold parsed.
    destruct (c_buffer_size epcmd + ofst <=? NVME_CTRL_PAGE_SIZE * 2) eqn:Hp.
    - destruct (pci_epf_nvme_cmd_parse_prp_simple c epcmd alloc_ok)
        as [r0 e0] eqn:Hs.
      intros [= <- <- <-]. eapply parse_prp_simple_ok; [lia | exact Hs].
    - apply Z.leb_gt in Hp. intros Hl.
      eapply parse_prp_list_ok; [exact Hwf | lia | exact Hp | exact Hl]. }
  destruct parsed as [[[[r e] b]|f]|]; [|discriminate|discriminate].
  specialize (Hparsed r e b eq_refl). destruct Hparsed as [Hok Herr].
  destruct (negb (r =? 0)) eqn:Hr.
  { intros [= <- <- <-]. apply negb_true_iff, Z.eqb_neq in Hr.
    split; [done|]. intros _. by apply Herr. }
  apply negb_false_iff, Z.eqb_eq in Hr. destruct (Hok Hr) as (Htot & _ & Hsz).
  destruct (pci_epf_nvme_alloc_cmd_buffer e heap) as [r2 e2] eqn:Halloc.
  apply alloc_cmd_buffer_segments in Halloc as (Hsegs & _ & Hbuf).
  destruct (negb (r2 =? 0)) eqn:Hr2.
  - intros [= <- <- <-]. apply negb_true_iff, Z.eqb_neq in Hr2.
    split; [done|]. intros _. apply status_dnr_error. auto.
  - intros [= <- <- <-]. apply negb_false_iff, Z.eqb_eq in Hr2.
    split; [|done]. intros _. rewrite Hsegs.
    destruct (Hbuf Hr2) as [Hbs Hsome].
    split; [exact Htot|]. split; [|exact Hsome].
    rewrite Hbs. exact Hsz.
Qed.

(** *** The walk ends *)







Lemma ctrl_4k_wf : ctrl_wf ctrl_4k.
Proof. unfold ctrl_wf. simpl. split_and!; try reflexivity; try lia; done. Qed.



(** Why the walk carries fuel: a list of one entry that points to itself
    is followed for ever.  No amount of fuel makes the resolver return. *)
Remark prp_list_walk_can_spin (fuel : nat) :
  pci_epf_nvme_cmd_parse_prp_list ctrl_4k xfer_self_list fuel write_self_list
    true (replicate 8 0)
  = None.
Proof.
  assert (forall f, prp_list_loop ctrl_4k xfer_self_list f 16384 4 walk_self
                    = None) as Hspin.
  { induction f as [|f IH]; [reflexivity|].
    cbn [prp_list_loop].
    change (w_size walk_self <? 16384) with true. cbn [negb].
    assert (prp_list_turn ctrl_4k xfer_self_list 16384 4 walk_self
            = Ok (Next walk_self)) as -> by (vm_compute; reflexivity).
    exact IH. }
  destruct fuel as [|fuel]; [reflexivity|].
  unfold pci_epf_nvme_cmd_parse_prp_list.
  cbv - [prp_list_loop prp_list_turn].
  match goal with
  | |- context [prp_list_loop ?c ?x (S fuel) ?l ?n ?w] =>
      assert (prp_list_loop c x (S fuel) l n w
              = prp_list_loop ctrl_4k xfer_self_list fuel 16384 4 walk_self)
        as ->
  end.
  { cbn [prp_list_loop].
    match goal with
    | |- context [prp_list_turn ?c ?x ?l ?n ?w] =>
        assert (prp_list_turn c x l n w = Ok (Next walk_self)) as ->
          by (vm_compute; reflexivity)
    end.
    reflexivity. }
  rewrite Hspin. reflexivity.
Qed.

(* ===================================================================== *)
(** * Further properties of the driver *)

(** Discharges the hypotheses of [H], one after the other, with [tac]. *)
Ltac feed H tac :=
  cbv zeta in H;
  repeat match type of H with
         | ?A -> _ =>
             let Ha := fresh "Ha" in
             assert A as Ha by tac; specialize (H Ha); clear Ha
         end.

(** ** Register file *)

Lemma u32_range x : 0 <= u32 x < 2 ^ 32.
Proof. unfold u32. apply Z.mod_pos_bound. reflexivity. Qed.

Lemma u32_small x : 0 <= x < 2 ^ 32 -> u32 x = x.
Proof. intros H. unfold u32. apply Z.mod_small. exact H. Qed.

Lemma land_low32 x : 0 <= x -> Z.land x 0xFFFFFFFF = x mod 2 ^ 32.
Proof. intros _. change 0xFFFFFFFF with (Z.ones 32). apply Z.land_ones. lia. Qed.

Lemma split_join_64 val :
  0 <= val < 2 ^ 64 ->
  Z.lor (Z.land val 0xFFFFFFFF)
        (u64 (Z.shiftl (Z.land (Z.shiftr val 32) 0xFFFFFFFF) 32)) = val.
Proof.
  intros Hv.
  assert (0 <= Z.shiftr val 32 < 2 ^ 32) as Hhi.
  { rewrite Z.shiftr_div_pow2 by lia. split.
    - apply Z.div_pos; lia.
    - apply Z.div_lt_upper_bound; lia. }
  rewrite (land_low32 (Z.shiftr val 32)) by lia.
  rewrite (Z.mod_small (Z.shiftr val 32)) by lia.
  rewrite u64_small.
  2:{ rewrite Z.shiftl_mul_pow2 by lia. lia. }
  apply Z.bits_inj'. intros n Hn.
  rewrite Z.lor_spec, Z.land_spec.
  change 0xFFFFFFFF with (Z.ones 32).
  destruct (Z.ltb_spec n 32) as [Hlt|Hge].
  - rewrite Z.shiftl_spec_low by lia.
    rewrite Z.ones_spec_low by lia.
    rewrite andb_true_r, orb_false_r. reflexivity.
  - rewrite Z.ones_spec_high by lia. rewrite andb_false_r. cbn [orb].
    rewrite Z.shiftl_spec by lia. rewrite Z.shiftr_spec by lia.
    f_equal. lia.
Qed.

Lemma reg_read32_write32_eq c reg val :
  pci_epf_nvme_reg_read32 (pci_epf_nvme_reg_write32 c reg val) reg = u32 val.
Proof.
  unfold pci_epf_nvme_reg_read32, pci_epf_nvme_reg_write32. cbn.
  rewrite lookup_insert_eq. cbn. apply u32_idemp.
Qed.

Lemma reg_read32_write32_ne c reg reg' val :
  reg <> reg' ->
  pci_epf_nvme_reg_read32 (pci_epf_nvme_reg_write32 c reg val) reg'
  = pci_epf_nvme_reg_read32 c reg'.
Proof.
  intros Hne.
  unfold pci_epf_nvme_reg_read32, pci_epf_nvme_reg_write32. cbn.
  rewrite lookup_insert_ne by exact Hne. reflexivity.
Qed.

Lemma reg_next_ne reg : reg <> u32 (reg + 4).
Proof.
  intros Heq. unfold u32 in Heq.
  assert (0 <= reg < 2 ^ 32) as Hr.
  { rewrite Heq. apply Z.mod_pos_bound. reflexivity. }
  destruct (Z.ltb_spec (reg + 4) (2 ^ 32)).
  - rewrite Z.mod_small in Heq by lia. lia.
  - replace (reg + 4) with (reg + 4 - 2 ^ 32 + 1 * 2 ^ 32) in Heq by lia.
    rewrite Z.mod_add in Heq by lia.
    rewrite Z.mod_small in Heq by lia. lia.
Qed.

Lemma reg_write64_read64_aux (c : pci_epf_nvme_ctrl) (reg val : Z) :
  0 <= val < 2 ^ 64 ->
  pci_epf_nvme_reg_read64 (pci_epf_nvme_reg_write64 c reg val) reg = val /\
  forall r, r <> reg -> r <> u32 (reg + 4) ->
    pci_epf_nvme_reg_read32 (pci_epf_nvme_reg_write64 c reg val) r
    = pci_epf_nvme_reg_read32 c r.
Proof.
  intros Hv. split.
  - unfold pci_epf_nvme_reg_read64, pci_epf_nvme_reg_write64.
    rewrite reg_read32_write32_eq.
    rewrite reg_read32_write32_ne by (apply not_eq_sym, reg_next_ne).
    rewrite reg_read32_write32_eq.
    assert (0 <= Z.land val 0xFFFFFFFF < 2 ^ 32) as H1.
    { rewrite land_low32 by lia. apply Z.mod_pos_bound. reflexivity. }
    assert (0 <= Z.land (Z.shiftr val 32) 0xFFFFFFFF < 2 ^ 32) as H2.
    { rewrite land_low32.
      - apply Z.mod_pos_bound. reflexivity.
      - apply Z.shiftr_nonneg. lia. }
    rewrite !u32_small by assumption.
    apply split_join_64. exact Hv.
  - intros r Hr1 Hr2. unfold pci_epf_nvme_reg_write64.
    rewrite reg_read32_write32_ne by (apply not_eq_sym; exact Hr2).
    rewrite reg_read32_write32_ne by (apply not_eq_sym; exact Hr1).
    reflexivity.
Qed.

(** X1.  A 64-bit register written with [pci_epf_nvme_reg_write64] reads
    back, through [pci_epf_nvme_reg_read64], as the value written, and
    every 32-bit register other than its two halves keeps its value. *)
Theorem reg_write64_read64 (c : pci_epf_nvme_ctrl) (reg val : Z) :
  0 <= val < 2 ^ 64 ->
  pci_epf_nvme_reg_read64 (pci_epf_nvme_reg_write64 c reg val) reg = val /\
  forall r, r <> reg -> r <> u32 (reg + 4) ->
    pci_epf_nvme_reg_read32 (pci_epf_nvme_reg_write64 c reg val) r
    = pci_epf_nvme_reg_read32 c r.
Proof. apply reg_write64_read64_aux. Qed.

Lemma reg_write64_read64_witness :
  pci_epf_nvme_reg_read64
    (pci_epf_nvme_reg_write64 ctrl_boot NVME_REG_ASQ 0x123456789abcdef0)
    NVME_REG_ASQ = 0x123456789abcdef0 /\
  pci_epf_nvme_reg_read32
    (pci_epf_nvme_reg_write64 ctrl_boot NVME_REG_ASQ 0x123456789abcdef0)
    NVME_REG_AQA = 0x001f001f.
Proof.
  destruct (reg_write64_read64 ctrl_boot NVME_REG_ASQ 0x123456789abcdef0)
    as [Hrt Hframe]; [lia|].
  split; [exact Hrt|].
  rewrite Hframe; [reflexivity| |]; vm_compute; discriminate.
Defined.

Lemma testbit_shiftl_1 k i :
  0 <= k -> 0 <= i -> Z.testbit (Z.shiftl 1 k) i = (k =? i).
Proof.
  intros Hk Hi. rewrite Z.shiftl_1_l. apply Z.pow2_bits_eqb. exact Hk.
Qed.

Lemma testbit_genmask_35_32 i :
  0 <= i -> Z.testbit GENMASK_35_32 i = (32 <=? i) && (i <? 36).
Proof.
  intros Hi. change GENMASK_35_32 with (Z.shiftl (Z.ones 4) 32).
  destruct (Z.ltb_spec i 32).
  - rewrite Z.shiftl_spec_low by lia.
    destruct (Z.leb_spec 32 i); [lia|reflexivity].
  - rewrite Z.shiftl_spec by lia.
    destruct (Z.leb_spec 32 i); [|lia]. cbn [andb].
    destruct (Z.ltb_spec i 36).
    + apply Z.ones_spec_low. lia.
    + apply Z.ones_spec_high. lia.
Qed.

Lemma init_cap_bits st fcap fvs fcfg i :
  0 <= i ->
  Z.testbit
    (ctrl_cap (ctrl (pci_epf_nvme_init_ctrl_regs st fcap fvs fcfg))) i
  = match cap_bit_forced i with
    | Some b => b
    | None => Z.testbit fcap i
    end.
Proof.
  intros Hi. cbn.
  rewrite !Z.ldiff_spec, !Z.lor_spec, !Z.ldiff_spec, Z.lor_spec.
  rewrite testbit_genmask_35_32 by exact Hi.
  change (Z.shiftl (NVME_CTRL_PAGE_SHIFT - 12) NVME_CC_MPS_SHIFT) with 0.
  rewrite Z.bits_0.
  rewrite !testbit_shiftl_1 by lia.
  unfold cap_bit_forced.
  destruct (Z.eqb_spec i 16) as [->|H16].
  { cbn. rewrite orb_true_r. reflexivity. }
  destruct (Z.eqb_spec 16 i); [lia|].
  destruct (Z.eqb_spec 36 i), (Z.eqb_spec 45 i), (Z.eqb_spec 56 i),
    (Z.eqb_spec 57 i), (Z.eqb_spec i 45), (Z.eqb_spec i 56),
    (Z.eqb_spec i 57), (Z.leb_spec 32 i), (Z.ltb_spec i 36),
    (Z.leb_spec i 36); try lia; cbn;
    rewrite ?andb_true_r, ?andb_false_r, ?orb_false_r; reflexivity.
Qed.

Lemma below_pow2_of_bits x n :
  0 <= n -> 0 <= x ->
  (forall i, n <= i -> Z.testbit x i = false) -> 0 <= x < 2 ^ n.
Proof.
  intros Hn Hx Hbits.
  assert (x mod 2 ^ n = x) as <-.
  { apply Z.bits_inj'. intros i Hi.
    destruct (Z.ltb_spec i n).
    - apply Z.mod_pow2_bits_low. lia.
    - rewrite Z.mod_pow2_bits_high by lia. symmetry. apply Hbits. lia. }
  apply Z.mod_pos_bound. apply Z.pow_pos_nonneg; lia.
Qed.

Lemma testbit_high_false x n i :
  0 <= x < 2 ^ n -> n <= i -> Z.testbit x i = false.
Proof.
  intros Hx Hi.
  destruct (Z.eq_dec x 0) as [->|Hne]; [apply Z.bits_0|].
  apply Z.bits_above_log2; [lia|].
  assert (Z.log2 x < n); [|lia].
  apply Z.log2_lt_pow2; lia.
Qed.

Lemma has_bits_0 m : has_bits 0 m = false.
Proof. unfold has_bits. rewrite Z.land_0_l. reflexivity. Qed.

(** X2.  After [pci_epf_nvme_init_ctrl_regs] the CAP register reads back
    the cached capabilities, which are those of the fabrics controller
    with CQR set and DSTRD, NSSRS, BPS, PMRS and CMBS cleared; every other
    bit, MQES and the page size limits MPSMIN/MPSMAX among them, is taken
    over unchanged.  CC.EN is clear, CSTS is zero in the cache and in the
    BAR, and the controller is not ready. *)
Theorem init_ctrl_regs_registers (st : pci_epf_nvme) (fcap fvs fcfg : Z) :
  0 <= fcap < 2 ^ 64 ->
  let st' := pci_epf_nvme_init_ctrl_regs st fcap fvs fcfg in
  pci_epf_nvme_reg_read64 (ctrl st') NVME_REG_CAP = ctrl_cap (ctrl st') /\
  (forall i, 0 <= i ->
     Z.testbit (ctrl_cap (ctrl st')) i
     = match cap_bit_forced i with
       | Some b => b
       | None => Z.testbit fcap i
       end) /\
  NVME_CAP_MQES (ctrl_cap (ctrl st')) = NVME_CAP_MQES fcap /\
  has_bits (ctrl_cc (ctrl st')) NVME_CC_ENABLE = false /\
  pci_epf_nvme_reg_read32 (ctrl st') NVME_REG_CC = u32 (ctrl_cc (ctrl st')) /\
  ctrl_csts (ctrl st') = 0 /\
  pci_epf_nvme_reg_read32 (ctrl st') NVME_REG_CSTS = 0 /\
  pci_epf_nvme_ctrl_ready st' = false.
Proof.
  intros Hcap st'.
  assert (forall i, 0 <= i ->
            Z.testbit (ctrl_cap (ctrl st')) i
            = match cap_bit_forced i with
              | Some b => b
              | None => Z.testbit fcap i
              end) as Hbits.
  { intros i Hi. apply init_cap_bits. exact Hi. }
  assert (0 <= ctrl_cap (ctrl st') < 2 ^ 64) as Hrange.
  { apply below_pow2_of_bits.
    - lia.
    - subst st'. cbn.
      repeat first [ apply Z.ldiff_nonneg; left
                   | apply Z.lor_nonneg; split; [|done] ].
      lia.
    - intros i Hi. rewrite Hbits by lia.
      unfold cap_bit_forced.
      destruct (Z.eqb_spec i 16); [lia|].
      destruct (Z.leb_spec i 36); [lia|].
      rewrite andb_false_r. cbn [orb].
      destruct (Z.eqb_spec i 45); [lia|].
      destruct (Z.eqb_spec i 56); [lia|].
      destruct (Z.eqb_spec i 57); [lia|]. cbn [orb].
      apply (testbit_high_false fcap 64); lia. }
  assert (has_bits (ctrl_cc (ctrl st')) NVME_CC_ENABLE = false) as Hen.
  { subst st'. cbn. unfold has_bits.
    rewrite <- Z.land_assoc. change (Z.land _ NVME_CC_ENABLE) with 0.
    rewrite Z.land_0_r. reflexivity. }
  split; [|split; [exact Hbits|split; [|split; [exact Hen|]]]].
  - unfold pci_epf_nvme_reg_read64.
    destruct (reg_write64_read64_aux
                (set_ctrl_csts
                   (set_ctrl_cc (set_ctrl_cap (ctrl st) (ctrl_cap (ctrl st')))
                      (ctrl_cc (ctrl st'))) 0)
                NVME_REG_CAP (ctrl_cap (ctrl st')) Hrange) as [Hrt _].
    etransitivity; [|exact Hrt]. unfold pci_epf_nvme_reg_read64.
    subst st'. unfold pci_epf_nvme_init_ctrl_regs. cbv zeta.
    cbn [ctrl set_ctrl].
    rewrite !(reg_read32_write32_ne _ _ NVME_REG_CAP) by discriminate.
    rewrite !(reg_read32_write32_ne _ _ (u32 (NVME_REG_CAP + 4)))
      by discriminate.
    reflexivity.
  - unfold NVME_CAP_MQES. apply Z.bits_inj'. intros i Hi.
    rewrite !Z.land_spec, Hbits by exact Hi.
    change 0xffff with (Z.ones 16).
    destruct (Z.ltb_spec i 16).
    + unfold cap_bit_forced.
      destruct (Z.eqb_spec i 16); [lia|].
      destruct (Z.leb_spec 32 i); [lia|]. cbn [andb orb].
      destruct (Z.eqb_spec i 45); [lia|].
      destruct (Z.eqb_spec i 56); [lia|].
      destruct (Z.eqb_spec i 57); [lia|]. reflexivity.
    + rewrite Z.ones_spec_high by lia. rewrite !andb_false_r. reflexivity.
  - repeat split.
    + subst st'. unfold pci_epf_nvme_init_ctrl_regs. cbv zeta.
      cbn [ctrl set_ctrl]. rewrite reg_read32_write32_eq. reflexivity.
    + subst st'. unfold pci_epf_nvme_init_ctrl_regs. cbv zeta.
      cbn [ctrl set_ctrl].
      rewrite reg_read32_write32_ne by discriminate.
      rewrite reg_read32_write32_eq. reflexivity.
    + unfold pci_epf_nvme_ctrl_ready.
      replace (ctrl_csts (ctrl st')) with 0 by reflexivity.
      rewrite has_bits_0, andb_false_r. destruct (negb _); reflexivity.
Qed.

Lemma init_ctrl_regs_registers_witness :
  ctrl_cap (ctrl (pci_epf_nvme_init_ctrl_regs st_boot fabrics_cap
                    0x10400 0x460001))
  = 0x3ff + Z.shiftl 4 48 + Z.shiftl 1 16 /\
  pci_epf_nvme_reg_read64
    (ctrl (pci_epf_nvme_init_ctrl_regs st_boot fabrics_cap 0x10400 0x460001))
    NVME_REG_CAP
  = 0x3ff + Z.shiftl 4 48 + Z.shiftl 1 16 /\
  pci_epf_nvme_ctrl_ready
    (pci_epf_nvme_init_ctrl_regs st_boot fabrics_cap 0x10400 0x460001)
  = false.
Proof.
  destruct (init_ctrl_regs_registers st_boot fabrics_cap 0x10400 0x460001)
    as (Hrt & _ & _ & _ & _ & _ & _ & Hready); [vm_compute; split; congruence|].
  split; [reflexivity|]. split; [rewrite Hrt; reflexivity|exact Hready].
Defined.

(** ** Queue deletion commands *)

Lemma get_cq_put_cq_eq st i q q' :
  get_cq st i = Ok q -> get_cq (put_cq st i q') i = Ok q'.
Proof. intros H. unfold get_cq, put_cq. cbn. by eapply array_get_set_eq. Qed.

Lemma get_sq_put_sq_eq st i q q' :
  get_sq st i = Ok q -> get_sq (put_sq st i q') i = Ok q'.
Proof. intros H. unfold get_sq, put_sq. cbn. by eapply array_get_set_eq. Qed.

Lemma array_get_set_ne (l : list pci_epf_nvme_queue) i j q :
  0 <= i -> 0 <= j -> i <> j ->
  array_get (array_set l i q) j = array_get l j.
Proof.
  intros Hi Hj Hne. unfold array_get, array_set.
  destruct (j <? 0); [reflexivity|].
  rewrite list_lookup_insert_ne by lia. reflexivity.
Qed.

Lemma process_delete_refused_cq st epcmd :
  delete_queue_qid (c_cmd epcmd) = 0 \/
  ctrl_nr_queues (ctrl st) <= delete_queue_qid (c_cmd epcmd) \/
  (exists cq, get_cq st (delete_queue_qid (c_cmd epcmd)) = Ok cq /\
              q_ref cq = 0) ->
  pci_epf_nvme_process_delete_cq st epcmd
  = Ok (st, set_c_status epcmd (status_dnr NVME_SC_QID_INVALID)).
Proof.
  intros H. unfold pci_epf_nvme_process_delete_cq.
  destruct (Z.eqb_spec (delete_queue_qid (c_cmd epcmd)) 0) as [|Hn0];
    [reflexivity|].
  destruct (Z.leb_spec (ctrl_nr_queues (ctrl st))
              (delete_queue_qid (c_cmd epcmd))); [reflexivity|].
  destruct H as [H|[H|(cq & Hcq & Href)]]; [lia|lia|].
  cbn [orb]. rewrite Hcq. cbn [bind]. rewrite Href. reflexivity.
Qed.

Lemma process_delete_refused_sq st epcmd :
  delete_queue_qid (c_cmd epcmd) = 0 \/
  ctrl_nr_queues (ctrl st) <= delete_queue_qid (c_cmd epcmd) \/
  (exists sq, get_sq st (delete_queue_qid (c_cmd epcmd)) = Ok sq /\
              q_ref sq = 0) ->
  pci_epf_nvme_process_delete_sq st epcmd
  = Ok (st, set_c_status epcmd (status_dnr NVME_SC_QID_INVALID)).
Proof.
  intros H. unfold pci_epf_nvme_process_delete_sq.
  destruct (Z.eqb_spec (delete_queue_qid (c_cmd epcmd)) 0) as [|Hn0];
    [reflexivity|].
  destruct (Z.leb_spec (ctrl_nr_queues (ctrl st))
              (delete_queue_qid (c_cmd epcmd))); [reflexivity|].
  destruct H as [H|[H|(sq & Hsq & Href)]]; [lia|lia|].
  cbn [orb]. rewrite Hsq. cbn [bind]. rewrite Href. reflexivity.
Qed.

Lemma process_delete_accepted_cq st epcmd cq :
  0 < delete_queue_qid (c_cmd epcmd) < ctrl_nr_queues (ctrl st) ->
  get_cq st (delete_queue_qid (c_cmd epcmd)) = Ok cq -> q_ref cq <> 0 ->
  pci_epf_nvme_process_delete_cq st epcmd
  = do st' <- pci_epf_nvme_delete_cq st (delete_queue_qid (c_cmd epcmd));
    Ok (st', epcmd).
Proof.
  intros Hq Hcq Href. unfold pci_epf_nvme_process_delete_cq.
  destruct (Z.eqb_spec (delete_queue_qid (c_cmd epcmd)) 0); [lia|].
  destruct (Z.leb_spec (ctrl_nr_queues (ctrl st))
              (delete_queue_qid (c_cmd epcmd))); [lia|].
  cbn [orb]. rewrite Hcq. cbn [bind].
  destruct (Z.eqb_spec (q_ref cq) 0); [lia|]. reflexivity.
Qed.

Lemma process_delete_accepted_sq st epcmd sq :
  0 < delete_queue_qid (c_cmd epcmd) < ctrl_nr_queues (ctrl st) ->
  get_sq st (delete_queue_qid (c_cmd epcmd)) = Ok sq -> q_ref sq <> 0 ->
  pci_epf_nvme_process_delete_sq st epcmd
  = do st' <- pci_epf_nvme_delete_sq st (delete_queue_qid (c_cmd epcmd));
    Ok (st', epcmd).
Proof.
  intros Hq Hsq Href. unfold pci_epf_nvme_process_delete_sq.
  destruct (Z.eqb_spec (delete_queue_qid (c_cmd epcmd)) 0); [lia|].
  destruct (Z.leb_spec (ctrl_nr_queues (ctrl st))
              (delete_queue_qid (c_cmd epcmd))); [lia|].
  cbn [orb]. rewrite Hsq. cbn [bind].
  destruct (Z.eqb_spec (q_ref sq) 0); [lia|]. reflexivity.
Qed.

(** X3.  The two queue deletion commands check the queue identifier
    against [nr_queues] before they index the queue arrays: on a
    controller whose arrays are as allocated they never read outside
    them.  Identifier 0 (an admin queue), an identifier out of range and a
    queue that is not in use are refused with Invalid Queue Identifier and
    the state is left as it was; any other command is handed to the queue
    manager and keeps its status. *)
Theorem process_delete_queue_checks (st : pci_epf_nvme)
    (epcmd : pci_epf_nvme_cmd) :
  disable_wf st ->
  let qid := delete_queue_qid (c_cmd epcmd) in
  let refused :=
    Ok (st, set_c_status epcmd (status_dnr NVME_SC_QID_INVALID)) in
  (qid = 0 \/ ctrl_nr_queues (ctrl st) <= qid ->
   pci_epf_nvme_process_delete_cq st epcmd = refused /\
   pci_epf_nvme_process_delete_sq st epcmd = refused) /\
  (0 < qid < ctrl_nr_queues (ctrl st) ->
   exists cq sq,
     get_cq st qid = Ok cq /\ get_sq st qid = Ok sq /\
     (if q_ref cq =? 0
      then pci_epf_nvme_process_delete_cq st epcmd = refused
      else exists st',
             pci_epf_nvme_delete_cq st qid = Ok st' /\
             pci_epf_nvme_process_delete_cq st epcmd = Ok (st', epcmd)) /\
     (if q_ref sq =? 0
      then pci_epf_nvme_process_delete_sq st epcmd = refused
      else exists st',
             pci_epf_nvme_delete_sq st qid = Ok st' /\
             pci_epf_nvme_process_delete_sq st epcmd = Ok (st', epcmd))).
Proof.
  intros Hwf qid refused. split.
  - intros H. split.
    + apply process_delete_refused_cq. tauto.
    + apply process_delete_refused_sq. tauto.
  - intros Hq.
    pose proof Hwf as ((Hl1 & Hl2) & _).
    destruct (array_get_lt (ctrl_cq (ctrl st)) qid) as [cq Hcq]; [lia|].
    destruct (array_get_lt (ctrl_sq (ctrl st)) qid) as [sq Hsq]; [lia|].
    exists cq, sq. split; [exact Hcq|]. split; [exact Hsq|]. split.
    + destruct (Z.eqb_spec (q_ref cq) 0) as [H0|Hn0].
      * apply process_delete_refused_cq. right. right. by exists cq.
      * destruct (delete_cq_ok st qid Hwf) as (st' & Hd & _); [lia|].
        exists st'. split; [exact Hd|].
        rewrite (process_delete_accepted_cq st epcmd cq Hq Hcq Hn0).
        fold qid. rewrite Hd. reflexivity.
    + destruct (Z.eqb_spec (q_ref sq) 0) as [H0|Hn0].
      * apply process_delete_refused_sq. right. right. by exists sq.
      * destruct (delete_sq_ok st qid Hwf) as (st' & Hd & _); [lia|].
        exists st'. split; [exact Hd|].
        rewrite (process_delete_accepted_sq st epcmd sq Hq Hsq Hn0).
        fold qid. rewrite Hd. reflexivity.
Qed.

Lemma st_io_disable_wf : disable_wf st_io.
Proof.
  split; [split; reflexivity|]. split; [vm_compute; discriminate|].
  vm_compute. repeat constructor; discriminate.
Qed.

Lemma process_delete_queue_checks_witness :
  pci_epf_nvme_process_delete_cq st_io (delete_queue_cmd 4 0)
  = Ok (st_io,
        set_c_status (delete_queue_cmd 4 0) (status_dnr NVME_SC_QID_INVALID))
  /\
  pci_epf_nvme_process_delete_sq st_io (delete_queue_cmd 4 0)
  = Ok (st_io,
        set_c_status (delete_queue_cmd 4 0) (status_dnr NVME_SC_QID_INVALID)).
Proof.
  destruct (process_delete_queue_checks st_io (delete_queue_cmd 4 0)
              st_io_disable_wf) as [H _].
  apply H. left. reflexivity.
Defined.

Lemma has_bits_ldiff_other x m k :
  Z.land k m = 0 -> has_bits (Z.ldiff x m) k = has_bits x k.
Proof.
  intros Hd. unfold has_bits. f_equal. f_equal.
  apply Z.bits_inj'. intros i Hi.
  rewrite !Z.land_spec, Z.ldiff_spec.
  assert (Z.testbit (Z.land k m) i = false) as Hb
    by (rewrite Hd; apply Z.bits_0).
  rewrite Z.land_spec in Hb.
  destruct (Z.testbit x i), (Z.testbit k i), (Z.testbit m i);
    cbn in *; congruence.
Qed.

(** X4.  A completion queue that still serves a submission queue can be
    deleted by the host: the command succeeds and only drops a reference.
    When the submission queue is deleted afterwards, the completion queue
    is left with no reference but still live, with the commands on its
    list not released, and a further [pci_epf_nvme_delete_cq] (the one a
    controller disable makes, too) returns without tearing it down. *)
Theorem delete_cq_before_sq_leaves_cq_live (st : pci_epf_nvme)
    (del_cq del_sq : pci_epf_nvme_cmd) (cq sq : pci_epf_nvme_queue) :
  let c := delete_queue_qid (c_cmd del_cq) in
  let s := delete_queue_qid (c_cmd del_sq) in
  0 < c < ctrl_nr_queues (ctrl st) ->
  0 < s < ctrl_nr_queues (ctrl st) ->
  get_cq st c = Ok cq -> q_ref cq = 2 -> queue_live cq = true ->
  get_sq st s = Ok sq -> q_ref sq = 1 -> q_cqid sq = c ->
  exists st1 st2 cq2 sq2,
    pci_epf_nvme_process_delete_cq st del_cq = Ok (st1, del_cq) /\
    pci_epf_nvme_process_delete_sq st1 del_sq = Ok (st2, del_sq) /\
    get_sq st2 s = Ok sq2 /\ q_ref sq2 = 0 /\ queue_live sq2 = false /\
    get_cq st2 c = Ok cq2 /\ q_ref cq2 = 0 /\ queue_live cq2 = true /\
    q_list cq2 = q_list cq /\
    pci_epf_nvme_delete_cq st2 c
    = Ok (set_queue_log st2 (queue_log st2 ++ [EvDeleteCq c])).
Proof.
  intros c s Hc Hs Hcq Href Hlive Hsq Hsref Hcqid.
  (* the deletion of the completion queue *)
  assert (pci_epf_nvme_delete_cq st c
          = Ok (put_cq (set_queue_log st (queue_log st ++ [EvDeleteCq c])) c
                  (set_q_ref cq 1))) as Hd1.
  { unfold pci_epf_nvme_delete_cq.
    assert (get_cq (set_queue_log st (queue_log st ++ [EvDeleteCq c])) c
            = Ok cq) as -> by exact Hcq.
    cbn [bind]. rewrite Href. reflexivity. }
  eexists _, _, _, _. split.
  { rewrite (process_delete_accepted_cq st del_cq cq); [|exact Hc|exact Hcq|lia].
    fold c. rewrite Hd1. reflexivity. }
  set (st1 := put_cq _ c (set_q_ref cq 1)).
  assert (get_sq st1 s = Ok sq) as Hsq1 by exact Hsq.
  assert (get_cq st1 c = Ok (set_q_ref cq 1)) as Hcq1.
  { subst st1. eapply get_cq_put_cq_eq. exact Hcq. }
  assert (ctrl_nr_queues (ctrl st1) = ctrl_nr_queues (ctrl st)) as Hn1
    by reflexivity.
  (* the deletion of the submission queue *)
  set (sq2 := set_q_list
                (set_q_cmd_wq
                   (set_q_qflags (set_q_ref sq 0)
                      (Z.ldiff (q_qflags sq) PCI_EPF_NVME_QUEUE_LIVE)) false)
                []).
  set (st1' := foldl pci_epf_nvme_free_cmd
                 (set_queue_log st1 (queue_log st1 ++ [EvDeleteSq s]))
                 (q_list sq)).
  assert (pci_epf_nvme_delete_sq st1 s
          = Ok (put_cq (put_sq st1' s sq2) c (set_q_ref cq 0))) as Hd2.
  { unfold pci_epf_nvme_delete_sq.
    assert (get_sq (set_queue_log st1 (queue_log st1 ++ [EvDeleteSq s])) s
            = Ok sq) as -> by exact Hsq1.
    cbn [bind]. rewrite Hsref. change (1 - 1) with 0. cbn [Z.eqb].
    unfold pci_epf_nvme_delete_queue.
    cbn [q_ref set_q_ref negb Z.eqb set_q_list set_q_cmd_wq set_q_qflags
         q_list q_cqid q_qflags].
    fold sq2. fold st1'.
    assert (get_cq (put_sq st1' s sq2) (q_cqid sq) = Ok (set_q_ref cq 1))
      as ->.
    { rewrite Hcqid. unfold get_cq, put_sq. cbn [ctrl set_ctrl ctrl_cq set_ctrl_sq].
      subst st1'. rewrite free_cmds_ctrl. exact Hcq1. }
    cbn [bind q_ref set_q_ref Z.eqb negb]. rewrite Hcqid.
    change (1 - 1) with 0. reflexivity. }
  split.
  { rewrite (process_delete_accepted_sq st1 del_sq sq);
      [|rewrite Hn1; exact Hs|exact Hsq1|lia].
    fold s. rewrite Hd2. reflexivity. }
  assert (get_cq (put_sq st1' s sq2) c = Ok (set_q_ref cq 1)) as Hcq1'.
  { unfold get_cq, put_sq. cbn [ctrl set_ctrl ctrl_cq set_ctrl_sq].
    subst st1'. rewrite free_cmds_ctrl. exact Hcq1. }
  split.
  { unfold get_sq, put_cq. cbn [ctrl set_ctrl ctrl_sq set_ctrl_cq].
    change (array_get (ctrl_sq (ctrl (put_sq st1' s sq2))) s)
      with (get_sq (put_sq st1' s sq2) s).
    eapply get_sq_put_sq_eq.
    unfold get_sq. subst st1'. rewrite free_cmds_ctrl. exact Hsq1. }
  split; [reflexivity|]. split.
  { unfold queue_live. cbn. apply has_bits_ldiff. }
  split; [eapply get_cq_put_cq_eq; exact Hcq1'|].
  split; [reflexivity|]. split; [exact Hlive|]. split; [reflexivity|].
  unfold pci_epf_nvme_delete_cq.
  match goal with
  | |- context [get_cq (set_queue_log ?x ?l) c] =>
      assert (get_cq (set_queue_log x l) c = Ok (set_q_ref cq 0)) as ->
  end.
  { eapply (get_cq_put_cq_eq (put_sq st1' s sq2)). exact Hcq1'. }
  reflexivity.
Qed.

Lemma delete_cq_before_sq_leaves_cq_live_witness :
  exists st1 st2 cq2,
    pci_epf_nvme_process_delete_cq st_io (delete_queue_cmd 4 1)
    = Ok (st1, delete_queue_cmd 4 1) /\
    pci_epf_nvme_process_delete_sq st1 (delete_queue_cmd 0 1)
    = Ok (st2, delete_queue_cmd 0 1) /\
    get_cq st2 1 = Ok cq2 /\ q_ref cq2 = 0 /\ queue_live cq2 = true.
Proof.
  pose proof (delete_cq_before_sq_leaves_cq_live st_io (delete_queue_cmd 4 1)
                (delete_queue_cmd 0 1) cq1_created sq1_created) as H.
  feed H ltac:(vm_compute; done).
  destruct H as (st1 & st2 & cq2 & sq2 & H1 & H2 & _ & _ & _ & H3 & H4 & H5 & _).
  exists st1, st2, cq2. done.
Defined.

(** ** Features *)

Lemma io_queue_in_use_spec st qids :
  queues_wf st ->
  Forall (fun qid => 0 <= qid < ctrl_nr_queues (ctrl st)) qids ->
  exists b,
    io_queue_in_use st qids = Ok b /\
    (b = false <->
     forall qid, qid ∈ qids ->
       (forall sq, get_sq st qid = Ok sq -> q_ref sq = 0) /\
       (forall cq, get_cq st qid = Ok cq -> q_ref cq = 0)).
Proof.
  intros (Hl1 & Hl2) Hall. induction Hall as [|qid qids Hq Hall IH].
  - exists false. split; [reflexivity|]. split; [|reflexivity].
    intros _ qid Hin. by apply elem_of_nil in Hin.
  - destruct (array_get_lt (ctrl_sq (ctrl st)) qid) as [sq Hsq]; [lia|].
    destruct (array_get_lt (ctrl_cq (ctrl st)) qid) as [cq Hcq]; [lia|].
    cbn [io_queue_in_use]. unfold get_sq at 1, get_cq at 1.
    rewrite Hsq. cbn [bind].
    destruct (Z.eqb_spec (q_ref sq) 0) as [Hs0|Hs0]; cbn [negb].
    2:{ exists true. split; [reflexivity|]. split; [discriminate|].
        intros H. exfalso. apply Hs0.
        destruct (H qid) as [Hs' _]; [apply list_elem_of_here|].
        apply (Hs' sq). exact Hsq. }
    rewrite Hcq. cbn [bind].
    destruct (Z.eqb_spec (q_ref cq) 0) as [Hc0|Hc0]; cbn [negb].
    2:{ exists true. split; [reflexivity|]. split; [discriminate|].
        intros H. exfalso. apply Hc0.
        destruct (H qid) as [_ Hc']; [apply list_elem_of_here|].
        apply (Hc' cq). exact Hcq. }
    destruct IH as (b & Hb & Hiff). exists b. split; [exact Hb|].
    rewrite Hiff. split.
    + intros H q' Hin. apply elem_of_cons in Hin as [->|Hin]; [|by apply H].
      split; [intros sq' Hsq'|intros cq' Hcq'];
        unfold get_sq, get_cq in *; congruence.
    + intros H q' Hin. apply H. by apply list_elem_of_further.
Qed.

Lemma io_qids_elem n qid : qid ∈ io_qids n <-> 1 <= qid < n.
Proof. unfold io_qids. rewrite elem_of_seqZ. lia. Qed.

Lemma lo16_result_u32 e v :
  0 <= v < 2 ^ 32 ->
  lo16 (cqe_result (set_result_u32 e v)) = lo16 v /\
  hi16 (cqe_result (set_result_u32 e v)) = hi16 v.
Proof.
  intros Hv. cbn [set_result_u32 cqe_result]. rewrite (u32_small v) by exact Hv.
  unfold lo16, hi16. change 0xffff with (Z.ones 16).
  split; apply Z.bits_inj'; intros i Hi;
    rewrite !Z.land_spec, ?Z.shiftr_spec by lia;
    rewrite Z.lor_spec, Z.ldiff_spec;
    change 0xffffffff with (Z.ones 32);
    (destruct (Z.ltb_spec i 16);
     [ rewrite (Z.ones_spec_low 32) by lia;
       cbn [negb]; rewrite andb_false_r; reflexivity
     | rewrite (Z.ones_spec_high 16) by lia;
       rewrite !andb_false_r; reflexivity ]).
Qed.

Lemma nr_ioq_halves c :
  2 <= ctrl_nr_queues c <= 65537 ->
  0 <= nr_ioq_result c < 2 ^ 32 /\
  lo16 (nr_ioq_result c) = ctrl_nr_queues c - 2 /\
  hi16 (nr_ioq_result c) = ctrl_nr_queues c - 2.
Proof.
  intros Hn. unfold nr_ioq_result. cbv zeta.
  rewrite (u16_small (ctrl_nr_queues c - 2)) by lia.
  set (n := ctrl_nr_queues c - 2). assert (0 <= n < 2 ^ 16) as Hr by lia.
  clearbody n.
  split; [apply u32_range|].
  assert (Z.lor n (Z.shiftl n 16) = n + n * 2 ^ 16) as Hsum.
  { rewrite Z.shiftl_mul_pow2 by lia.
    rewrite <- Z.lxor_lor, <- Z.add_nocarry_lxor; [reflexivity| |];
      (apply Z.bits_inj'; intros i Hi; rewrite Z.land_spec, Z.bits_0;
       destruct (Z.ltb_spec i 16);
       [ rewrite Z.mul_pow2_bits_low by lia; apply andb_false_r
       | rewrite (testbit_high_false n 16) by lia; reflexivity ]). }
  rewrite Hsum. rewrite u32_small by lia.
  unfold lo16, hi16. change 0xffff with (Z.ones 16).
  rewrite !Z.land_ones by lia. rewrite Z.shiftr_div_pow2 by lia.
  split.
  - rewrite Z.mod_add by lia. apply Z.mod_small. lia.
  - rewrite Z.div_add by lia. rewrite (Z.div_small n) by lia.
    apply Z.mod_small. lia.
Qed.

(** X5.  Set Features / Number of Queues.  A request for 0xffff queues of
    either kind is refused with Invalid Field; otherwise the command is
    refused with Command Sequence Error when any I/O queue exists; and
    otherwise it succeeds and reports [nr_queues - 2] for both kinds,
    whatever number the host asked for.  Get Features reports the same
    value.  The scan of the queues stays inside the queue arrays. *)
Theorem set_features_num_queues (st : pci_epf_nvme)
    (epcmd : pci_epf_nvme_cmd) :
  queues_wf st ->
  2 <= ctrl_nr_queues (ctrl st) <= PCI_EPF_NVME_MAX_NR_QUEUES ->
  Z.land (u32 (cdw10 (c_cmd epcmd))) 0xff = NVME_FEAT_NUM_QUEUES ->
  let ncqr := hi16 (u32 (cdw11 (c_cmd epcmd))) in
  let nsqr := lo16 (u32 (cdw11 (c_cmd epcmd))) in
  exists epcmd' epcmd'',
    pci_epf_nvme_process_set_features st epcmd = Ok (true, epcmd') /\
    (ncqr = 0xffff \/ nsqr = 0xffff ->
     epcmd' = set_c_status epcmd (status_dnr NVME_SC_INVALID_FIELD)) /\
    (ncqr <> 0xffff -> nsqr <> 0xffff -> ~ io_queues_idle st ->
     epcmd' = set_c_status epcmd (status_dnr NVME_SC_CMD_SEQ_ERROR)) /\
    (ncqr <> 0xffff -> nsqr <> 0xffff -> io_queues_idle st ->
     c_status epcmd' = c_status epcmd /\
     lo16 (cqe_result (c_cqe epcmd')) = ctrl_nr_queues (ctrl st) - 2 /\
     hi16 (cqe_result (c_cqe epcmd')) = ctrl_nr_queues (ctrl st) - 2) /\
    pci_epf_nvme_process_get_features st epcmd = (true, epcmd'') /\
    c_status epcmd'' = c_status epcmd /\
    lo16 (cqe_result (c_cqe epcmd'')) = ctrl_nr_queues (ctrl st) - 2 /\
    hi16 (cqe_result (c_cqe epcmd'')) = ctrl_nr_queues (ctrl st) - 2.
Proof.
  intros Hwf Hn Hfeat ncqr nsqr.
  unfold PCI_EPF_NVME_MAX_NR_QUEUES in Hn.
  destruct (nr_ioq_halves (ctrl st)) as (Hr & Hlo & Hhi); [lia|].
  destruct (lo16_result_u32 (c_cqe epcmd) (nr_ioq_result (ctrl st)) Hr)
    as [Hlo' Hhi'].
  destruct (io_queue_in_use_spec st (io_qids (ctrl_nr_queues (ctrl st))) Hwf)
    as (b & Hb & Hiff).
  { eapply Forall_impl; [apply io_qids_range|]. cbn. lia. }
  assert (b = false <-> io_queues_idle st) as Hidle.
  { rewrite Hiff. unfold io_queues_idle.
    split; intros H qid Hq; apply H; by apply io_qids_elem. }
  unfold pci_epf_nvme_process_set_features, pci_epf_nvme_process_get_features.
  cbv zeta. rewrite Hfeat. cbn [Z.eqb Pos.eqb NVME_FEAT_NUM_QUEUES].
  fold (hi16 (u32 (cdw11 (c_cmd epcmd)))). fold ncqr.
  fold (lo16 (u32 (cdw11 (c_cmd epcmd)))). fold nsqr.
  destruct (Z.eqb_spec ncqr 0xffff) as [Hc|Hc].
  { eexists _, _. split; [reflexivity|]. split; [reflexivity|].
    split; [tauto|]. split; [tauto|]. split; [reflexivity|].
    cbn [set_c_cqe c_status c_cqe]. rewrite Hlo', Hhi'. tauto. }
  destruct (Z.eqb_spec nsqr 0xffff) as [Hs|Hs].
  { eexists _, _. split; [reflexivity|]. split; [reflexivity|].
    split; [tauto|]. split; [tauto|]. split; [reflexivity|].
    cbn [set_c_cqe c_status c_cqe]. rewrite Hlo', Hhi'. tauto. }
  cbn [orb]. rewrite Hb. cbn [bind].
  destruct b.
  - eexists _, _. split; [reflexivity|]. split; [tauto|].
    split; [reflexivity|]. split.
    + intros _ _ Hi. apply Hidle in Hi. discriminate.
    + split; [reflexivity|].
      cbn [set_c_cqe c_status c_cqe]. rewrite Hlo', Hhi'. tauto.
  - eexists _, _. split; [reflexivity|]. split; [tauto|]. split.
    + intros _ _ Hni. exfalso. apply Hni. by apply Hidle.
    + split; [|split; [reflexivity|]];
        cbn [set_c_cqe c_status c_cqe]; rewrite Hlo', Hhi'; tauto.
Qed.

Lemma st_ready_queues_wf : queues_wf st_ready.
Proof. split; reflexivity. Qed.

Lemma set_features_num_queues_witness :
  exists epcmd',
    pci_epf_nvme_process_set_features st_ready
      (features_cmd 9 NVME_FEAT_NUM_QUEUES 0x00070007) = Ok (true, epcmd') /\
    c_status epcmd' = NVME_SC_SUCCESS /\
    lo16 (cqe_result (c_cqe epcmd')) = 2 /\
    hi16 (cqe_result (c_cqe epcmd')) = 2.
Proof.
  destruct (set_features_num_queues st_ready
              (features_cmd 9 NVME_FEAT_NUM_QUEUES 0x00070007)
              st_ready_queues_wf)
    as (e1 & e2 & Hrun & _ & _ & Hok & _); [vm_compute; done|reflexivity|].
  exists e1. split; [exact Hrun|].
  apply Hok; [vm_compute; discriminate|vm_compute; discriminate|].
  intros qid Hq. change (ctrl_nr_queues (ctrl st_ready)) with 4 in Hq.
  assert (qid = 1 \/ qid = 2 \/ qid = 3) as [-> | [-> | ->]] by lia;
    (split; intros q Hget; vm_compute in Hget; injection Hget as Hq';
     by rewrite <- Hq').
Defined.

(** ** Reference counting of queue pairs *)

Lemma get_cq_free_cmds st l i :
  get_cq (foldl pci_epf_nvme_free_cmd st l) i = get_cq st i.
Proof. unfold get_cq. by rewrite free_cmds_ctrl. Qed.

Lemma get_sq_free_cmds st l i :
  get_sq (foldl pci_epf_nvme_free_cmd st l) i = get_sq st i.
Proof. unfold get_sq. by rewrite free_cmds_ctrl. Qed.

Lemma freed_free_cmds l : forall st,
  freed (foldl pci_epf_nvme_free_cmd st l) = freed st ++ l.
Proof.
  induction l as [|x l IH]; intros st; cbn [foldl].
  - by rewrite app_nil_r.
  - rewrite IH. cbn. by rewrite <- app_assoc.
Qed.

Lemma queue_pair_round_trip_aux (st : pci_epf_nvme)
    (c s cflags csize vector caddr sflags ssize saddr : Z)
    (cq0 sq0 : pci_epf_nvme_queue) :
  0 <= c < 65536 ->
  get_cq st c = Ok cq0 -> q_ref cq0 = 0 ->
  get_sq st s = Ok sq0 ->
  exists st1 st2 st3 st4 cq2 sq2 cq3 sq3 cq4,
    pci_epf_nvme_create_cq st c cflags csize vector caddr = Ok (0, st1) /\
    pci_epf_nvme_create_sq st1 s c sflags ssize saddr true = Ok (0, st2) /\
    get_cq st2 c = Ok cq2 /\ q_ref cq2 = 2 /\ queue_live cq2 = true /\
    get_sq st2 s = Ok sq2 /\ q_ref sq2 = 1 /\ queue_live sq2 = true /\
    q_cqid sq2 = c /\
    pci_epf_nvme_delete_sq st2 s = Ok st3 /\
    get_sq st3 s = Ok sq3 /\ q_ref sq3 = 0 /\ queue_live sq3 = false /\
    get_cq st3 c = Ok cq3 /\ q_ref cq3 = 1 /\ queue_live cq3 = true /\
    pci_epf_nvme_delete_cq st3 c = Ok st4 /\
    get_cq st4 c = Ok cq4 /\ q_ref cq4 = 0 /\ queue_live cq4 = false /\
    q_list cq4 = [] /\
    freed st4 = freed st ++ q_list sq0 ++ q_list cq0.
Proof.
  intros Hc Hcq Href Hsq.
  (* create the completion queue *)
  unfold pci_epf_nvme_create_cq. rewrite Hcq. cbn [bind]. rewrite Href.
  change (s32 (0 + 1)) with 1. cbn [Z.ltb Z.compare Pos.compare Pos.compare_cont].
  cbv zeta.
  match goal with
  | |- context [Ok (0, put_cq ?x c ?q)] => set (st1 := put_cq x c q); set (cq1 := q) in st1
  end.
  assert (get_cq st1 c = Ok cq1) as Hcq1 by (by eapply get_cq_put_cq_eq).
  assert (get_sq st1 s = Ok sq0) as Hsq1 by exact Hsq.
  exists st1.
  (* create the submission queue *)
  unfold pci_epf_nvme_create_sq. rewrite Hsq1. cbn [bind negb]. cbv zeta.
  match goal with
  | |- context [get_cq (put_sq ?x s ?q) c] =>
      set (st1a := put_sq x s q); set (sq1 := q) in st1a
  end.
  assert (get_cq st1a c = Ok cq1) as Hcq1a by exact Hcq1.
  rewrite Hcq1a. cbn [bind].
  change (s32 (q_ref cq1 + 1)) with 2.
  match goal with
  | |- context [Ok (0, put_sq ?x s ?q)] => set (st2 := put_sq x s q); set (sq2 := q) in st2
  end.
  set (cq2 := set_q_sq (set_q_ref cq1 2) (Some s)).
  assert (get_sq st1a s = Ok sq1) as Hsq1a by (by eapply get_sq_put_sq_eq).
  assert (get_sq st2 s = Ok sq2) as Hsq2.
  { subst st2. eapply get_sq_put_sq_eq. exact Hsq1a. }
  assert (get_cq st2 c = Ok cq2) as Hcq2.
  { subst st2. apply (get_cq_put_cq_eq st1a c cq1). exact Hcq1a. }
  assert (q_cqid sq2 = c) as Hcqid by (cbn; apply u16_small; lia).
  (* delete the submission queue *)
  set (sq3 := set_q_list
                (set_q_cmd_wq
                   (set_q_qflags (set_q_ref sq2 0)
                      (Z.ldiff (q_qflags sq2) PCI_EPF_NVME_QUEUE_LIVE)) false)
                []).
  set (st2' := foldl pci_epf_nvme_free_cmd
                 (set_queue_log st2 (queue_log st2 ++ [EvDeleteSq s]))
                 (q_list sq0)).
  set (cq3 := set_q_ref cq2 1).
  set (st3 := put_cq (put_sq st2' s sq3) c cq3).
  assert (get_cq (put_sq st2' s sq3) c = Ok cq2) as Hcq2'.
  { unfold get_cq, put_sq. cbn [ctrl set_ctrl ctrl_cq set_ctrl_sq].
    subst st2'. rewrite free_cmds_ctrl. exact Hcq2. }
  assert (pci_epf_nvme_delete_sq st2 s = Ok st3) as Hd3.
  { unfold pci_epf_nvme_delete_sq.
    assert (get_sq (set_queue_log st2 (queue_log st2 ++ [EvDeleteSq s])) s
            = Ok sq2) as -> by exact Hsq2.
    cbn [bind]. change (q_ref sq2) with 1. change (1 - 1) with 0.
    cbn [Z.eqb]. unfold pci_epf_nvme_delete_queue.
    cbn [q_ref set_q_ref negb Z.eqb set_q_list set_q_cmd_wq set_q_qflags
         q_list q_qflags].
    change (q_list sq2) with (q_list sq0). fold sq3. fold st2'.
    change (q_cqid sq3) with (q_cqid sq2). rewrite Hcqid, Hcq2'.
    cbn [bind]. change (q_ref cq2) with 2. reflexivity. }
  assert (get_sq st3 s = Ok sq3) as Hsq3.
  { subst st3. unfold get_sq, put_cq. cbn [ctrl set_ctrl ctrl_sq set_ctrl_cq].
    change (array_get (ctrl_sq (ctrl (put_sq st2' s sq3))) s)
      with (get_sq (put_sq st2' s sq3) s).
    eapply get_sq_put_sq_eq. subst st2'. rewrite get_sq_free_cmds.
    exact Hsq2. }
  assert (get_cq st3 c = Ok cq3) as Hcq3.
  { subst st3. eapply get_cq_put_cq_eq. exact Hcq2'. }
  (* delete the completion queue *)
  set (cq4 := set_q_list
                (set_q_cmd_wq
                   (set_q_qflags (set_q_ref cq3 0)
                      (Z.ldiff (q_qflags cq3) PCI_EPF_NVME_QUEUE_LIVE)) false)
                []).
  set (st3' := foldl pci_epf_nvme_free_cmd
                 (set_queue_log st3 (queue_log st3 ++ [EvDeleteCq c]))
                 (q_list cq0)).
  assert (pci_epf_nvme_delete_cq st3 c = Ok (put_cq st3' c cq4)) as Hd4.
  { unfold pci_epf_nvme_delete_cq.
    assert (get_cq (set_queue_log st3 (queue_log st3 ++ [EvDeleteCq c])) c
            = Ok cq3) as -> by exact Hcq3.
    cbn [bind]. change (q_ref cq3) with 1. change (1 - 1) with 0.
    cbn [Z.ltb Z.compare Pos.compare Pos.compare_cont Z.eqb negb q_ref
         set_q_ref].
    unfold pci_epf_nvme_delete_queue.
    cbn [q_ref set_q_ref negb Z.eqb set_q_list set_q_cmd_wq set_q_qflags
         q_list q_qflags].
    reflexivity. }
  exists st2, st3, (put_cq st3' c cq4), cq2, sq2, cq3, sq3, cq4.
  split; [reflexivity|]. split; [reflexivity|].
  split; [exact Hcq2|]. split; [reflexivity|]. split; [reflexivity|].
  split; [exact Hsq2|]. split; [reflexivity|]. split; [reflexivity|].
  split; [exact Hcqid|]. split; [exact Hd3|].
  split; [exact Hsq3|]. split; [reflexivity|].
  split; [unfold queue_live; cbn; apply has_bits_ldiff|].
  split; [exact Hcq3|]. split; [reflexivity|]. split; [reflexivity|].
  split; [exact Hd4|]. split.
  { eapply get_cq_put_cq_eq. subst st3'. rewrite get_cq_free_cmds.
    exact Hcq3. }
  split; [reflexivity|].
  split; [unfold queue_live; cbn; apply has_bits_ldiff|].
  split; [reflexivity|].
  cbn [put_cq freed set_ctrl]. subst st3'. rewrite freed_free_cmds.
  cbn [freed set_queue_log]. subst st3. cbn [put_cq put_sq freed set_ctrl].
  subst st2'. rewrite freed_free_cmds. cbn. by rewrite <- app_assoc.
Qed.

(** X6.  Creating a completion queue in a free slot, binding a submission
    queue to it, and deleting them in the reverse order brings both back
    to no reference and not live.  In between the completion queue holds
    two references (its own and the submission queue's), and deleting the
    submission queue gives one back.  The commands that were on the lists
    of the two slots are released, those of the submission queue first. *)
Theorem queue_pair_round_trip (st : pci_epf_nvme)
    (c s cflags csize vector caddr sflags ssize saddr : Z)
    (cq0 sq0 : pci_epf_nvme_queue) :
  0 <= c < 65536 ->
  get_cq st c = Ok cq0 -> q_ref cq0 = 0 ->
  get_sq st s = Ok sq0 ->
  exists st1 st2 st3 st4 cq2 sq2 cq3 sq3 cq4,
    pci_epf_nvme_create_cq st c cflags csize vector caddr = Ok (0, st1) /\
    pci_epf_nvme_create_sq st1 s c sflags ssize saddr true = Ok (0, st2) /\
    get_cq st2 c = Ok cq2 /\ q_ref cq2 = 2 /\ queue_live cq2 = true /\
    get_sq st2 s = Ok sq2 /\ q_ref sq2 = 1 /\ queue_live sq2 = true /\
    q_cqid sq2 = c /\
    pci_epf_nvme_delete_sq st2 s = Ok st3 /\
    get_sq st3 s = Ok sq3 /\ q_ref sq3 = 0 /\ queue_live sq3 = false /\
    get_cq st3 c = Ok cq3 /\ q_ref cq3 = 1 /\ queue_live cq3 = true /\
    pci_epf_nvme_delete_cq st3 c = Ok st4 /\
    get_cq st4 c = Ok cq4 /\ q_ref cq4 = 0 /\ queue_live cq4 = false /\
    q_list cq4 = [] /\
    freed st4 = freed st ++ q_list sq0 ++ q_list cq0.
Proof. apply queue_pair_round_trip_aux. Qed.

Lemma queue_pair_round_trip_witness :
  exists st1 st2 st3 st4 cq4,
    pci_epf_nvme_create_cq st_ready 1 NVME_QUEUE_PHYS_CONTIG 2 0 0x30000
    = Ok (0, st1) /\
    pci_epf_nvme_create_sq st1 1 1 NVME_QUEUE_PHYS_CONTIG 2 0x40000 true
    = Ok (0, st2) /\
    pci_epf_nvme_delete_sq st2 1 = Ok st3 /\
    pci_epf_nvme_delete_cq st3 1 = Ok st4 /\
    get_cq st4 1 = Ok cq4 /\ q_ref cq4 = 0 /\ queue_live cq4 = false.
Proof.
  pose proof (queue_pair_round_trip st_ready 1 1 NVME_QUEUE_PHYS_CONTIG 2 0
                0x30000 NVME_QUEUE_PHYS_CONTIG 2 0x40000 queue_zero queue_zero)
    as H.
  feed H ltac:(vm_compute; done).
  destruct H
    as (st1 & st2 & st3 & st4 & cq2 & sq2 & cq3 & sq3 & cq4 & H1 & H2 & _ & _
        & _ & _ & _ & _ & _ & H3 & _ & _ & _ & _ & _ & _ & H4 & H5 & H6 & H7
        & _).
  exists st1, st2, st3, st4, cq4. done.
Defined.

(** ** Enabling the controller *)

Lemma land_0xf_range x : 0 <= Z.land x 0xf <= 15.
Proof.
  change (Z.land x 0xf) with (Z.land x (Z.ones 4)). rewrite Z.land_ones by lia.
  change (2 ^ 4) with 16. pose proof (Z.mod_pos_bound x 16). lia.
Qed.

Lemma land_0xfff_range x : 0 <= Z.land x 0xfff <= 4095.
Proof.
  change (Z.land x 0xfff) with (Z.land x (Z.ones 12)). rewrite Z.land_ones by lia.
  change (2 ^ 12) with 4096. pose proof (Z.mod_pos_bound x 4096). lia.
Qed.

Lemma aqa_acqs_eq aqa :
  Z.shiftr (Z.land aqa 0x0fff0000) 16 = aqa_acqs aqa.
Proof. unfold aqa_acqs. rewrite Z.shiftr_land. reflexivity. Qed.

Lemma pow2_le_mono a b : 0 <= a <= b -> 2 ^ a <= 2 ^ b.
Proof. intros H. apply Z.pow_le_mono_r; lia. Qed.

(** What creating a completion queue in a free slot and binding a
    submission queue to it leaves in the two slots and in the rest of the
    controller. *)
Lemma create_pair_state (st : pci_epf_nvme)
    (c s cflags csize vector caddr sflags ssize saddr : Z)
    (cq0 sq0 : pci_epf_nvme_queue) :
  0 <= c < 65536 ->
  get_cq st c = Ok cq0 -> q_ref cq0 = 0 ->
  get_sq st s = Ok sq0 ->
  exists st1 st2 cq sq,
    pci_epf_nvme_create_cq st c cflags csize vector caddr = Ok (0, st1) /\
    pci_epf_nvme_create_sq st1 s c sflags ssize saddr true = Ok (0, st2) /\
    get_cq st2 c = Ok cq /\ get_sq st2 s = Ok sq /\
    (q_qflags cq = PCI_EPF_NVME_QUEUE_LIVE /\ q_ref cq = 2 /\
     q_depth cq = u16 (csize + 1) /\ q_size cq = u16 csize /\
     q_qes cq = (if c =? 0 then ctrl_adm_cqes (ctrl st)
                 else ctrl_io_cqes (ctrl st)) /\
     q_phase cq = 1 /\ q_head cq = 0 /\ q_tail cq = 0 /\
     q_pci_addr cq = u64 caddr /\ q_flags cq = u16 cflags /\
     q_vector cq = u16 vector /\
     q_db cq = u32 (NVME_REG_DBS + (c * 2 + 1) * 4) /\
     q_list cq = q_list cq0 /\ q_sq cq = Some s) /\
    (q_qflags sq = Z.lor PCI_EPF_NVME_QUEUE_IS_SQ PCI_EPF_NVME_QUEUE_LIVE /\
     q_ref sq = 1 /\ q_cqid sq = c /\
     q_depth sq = u16 (ssize + 1) /\ q_size sq = u16 ssize /\
     q_qes sq = (if s =? 0 then ctrl_adm_sqes (ctrl st)
                 else ctrl_io_sqes (ctrl st)) /\
     q_head sq = 0 /\ q_tail sq = 0 /\
     q_pci_addr sq = u64 saddr /\
     q_db sq = u32 (NVME_REG_DBS + s * 2 * 4) /\
     q_list sq = q_list sq0) /\
    (ctrl_cc (ctrl st2) = ctrl_cc (ctrl st) /\
     ctrl_csts (ctrl st2) = ctrl_csts (ctrl st) /\
     ctrl_cap (ctrl st2) = ctrl_cap (ctrl st) /\
     ctrl_mps_shift (ctrl st2) = ctrl_mps_shift (ctrl st) /\
     ctrl_mps (ctrl st2) = ctrl_mps (ctrl st) /\
     ctrl_mps_mask (ctrl st2) = ctrl_mps_mask (ctrl st) /\
     ctrl_mdts (ctrl st2) = ctrl_mdts (ctrl st) /\
     ctrl_io_sqes (ctrl st2) = ctrl_io_sqes (ctrl st) /\
     ctrl_io_cqes (ctrl st2) = ctrl_io_cqes (ctrl st) /\
     ctrl_nr_queues (ctrl st2) = ctrl_nr_queues (ctrl st) /\
     ctrl_enabled st2 = ctrl_enabled st /\
     ctrl_reg (ctrl st2)
     = <[u32 (NVME_REG_DBS + s * 2 * 4) := u32 0]>
         (<[u32 (NVME_REG_DBS + (c * 2 + 1) * 4) := u32 0]>
            (ctrl_reg (ctrl st)))).
Proof.
  intros Hc Hcq Href Hsq.
  unfold pci_epf_nvme_create_cq. rewrite Hcq. cbn [bind]. rewrite Href.
  change (s32 (0 + 1)) with 1.
  cbn [Z.ltb Z.compare Pos.compare Pos.compare_cont]. cbv zeta.
  match goal with
  | |- context [Ok (0, put_cq ?x c ?q)] =>
      set (st1 := put_cq x c q); set (cq1 := q) in st1
  end.
  assert (get_cq st1 c = Ok cq1) as Hcq1 by (by eapply get_cq_put_cq_eq).
  assert (get_sq st1 s = Ok sq0) as Hsq1 by exact Hsq.
  exists st1.
  unfold pci_epf_nvme_create_sq. rewrite Hsq1. cbn [bind negb]. cbv zeta.
  match goal with
  | |- context [get_cq (put_sq ?x s ?q) c] =>
      set (st1a := put_sq x s q); set (sq1 := q) in st1a
  end.
  assert (get_cq st1a c = Ok cq1) as Hcq1a by exact Hcq1.
  rewrite Hcq1a. cbn [bind].
  change (s32 (q_ref cq1 + 1)) with 2.
  match goal with
  | |- context [Ok (0, put_sq ?x s ?q)] =>
      set (st2 := put_sq x s q); set (sq2 := q) in st2
  end.
  set (cq2 := set_q_sq (set_q_ref cq1 2) (Some s)).
  assert (get_sq st1a s = Ok sq1) as Hsq1a by (by eapply get_sq_put_sq_eq).
  assert (get_sq st2 s = Ok sq2) as Hsq2.
  { subst st2. eapply get_sq_put_sq_eq. exact Hsq1a. }
  assert (get_cq st2 c = Ok cq2) as Hcq2.
  { subst st2. apply (get_cq_put_cq_eq st1a c cq1). exact Hcq1a. }
  exists st2, cq2, sq2.
  split; [reflexivity|]. split; [reflexivity|].
  split; [exact Hcq2|]. split; [exact Hsq2|].
  split; [repeat split|]. split.
  - split; [reflexivity|]. split; [reflexivity|].
    split; [cbn; apply u16_small; lia|]. repeat split.
  - repeat split.
Qed.

Lemma enable_ctrl_ready_aux (st : pci_epf_nvme) (cq0 sq0 : pci_epf_nvme_queue) :
  let cc := ctrl_cc (ctrl st) in
  let aqa := pci_epf_nvme_reg_read32 (ctrl st) NVME_REG_AQA in
  has_bits cc NVME_CC_ENABLE = true ->
  6 <= cc_iosqes cc -> 4 <= cc_iocqes cc ->
  0 <= mdts_kb st <= PCI_EPF_NVME_MAX_MDTS_KB ->
  get_cq st 0 = Ok cq0 -> q_ref cq0 = 0 -> get_sq st 0 = Ok sq0 ->
  exists st' cq sq,
    pci_epf_nvme_enable_ctrl st true = Ok st' /\
    pci_epf_nvme_ctrl_ready st' = true /\
    has_bits (pci_epf_nvme_reg_read32 (ctrl st') NVME_REG_CSTS) NVME_CSTS_RDY
    = true /\
    ctrl_wf (ctrl st') /\
    ctrl_mps (ctrl st') = 2 ^ (cc_mps cc + 12) /\
    ctrl_mdts (ctrl st') = mdts_kb st * SZ_1K /\
    ctrl_io_sqes (ctrl st') = 2 ^ cc_iosqes cc /\
    ctrl_io_cqes (ctrl st') = 2 ^ cc_iocqes cc /\
    get_cq st' 0 = Ok cq /\ queue_live cq = true /\ q_ref cq = 2 /\
    q_depth cq = aqa_acqs aqa + 1 /\ q_qes cq = 16 /\ q_phase cq = 1 /\
    q_tail cq = 0 /\
    q_pci_addr cq
    = Z.land (pci_epf_nvme_reg_read64 (ctrl st) NVME_REG_ACQ) GENMASK_63_12 /\
    get_sq st' 0 = Ok sq /\ queue_live sq = true /\ q_ref sq = 1 /\
    q_cqid sq = 0 /\ q_depth sq = aqa_asqs aqa + 1 /\ q_qes sq = 64 /\
    q_head sq = 0 /\
    q_pci_addr sq
    = Z.land (pci_epf_nvme_reg_read64 (ctrl st) NVME_REG_ASQ) GENMASK_63_12.
Proof.
  intros cc aqa Hen Hsq Hcq Hmdts Hcq0 Href Hsq0.
  unfold pci_epf_nvme_enable_ctrl. cbv zeta.
  fold cc. fold (cc_mps cc). fold (cc_iosqes cc). fold (cc_iocqes cc).
  pose proof (land_0xf_range (Z.shiftr cc NVME_CC_MPS_SHIFT)) as Hmps.
  pose proof (land_0xf_range (Z.shiftr cc NVME_CC_IOSQES_SHIFT)) as Hs15.
  pose proof (land_0xf_range (Z.shiftr cc NVME_CC_IOCQES_SHIFT)) as Hc15.
  fold (cc_mps cc) in Hmps. fold (cc_iosqes cc) in Hs15.
  fold (cc_iocqes cc) in Hc15.
  rewrite !Z.shiftl_1_l.
  pose proof (pow2_le_mono 6 (cc_iosqes cc) ltac:(lia)) as Hp1.
  pose proof (pow2_le_mono 4 (cc_iocqes cc) ltac:(lia)) as Hp2.
  destruct (Z.ltb_spec (2 ^ cc_iosqes cc) sizeof_nvme_command) as [Hlt|_];
    [unfold sizeof_nvme_command in Hlt; lia|].
  destruct (Z.ltb_spec (2 ^ cc_iocqes cc) sizeof_nvme_completion) as [Hlt|_];
    [unfold sizeof_nvme_completion in Hlt; lia|].
  set (c1 := set_ctrl_sizes (ctrl st) _ _ _ _ _ _ _ _).
  assert (pci_epf_nvme_reg_read32 c1 NVME_REG_AQA = aqa) as -> by reflexivity.
  assert (pci_epf_nvme_reg_read64 c1 NVME_REG_ASQ
          = pci_epf_nvme_reg_read64 (ctrl st) NVME_REG_ASQ) as -> by reflexivity.
  assert (pci_epf_nvme_reg_read64 c1 NVME_REG_ACQ
          = pci_epf_nvme_reg_read64 (ctrl st) NVME_REG_ACQ) as -> by reflexivity.
  set (asq := pci_epf_nvme_reg_read64 (ctrl st) NVME_REG_ASQ).
  set (acq := pci_epf_nvme_reg_read64 (ctrl st) NVME_REG_ACQ).
  set (st2 := set_ctrl (set_ctrl st c1) (set_ctrl_aq c1 aqa asq acq)).
  assert (get_cq st2 0 = Ok cq0) as Hcq2 by exact Hcq0.
  assert (get_sq st2 0 = Ok sq0) as Hsq2 by exact Hsq0.
  destruct (create_pair_state st2 0 0
              (Z.lor NVME_QUEUE_PHYS_CONTIG NVME_CQ_IRQ_ENABLED)
              (Z.shiftr (Z.land aqa 0x0fff0000) 16) 0
              (Z.land acq GENMASK_63_12) NVME_QUEUE_PHYS_CONTIG
              (Z.land aqa 0x0fff) (Z.land asq GENMASK_63_12) cq0 sq0)
    as (st3 & st4 & cq & sq & Hc1 & Hc2 & Hgc & Hgs & Hcqf & Hsqf & Hfr);
    [lia|exact Hcq2|exact Href|exact Hsq2|].
  rewrite Hc1. cbn [bind negb Z.eqb]. rewrite Hc2. cbn [bind negb Z.eqb].
  destruct Hcqf as (Hqf & Hrc & Hdc & _ & Hqc & Hpc & _ & Htc & Hac & _).
  destruct Hsqf as (Hqs & Hrs & Hcs & Hds & _ & Hes & Hhs & _ & Has & _).
  destruct Hfr as (Fcc & Fcsts & _ & Fsh & Fmps & Fmask & Fmdts & Fsq & Fcq
                   & _ & _ & _).
  pose proof (land_0xfff_range aqa) as Hasqs.
  pose proof (land_0xfff_range (Z.shiftr aqa 16)) as Hacqs.
  assert (forall x, 0 <= Z.land x GENMASK_63_12 < 2 ^ 64) as Hmask.
  { intros x. apply below_pow2_of_bits; [lia| |].
    - apply Z.land_nonneg. right. done.
    - intros i Hi. rewrite Z.land_spec.
      rewrite (testbit_high_false GENMASK_63_12 64) by (done || lia).
      apply andb_false_r. }
  eexists _, cq, sq. split; [reflexivity|].
  assert (forall x, has_bits (Z.lor x NVME_CSTS_RDY) NVME_CSTS_RDY = true)
    as Hrdy by (intros x; by apply has_bits_lor).
  split.
  { unfold pci_epf_nvme_ctrl_ready.
    cbn [ctrl_enabled set_ctrl_enabled negb ctrl set_ctrl ctrl_cc ctrl_csts
         pci_epf_nvme_reg_write32 set_ctrl_reg set_ctrl_csts].
    rewrite Fcc, Hrdy. change (ctrl_cc (ctrl st2)) with cc.
    rewrite Hen. reflexivity. }
  split.
  { cbn [ctrl set_ctrl_enabled set_ctrl]. rewrite reg_read32_write32_eq.
    rewrite has_bits_u32 by done. apply Hrdy. }
  assert (ctrl_mps_shift c1 = cc_mps cc + 12) as Hsh by reflexivity.
  assert (ctrl_mps c1 = 2 ^ (cc_mps cc + 12)) as Hm by reflexivity.
  assert (ctrl_mps_mask c1 = 2 ^ (cc_mps cc + 12) - 1) as Hmk by reflexivity.
  assert (ctrl_mdts c1 = mdts_kb st * SZ_1K) as Hmd.
  { cbn. apply u64_small. unfold PCI_EPF_NVME_MAX_MDTS_KB, SZ_1K in *. lia. }
  cbn [ctrl set_ctrl_enabled set_ctrl].
  split.
  { unfold ctrl_wf.
    cbn [pci_epf_nvme_reg_write32 set_ctrl_reg set_ctrl_csts ctrl_mps_shift
         ctrl_mps ctrl_mps_mask ctrl_mdts].
    rewrite Fsh, Fmps, Fmask, Fmdts.
    change (ctrl_mps_shift (ctrl st2)) with (cc_mps cc + 12).
    change (ctrl_mps (ctrl st2)) with (2 ^ (cc_mps cc + 12)).
    change (ctrl_mps_mask (ctrl st2)) with (2 ^ (cc_mps cc + 12) - 1).
    change (ctrl_mdts (ctrl st2)) with (ctrl_mdts c1). rewrite Hmd.
    unfold PCI_EPF_NVME_MAX_MDTS_KB, SZ_1K in *. lia. }
  cbn [pci_epf_nvme_reg_write32 set_ctrl_reg set_ctrl_csts ctrl_mps
       ctrl_mdts ctrl_io_sqes ctrl_io_cqes].
  split; [rewrite Fmps; exact Hm|]. split; [rewrite Fmdts; exact Hmd|].
  split; [rewrite Fsq; reflexivity|]. split; [rewrite Fcq; reflexivity|].
  split; [exact Hgc|].
  split; [unfold queue_live; rewrite Hqf; reflexivity|].
  split; [exact Hrc|].
  split.
  { rewrite Hdc, aqa_acqs_eq. apply u16_small. unfold aqa_acqs. lia. }
  split; [rewrite Hqc; reflexivity|]. split; [exact Hpc|].
  split; [exact Htc|].
  split; [rewrite Hac; apply u64_small; apply Hmask|].
  split; [exact Hgs|].
  split; [unfold queue_live; rewrite Hqs; reflexivity|].
  split; [exact Hrs|]. split; [exact Hcs|].
  split.
  { rewrite Hds. apply u16_small. unfold aqa_asqs. lia. }
  split; [rewrite Hes; reflexivity|]. split; [exact Hhs|].
  rewrite Has. apply u64_small. apply Hmask.
Qed.

(** X7.  When the register poll finds CC.EN set by the host on a
    controller that was not enabled, with I/O entry sizes of at least 64
    and 16 bytes, free admin queue slots and a transfer limit within what
    the attribute accepts, the controller becomes ready: CSTS.RDY is set in
    the BAR, the page geometry is the one CC.MPS encodes (4 KiB to 128 MiB)
    and satisfies what the PRP resolver relies on, and the admin queues
    are live with the depths and page-aligned addresses of AQA, ASQ and
    ACQ; the admin completion queue starts at tail 0 in phase 1. *)
Theorem reg_poll_enables_controller (st : pci_epf_nvme)
    (cq0 sq0 : pci_epf_nvme_queue) :
  let cc := pci_epf_nvme_reg_read32 (ctrl st) NVME_REG_CC in
  let aqa := pci_epf_nvme_reg_read32 (ctrl st) NVME_REG_AQA in
  has_bits (ctrl_cc (ctrl st)) NVME_CC_ENABLE = false ->
  has_bits cc NVME_CC_ENABLE = true ->
  6 <= cc_iosqes cc -> 4 <= cc_iocqes cc ->
  0 <= mdts_kb st <= PCI_EPF_NVME_MAX_MDTS_KB ->
  get_cq st 0 = Ok cq0 -> q_ref cq0 = 0 -> get_sq st 0 = Ok sq0 ->
  exists st' cq sq,
    pci_epf_nvme_reg_poll st true = Ok st' /\
    pci_epf_nvme_ctrl_ready st' = true /\
    has_bits (pci_epf_nvme_reg_read32 (ctrl st') NVME_REG_CSTS) NVME_CSTS_RDY
    = true /\
    ctrl_wf (ctrl st') /\
    ctrl_mps (ctrl st') = 2 ^ (cc_mps cc + 12) /\
    ctrl_mdts (ctrl st') = mdts_kb st * SZ_1K /\
    ctrl_io_sqes (ctrl st') = 2 ^ cc_iosqes cc /\
    ctrl_io_cqes (ctrl st') = 2 ^ cc_iocqes cc /\
    get_cq st' 0 = Ok cq /\ queue_live cq = true /\ q_ref cq = 2 /\
    q_depth cq = aqa_acqs aqa + 1 /\ q_qes cq = 16 /\ q_phase cq = 1 /\
    q_tail cq = 0 /\
    q_pci_addr cq
    = Z.land (pci_epf_nvme_reg_read64 (ctrl st) NVME_REG_ACQ) GENMASK_63_12 /\
    get_sq st' 0 = Ok sq /\ queue_live sq = true /\ q_ref sq = 1 /\
    q_cqid sq = 0 /\ q_depth sq = aqa_asqs aqa + 1 /\ q_qes sq = 64 /\
    q_head sq = 0 /\
    q_pci_addr sq
    = Z.land (pci_epf_nvme_reg_read64 (ctrl st) NVME_REG_ASQ) GENMASK_63_12.
Proof.
  intros cc aqa Hold Hnew Hsq Hcq Hmdts Hcq0 Href Hsq0.
  unfold pci_epf_nvme_reg_poll. cbv zeta. fold cc.
  rewrite Hold, Hnew. cbn [negb andb].
  apply (enable_ctrl_ready_aux (set_ctrl st (set_ctrl_cc (ctrl st) cc))
           cq0 sq0); assumption.
Qed.

Lemma reg_poll_enables_controller_witness :
  exists st' cq sq,
    pci_epf_nvme_reg_poll st_boot true = Ok st' /\
    pci_epf_nvme_ctrl_ready st' = true /\
    ctrl_wf (ctrl st') /\ ctrl_mps (ctrl st') = 4096 /\
    get_cq st' 0 = Ok cq /\ q_depth cq = 32 /\ q_pci_addr cq = 0x20000 /\
    get_sq st' 0 = Ok sq /\ q_depth sq = 32 /\ q_pci_addr sq = 0x10000.
Proof.
  pose proof (reg_poll_enables_controller st_boot queue_zero queue_zero) as H.
  feed H ltac:(vm_compute; done).
  destruct H
    as (st' & cq & sq & Hrun & Hready & _ & Hwf & Hmps & _ & _ & _ & Hgc & _
        & _ & Hdc & _ & _ & _ & Hac & Hgs & _ & _ & _ & Hds & _ & _ & Has).
  exists st', cq, sq. done.
Defined.

Lemma create_cq0_cc_frame st flags size vector pci_addr ret st' :
  pci_epf_nvme_create_cq st 0 flags size vector pci_addr = Ok (ret, st') ->
  cc_frame st st'.
Proof.
  unfold pci_epf_nvme_create_cq. intros H. cbv zeta in H.
  run_cases H; injection H as <- <-; split; try reflexivity.
  cbn [put_cq ctrl set_ctrl]. unfold pci_epf_nvme_reg_read32.
  cbn. rewrite lookup_insert_ne by discriminate. reflexivity.
Qed.

Lemma create_sq0_cc_frame st cqid flags size pci_addr wq_ok ret st' :
  pci_epf_nvme_create_sq st 0 cqid flags size pci_addr wq_ok = Ok (ret, st') ->
  cc_frame st st'.
Proof.
  unfold pci_epf_nvme_create_sq. intros H. cbv zeta in H.
  run_cases H; injection H as <- <-; split; try reflexivity;
    cbn [put_cq put_sq ctrl set_ctrl]; unfold pci_epf_nvme_reg_read32;
    cbn; rewrite lookup_insert_ne by discriminate; reflexivity.
Qed.

Lemma delete_cq_cc_frame st qid st' :
  pci_epf_nvme_delete_cq st qid = Ok st' ->
  cc_frame st st' /\ ctrl_enabled st' = ctrl_enabled st /\
  ctrl_csts (ctrl st') = ctrl_csts (ctrl st) /\
  ctrl_reg (ctrl st') = ctrl_reg (ctrl st) /\
  ctrl_sq (ctrl st') = ctrl_sq (ctrl st).
Proof.
  unfold pci_epf_nvme_delete_cq. intros H. cbv zeta in H.
  run_cases H; try (injection H as <-; repeat split; reflexivity).
  apply delete_queue_frame in Hp as (Hc & He & _ & _).
  injection H as <-. unfold cc_frame. cbn [put_cq ctrl set_ctrl ctrl_enabled].
  unfold pci_epf_nvme_reg_read32.
  cbn [ctrl_cc ctrl_reg ctrl_csts ctrl_sq set_ctrl_cq].
  rewrite Hc, He. repeat split.
Qed.

(** Follows equations on CC through the states of a run. *)
Ltac chain_cc :=
  repeat match goal with
         | Heq : ctrl_cc (ctrl _) = _ |- _ => rewrite Heq; clear Heq
         | Heq : pci_epf_nvme_reg_read32 (ctrl _) NVME_REG_CC = _ |- _ =>
             rewrite Heq; clear Heq
         end.

Lemma enable_ctrl_cc_frame st wq_ok st' :
  pci_epf_nvme_enable_ctrl st wq_ok = Ok st' -> cc_frame st st'.
Proof.
  unfold pci_epf_nvme_enable_ctrl. intros H. cbv zeta in H.
  run_cases H; try (injection H as <-; split; reflexivity).
  all: repeat match goal with
              | Hc : pci_epf_nvme_create_cq _ 0 _ _ _ _ = Ok (_, _) |- _ =>
                  apply create_cq0_cc_frame in Hc as [? ?]
              | Hc : pci_epf_nvme_create_sq _ 0 _ _ _ _ _ = Ok (_, _) |- _ =>
                  apply create_sq0_cc_frame in Hc as [? ?]
              end.
  - injection H as <-. split; assumption.
  - apply delete_cq_cc_frame in H as ([? ?] & _).
    split; chain_cc; reflexivity.
  - injection H as <-. split.
    + cbn [ctrl set_ctrl_enabled set_ctrl pci_epf_nvme_reg_write32
           set_ctrl_reg set_ctrl_csts ctrl_cc]. chain_cc. reflexivity.
    + cbn [ctrl set_ctrl_enabled set_ctrl].
      rewrite reg_read32_write32_ne by discriminate.
      change (pci_epf_nvme_reg_read32 (set_ctrl_csts ?c _) ?r)
        with (pci_epf_nvme_reg_read32 c r).
      chain_cc. reflexivity.
Qed.

Lemma enable_ctrl_small_entries st wq_ok :
  cc_iosqes (ctrl_cc (ctrl st)) < 6 \/ cc_iocqes (ctrl_cc (ctrl st)) < 4 ->
  exists c',
    pci_epf_nvme_enable_ctrl st wq_ok = Ok (set_ctrl st c') /\
    ctrl_sq c' = ctrl_sq (ctrl st) /\ ctrl_cq c' = ctrl_cq (ctrl st) /\
    ctrl_reg c' = ctrl_reg (ctrl st) /\ ctrl_csts c' = ctrl_csts (ctrl st) /\
    ctrl_cc c' = ctrl_cc (ctrl st).
Proof.
  intros Hsmall. unfold pci_epf_nvme_enable_ctrl. cbv zeta.
  set (cc := ctrl_cc (ctrl st)) in *.
  fold (cc_iosqes cc). fold (cc_iocqes cc).
  pose proof (land_0xf_range (Z.shiftr cc NVME_CC_IOSQES_SHIFT)) as Hs15.
  pose proof (land_0xf_range (Z.shiftr cc NVME_CC_IOCQES_SHIFT)) as Hc15.
  fold (cc_iosqes cc) in Hs15. fold (cc_iocqes cc) in Hc15.
  rewrite !Z.shiftl_1_l.
  destruct (Z.ltb_spec (2 ^ cc_iosqes cc) sizeof_nvme_command) as [Hlt|Hge].
  { eexists. split; [reflexivity|]. repeat split. }
  destruct (Z.ltb_spec (2 ^ cc_iocqes cc) sizeof_nvme_completion) as [Hlt|Hge'].
  { eexists. split; [reflexivity|]. repeat split. }
  exfalso. unfold sizeof_nvme_command, sizeof_nvme_completion in *.
  destruct Hsmall as [Hsm|Hsm].
  - pose proof (pow2_le_mono (cc_iosqes cc) 5 ltac:(lia)). lia.
  - pose proof (pow2_le_mono (cc_iocqes cc) 3 ltac:(lia)). lia.
Qed.

(** X8.  An enable that does not succeed is not tried again.  When the
    poll finds CC.EN set and the controller is still disabled afterwards,
    every later poll leaves the state exactly as it is for as long as the
    host does not write CC; the host has to clear CC.EN and set it again.
    This is what happens when CC announces I/O submission entries below 64
    bytes or completion entries below 16 bytes: the poll returns with the
    controller disabled, the queue arrays, the BAR and CSTS untouched. *)
Theorem failed_enable_not_retried (st : pci_epf_nvme) (wq_ok : bool) :
  let cc := pci_epf_nvme_reg_read32 (ctrl st) NVME_REG_CC in
  ctrl_enabled st = false ->
  has_bits (ctrl_cc (ctrl st)) NVME_CC_ENABLE = false ->
  has_bits cc NVME_CC_ENABLE = true ->
  (forall st1,
     pci_epf_nvme_reg_poll st wq_ok = Ok st1 -> ctrl_enabled st1 = false ->
     forall wq_ok', pci_epf_nvme_reg_poll st1 wq_ok' = Ok st1) /\
  (cc_iosqes cc < 6 \/ cc_iocqes cc < 4 ->
   exists st1,
     pci_epf_nvme_reg_poll st wq_ok = Ok st1 /\ ctrl_enabled st1 = false /\
     ctrl_sq (ctrl st1) = ctrl_sq (ctrl st) /\
     ctrl_cq (ctrl st1) = ctrl_cq (ctrl st) /\
     ctrl_reg (ctrl st1) = ctrl_reg (ctrl st) /\
     ctrl_csts (ctrl st1) = ctrl_csts (ctrl st) /\
     pci_epf_nvme_ctrl_ready st1 = false).
Proof.
  intros cc Hdis Hold Hnew.
  assert (pci_epf_nvme_reg_poll st wq_ok
          = pci_epf_nvme_enable_ctrl
              (set_ctrl st (set_ctrl_cc (ctrl st) cc)) wq_ok) as Hpoll.
  { unfold pci_epf_nvme_reg_poll. cbv zeta. fold cc. rewrite Hold, Hnew.
    reflexivity. }
  split.
  - intros st1 Hrun Hdis1 wq_ok'. rewrite Hpoll in Hrun.
    apply enable_ctrl_cc_frame in Hrun as [Hcc Hreg].
    cbn [ctrl set_ctrl ctrl_cc set_ctrl_cc] in Hcc.
    change (pci_epf_nvme_reg_read32
              (ctrl (set_ctrl st (set_ctrl_cc (ctrl st) cc))) NVME_REG_CC)
      with cc in Hreg.
    unfold pci_epf_nvme_reg_poll. cbv zeta. rewrite Hreg, Hcc, Hnew.
    cbn [negb andb orb].
    assert (set_ctrl st1 (set_ctrl_cc (ctrl st1) cc) = st1) as ->.
    { destruct st1 as [c1 ? ? ? ? ? ? ? ? ? ?]. destruct c1.
      cbn in Hcc |- *. rewrite Hcc. reflexivity. }
    unfold pci_epf_nvme_disable_ctrl. rewrite Hdis1. cbn [negb].
    destruct (has_bits cc NVME_CC_SHN_NORMAL); reflexivity.
  - intros Hsmall. rewrite Hpoll.
    destruct (enable_ctrl_small_entries
                (set_ctrl st (set_ctrl_cc (ctrl st) cc)) wq_ok Hsmall)
      as (c' & -> & Hsq & Hcq & Hreg & Hcsts & Hcc).
    eexists. split; [reflexivity|].
    cbn [ctrl_enabled set_ctrl ctrl]. rewrite Hsq, Hcq, Hreg, Hcsts.
    split; [exact Hdis|]. repeat split.
    unfold pci_epf_nvme_ctrl_ready. cbn [ctrl_enabled set_ctrl].
    rewrite Hdis. reflexivity.
Qed.

Lemma failed_enable_not_retried_witness :
  exists st1,
    pci_epf_nvme_reg_poll st_small_sqes true = Ok st1 /\
    ctrl_enabled st1 = false /\
    pci_epf_nvme_reg_poll st1 true = Ok st1.
Proof.
  pose proof (failed_enable_not_retried st_small_sqes true) as H.
  feed H ltac:(vm_compute; done).
  destruct H as [Hstay Hsmall].
  destruct Hsmall as (st1 & Hrun & Hdis & _); [left; vm_compute; done|].
  exists st1. split; [exact Hrun|]. split; [exact Hdis|].
  apply Hstay; assumption.
Defined.

(** ** Fetching commands *)

Lemma ring_slots_S head n depth :
  0 < depth -> 0 <= head < depth ->
  ring_slots head (S n) depth
  = head :: ring_slots ((head + 1) mod depth) n depth.
Proof.
  intros Hd Hh. unfold ring_slots. cbn [seq map].
  rewrite Z.add_0_r, Z.mod_small by lia. f_equal.
  rewrite <- fmap_S_seq.
  change (map ?f (S <$> ?l)) with (f <$> (S <$> l)).
  rewrite <- list_fmap_compose. apply list_fmap_ext. intros _ j _. cbn.
  rewrite Zplus_mod_idemp_l. f_equal. lia.
Qed.

Lemma fetch_loop_ring host : forall (n : nat) allocs rest sq,
  0 < q_depth sq < 65536 -> 0 <= q_head sq < q_depth sq ->
  0 <= q_tail sq < q_depth sq ->
  (q_tail sq - q_head sq) mod q_depth sq = Z.of_nat n ->
  allocs = replicate n true ++ rest ->
  fetch_loop allocs host sq
  = Some (set_q_list (set_q_head sq (q_tail sq))
            (q_list sq ++ map (sq_slot_cmd host sq)
                            (ring_slots (q_head sq) n (q_depth sq)))).
Proof.
  induction n as [|n IH]; intros allocs rest sq Hd Hh Ht Hn ->.
  - assert (q_head sq = q_tail sq) as Heq.
    { destruct (Z.lt_trichotomy (q_tail sq) (q_head sq)) as [Hlt|[Heq|Hgt]];
        [|done|].
      - replace (q_tail sq - q_head sq)
          with (q_tail sq - q_head sq + q_depth sq + (-1) * q_depth sq)
          in Hn by lia.
        rewrite Z.mod_add, Z.mod_small in Hn by lia. lia.
      - rewrite Z.mod_small in Hn by lia. lia. }
    destruct sq. cbn in *. subst.
    destruct rest; cbn; rewrite Z.eqb_refl, app_nil_r; reflexivity.
  - assert (q_head sq <> q_tail sq) as Hne.
    { intros Heq. rewrite Heq, Z.sub_diag, Z.mod_0_l in Hn by lia. lia. }
    cbn [replicate app fetch_loop].
    destruct (Z.eqb_spec (q_head sq) (q_tail sq)) as [|_]; [done|].
    cbv zeta. rewrite (u16_small (q_head sq + 1)) by lia.
    set (h' := if q_head sq + 1 =? q_depth sq then 0 else q_head sq + 1).
    assert (h' = (q_head sq + 1) mod q_depth sq /\ 0 <= h' < q_depth sq)
      as [Hh' Hh'r].
    { subst h'. destruct (Z.eqb_spec (q_head sq + 1) (q_depth sq)) as [He|He].
      - rewrite He, Z.mod_same by lia. lia.
      - rewrite Z.mod_small by lia. lia. }
    erewrite IH; [| | | | |reflexivity]; cbn [q_depth q_head q_tail set_q_list
      set_q_head q_list]; try lia.
    + rewrite ring_slots_S, <- Hh' by lia. cbn [map].
      rewrite <- app_assoc. reflexivity.
    + assert ((q_tail sq - h') mod q_depth sq
              = (q_tail sq - q_head sq - 1) mod q_depth sq) as ->.
      { rewrite Hh'. rewrite Zminus_mod_idemp_r. f_equal. lia. }
      assert (0 < (q_tail sq - q_head sq) mod q_depth sq) as Hpos by lia.
      rewrite <- (Zminus_mod_idemp_l (q_tail sq - q_head sq)).
      rewrite Z.mod_small; [lia|].
      pose proof (Z.mod_pos_bound (q_tail sq - q_head sq) (q_depth sq)). lia.
Qed.

Lemma map_queue_ok e sq t :
  sq_map_ok e sq ->
  pci_epf_nvme_map_queue (set_q_tail sq t) (sq_map_ret e) (sq_map_pci_size e)
  = 0.
Proof.
  intros [Hr Hs]. unfold pci_epf_nvme_map_queue. rewrite Hr. cbn.
  destruct (Z.ltb_spec (sq_map_pci_size e) (q_pci_size sq)); [lia|reflexivity].
Qed.

(** X9.  A fetch takes the commands of a submission ring in ring order.
    For a live queue whose head and doorbell value lie inside the ring,
    with the queue mapped and enough descriptors, the commands of the
    [(tail - head) mod depth] slots from the head on, wrapping at the
    depth, are appended to the queue's list in that order, each tied to
    the queue's identifier and its completion queue, with status success;
    the head reaches the tail, and the fetch reports whether it took
    anything. *)
Theorem fetch_cmd_ring_order (st : pci_epf_nvme) (qid : Z)
    (sq : pci_epf_nvme_queue) (e : sq_env) (n : nat) (rest : list bool) :
  let tail := u16 (pci_epf_nvme_reg_read32 (ctrl st) (q_db sq)) in
  get_sq st qid = Ok sq -> queue_live sq = true ->
  0 < q_depth sq < 65536 -> 0 <= q_head sq < q_depth sq ->
  tail < q_depth sq ->
  sq_map_ok e sq ->
  (tail - q_head sq) mod q_depth sq = Z.of_nat n ->
  sq_allocs e = replicate n true ++ rest ->
  exists st' sq',
    pci_epf_nvme_fetch_cmd st qid e
    = Some (Ok (negb (Nat.eqb n 0), st')) /\
    get_sq st' qid = Ok sq' /\
    q_head sq' = tail /\ q_tail sq' = tail /\
    q_list sq'
    = q_list sq ++ map (sq_slot_cmd (sq_host e) sq)
                       (ring_slots (q_head sq) n (q_depth sq)).
Proof.
  intros tail Hsq Hlive Hd Hh Ht Hmap Hn Hallocs.
  pose proof (u16_range (pci_epf_nvme_reg_read32 (ctrl st) (q_db sq))) as Hr.
  fold tail in Hr.
  unfold pci_epf_nvme_fetch_cmd. rewrite Hsq.
  unfold queue_live in Hlive. rewrite Hlive. cbn [negb]. cbv zeta.
  fold tail.
  assert (get_sq (put_sq st qid (set_q_tail sq tail)) qid
          = Ok (set_q_tail sq tail)) as Hsq1 by (by eapply get_sq_put_sq_eq).
  cbn [q_head q_tail set_q_tail set_q_tail_phase].
  destruct n as [|n].
  - assert (q_head sq = tail) as Heq.
    { destruct (Z.lt_trichotomy tail (q_head sq)) as [Hlt|[Heq|Hgt]];
        [|done|].
      - replace (tail - q_head sq)
          with (tail - q_head sq + q_depth sq + (-1) * q_depth sq)
          in Hn by lia.
        rewrite Z.mod_add, Z.mod_small in Hn by lia. lia.
      - rewrite Z.mod_small in Hn by lia. lia. }
    rewrite Heq, Z.eqb_refl.
    eexists _, _. split; [reflexivity|]. split; [exact Hsq1|].
    cbn. rewrite app_nil_r. done.
  - assert (q_head sq <> tail) as Hne.
    { intros Heq. rewrite Heq, Z.sub_diag, Z.mod_0_l in Hn by lia. lia. }
    destruct (Z.eqb_spec (q_head sq) tail) as [|_]; [done|].
    rewrite map_queue_ok by exact Hmap. cbn [Z.eqb negb].
    rewrite (fetch_loop_ring (sq_host e) (S n) (sq_allocs e) rest
               (set_q_tail sq tail)); cbn [q_depth q_head q_tail set_q_tail
      set_q_tail_phase]; try lia; try assumption.
    rewrite ring_slots_S by lia. cbn [map].
    change (q_list (set_q_tail sq tail)) with (q_list sq).
    destruct (q_list sq) as [|c0 l0]; cbn [app];
      (eexists _, _; split; [reflexivity|];
       split; [eapply get_sq_put_sq_eq; exact Hsq1|]; done).
Qed.

Lemma fetch_loop_spin host : forall (k : nat) sq,
  0 <= q_head sq < q_depth sq -> q_depth sq <= q_tail sq < 65536 ->
  fetch_loop (replicate k true) host sq = None /\
  forall rest,
    exists sq',
      fetch_loop (replicate k true ++ false :: rest) host sq = Some sq' /\
      length (q_list sq') = (length (q_list sq) + k)%nat /\
      q_tail sq' = q_tail sq.
Proof.
  induction k as [|k IH]; intros sq Hh Ht.
  - cbn [replicate app fetch_loop].
    destruct (Z.eqb_spec (q_head sq) (q_tail sq)); [lia|].
    split; [reflexivity|]. intros rest. exists sq. split; [reflexivity|].
    split; [lia|reflexivity].
  - cbn [replicate app fetch_loop].
    destruct (Z.eqb_spec (q_head sq) (q_tail sq)); [lia|]. cbv zeta.
    rewrite (u16_small (q_head sq + 1)) by lia.
    match goal with
    | |- context [fetch_loop _ host ?s] =>
        destruct (IH s) as [Hnone Hsome]
    end.
    { cbn. destruct (Z.eqb_spec (q_head sq + 1) (q_depth sq)); lia. }
    { cbn. lia. }
    split; [exact Hnone|]. intros rest.
    destruct (Hsome rest) as (sq' & Hrun & Hlen & Htail).
    exists sq'. split; [exact Hrun|]. split; [|exact Htail].
    rewrite Hlen. cbn. rewrite length_app. cbn. lia.
Qed.

(** X10.  A doorbell value outside the ring is not detected.  When the
    host's tail doorbell holds a value at or above the depth of a live
    submission queue, the head, which wraps to 0 at the depth, never
    meets it: the fetch takes one more command for every descriptor the
    allocator hands out, reading the slots of the ring over and over, and
    ends only when an allocation fails. *)
Theorem fetch_cmd_doorbell_beyond_depth (st : pci_epf_nvme) (qid : Z)
    (sq : pci_epf_nvme_queue) (e : sq_env) (k : nat) :
  let tail := u16 (pci_epf_nvme_reg_read32 (ctrl st) (q_db sq)) in
  get_sq st qid = Ok sq -> queue_live sq = true ->
  0 <= q_head sq < q_depth sq -> q_depth sq <= tail ->
  sq_map_ok e sq ->
  (sq_allocs e = replicate k true ->
   pci_epf_nvme_fetch_cmd st qid e = None) /\
  (forall rest, sq_allocs e = replicate k true ++ false :: rest ->
   exists b st' sq',
     pci_epf_nvme_fetch_cmd st qid e = Some (Ok (b, st')) /\
     get_sq st' qid = Ok sq' /\
     length (q_list sq') = (length (q_list sq) + k)%nat).
Proof.
  intros tail Hsq Hlive Hh Ht Hmap.
  pose proof (u16_range (pci_epf_nvme_reg_read32 (ctrl st) (q_db sq))) as Hr.
  fold tail in Hr.
  assert (get_sq (put_sq st qid (set_q_tail sq tail)) qid
          = Ok (set_q_tail sq tail)) as Hsq1 by (by eapply get_sq_put_sq_eq).
  destruct (fetch_loop_spin (sq_host e) k (set_q_tail sq tail))
    as [Hnone Hsome]; [cbn; lia|cbn; lia|].
  unfold pci_epf_nvme_fetch_cmd. rewrite Hsq.
  unfold queue_live in Hlive. rewrite Hlive. cbn [negb]. cbv zeta.
  fold tail. cbn [q_head q_tail set_q_tail set_q_tail_phase].
  destruct (Z.eqb_spec (q_head sq) tail); [lia|].
  rewrite map_queue_ok by exact Hmap. cbn [Z.eqb negb].
  split.
  - intros ->. rewrite Hnone. reflexivity.
  - intros rest ->. destruct (Hsome rest) as (sq' & -> & Hlen & _).
    eexists _, _, sq'. split; [reflexivity|].
    split; [eapply get_sq_put_sq_eq; exact Hsq1|exact Hlen].
Qed.

Lemma fetch_cmd_ring_order_witness :
  exists st' sq',
    pci_epf_nvme_fetch_cmd (st_sq1_head2 1) 1 (sq_env_ok 2)
    = Some (Ok (true, st')) /\
    get_sq st' 1 = Ok sq' /\ q_head sq' = 1 /\
    map (fun c => command_id (c_cmd c)) (q_list sq') = [2; 0].
Proof.
  pose proof (fetch_cmd_ring_order (st_sq1_head2 1) 1
                (set_q_head sq1_created 2) (sq_env_ok 2) 2 []) as H.
  feed H ltac:(vm_compute; done).
  destruct H as (st' & sq' & Hrun & Hget & Hhead & _ & Hlist).
  exists st', sq'. split; [exact Hrun|]. split; [exact Hget|].
  split; [exact Hhead|]. rewrite Hlist. reflexivity.
Defined.

Lemma fetch_cmd_doorbell_beyond_depth_witness :
  pci_epf_nvme_fetch_cmd (st_sq1_head2 7) 1 (sq_env_ok 5) = None.
Proof.
  apply (fetch_cmd_doorbell_beyond_depth (st_sq1_head2 7) 1
           (set_q_head sq1_created 2) (sq_env_ok 5) 5);
    vm_compute; done.
Defined.

(** ** Moving the data of a command *)

Lemma segs_total_pos l :
  Forall (fun s => 0 < seg_size s) l -> 0 <= segs_total l.
Proof.
  intros H. apply segs_total_nonneg. eapply Forall_impl; [exact H|].
  cbn. lia.
Qed.

(** A run of the loop over segments that are all copied, followed by
    whatever the rest of the loop does. *)
Lemma transfer_cmd_segs_prefix cfg epcmd :
  forall envs segs trs, segs_copied cfg (c_dma_dir epcmd) envs segs trs ->
  forall m i size envs',
    0 <= i -> i + Z.of_nat (length segs) < 2 ^ 31 ->
    (forall k seg, segs !! k = Some seg ->
                   c_segs epcmd !! (Z.to_nat i + k)%nat = Some seg) ->
    Forall (fun s => 0 < seg_size s) segs ->
    0 <= size -> size + segs_total segs <= c_buffer_size epcmd ->
    c_buffer_size epcmd < 2 ^ 64 ->
    transfer_cmd_segs cfg (envs ++ envs') epcmd (length segs + m) i size
    = match transfer_cmd_segs cfg envs' epcmd m
              (i + Z.of_nat (length segs)) (size + segs_total segs) with
      | Some (Ok (r, tr')) => Some (Ok (r, concat trs ++ tr'))
      | other => other
      end.
Proof.
  induction 1 as [|es seg tr envs segs trs Hrun Hall IH];
    intros m i size envs' Hi Hlen Hsegs Hpos Hsize Htot Hbuf.
  - cbn [length app Nat.add concat segs_total foldr].
    rewrite !Z.add_0_r.
    destruct (transfer_cmd_segs cfg envs' epcmd m i size)
      as [[[r tr']|]|]; reflexivity.
  - cbn [length app Nat.add transfer_cmd_segs hd tl].
    apply Forall_cons in Hpos as [Hp Hpos].
    pose proof (segs_total_pos segs Hpos) as Hnn.
    cbn [segs_total foldr] in Htot. fold (segs_total segs) in Htot.
    destruct (Z.leb_spec (c_buffer_size epcmd) size); [lia|].
    rewrite <- (Nat.add_0_r (Z.to_nat i)), (Hsegs 0%nat seg eq_refl).
    rewrite Hrun. cbn [Z.eqb negb].
    rewrite (s32_small (i + 1)) by (cbn [length] in Hlen; lia).
    rewrite (u64_small (size + seg_size seg)) by lia.
    rewrite (IH m (i + 1) (size + seg_size seg) envs');
      try lia; try assumption.
    + cbn [length segs_total foldr concat]. fold (segs_total segs).
      replace (i + 1 + Z.of_nat (length segs))
        with (i + Z.of_nat (S (length segs))) by lia.
      replace (size + seg_size seg + segs_total segs)
        with (size + (seg_size seg + segs_total segs)) by lia.
      destruct (transfer_cmd_segs cfg envs' epcmd m _ _)
        as [[[r tr']|]|]; try reflexivity.
      by rewrite <- app_assoc.
    + cbn [length] in Hlen. lia.
    + intros k s Hk. replace (Z.to_nat (i + 1) + k)%nat
        with (Z.to_nat i + S k)%nat by lia.
      apply Hsegs. exact Hk.
Qed.

Lemma cmd_segments_length epcmd :
  segs_resolved epcmd ->
  length (cmd_segments epcmd) = Z.to_nat (c_nr_segs epcmd).
Proof.
  intros (Hnr & Hlen & _). unfold cmd_segments. rewrite length_take. lia.
Qed.

Lemma cmd_segments_lookup epcmd k seg :
  cmd_segments epcmd !! k = Some seg -> c_segs epcmd !! k = Some seg.
Proof.
  unfold cmd_segments. intros H. apply lookup_take_Some in H as [H _]. exact H.
Qed.

(** X11.  [pci_epf_nvme_transfer_cmd_data] on a command whose segments
    are as the resolver leaves them (none empty, adding up to the buffer
    size): when every segment can be copied, each is copied once, in the
    order of the array, and the call returns 0 with the status untouched;
    when the copy of a segment fails, no later segment is touched, the
    call returns [-EIO] and the status is Data Transfer Error with Do Not
    Retry.  The size check of the loop never fires on such a command. *)
Theorem transfer_cmd_data_in_order (cfg : xfer_cfg)
    (epcmd : pci_epf_nvme_cmd) (envs : list (list xfer_env))
    (trs : list (list xfer_event)) :
  segs_resolved epcmd ->
  (segs_copied cfg (c_dma_dir epcmd) envs (cmd_segments epcmd) trs ->
   pci_epf_nvme_transfer_cmd_data cfg envs epcmd
   = Some (Ok (0, epcmd, concat trs))) /\
  (forall j seg es ret tr envs',
     segs_copied cfg (c_dma_dir epcmd) envs (take j (cmd_segments epcmd)) trs ->
     cmd_segments epcmd !! j = Some seg ->
     pci_epf_nvme_transfer cfg es seg (c_dma_dir epcmd) = Some (ret, tr) ->
     ret <> 0 ->
     pci_epf_nvme_transfer_cmd_data cfg (envs ++ es :: envs') epcmd
     = Some (Ok (- EIO,
                 set_c_status epcmd (status_dnr NVME_SC_DATA_XFER_ERROR),
                 concat trs ++ tr))).
Proof.
  intros Hres. pose proof (cmd_segments_length epcmd Hres) as Hlen.
  destruct Hres as (Hnr & Hl & Hpos & Htot & Hbuf).
  pose proof (segs_total_pos _ Hpos) as Hnn.
  split.
  - intros Hall. unfold pci_epf_nvme_transfer_cmd_data.
    pose proof (transfer_cmd_segs_prefix cfg epcmd envs (cmd_segments epcmd)
                  trs Hall 0%nat 0 0 []) as Hrun.
    rewrite app_nil_r, Nat.add_0_r, Hlen in Hrun.
    rewrite Hrun; try lia; try assumption.
    + cbn [transfer_cmd_segs Z.eqb]. by rewrite app_nil_r.
    + intros k seg Hk. apply cmd_segments_lookup. exact Hk.
  - intros j seg es ret tr envs' Hall Hj Hrun Hret.
    unfold pci_epf_nvme_transfer_cmd_data.
    assert (j < length (cmd_segments epcmd))%nat as Hjl
      by (eapply lookup_lt_Some; exact Hj).
    pose proof (take_drop_middle _ _ _ Hj) as Hsplit.
    assert (segs_total (take j (cmd_segments epcmd)) + seg_size seg
            <= c_buffer_size epcmd) as Hle.
    { rewrite <- Htot. rewrite <- Hsplit at 2.
      rewrite segs_total_app. cbn [segs_total foldr].
      fold (segs_total (drop (S j) (cmd_segments epcmd))).
      assert (0 <= segs_total (drop (S j) (cmd_segments epcmd))); [|lia].
      apply segs_total_pos. rewrite <- Hsplit in Hpos.
      apply Forall_app in Hpos as [_ Hpos].
      by apply Forall_cons in Hpos as [_ Hpos]. }
    assert (0 < seg_size seg) as Hseg.
    { rewrite Forall_lookup in Hpos. by apply (Hpos j). }
    assert (Forall (fun s => 0 < seg_size s) (take j (cmd_segments epcmd)))
      as Hpos' by (by apply Forall_take).
    pose proof (segs_total_pos _ Hpos') as Hnn'.
    assert (length (take j (cmd_segments epcmd)) = j) as Hlj
      by (rewrite length_take; lia).
    pose proof (transfer_cmd_segs_prefix cfg epcmd envs
                  (take j (cmd_segments epcmd)) trs Hall
                  (S (Z.to_nat (c_nr_segs epcmd) - j - 1)) 0 0 (es :: envs'))
      as Hpre.
    rewrite Hlj in Hpre.
    replace (j + S (Z.to_nat (c_nr_segs epcmd) - j - 1))%nat
      with (Z.to_nat (c_nr_segs epcmd)) in Hpre by lia.
    rewrite Hpre; try lia; try assumption.
    + cbn [transfer_cmd_segs hd].
      destruct (Z.leb_spec (c_buffer_size epcmd)
                  (0 + segs_total (take j (cmd_segments epcmd)))); [lia|].
      replace (Z.to_nat (0 + Z.of_nat j)) with j by lia.
      rewrite (cmd_segments_lookup _ _ _ Hj), Hrun.
      destruct (Z.eqb_spec ret 0); [done|]. cbn [negb].
      reflexivity.
    + intros k s Hk. apply cmd_segments_lookup.
      apply lookup_take_Some in Hk as [Hk _]. exact Hk.
Qed.

Lemma write_2seg_resolved : segs_resolved write_2seg.
Proof.
  repeat split; try (vm_compute; congruence).
  repeat constructor.
Qed.

Lemma transfer_cmd_data_in_order_witness :
  pci_epf_nvme_transfer_cmd_data cfg_dma [[env_mmio 512]; [env_mmio 512]]
    write_2seg
  = Some (Ok (0, write_2seg,
              trace_mmio_in 0x50e00 512 ++ trace_mmio_in 0x60000 512)) /\
  pci_epf_nvme_transfer_cmd_data cfg_dma [[env_map_fails]; [env_mmio 512]]
    write_2seg
  = Some (Ok (- EIO,
              set_c_status write_2seg (status_dnr NVME_SC_DATA_XFER_ERROR),
              [EvAttempt Mmio 512])).
Proof.
  split.
  - apply (proj1 (transfer_cmd_data_in_order cfg_dma write_2seg
                    [[env_mmio 512]; [env_mmio 512]]
                    [trace_mmio_in 0x50e00 512; trace_mmio_in 0x60000 512]
                    write_2seg_resolved)).
    repeat constructor.
  - apply (proj2 (transfer_cmd_data_in_order cfg_dma write_2seg [] []
                    write_2seg_resolved)
             0%nat (mk_segment 0x50e00 512) [env_map_fails] (- ENOMEM)
             [EvAttempt Mmio 512] [[env_mmio 512]]).
    + constructor.
    + reflexivity.
    + reflexivity.
    + discriminate.
Defined.

(** ** Transfers: the host address *)

Lemma dma_submit_wait_maps seg e done :
  Forall (maps_whole seg) (dma_submit_wait e done).2.
Proof. unfold dma_submit_wait. case_ifs; simpl; repeat constructor. Qed.

Lemma transfer_attempt_maps cfg e seg dir size :
  Forall (maps_whole seg) (transfer_attempt cfg e seg dir size).2.
Proof.
  unfold transfer_attempt, pci_epf_nvme_dma_transfer,
    pci_epf_nvme_dma_memcpy_transfer, pci_epf_nvme_dma_private_transfer,
    pci_epf_nvme_mmio_transfer.
  pose proof (dma_submit_wait_maps seg e (env_map_pci_size e)) as H1.
  pose proof (dma_submit_wait_maps seg e (seg_size seg)) as H2.
  destruct (dma_submit_wait e (env_map_pci_size e)) as [r1 l1].
  destruct (dma_submit_wait e (seg_size seg)) as [r2 l2].
  simpl in H1, H2.
  case_ifs; simpl;
    repeat first [ apply Forall_cons; split; [done|]
                 | apply Forall_app; split
                 | assumption
                 | apply Forall_nil; exact I ].
Qed.

Lemma transfer_loop_maps cfg envs seg dir : forall size ret tr,
  transfer_loop cfg envs seg dir size = Some (ret, tr) ->
  Forall (maps_whole seg) tr.
Proof.
  induction envs as [|e envs IH]; intros size ret tr H; simpl in H.
  - destruct (size =? 0); simplify_eq. constructor.
  - destruct (size =? 0); simplify_eq; [constructor|].
    pose proof (transfer_attempt_maps cfg e seg dir size) as Ha.
    destruct (transfer_attempt cfg e seg dir size) as [r evs].
    simpl in Ha. destruct (r <? 0).
    + by simplify_eq.
    + destruct (transfer_loop cfg envs seg dir (u64 (size - r)))
        as [[r' evs']|] eqn:Hl; simplify_eq.
      apply Forall_app. split; [exact Ha|]. by eapply IH.
Qed.

(** X12.  [pci_epf_nvme_transfer] never advances the host address.  Every
    mapping of a transfer, and every DMA mapping of the local buffer, is
    of the whole segment from its start address, whatever part of it was
    already copied.  When the window the endpoint controller maps covers
    only [k] bytes of what remains, the loop goes round again for the
    remaining bytes and the next attempt maps the start of the segment
    once more. *)
Theorem transfer_maps_segment_start (cfg : xfer_cfg)
    (seg : pci_epf_nvme_segment) (dir : dma_data_direction) :
  (forall envs size ret tr,
     transfer_loop cfg envs seg dir size = Some (ret, tr) ->
     Forall (maps_whole seg) tr) /\
  (forall e envs size k,
     mmio_dir dir -> dma_enable cfg && (SZ_4K <? size) = false ->
     env_mem_map e = 0 -> env_map_pci_size e = k ->
     0 < k < size -> size < 2 ^ 31 ->
     transfer_loop cfg (e :: envs) seg dir size
     = match transfer_loop cfg envs seg dir (size - k) with
       | Some (r, tr') =>
           Some (r, (transfer_attempt cfg e seg dir size).2 ++ tr')
       | None => None
       end /\
     EvMemMap (seg_pci_addr seg) (seg_size seg)
       ∈ (transfer_attempt cfg e seg dir size).2).
Proof.
  split; [intros envs size ret tr; apply transfer_loop_maps|].
  intros e envs size k Hdir Hpath Hmap Hk Hrange Hsize.
  assert (transfer_attempt cfg e seg dir size
          = (k, [EvAttempt Mmio size;
                 EvMemMap (seg_pci_addr seg) (seg_size seg);
                 match dir with
                 | DMA_FROM_DEVICE => EvMemcpyFromIo k
                 | _ => EvMemcpyToIo k
                 end; EvMemUnmap])) as Hat.
  { unfold transfer_attempt, pci_epf_nvme_mmio_transfer.
    rewrite Hpath, Hmap, Hk. cbn [Z.eqb negb].
    rewrite (s32_small k) by lia.
    destruct Hdir as [-> | ->]; reflexivity. }
  split.
  - cbn [transfer_loop]. destruct (Z.eqb_spec size 0); [lia|].
    rewrite Hat. destruct (Z.ltb_spec k 0); [lia|].
    rewrite (u64_small (size - k)) by lia.
    destruct (transfer_loop cfg envs seg dir (size - k)) as [[r tr']|];
      reflexivity.
  - rewrite Hat. cbn [snd]. apply elem_of_cons. right.
    apply elem_of_cons. left. reflexivity.
Qed.

Lemma transfer_maps_segment_start_witness :
  pci_epf_nvme_transfer cfg_dma [env_mmio 1024; env_mmio 1024]
    (mk_segment 0x70000 2048) DMA_FROM_DEVICE
  = Some (0, [EvAttempt Mmio 2048; EvMemMap 0x70000 2048;
              EvMemcpyFromIo 1024; EvMemUnmap;
              EvAttempt Mmio 1024; EvMemMap 0x70000 2048;
              EvMemcpyFromIo 1024; EvMemUnmap]).
Proof.
  pose proof (proj2 (transfer_maps_segment_start cfg_dma
                       (mk_segment 0x70000 2048) DMA_FROM_DEVICE)
                (env_mmio 1024) [env_mmio 1024] 2048 1024) as H.
  feed H ltac:(first [left; reflexivity | vm_compute; done]).
  destruct H as [Hrun _]. exact Hrun.
Defined.

(** ** Execution of a command *)

Lemma submitted_cons ev evs :
  submitted (ev :: evs) <-> is_submit ev \/ submitted evs.
Proof. unfold submitted. apply Exists_cons. Qed.

Lemma submitted_app l1 l2 :
  submitted (l1 ++ l2) <-> submitted l1 \/ submitted l2.
Proof. unfold submitted. apply Exists_app. Qed.

Lemma submitted_nil : ~ submitted [].
Proof. unfold submitted. intros H. by apply Exists_nil in H. Qed.

Lemma exec_submit_events cfg e epcmd hook epcmd' evs :
  int_range (ex_submit_ret e) ->
  exec_submit cfg e epcmd hook = Some (Ok (epcmd', evs)) ->
  exists rest,
    evs = ExSubmit (c_cmd epcmd) (c_buffer epcmd) (c_buffer_size epcmd)
          :: rest /\
    Forall (fun ev => ~ is_submit ev) rest /\
    (rest <> [] -> ex_submit_ret e = 0 /\ c_status epcmd = NVME_SC_SUCCESS) /\
    (ex_submit_ret e < 0 ->
     c_status epcmd' = status_dnr NVME_SC_INTERNAL) /\
    (0 < ex_submit_ret e -> c_status epcmd' = ex_submit_ret e).
Proof.
  intros Hint. unfold exec_submit. cbv zeta.
  destruct (Z.ltb_spec (ex_submit_ret e) 0) as [Hneg|Hnn].
  { cbn [c_status set_c_status negb Z.eqb Z.lor NVME_SC_INTERNAL
      NVME_STATUS_DNR NVME_SC_SUCCESS].
    intros [= <- <-]. eexists. split; [reflexivity|].
    split; [constructor|]. split; [done|]. split; [reflexivity|lia]. }
  destruct (Z.ltb_spec 0 (ex_submit_ret e)) as [Hpos|Hz].
  { cbn [c_status set_c_status].
    unfold int_range in Hint. rewrite (u32_small (ex_submit_ret e)) by lia.
    destruct (Z.eqb_spec (ex_submit_ret e) NVME_SC_SUCCESS) as [H0|_];
      [unfold NVME_SC_SUCCESS in H0; lia|].
    cbn [negb]. intros [= <- <-]. eexists. split; [reflexivity|].
    split; [constructor|]. split; [done|]. split; [lia|reflexivity]. }
  assert (ex_submit_ret e = 0) as Hret by lia.
  cbn [c_status set_c_buffer set_c_cqe].
  destruct (Z.eqb_spec (c_status epcmd) NVME_SC_SUCCESS) as [Hst|Hst];
    cbn [negb].
  2:{ intros [= <- <-]. eexists. split; [reflexivity|].
      split; [constructor|]. split; [done|]. split; lia. }
  intros H.
  match type of H with
  | match ?h with Ok _ => _ | Fault _ => _ end = _ =>
      destruct h as [[epcmd3 hooked]|] eqn:Hh; [|discriminate]
  end.
  assert (Forall (fun ev => ~ is_submit ev) hooked) as Hhooked.
  { destruct hook as [h|].
    - destruct (h _) as [e'|]; [|discriminate]. cbn [bind] in Hh.
      injection Hh as <- <-. repeat constructor. intros [].
    - injection Hh as <- <-. constructor. }
  destruct (negb (c_buffer_size epcmd3 =? 0) && is_to_device (c_dma_dir epcmd3)).
  - destruct (pci_epf_nvme_transfer_cmd_data cfg (ex_out e) epcmd3)
      as [[[[r epcmd4] tr]|]|]; try discriminate.
    injection H as <- <-. eexists. split; [reflexivity|].
    split; [|split; [done|split; lia]].
    apply Forall_app. split; [exact Hhooked|]. repeat constructor. intros [].
  - injection H as <- <-. eexists. split; [reflexivity|].
    split; [exact Hhooked|]. split; [done|split; lia].
Qed.

Lemma same_command_refl e : same_command e e.
Proof. by repeat split. Qed.

Lemma same_command_trans e1 e2 e3 :
  same_command e1 e2 -> same_command e2 e3 -> same_command e1 e3.
Proof.
  intros (?&?&?&?&?&?) (?&?&?&?&?&?). repeat split; congruence.
Qed.

Lemma alloc_cmd_segs_same epcmd n ok ret epcmd' :
  pci_epf_nvme_alloc_cmd_segs epcmd n ok = (ret, epcmd') ->
  same_command epcmd epcmd'.
Proof.
  unfold pci_epf_nvme_alloc_cmd_segs.
  case_ifs; intros [= <- <-]; by repeat split.
Qed.

Lemma parse_prp_simple_same c epcmd ok ret epcmd' :
  pci_epf_nvme_cmd_parse_prp_simple c epcmd ok = (ret, epcmd') ->
  same_command epcmd epcmd'.
Proof.
  unfold pci_epf_nvme_cmd_parse_prp_simple. cbv zeta.
  destruct (_ && _); [intros [= <- <-]; by repeat split|].
  destruct (_ && _); [intros [= <- <-]; by repeat split|].
  destruct (pci_epf_nvme_alloc_cmd_segs _ _ _) as [r e1] eqn:Ha.
  apply alloc_cmd_segs_same in Ha.
  destruct (negb (r =? 0)); intros [= <- <-];
    (eapply same_command_trans; [exact Ha|]); by repeat split.
Qed.

Lemma parse_prp_list_same c xfer fuel epcmd ok buf ret epcmd' buf' :
  pci_epf_nvme_cmd_parse_prp_list c xfer fuel epcmd ok buf
  = Some (Ok (ret, epcmd', buf')) ->
  same_command epcmd epcmd'.
Proof.
  unfold pci_epf_nvme_cmd_parse_prp_list. cbv zeta.
  destruct (prp1 (c_cmd epcmd) =? 0); [intros [= <- <- <-]; by repeat split|].
  destruct (pci_epf_nvme_alloc_cmd_segs _ _ _) as [r e1] eqn:Ha.
  apply alloc_cmd_segs_same in Ha.
  destruct (negb (r =? 0)).
  { intros [= <- <- <-].
    (eapply same_command_trans; [exact Ha|]); by repeat split. }
  destruct (prp2 (c_cmd epcmd) =? 0).
  { intros [= <- <- <-].
    (eapply same_command_trans; [exact Ha|]); by repeat split. }
  destruct (prp_list_loop _ _ _ _ _ _) as [[[ex w]|]|]; try discriminate.
  destruct ex; try (intros [= <- <- <-];
    (eapply same_command_trans; [exact Ha|]); by repeat split).
  destruct (negb (w_size w =? c_buffer_size epcmd)); intros [= <- <- <-];
    (eapply same_command_trans; [exact Ha|]); by repeat split.
Qed.

Lemma alloc_cmd_buffer_same epcmd heap ret epcmd' :
  pci_epf_nvme_alloc_cmd_buffer epcmd heap = (ret, epcmd') ->
  same_command epcmd epcmd'.
Proof.
  unfold pci_epf_nvme_alloc_cmd_buffer.
  destruct heap; intros [= <- <-]; by repeat split.
Qed.

Lemma parse_dptr_same c xfer fuel epcmd ok heap buf ret epcmd' buf' :
  pci_epf_nvme_cmd_parse_dptr c xfer fuel epcmd ok heap buf
  = Some (Ok (ret, epcmd', buf')) ->
  same_command epcmd epcmd'.
Proof.
  unfold pci_epf_nvme_cmd_parse_dptr. cbv zeta.
  destruct (_ <? _); [intros [= <- <- <-]; by repeat split|].
  destruct (has_bits _ _); [intros [= <- <- <-]; by repeat split|].
  destruct (negb _); [intros [= <- <- <-]; by repeat split|].
  set (parsed := if _ <=? _ then _ else _).
  assert (forall r e b, parsed = Some (Ok (r, e, b)) -> same_command epcmd e)
    as Hparsed.
  { intros r e b. unfold parsed. destruct (_ <=? _).
    - destruct (pci_epf_nvme_cmd_parse_prp_simple c epcmd ok) as [r0 e0] eqn:Hs.
      intros [= <- <- <-]. by eapply parse_prp_simple_same.
    - apply parse_prp_list_same. }
  destruct parsed as [[[[r e] b]|f]|]; [|discriminate|discriminate].
  specialize (Hparsed r e b eq_refl).
  destruct (negb (r =? 0)); [by intros [= <- <- <-]|].
  destruct (pci_epf_nvme_alloc_cmd_buffer e heap) as [r2 e2] eqn:Hb.
  apply alloc_cmd_buffer_same in Hb.
  destruct (negb (r2 =? 0)); intros [= <- <- <-];
    (eapply same_command_trans; [exact Hparsed|]);
    (eapply same_command_trans; [exact Hb|]); by repeat split.
Qed.

Lemma transfer_cmd_data_same cfg envs epcmd r epcmd' tr :
  pci_epf_nvme_transfer_cmd_data cfg envs epcmd = Some (Ok (r, epcmd', tr)) ->
  same_command epcmd epcmd' /\
  (r = 0 -> epcmd' = epcmd) /\
  (r <> 0 -> c_status epcmd' = status_dnr NVME_SC_DATA_XFER_ERROR).
Proof.
  unfold pci_epf_nvme_transfer_cmd_data.
  destruct (transfer_cmd_segs _ _ _ _ _ _) as [[[r0 tr0]|]|]; try discriminate.
  destruct (r0 =? 0); intros [= <- <- <-].
  - split; [apply same_command_refl|]. split; done.
  - split; [by repeat split|]. split; [discriminate|reflexivity].
Qed.

Lemma prp_error_status_nonzero s : prp_error_status s -> s <> NVME_SC_SUCCESS.
Proof. intros [-> | [-> | ->]]; discriminate. Qed.

Lemma exec_continue_events cfg e epcmd0 epcmd1 hook epcmd' (buf1 buf' : list Z)
    pre evs :
  int_range (ex_submit_ret e) ->
  same_command epcmd0 epcmd1 ->
  Forall (fun ev => ~ is_submit ev) pre ->
  match exec_submit cfg e epcmd1 hook with
  | None => None
  | Some (Fault f) => Some (Fault f)
  | Some (Ok (epcmd2, evs')) => Some (Ok (epcmd2, buf1, pre ++ evs'))
  end = Some (Ok (epcmd', buf', evs)) ->
  exists b rest,
    evs = pre ++ ExSubmit (c_cmd epcmd0) b (c_buffer_size epcmd1) :: rest /\
    Forall (fun ev => ~ is_submit ev) rest /\
    (rest <> [] -> ex_submit_ret e = 0) /\
    (ex_submit_ret e < 0 -> c_status epcmd' = status_dnr NVME_SC_INTERNAL) /\
    (0 < ex_submit_ret e -> c_status epcmd' = ex_submit_ret e).
Proof.
  intros Hint (Hcmd & _) Hpre H.
  destruct (exec_submit cfg e epcmd1 hook) as [[[epcmd2 evs']|]|] eqn:Hs;
    try discriminate.
  injection H as <- _ <-.
  apply exec_submit_events in Hs as (rest & -> & Hrest & Hz & Hneg & Hpos);
    [|exact Hint].
  exists (c_buffer epcmd1), rest. rewrite Hcmd.
  split; [reflexivity|]. split; [exact Hrest|]. split; [|done].
  intros Hne. by apply Hz.
Qed.

(** X13.  The order of a command's execution.  The backend is handed a
    command only after its data pointer resolved and, for data coming
    from the host, after all of it was fetched; it is handed the command
    the host submitted, at most once.  The post-execution hook runs, and
    data goes to the host, only when the backend returned 0.  A negative
    return of the backend becomes Internal Error with Do Not Retry, a
    positive one becomes the status itself.  And a command that is not
    handed to the backend always ends with an error status. *)
Theorem exec_cmd_order (c : pci_epf_nvme_ctrl) (cfg : xfer_cfg)
    (xfer : Z -> Z -> list Z -> Z * list Z) (e : exec_env)
    (epcmd : pci_epf_nvme_cmd)
    (hook : option (pci_epf_nvme_cmd -> result pci_epf_nvme_cmd))
    (buf : list Z) (epcmd' : pci_epf_nvme_cmd) (buf' : list Z)
    (evs : list exec_event) :
  ctrl_wf c -> 0 <= c_buffer_size epcmd -> int_range (ex_submit_ret e) ->
  pci_epf_nvme_exec_cmd c cfg xfer e epcmd hook buf
  = Some (Ok (epcmd', buf', evs)) ->
  (submitted evs ->
   exists pre b len rest,
     evs = pre ++ ExSubmit (c_cmd epcmd) b len :: rest /\
     (pre = [] /\ c_buffer_size epcmd = 0 \/
      pre = [ExResolve 0] /\ c_dma_dir epcmd <> DMA_FROM_DEVICE \/
      exists tr, pre = [ExResolve 0; ExDataIn 0 tr] /\
                 c_dma_dir epcmd = DMA_FROM_DEVICE) /\
     Forall (fun ev => ~ is_submit ev) rest /\
     (rest <> [] -> ex_submit_ret e = 0) /\
     (ex_submit_ret e < 0 -> c_status epcmd' = status_dnr NVME_SC_INTERNAL) /\
     (0 < ex_submit_ret e -> c_status epcmd' = ex_submit_ret e)) /\
  (~ submitted evs ->
   c_status epcmd' <> NVME_SC_SUCCESS /\
   ((exists ret, ret <> 0 /\ evs = [ExResolve ret]) \/
    (exists ret tr, ret <> 0 /\ evs = [ExResolve 0; ExDataIn ret tr]))).
Proof.
  intros Hwf Hsize Hint. unfold pci_epf_nvme_exec_cmd. cbv zeta.
  assert (forall l, Forall (fun ev => ~ is_submit ev) l -> ~ submitted l)
    as Hnosub.
  { intros l Hl Hs. unfold submitted in Hs. apply Exists_exists in Hs
      as (ev & Hin & Hev). rewrite Forall_forall in Hl. by apply (Hl ev). }
  assert (forall pre b len rest,
            submitted (pre ++ ExSubmit (c_cmd epcmd) b len :: rest)) as Hsub.
  { intros. apply submitted_app. right. apply submitted_cons. by left. }
  destruct (Z.eqb_spec (c_buffer_size epcmd) 0) as [Hz|Hnz].
  { intros H.
    apply (exec_continue_events cfg e epcmd epcmd hook epcmd' buf buf' [] evs) in H
      as (b & rest & -> & Hrest & Hr0 & Hneg & Hpos);
      [|exact Hint|apply same_command_refl|constructor].
    split; [|intros Hn; exfalso; apply Hn, (Hsub [])].
    intros _. exists [], b, (c_buffer_size epcmd), rest.
    split; [reflexivity|]. split; [by left|]. done. }
  destruct (pci_epf_nvme_cmd_parse_dptr _ _ _ _ _ _ _)
    as [[[[ret epcmd1] buf1]|]|] eqn:Hparse; try discriminate.
  pose proof (parse_dptr_same _ _ _ _ _ _ _ _ _ _ Hparse) as Hsame1.
  apply parse_dptr_ok in Hparse as [Hok Herr]; [|exact Hwf|exact Hsize].
  destruct (Z.eqb_spec ret 0) as [->|Hret]; cbn [negb].
  2:{ intros [= <- <- <-]. split.
      - intros Hs. exfalso. revert Hs. apply Hnosub.
        repeat constructor. intros [].
      - intros _. split; [apply prp_error_status_nonzero; by apply Herr|].
        left. by exists ret. }
  pose proof Hsame1 as (Hcmd1 & Hdir1 & _).
  rewrite Hdir1.
  destruct (c_dma_dir epcmd) eqn:Hdir; cbn [is_from_device].
  3:{ destruct (pci_epf_nvme_transfer_cmd_data cfg (ex_in e) epcmd1)
        as [[[[r epcmd2] tr]|]|] eqn:Hx; try discriminate.
      apply transfer_cmd_data_same in Hx as (Hsame2 & Hx0 & Hxerr).
      destruct (Z.eqb_spec r 0) as [->|Hr]; cbn [negb].
      2:{ intros [= <- <- <-]. split.
          - intros Hs. exfalso. revert Hs. apply Hnosub.
            repeat constructor; intros [].
          - intros _. split; [rewrite Hxerr by exact Hr; discriminate|].
            right. by exists r, tr. }
      intros H.
      apply (exec_continue_events cfg e epcmd epcmd2 hook epcmd' buf1 buf'
               [ExResolve 0; ExDataIn 0 tr] evs) in H
        as (b & rest & -> & Hrest & Hr0 & Hneg & Hpos); [|exact Hint| |].
      - split; [|intros Hn; exfalso; apply Hn, Hsub].
        intros _. eexists _, b, _, rest. split; [reflexivity|].
        split; [right; right; by exists tr|]. done.
      - eapply same_command_trans; [exact Hsame1|exact Hsame2].
      - repeat constructor; intros []. }
  all: intros H;
    apply (exec_continue_events cfg e epcmd epcmd1 hook epcmd' buf1 buf'
             [ExResolve 0] evs) in H
      as (b & rest & -> & Hrest & Hr0 & Hneg & Hpos);
      [|exact Hint|exact Hsame1|repeat constructor; intros []];
    (split; [|intros Hn; exfalso; apply Hn, Hsub]);
    intros _; eexists _, b, _, rest; (split; [reflexivity|]);
    (split; [right; left; split; [reflexivity|discriminate]|]); done.
Qed.

Lemma exec_cmd_order_witness :
  pci_epf_nvme_exec_cmd ctrl_4k cfg_dma xfer_one_list exec_env_backend_fails
    key_write_submitted None []
  = Some (Ok key_write_run) /\
  take 2 key_write_run.2
  = [ExResolve 0; ExDataIn 0 (trace_mmio_in 0x50000 512)] /\
  c_status key_write_run.1.1 = status_dnr NVME_SC_INTERNAL.
Proof.
  pose proof (exec_cmd_order ctrl_4k cfg_dma xfer_one_list
                exec_env_backend_fails key_write_submitted None []
                key_write_run.1.1 key_write_run.1.2 key_write_run.2
                ctrl_4k_wf) as H.
  feed H ltac:(vm_compute; done).
  split; [vm_compute; reflexivity|]. split; [vm_compute; reflexivity|].
  destruct H as [Hsub _].
  destruct Hsub as (pre & b & len & rest & _ & _ & _ & _ & Hneg & _).
  - unfold submitted. vm_compute.
    apply Exists_cons_tl, Exists_cons_tl, Exists_cons_hd. exact I.
  - apply Hneg. vm_compute. reflexivity.
Defined.

(** ** Dispatch of admin commands *)

Lemma exec_submit_shape cfg e epcmd hook epcmd' evs :
  exec_submit cfg e epcmd hook = Some (Ok (epcmd', evs)) ->
  exists rest,
    evs = ExSubmit (c_cmd epcmd) (c_buffer epcmd) (c_buffer_size epcmd)
          :: rest /\
    Forall (fun ev => ~ is_submit ev) rest.
Proof.
  unfold exec_submit. cbv zeta.
  destruct (negb (_ =? NVME_SC_SUCCESS)).
  { intros [= <- <-]. eexists. split; [reflexivity|constructor]. }
  intros H.
  match type of H with
  | match ?h with Ok _ => _ | Fault _ => _ end = _ =>
      destruct h as [[epcmd3 hooked]|] eqn:Hh; [|discriminate]
  end.
  assert (Forall (fun ev => ~ is_submit ev) hooked) as Hhooked.
  { destruct hook as [h|].
    - destruct (h _) as [e'|]; [|discriminate]. cbn [bind] in Hh.
      injection Hh as <- <-. repeat constructor. intros [].
    - injection Hh as <- <-. constructor. }
  destruct (negb (c_buffer_size epcmd3 =? 0) && is_to_device (c_dma_dir epcmd3)).
  - destruct (pci_epf_nvme_transfer_cmd_data cfg (ex_out e) epcmd3)
      as [[[[r epcmd4] tr]|]|]; try discriminate.
    injection H as <- <-. eexists. split; [reflexivity|].
    apply Forall_app. split; [exact Hhooked|]. repeat constructor. intros [].
  - injection H as <- <-. eexists. split; [reflexivity|exact Hhooked].
Qed.

Lemma submit_in_trace pre cmd0 b0 len0 rest cmd b len :
  Forall (fun ev => ~ is_submit ev) pre ->
  Forall (fun ev => ~ is_submit ev) rest ->
  ExSubmit cmd b len ∈ pre ++ ExSubmit cmd0 b0 len0 :: rest -> cmd = cmd0.
Proof.
  intros Hpre Hrest Hin. rewrite Forall_forall in Hpre, Hrest.
  apply elem_of_app in Hin as [Hin|Hin]; [by apply Hpre in Hin|].
  apply elem_of_cons in Hin as [Heq|Hin]; [congruence|by apply Hrest in Hin].
Qed.

Lemma exec_cmd_submits_own c cfg xfer e epcmd hook buf epcmd' buf' evs :
  pci_epf_nvme_exec_cmd c cfg xfer e epcmd hook buf
  = Some (Ok (epcmd', buf', evs)) ->
  forall cmd b len, ExSubmit cmd b len ∈ evs -> cmd = c_cmd epcmd.
Proof.
  unfold pci_epf_nvme_exec_cmd. cbv zeta.
  assert (forall epcmd1 (buf1 : list Z) pre,
            same_command epcmd epcmd1 ->
            Forall (fun ev => ~ is_submit ev) pre ->
            match exec_submit cfg e epcmd1 hook with
            | None => None
            | Some (Fault f) => Some (Fault f)
            | Some (Ok (epcmd2, evs')) => Some (Ok (epcmd2, buf1, pre ++ evs'))
            end = Some (Ok (epcmd', buf', evs)) ->
            forall cmd b len, ExSubmit cmd b len ∈ evs -> cmd = c_cmd epcmd)
    as Hcont.
  { intros epcmd1 buf1 pre (Hcmd & _) Hpre H.
    destruct (exec_submit cfg e epcmd1 hook) as [[[epcmd2 evs']|]|] eqn:Hs;
      try discriminate.
    injection H as <- _ <-.
    apply exec_submit_shape in Hs as (rest & -> & Hrest).
    intros cmd b len Hin. rewrite <- Hcmd.
    eapply submit_in_trace; [exact Hpre|exact Hrest|exact Hin]. }
  destruct (c_buffer_size epcmd =? 0).
  { intros H.
    eapply (Hcont epcmd buf []); [apply same_command_refl|constructor|exact H]. }
  destruct (pci_epf_nvme_cmd_parse_dptr _ _ _ _ _ _ _)
    as [[[[ret epcmd1] buf1]|]|] eqn:Hparse; try discriminate.
  apply parse_dptr_same in Hparse.
  destruct (negb (ret =? 0)).
  { intros [= <- <- <-] cmd b len Hin.
    apply list_elem_of_singleton in Hin. discriminate. }
  destruct (is_from_device (c_dma_dir epcmd1)).
  - destruct (pci_epf_nvme_transfer_cmd_data cfg (ex_in e) epcmd1)
      as [[[[r epcmd2] tr]|]|] eqn:Hx; try discriminate.
    apply transfer_cmd_data_same in Hx as (Hsame2 & _).
    destruct (negb (r =? 0)).
    { intros [= <- <- <-] cmd b len Hin.
      apply elem_of_cons in Hin as [Heq|Hin]; [discriminate|].
      apply list_elem_of_singleton in Hin. discriminate. }
    intros H.
    eapply (Hcont epcmd2 buf1 [ExResolve 0; ExDataIn r tr]); [| |exact H].
    + eapply same_command_trans; [exact Hparse|exact Hsame2].
    + repeat constructor; intros [].
  - intros H. eapply (Hcont epcmd1 buf1 [ExResolve 0]); [exact Hparse| |exact H].
    repeat constructor; intros [].
Qed.

Lemma admin_exec_events cfg xfer st e epcmd1 hook buf st' buf' evs :
  match pci_epf_nvme_exec_cmd (ctrl st) cfg xfer e epcmd1 hook buf with
  | None => None
  | Some (Fault f) => Some (Fault f)
  | Some (Ok (epcmd2, buf1, evs)) =>
      match pci_epf_nvme_complete_cmd st epcmd2 with
      | Fault f => Some (Fault f)
      | Ok st2 => Some (Ok (st2, buf1, evs))
      end
  end = Some (Ok (st', buf', evs)) ->
  forall cmd b len, ExSubmit cmd b len ∈ evs -> cmd = c_cmd epcmd1.
Proof.
  destruct (pci_epf_nvme_exec_cmd _ _ _ _ _ _ _)
    as [[[[epcmd2 buf1] evs1]|]|] eqn:Hx; try discriminate.
  destruct (pci_epf_nvme_complete_cmd st epcmd2); [|discriminate].
  intros [= <- <- <-]. by eapply exec_cmd_submits_own.
Qed.

Lemma admin_local_events st epcmd1 (buf : list Z) st' buf' evs :
  match pci_epf_nvme_complete_cmd st epcmd1 with
  | Fault f => Some (Fault f)
  | Ok st2 => Some (Ok (st2, buf, @nil exec_event))
  end = Some (Ok (st', buf', evs)) ->
  pci_epf_nvme_complete_cmd st epcmd1 = Ok st' /\ evs = [].
Proof.
  destruct (pci_epf_nvme_complete_cmd st epcmd1); [|discriminate].
  by intros [= <- <- <-].
Qed.

Lemma submitted_elem evs :
  submitted evs -> exists cmd b len, ExSubmit cmd b len ∈ evs.
Proof.
  unfold submitted. intros H. apply Exists_exists in H as (ev & Hin & Hev).
  destruct ev; try done. by eexists _, _, _.
Qed.

(** X14.  What the endpoint passes on of the admin command set.  The
    backend is handed an admin command only for Identify, Get Log Page,
    Abort, and Set/Get Features of a feature other than Number of Queues,
    Interrupt Coalescing and Arbitration, and then it is the command the
    host submitted.  The queue management commands are served by the
    endpoint alone.  An Asynchronous Event Request is released without a
    completion ever being queued.  Every other opcode is completed with
    Invalid Opcode and Do Not Retry. *)
Theorem admin_cmd_pass_through (cfg : xfer_cfg)
    (xfer : Z -> Z -> list Z -> Z * list Z) (st : pci_epf_nvme)
    (e : exec_env) (wq_ok : bool) (log_len vendorid fcap : Z)
    (epcmd : pci_epf_nvme_cmd) (buf : list Z)
    (st' : pci_epf_nvme) (buf' : list Z) (evs : list exec_event) :
  let op := opcode (c_cmd epcmd) in
  pci_epf_nvme_process_admin_cmd cfg xfer st e wq_ok log_len vendorid fcap
    epcmd buf = Some (Ok (st', buf', evs)) ->
  (submitted evs ->
   admin_passed_on op /\
   (op = nvme_admin_set_features \/ op = nvme_admin_get_features ->
    ~ feature_handled (cdw10 (c_cmd epcmd))) /\
   forall cmd b len, ExSubmit cmd b len ∈ evs -> cmd = c_cmd epcmd) /\
  (admin_managed op -> evs = []) /\
  (op = nvme_admin_async_event ->
   st' = pci_epf_nvme_free_cmd st epcmd /\ evs = []) /\
  (~ admin_passed_on op -> ~ admin_managed op ->
   op <> nvme_admin_async_event ->
   pci_epf_nvme_complete_cmd st
     (set_c_status epcmd (status_dnr NVME_SC_INVALID_OPCODE)) = Ok st' /\
   evs = []).
Proof.
  intros op. unfold pci_epf_nvme_process_admin_cmd. cbv zeta. fold op.
  unfold admin_passed_on, admin_managed.
  assert (forall l : list exec_event, l = [] -> ~ submitted l) as Hnil
    by (intros l ->; apply submitted_nil).
  destruct (Z.eqb_spec op nvme_admin_identify) as [Hop|Hn1].
  { intros H. pose proof (admin_exec_events _ _ _ _ _ _ _ _ _ _ H) as Hown.
    rewrite Hop. split; [|split; [|split]];
      try (intros; exfalso; (intuition discriminate) || tauto).
    intros _. split; [tauto|]. split; [intros [?|?]; discriminate|exact Hown]. }
  destruct (Z.eqb_spec op nvme_admin_get_log_page) as [Hop|Hn2].
  { intros H. pose proof (admin_exec_events _ _ _ _ _ _ _ _ _ _ H) as Hown.
    rewrite Hop. split; [|split; [|split]];
      try (intros; exfalso; (intuition discriminate) || tauto).
    intros _. split; [tauto|]. split; [intros [?|?]; discriminate|exact Hown]. }
  destruct (Z.eqb_spec op nvme_admin_async_event) as [Hop|Hn3].
  { intros [= <- <- <-]. rewrite Hop. split; [|split; [|split]];
      try (intros; exfalso; (intuition discriminate) || tauto); try done.
    intros Hs. by apply submitted_nil in Hs. }
  destruct (Z.eqb_spec op nvme_admin_set_features) as [Hop|Hn4].
  { unfold pci_epf_nvme_process_set_features. cbv zeta.
    unfold feature_handled. cbv zeta.
    set (feat := Z.land (u32 (cdw10 (c_cmd epcmd))) 0xff).
    intros H. rewrite Hop.
    split; [|split; [|split]];
      try (intros; exfalso; (intuition discriminate) || tauto).
    intros Hs. split; [tauto|].
    revert H.
    destruct (Z.eqb_spec feat NVME_FEAT_NUM_QUEUES) as [Hf|Hf1].
    { destruct (_ || _).
      - intros H. apply admin_local_events in H as [_ ->].
        by apply submitted_nil in Hs.
      - destruct (io_queue_in_use _ _) as [used|]; [|discriminate].
        cbn [bind]. destruct used; intros H;
          apply admin_local_events in H as [_ ->];
          by apply submitted_nil in Hs. }
    destruct (Z.eqb_spec feat NVME_FEAT_IRQ_COALESCE) as [Hf|Hf2].
    { intros H. apply admin_local_events in H as [_ ->].
      by apply submitted_nil in Hs. }
    destruct (Z.eqb_spec feat NVME_FEAT_ARBITRATION) as [Hf|Hf3].
    { intros H. apply admin_local_events in H as [_ ->].
      by apply submitted_nil in Hs. }
    cbn [orb]. intros H.
    pose proof (admin_exec_events _ _ _ _ _ _ _ _ _ _ H) as Hown.
    split; [tauto|exact Hown]. }
  destruct (Z.eqb_spec op nvme_admin_get_features) as [Hop|Hn5].
  { unfold pci_epf_nvme_process_get_features. cbv zeta.
    unfold feature_handled. cbv zeta.
    set (feat := Z.land (u32 (cdw10 (c_cmd epcmd))) 0xff).
    intros H. rewrite Hop.
    split; [|split; [|split]];
      try (intros; exfalso; (intuition discriminate) || tauto).
    intros Hs. split; [tauto|].
    revert H.
    destruct (Z.eqb_spec feat NVME_FEAT_NUM_QUEUES) as [Hf|Hf1].
    { intros H. apply admin_local_events in H as [_ ->].
      by apply submitted_nil in Hs. }
    destruct (Z.eqb_spec feat NVME_FEAT_IRQ_COALESCE) as [Hf|Hf2].
    { intros H. apply admin_local_events in H as [_ ->].
      by apply submitted_nil in Hs. }
    destruct (Z.eqb_spec feat NVME_FEAT_ARBITRATION) as [Hf|Hf3].
    { intros H. apply admin_local_events in H as [_ ->].
      by apply submitted_nil in Hs. }
    cbn [orb]. intros H.
    pose proof (admin_exec_events _ _ _ _ _ _ _ _ _ _ H) as Hown.
    split; [tauto|exact Hown]. }
  destruct (Z.eqb_spec op nvme_admin_abort_cmd) as [Hop|Hn6].
  { intros H. pose proof (admin_exec_events _ _ _ _ _ _ _ _ _ _ H) as Hown.
    rewrite Hop. split; [|split; [|split]];
      try (intros; exfalso; (intuition discriminate) || tauto).
    intros _. split; [tauto|]. split; [intros [?|?]; discriminate|exact Hown]. }
  assert (forall r,
            match r with
            | Fault f => Some (Fault f)
            | Ok (st1, epcmd1) =>
                match pci_epf_nvme_complete_cmd st1 epcmd1 with
                | Fault f => Some (Fault f)
                | Ok st2 => Some (Ok (st2, buf, @nil exec_event))
                end
            end = Some (Ok (st', buf', evs)) -> evs = []) as Hmanaged.
  { intros [[st1 epcmd1]|]; [|discriminate]. intros H.
    by apply admin_local_events in H as [_ ->]. }
  destruct (Z.eqb_spec op nvme_admin_create_cq) as [Hop|Hn7].
  { intros H. apply Hmanaged in H as ->. rewrite Hop.
    split; [intros Hs; by apply submitted_nil in Hs|].
    split; [done|]. split; [discriminate|]. intros _ Hm. tauto. }
  destruct (Z.eqb_spec op nvme_admin_create_sq) as [Hop|Hn8].
  { intros H. apply Hmanaged in H as ->. rewrite Hop.
    split; [intros Hs; by apply submitted_nil in Hs|].
    split; [done|]. split; [discriminate|]. intros _ Hm. tauto. }
  destruct (Z.eqb_spec op nvme_admin_delete_cq) as [Hop|Hn9].
  { intros H. apply Hmanaged in H as ->. rewrite Hop.
    split; [intros Hs; by apply submitted_nil in Hs|].
    split; [done|]. split; [discriminate|]. intros _ Hm. tauto. }
  destruct (Z.eqb_spec op nvme_admin_delete_sq) as [Hop|Hn10].
  { intros H. apply Hmanaged in H as ->. rewrite Hop.
    split; [intros Hs; by apply submitted_nil in Hs|].
    split; [done|]. split; [discriminate|]. intros _ Hm. tauto. }
  intros H. apply admin_local_events in H as [Hc ->].
  split; [intros Hs; by apply submitted_nil in Hs|].
  split; [done|]. split; [done|]. done.
Qed.

Lemma admin_cmd_pass_through_witness :
  pci_epf_nvme_process_admin_cmd cfg_dma xfer_one_list st_ready
    exec_env_unused true 0 0 0 abort_cmd []
  = Some (Ok abort_run) /\
  abort_run.2 = [ExSubmit (c_cmd abort_cmd) None 0] /\
  forall cmd b len, ExSubmit cmd b len ∈ abort_run.2 -> cmd = c_cmd abort_cmd.
Proof.
  pose proof (admin_cmd_pass_through cfg_dma xfer_one_list st_ready
                exec_env_unused true 0 0 0 abort_cmd []
                abort_run.1.1 abort_run.1.2 abort_run.2) as H.
  feed H ltac:(vm_compute; done).
  split; [vm_compute; reflexivity|]. split; [vm_compute; reflexivity|].
  destruct H as (Hsub & _). apply Hsub.
  unfold submitted. vm_compute. apply Exists_cons_hd. exact I.
Defined.
(** ** Activation by the data of a write *)

Lemma activates_set_c_cqe epcmd cqe buf :
  activates (set_c_cqe epcmd cqe) buf = activates epcmd buf.
Proof. reflexivity. Qed.

Lemma evil_work_evil_wq st epcmd st' :
  pci_epf_nvme_evil_work st epcmd = Ok st' -> evil_wq st' = evil_wq st.
Proof.
  unfold pci_epf_nvme_evil_work. intros H.
  destruct (c_buffer_size epcmd <=? SZ_128K); cbn [bind] in H.
  - destruct (c_buffer epcmd); [|discriminate].
    repeat match type of H with
           | context [if ?b then _ else _] => destruct b
           end; cbn [bind] in H; try discriminate;
      injection H as <-; reflexivity.
  - injection H as <-. reflexivity.
Qed.

(** X15.  Activation by the data of a write, from the posting to the
    flag.  When the completion of a write of an I/O queue whose buffer was
    staged (at least 256 bytes) is posted and nothing else waits on
    [evil_wq], the command is the one item of [evil_wq]; the work run
    there sets [evil_activated] exactly when the buffer size is at most
    128 KiB and the first 256 bytes of the buffer are the first 256 bytes
    of [activation_key], leaves the flag as it was otherwise, and releases
    the command.  The bytes compared are the first 64 words of the key in
    memory order: the other 192 words of the array never matter. *)
Theorem staged_write_activation (st : pci_epf_nvme)
    (epcmd : pci_epf_nvme_cmd) (cq sq : pci_epf_nvme_queue) (buf : list Z) :
  pci_epf_nvme_ctrl_ready st = true ->
  get_cq st (c_cqid epcmd) = Ok cq -> queue_live cq = true ->
  u16 (pci_epf_nvme_reg_read32 (ctrl st) (q_db cq)) <> q_tail cq + 1 ->
  get_sq st (c_sqid epcmd) = Ok sq ->
  c_sqid epcmd <> 0 -> opcode (c_cmd epcmd) = nvme_cmd_write ->
  c_buffer epcmd = Some buf ->
  NVME_EVIL_ACTIVATION_KEY_LEN <= Z.of_nat (length buf) ->
  evil_wq st = [] ->
  (exists st1 st2 cqe,
     pci_epf_nvme_queue_response st epcmd = Ok (true, st1) /\
     host_mem st1
     = <[q_pci_addr cq + q_tail cq * q_qes cq := cqe]> (host_mem st) /\
     evil_wq st1 = [set_c_cqe epcmd cqe] /\
     evil_wq_run st1 = Ok st2 /\
     evil_wq st2 = [] /\
     evil_activated st2 = evil_activated st || activates epcmd buf /\
     freed st2 = freed st ++ [set_c_cqe epcmd cqe]) /\
  take 256 activation_key_bytes
  = concat (map u32_bytes (take 64 activation_key)).
Proof.
  intros Hready Hcq Hlive Hdb Hsq Hs Ho Hbuf Hlen Hwq.
  split; [|vm_compute; reflexivity].
  destruct (queue_response_posts st epcmd cq sq Hready Hcq Hlive Hdb Hsq)
    as (st1 & cqe & Hrun & Hmem & _ & Hw & _).
  destruct (Hw (conj Hs Ho)) as [Hwq1 Hfreed1]. rewrite Hwq in Hwq1.
  pose proof (queue_response_evil _ _ _ _ Hrun) as Hflag1.
  destruct (evil_work_run (set_evil_wq st1 []) (set_c_cqe epcmd cqe) buf)
    as (st2 & Hrun2 & Hflag2 & Hfreed2 & _); [exact Hbuf|exact Hlen|].
  exists st1, st2, cqe. split; [exact Hrun|]. split; [exact Hmem|].
  split; [exact Hwq1|].
  split; [unfold evil_wq_run; rewrite Hwq1; exact Hrun2|].
  split; [by apply evil_work_evil_wq in Hrun2|].
  split.
  - rewrite Hflag2, activates_set_c_cqe. cbn [evil_activated set_evil_wq].
    by rewrite Hflag1.
  - rewrite Hfreed2. cbn [freed set_evil_wq]. by rewrite Hfreed1.
Qed.

Lemma staged_write_activation_witness :
  exists st1 st2,
    pci_epf_nvme_queue_response st_io key_write_cmd = Ok (true, st1) /\
    evil_wq_run st1 = Ok st2 /\
    evil_activated st_io = false /\ evil_activated st2 = true.
Proof.
  pose proof (staged_write_activation st_io key_write_cmd cq1_created
                sq1_created
                (take 256 activation_key_bytes ++ replicate 256 0)) as H.
  feed H ltac:(vm_compute; done).
  destruct H as ((st1 & st2 & cqe & Hrun & _ & _ & Hrun2 & _ & Hflag & _) & _).
  exists st1, st2. split; [exact Hrun|]. split; [exact Hrun2|].
  split; [reflexivity|]. rewrite Hflag. vm_compute. reflexivity.
Defined.



(** ** Phase protocol of a completion ring *)

Lemma ring_of_advance a b :
  ring_of a = ring_of b ->
  ring_of (cq_advance_tail a) = ring_of (cq_advance_tail b).
Proof.
  unfold ring_of. intros [= Ht Hp Hd]. unfold cq_advance_tail.
  rewrite Ht, Hp, Hd. destruct (q_depth b <=? u16 (q_tail b + 1)); cbn;
    by rewrite ?Hd.
Qed.

Lemma ring_of_advance_n n : forall a b,
  ring_of a = ring_of b -> ring_of (advance_n n a) = ring_of (advance_n n b).
Proof.
  induction n as [|n IH]; intros a b H; [exact H|].
  cbn [advance_n]. apply IH. by apply ring_of_advance.
Qed.

Lemma advance_n_depth n : forall cq,
  cq_ring_wf cq -> q_depth (advance_n n cq) = q_depth cq.
Proof.
  induction n as [|n IH]; intros cq Hwf; [reflexivity|].
  cbn [advance_n].
  destruct (cq_advance_tail_spec cq Hwf) as (Hd & Hwf' & _).
  rewrite IH by exact Hwf'. exact Hd.
Qed.

(** What a posting that returned true on a ready controller and a live
    queue did to the queue array and to the host. *)
Lemma queue_response_true st epcmd cq st' :
  pci_epf_nvme_ctrl_ready st = true ->
  get_cq st (c_cqid epcmd) = Ok cq -> queue_live cq = true ->
  pci_epf_nvme_queue_response st epcmd = Ok (true, st') ->
  let db := u16 (pci_epf_nvme_reg_read32 (ctrl st) (q_db cq)) in
  exists sq,
    get_sq st (c_sqid epcmd) = Ok sq /\ db <> q_tail cq + 1 /\
    ctrl_cq (ctrl st')
    = array_set (ctrl_cq (ctrl st)) (c_cqid epcmd)
        (cq_advance_tail (set_q_head cq db)) /\
    host_mem st'
    = <[q_pci_addr cq + q_tail cq * q_qes cq := posted_cqe epcmd cq sq]>
        (host_mem st).
Proof.
  intros Hready Hcq Hlive H db. unfold pci_epf_nvme_queue_response in H.
  rewrite Hready, Hcq in H. cbn [negb bind] in H.
  unfold queue_live in Hlive. rewrite Hlive in H. cbn [negb] in H.
  cbv zeta in H. fold db in H. cbn [q_head q_tail set_q_head] in H.
  destruct (Z.eqb_spec db (q_tail cq + 1)) as [|Hdb]; [discriminate|].
  assert (get_sq (put_cq st (c_cqid epcmd) (set_q_head cq db)) (c_sqid epcmd)
          = get_sq st (c_sqid epcmd)) as Hsq by reflexivity.
  rewrite Hsq in H.
  destruct (get_sq st (c_sqid epcmd)) as [sq|]; [|discriminate].
  cbn [bind] in H. exists sq. split; [reflexivity|]. split; [exact Hdb|].
  destruct (negb (c_sqid epcmd =? 0) && _); injection H as <-;
    (split; [cbn; unfold array_set; by rewrite list_insert_insert_eq
            |reflexivity]).
Qed.

Lemma postings_ring cqid n st st' :
  postings cqid n st st' ->
  forall cq, get_cq st cqid = Ok cq ->
  exists cq', get_cq st' cqid = Ok cq' /\
              ring_of cq' = ring_of (advance_n n cq).
Proof.
  induction 1 as [st|n st reg v st' _ IH|n st epcmd cq0 st1 st' Hid Hready
                  Hcq0 Hlive Hrun _ IH]; intros cq Hcq.
  - by exists cq.
  - apply IH. exact Hcq.
  - subst cqid. rewrite Hcq in Hcq0. injection Hcq0 as <-.
    destruct (queue_response_true _ _ _ _ Hready Hcq Hlive Hrun)
      as (sq & _ & _ & Harr & _).
    destruct (IH (cq_advance_tail
                    (set_q_head cq
                       (u16 (pci_epf_nvme_reg_read32 (ctrl st) (q_db cq))))))
      as (cq' & Hget & Hring).
    { unfold get_cq. rewrite Harr. by eapply array_get_set_eq. }
    exists cq'. split; [exact Hget|]. rewrite Hring. cbn [advance_n].
    apply ring_of_advance_n, ring_of_advance. reflexivity.
Qed.

(** X17.  The phase protocol on a ring whose depth fits its field.  A
    completion queue created in a free slot with [size] below 65535 is an
    empty ring of [size + 1] slots in phase 1.  On a ready controller and
    a live queue with such a ring, a posting attempt either finds the
    doorbell at [tail + 1] and changes nothing of the ring and of host
    memory, or writes at the tail an entry that carries the phase of the
    queue, moves the tail on by one modulo the depth, and flips the phase
    exactly when the tail was at the last slot; it touches the phase of no
    other queue.  Hence [depth] postings, whatever the host writes to its
    doorbells in between, bring the tail back to where it was and flip
    the phase exactly once.  The completion of a command, the deletion of
    queues, the creation of a submission queue, the interrupt, the work on
    [evil_wq] and the disabling of the controller leave every phase as it
    is. *)
Theorem cq_ring_phase_protocol :
  (forall st qid flags size vector pci_addr cq,
     get_cq st qid = Ok cq -> q_ref cq = 0 -> 0 <= size < 65535 ->
     exists st' cq',
       pci_epf_nvme_create_cq st qid flags size vector pci_addr
       = Ok (0, st') /\
       get_cq st' qid = Ok cq' /\
       ring_of cq' = (0, 1, size + 1) /\ cq_ring_wf cq') /\
  (forall st epcmd cq sq,
     pci_epf_nvme_ctrl_ready st = true ->
     get_cq st (c_cqid epcmd) = Ok cq -> queue_live cq = true ->
     cq_ring_wf cq ->
     get_sq st (c_sqid epcmd) = Ok sq ->
     let db := u16 (pci_epf_nvme_reg_read32 (ctrl st) (q_db cq)) in
     exists b st' cq',
       pci_epf_nvme_queue_response st epcmd = Ok (b, st') /\
       get_cq st' (c_cqid epcmd) = Ok cq' /\ cq_ring_wf cq' /\
       (db = q_tail cq + 1 ->
        b = false /\ ring_of cq' = ring_of cq /\
        cq_phases st' = cq_phases st /\ host_mem st' = host_mem st) /\
       (db <> q_tail cq + 1 ->
        b = true /\
        host_mem st'
        = <[q_pci_addr cq + q_tail cq * q_qes cq := posted_cqe epcmd cq sq]>
            (host_mem st) /\
        Z.testbit (cqe_status (posted_cqe epcmd cq sq)) 0
        = Z.testbit (q_phase cq) 0 /\
        ring_of cq'
        = ((q_tail cq + 1) mod q_depth cq,
           (if q_tail cq =? q_depth cq - 1
            then Z.lxor (q_phase cq) 1 else q_phase cq),
           q_depth cq) /\
        cq_phases st'
        = <[Z.to_nat (c_cqid epcmd) := q_phase cq']> (cq_phases st))) /\
  (forall cqid st st' cq,
     get_cq st cqid = Ok cq -> cq_ring_wf cq ->
     postings cqid (Z.to_nat (q_depth cq)) st st' ->
     exists cq',
       get_cq st' cqid = Ok cq' /\
       ring_of cq' = (q_tail cq, Z.lxor (q_phase cq) 1, q_depth cq)) /\
  (forall st st',
     (exists epcmd, pci_epf_nvme_complete_cmd st epcmd = Ok st') \/
     (exists qid, pci_epf_nvme_delete_cq st qid = Ok st') \/
     (exists qid, pci_epf_nvme_delete_sq st qid = Ok st') \/
     (exists qid cqid flags size pci_addr wq_ok ret,
        pci_epf_nvme_create_sq st qid cqid flags size pci_addr wq_ok
        = Ok (ret, st')) \/
     (exists cq epc_ret, pci_epf_nvme_raise_irq st cq epc_ret = st') \/
     (exists epcmd, pci_epf_nvme_evil_work st epcmd = Ok st') \/
     pci_epf_nvme_disable_ctrl st = Ok st' ->
     cq_phases st' = cq_phases st).
Proof.
  split; [|split; [|split]].
  - intros st qid flags size vector pci_addr cq Hcq Href Hsize.
    destruct (create_cq_fresh st qid flags size vector pci_addr cq Hcq Href)
      as (st' & cq' & Hrun & Hget & Hph & _ & Htl & Hd & _).
    rewrite u16_small in Hd by lia.
    exists st', cq'. split; [exact Hrun|]. split; [exact Hget|].
    unfold ring_of, cq_ring_wf. rewrite Hph, Htl, Hd. split; [done|lia].
  - intros st epcmd cq sq Hready Hcq Hlive Hwf Hsq db.
    destruct (Z.eq_dec db (q_tail cq + 1)) as [Hdb|Hdb].
    + exists false, (put_cq st (c_cqid epcmd) (set_q_head cq (q_tail cq + 1))),
        (set_q_head cq (q_tail cq + 1)).
      split; [by apply queue_response_defers|].
      split; [by eapply get_cq_put_cq_eq|]. split; [exact Hwf|].
      split; [|done]. intros _. split; [done|]. split; [done|].
      split; [|done]. unfold cq_phases. cbn. by eapply map_array_set.
    + destruct (queue_response_posts st epcmd cq sq Hready Hcq Hlive Hdb Hsq)
        as (st' & cqe & Hrun & _).
      destruct (queue_response_true _ _ _ _ Hready Hcq Hlive Hrun)
        as (sq' & Hsq' & _ & Harr & Hmem).
      fold db in Harr. rewrite Hsq in Hsq'. injection Hsq' as <-.
      set (cq' := cq_advance_tail (set_q_head cq db)) in *.
      assert (ring_of cq' = ring_of (cq_advance_tail cq)) as Hring
        by (by apply ring_of_advance).
      destruct (cq_advance_tail_spec cq Hwf) as (Hd & Hwf' & Hlast & Hmid).
      assert (cq_ring_wf cq') as Hwfq.
      { unfold ring_of in Hring. injection Hring as Ht Hp Hdd.
        unfold cq_ring_wf in *. rewrite Ht, Hdd. exact Hwf'. }
      exists true, st', cq'. split; [exact Hrun|].
      split; [unfold get_cq; rewrite Harr; by eapply array_get_set_eq|].
      split; [exact Hwfq|]. split; [done|]. intros _.
      split; [done|]. split; [exact Hmem|].
      split.
      { cbn [cqe_status posted_cqe]. unfold u16.
        rewrite <- Z.land_ones by lia. rewrite Z.land_spec, Z.lor_spec.
        rewrite Z.shiftl_spec_low by lia. cbn. apply andb_true_r. }
      split.
      { rewrite Hring. unfold ring_of. destruct Hwf as [Hdp Htl].
        destruct (Z.eqb_spec (q_tail cq) (q_depth cq - 1)) as [He|Hne].
        - destruct (Hlast He) as [-> ->]. rewrite Hd.
          replace (q_tail cq + 1) with (q_depth cq) by lia.
          by rewrite Z.mod_same by lia.
        - destruct Hmid as [-> ->]; [lia|]. rewrite Hd.
          by rewrite Z.mod_small by lia. }
      unfold cq_phases. rewrite Harr. unfold array_set.
      by rewrite list_fmap_insert.
  - intros cqid st st' cq Hcq Hwf Hpost.
    destruct (postings_ring _ _ _ _ Hpost cq Hcq) as (cq' & Hget & Hring).
    exists cq'. split; [exact Hget|]. rewrite Hring.
    destruct (advance_full_ring cq Hwf) as (Ht & Hp & _).
    unfold ring_of. by rewrite Ht, Hp, advance_n_depth.
  - intros st st' [[e H]|[[q H]|[[q H]|[H|[H|[[e H]|H]]]]]].
    + by apply complete_cmd_frame in H as [H _].
    + by apply delete_cq_frame in H as [H _].
    + by apply delete_sq_frame in H as [H _].
    + destruct H as (q & c & f & s & a & w & r & H).
      by eapply create_sq_frame.
    + destruct H as (cq & r & <-). apply raise_irq_frame.
    + by apply evil_work_frame in H.
    + by apply disable_ctrl_frame in H as [H _].
Qed.

Lemma cq_ring_phase_protocol_witness :
  postings 1 3 st_io st_posted3 /\
  exists cq', get_cq st_posted3 1 = Ok cq' /\ ring_of cq' = (0, 0, 3).
Proof.
  assert (postings 1 3 st_io st_posted3) as Hpost.
  { eapply (postings_post 1 _ st_io (io_cmd 10) cq1_created
              (post_io_cmd st_io 10));
      [reflexivity|vm_compute; reflexivity|vm_compute; reflexivity
      |vm_compute; reflexivity|vm_compute; reflexivity|].
    eapply (postings_post 1 _ _ (io_cmd 11)
              (state_of queue_zero (get_cq (post_io_cmd st_io 10) 1))
              (post_io_cmd (post_io_cmd st_io 10) 11));
      [reflexivity|vm_compute; reflexivity|vm_compute; reflexivity
      |vm_compute; reflexivity|vm_compute; reflexivity|].
    eapply (postings_post 1 _ _ (io_cmd 12)
              (state_of queue_zero
                 (get_cq (post_io_cmd (post_io_cmd st_io 10) 11) 1))
              st_posted3);
      [reflexivity|vm_compute; reflexivity|vm_compute; reflexivity
      |vm_compute; reflexivity|vm_compute; reflexivity|].
    apply postings_done. }
  split; [exact Hpost|].
  destruct cq_ring_phase_protocol as (_ & _ & Hfull & _).
  apply (Hfull 1 st_io st_posted3 cq1_created).
  - vm_compute. reflexivity.
  - vm_compute. repeat split; congruence.
  - exact Hpost.
Defined.
(** ** Tearing the queues down *)

Lemma sq_uses_range c sq : 0 <= sq_uses c sq <= 1.
Proof. unfold sq_uses. destruct (_ && _); lia. Qed.

Lemma sq_uses_dead c sq : q_ref sq = 0 -> sq_uses c sq = 0.
Proof. unfold sq_uses. by intros ->. Qed.

Lemma sq_bound_nonneg c l : 0 <= sq_bound c l.
Proof.
  induction l as [|sq l IH]; cbn; [lia|].
  pose proof (sq_uses_range c sq). lia.
Qed.

Lemma sq_bound_insert c (l : list pci_epf_nvme_queue) : forall k old new,
  l !! k = Some old ->
  sq_bound c (<[k:=new]> l) = sq_bound c l - sq_uses c old + sq_uses c new.
Proof.
  induction l as [|x l IH]; intros [|k] old new H; try discriminate.
  - injection H as ->. cbn. lia.
  - change (<[S k:=new]> (x :: l)) with (x :: <[k:=new]> l).
    cbn [sq_bound]. rewrite (IH k old new H). lia.
Qed.

Lemma sq_bound_set c l i old new :
  array_get l i = Ok old ->
  sq_bound c (array_set l i new) = sq_bound c l - sq_uses c old + sq_uses c new.
Proof. intros H. apply array_get_Ok in H as [_ H]. by apply sq_bound_insert. Qed.

Lemma sq_bound_lookup c (l : list pci_epf_nvme_queue) : forall k sq,
  l !! k = Some sq -> sq_uses c sq <= sq_bound c l.
Proof.
  induction l as [|x l IH]; intros [|k] sq H; try discriminate; cbn in *.
  - injection H as ->. pose proof (sq_bound_nonneg c l). lia.
  - pose proof (IH k sq H). pose proof (sq_uses_range c x). lia.
Qed.

Lemma sq_bound_zero c l :
  Forall (fun sq => sq_uses c sq = 0) l -> sq_bound c l = 0.
Proof. induction 1 as [|x l Hx _ IH]; cbn; lia. Qed.

Lemma delete_queue_eq st q :
  pci_epf_nvme_delete_queue st q
  = (foldl pci_epf_nvme_free_cmd st (q_list q), deleted_queue q).
Proof. reflexivity. Qed.

Lemma deleted_queue_dead q : q_ref q = 0 -> queue_dead (deleted_queue q).
Proof.
  intros Hr. split; [exact Hr|]. unfold queue_live. cbn. apply has_bits_ldiff.
Qed.

Lemma refs_wf_ctrl st st' : ctrl st' = ctrl st -> refs_wf st -> refs_wf st'.
Proof.
  intros Hc (Hwf & Hsq & Hadm & Hcq).
  unfold refs_wf, disable_wf, queues_wf, get_sq, get_cq in *.
  rewrite Hc. done.
Qed.

Lemma get_sq_range st qid sq :
  disable_wf st -> get_sq st qid = Ok sq ->
  0 <= qid < ctrl_nr_queues (ctrl st) /\
  0 <= q_cqid sq < ctrl_nr_queues (ctrl st).
Proof.
  intros ((Hl1 & Hl2) & H1 & Hall) Hsq.
  apply array_get_Ok in Hsq as [H0 Hsq]. split.
  - apply lookup_lt_Some in Hsq. lia.
  - rewrite Forall_lookup in Hall. apply (Hall (Z.to_nat qid)).
    by rewrite list_lookup_fmap, Hsq.
Qed.

(** One call of [pci_epf_nvme_delete_sq] under consistent counts. *)
Lemma delete_sq_refs st qid :
  refs_wf st -> 0 <= qid < ctrl_nr_queues (ctrl st) ->
  exists st',
    pci_epf_nvme_delete_sq st qid = Ok st' /\
    refs_wf st' /\ delete_frame st st' /\ sq_dead st' qid /\
    (forall j, sq_dead st j -> sq_dead st' j) /\
    (forall j, cq_dead st j -> cq_dead st' j).
Proof.
  intros Hrefs Hq. pose proof Hrefs as (Hwf & Hsqs & Hadm & Hcqs).
  destruct (delete_sq_ok st qid Hwf Hq) as (st' & Hrun & _ & Hframe).
  exists st'. split; [exact Hrun|].
  pose proof Hwf as ((Hl1 & Hl2) & H1 & Hall).
  destruct (array_get_lt (ctrl_sq (ctrl st)) qid) as [sq Hsq]; [lia|].
  revert Hrun. unfold pci_epf_nvme_delete_sq.
  set (st0 := set_queue_log st (queue_log st ++ [EvDeleteSq qid])).
  assert (get_sq st0 qid = Ok sq) as -> by exact Hsq. cbn [bind].
  destruct (Hsqs qid sq Hsq) as [[Hr0 Hnl] | Hr1].
  { rewrite Hr0. cbn. intros [= <-].
    split; [by apply (refs_wf_ctrl st)|]. split; [exact Hframe|].
    split; [by exists sq|]. split; intros j Hj; exact Hj. }
  rewrite Hr1. cbn [q_ref set_q_ref]. change (1 =? 0) with false.
  change (1 - 1) with 0. cbn [Z.eqb negb].
  rewrite delete_queue_eq. cbv zeta.
  set (sq2 := deleted_queue (set_q_ref sq 0)).
  set (st1 := foldl pci_epf_nvme_free_cmd st0 _).
  assert (ctrl st1 = ctrl st) as Hc1 by (subst st1; by rewrite free_cmds_ctrl).
  destruct (get_sq_range st qid sq Hwf Hsq) as [_ Hcr].
  destruct (array_get_lt (ctrl_cq (ctrl st)) (q_cqid sq)) as [cq Hcq]; [lia|].
  change (q_cqid sq2) with (q_cqid sq).
  assert (get_cq (put_sq st1 qid sq2) (q_cqid sq) = Ok cq) as ->.
  { unfold get_cq. cbn [ctrl set_ctrl ctrl_sq ctrl_cq set_ctrl_sq set_ctrl_cq put_cq put_sq].
    rewrite Hc1. exact Hcq. }
  cbn [bind].
  assert (sq_uses (q_cqid sq) sq = 1) as Huse.
  { unfold sq_uses. rewrite Hr1, Z.eqb_refl. reflexivity. }
  assert (queue_dead sq2) as Hdead2 by (by apply deleted_queue_dead).
  assert (forall c, sq_uses c sq2 = 0) as Huse2
    by (intros c; apply sq_uses_dead, Hdead2).
  assert (q_ref cq = 1 + sq_bound (q_cqid sq) (ctrl_sq (ctrl st))) as Hrc.
  { destruct (Hcqs _ _ Hcq) as [[_ Hb] | Hb]; [|exact Hb].
    apply array_get_Ok in Hsq as [_ Hl].
    pose proof (sq_bound_lookup (q_cqid sq) _ _ _ Hl). lia. }
  pose proof (sq_bound_nonneg (q_cqid sq) (ctrl_sq (ctrl st))) as Hnn.
  destruct (Z.eqb_spec (q_ref cq) 0) as [|_]; [lia|]. cbn [negb].
  intros [= <-].
  assert (forall j, 0 <= j -> j <> qid ->
          get_sq (put_cq (put_sq st1 qid sq2) (q_cqid sq)
                    (set_q_ref cq (q_ref cq - 1))) j
          = get_sq st j) as Hsq_ne.
  { intros j Hj Hne. unfold get_sq. cbn [ctrl set_ctrl ctrl_sq ctrl_cq set_ctrl_sq set_ctrl_cq put_cq put_sq].
    rewrite Hc1.
    apply array_get_set_ne; lia. }
  assert (get_sq (put_cq (put_sq st1 qid sq2) (q_cqid sq)
                    (set_q_ref cq (q_ref cq - 1))) qid = Ok sq2) as Hsq_eq.
  { unfold get_sq. cbn [ctrl set_ctrl ctrl_sq ctrl_cq set_ctrl_sq set_ctrl_cq put_cq put_sq].
    rewrite Hc1. by eapply array_get_set_eq. }
  assert (forall c, 0 <= c -> c <> q_cqid sq ->
          get_cq (put_cq (put_sq st1 qid sq2) (q_cqid sq)
                    (set_q_ref cq (q_ref cq - 1))) c
          = get_cq st c) as Hcq_ne.
  { intros c Hc0 Hne. unfold get_cq. cbn [ctrl set_ctrl ctrl_sq ctrl_cq set_ctrl_sq set_ctrl_cq put_cq put_sq].
    rewrite Hc1.
    apply array_get_set_ne; lia. }
  assert (get_cq (put_cq (put_sq st1 qid sq2) (q_cqid sq)
                    (set_q_ref cq (q_ref cq - 1))) (q_cqid sq)
          = Ok (set_q_ref cq (q_ref cq - 1))) as Hcq_eq.
  { unfold get_cq. cbn [ctrl set_ctrl ctrl_sq ctrl_cq set_ctrl_sq set_ctrl_cq put_cq put_sq].
    rewrite Hc1. by eapply array_get_set_eq. }
  assert (forall c,
          sq_bound c (ctrl_sq (ctrl (put_cq (put_sq st1 qid sq2) (q_cqid sq)
                                       (set_q_ref cq (q_ref cq - 1)))))
          = sq_bound c (ctrl_sq (ctrl st)) - sq_uses c sq) as Hbound.
  { intros c. cbn [ctrl set_ctrl ctrl_sq ctrl_cq set_ctrl_sq set_ctrl_cq put_cq put_sq].
    rewrite Hc1.
    rewrite (sq_bound_set c _ _ sq sq2 Hsq), Huse2. lia. }
  split; [|split; [exact Hframe|split; [by exists sq2|split]]].
  - split; [by eapply disable_wf_frame|]. split; [|split].
    + intros j sq' Hget.
      destruct (Z.eq_dec j qid) as [->|Hne].
      * rewrite Hsq_eq in Hget. injection Hget as <-. by left.
      * rewrite Hsq_ne in Hget; [by eapply Hsqs|by eapply array_get_Ok|done].
    + intros sq' Hget Href.
      destruct (Z.eq_dec 0 qid) as [<-|Hne].
      * rewrite Hsq_eq in Hget. injection Hget as <-.
        destruct Hdead2 as [Hd _]. lia.
      * rewrite Hsq_ne in Hget by (done || lia). by apply Hadm.
    + intros c cq' Hget. rewrite Hbound.
      destruct (Z.eq_dec c (q_cqid sq)) as [->|Hne].
      * rewrite Hcq_eq in Hget. injection Hget as <-. right. cbn. lia.
      * rewrite Hcq_ne in Hget; [|by eapply array_get_Ok|done].
        assert (sq_uses c sq = 0) as ->.
        { unfold sq_uses. destruct (Z.eqb_spec (q_cqid sq) c); [done|].
          by rewrite andb_false_r. }
        rewrite Z.sub_0_r. by apply Hcqs.
  - intros j (sq' & Hget & Hd).
    destruct (Z.eq_dec j qid) as [->|Hne]; [by exists sq2|].
    exists sq'. split; [|exact Hd].
    rewrite Hsq_ne; [done|by eapply array_get_Ok|done].
  - intros c (cq' & Hget & Hd).
    destruct (Z.eq_dec c (q_cqid sq)) as [->|Hne].
    + unfold get_cq in Hget. rewrite Hcq in Hget. injection Hget as <-.
      destruct Hd as [Hd _]. lia.
    + exists cq'. split; [|exact Hd].
      rewrite Hcq_ne; [done|by eapply array_get_Ok|done].
Qed.

(** One call of [pci_epf_nvme_delete_cq] under consistent counts, for a
    completion queue no submission queue in use is bound to. *)
Lemma delete_cq_refs st qid :
  refs_wf st -> 0 <= qid < ctrl_nr_queues (ctrl st) ->
  sq_bound qid (ctrl_sq (ctrl st)) = 0 ->
  exists st',
    pci_epf_nvme_delete_cq st qid = Ok st' /\
    refs_wf st' /\ delete_frame st st' /\ cq_dead st' qid /\
    ctrl_sq (ctrl st') = ctrl_sq (ctrl st) /\
    (forall j, cq_dead st j -> cq_dead st' j).
Proof.
  intros Hrefs Hq Hb0. pose proof Hrefs as (Hwf & Hsqs & Hadm & Hcqs).
  destruct (delete_cq_ok st qid Hwf Hq) as (st' & Hrun & _ & Hframe).
  exists st'. split; [exact Hrun|].
  pose proof Hwf as ((Hl1 & Hl2) & H1 & Hall).
  destruct (array_get_lt (ctrl_cq (ctrl st)) qid) as [cq Hcq]; [lia|].
  revert Hrun. unfold pci_epf_nvme_delete_cq.
  set (st0 := set_queue_log st (queue_log st ++ [EvDeleteCq qid])).
  assert (get_cq st0 qid = Ok cq) as -> by exact Hcq. cbn [bind].
  destruct (Hcqs qid cq Hcq) as [[Hd _] | Hr1].
  { destruct Hd as [Hr0 Hnl]. rewrite Hr0. cbn. intros [= <-].
    split; [by apply (refs_wf_ctrl st)|]. split; [exact Hframe|].
    split; [by exists cq|]. split; [reflexivity|]. intros j Hj; exact Hj. }
  rewrite Hb0 in Hr1. change (1 + 0) with 1 in Hr1.
  rewrite Hr1. cbn [q_ref set_q_ref]. change (1 <? 1) with false.
  change (1 - 1) with 0. cbn [Z.eqb negb].
  rewrite delete_queue_eq.
  set (cq2 := deleted_queue (set_q_ref cq 0)).
  set (st1 := foldl pci_epf_nvme_free_cmd st0 _).
  assert (ctrl st1 = ctrl st) as Hc1 by (subst st1; by rewrite free_cmds_ctrl).
  intros [= <-].
  assert (queue_dead cq2) as Hdead2 by (by apply deleted_queue_dead).
  assert (forall c, 0 <= c -> c <> qid ->
          get_cq (put_cq st1 qid cq2) c = get_cq st c) as Hcq_ne.
  { intros c Hc0 Hne. unfold get_cq.
    cbn [ctrl set_ctrl ctrl_sq ctrl_cq set_ctrl_sq set_ctrl_cq put_cq put_sq].
    rewrite Hc1. apply array_get_set_ne; lia. }
  assert (get_cq (put_cq st1 qid cq2) qid = Ok cq2) as Hcq_eq.
  { unfold get_cq.
    cbn [ctrl set_ctrl ctrl_sq ctrl_cq set_ctrl_sq set_ctrl_cq put_cq put_sq].
    rewrite Hc1. by eapply array_get_set_eq. }
  assert (ctrl_sq (ctrl (put_cq st1 qid cq2)) = ctrl_sq (ctrl st)) as Hsame.
  { cbn [ctrl set_ctrl ctrl_sq ctrl_cq set_ctrl_sq set_ctrl_cq put_cq put_sq].
    by rewrite Hc1. }
  split; [|split; [exact Hframe|split; [by exists cq2|split; [exact Hsame|]]]].
  - split; [by eapply disable_wf_frame|]. unfold get_sq. rewrite Hsame.
    split; [exact Hsqs|]. split; [exact Hadm|].
    intros c cq' Hget.
    destruct (Z.eq_dec c qid) as [->|Hne].
    + rewrite Hcq_eq in Hget. injection Hget as <-. by left.
    + rewrite Hcq_ne in Hget; [by apply Hcqs|by eapply array_get_Ok|done].
  - intros c (cq' & Hget & Hd).
    destruct (Z.eq_dec c qid) as [->|Hne]; [by exists cq2|].
    exists cq'. split; [|exact Hd].
    rewrite Hcq_ne; [done|by eapply array_get_Ok|done].
Qed.

Lemma delete_frame_nr st st' :
  delete_frame st st' -> ctrl_nr_queues (ctrl st') = ctrl_nr_queues (ctrl st).
Proof. by intros (_ & _ & _ & ? & _). Qed.

(** The loop over the submission queues. *)
Lemma for_each_delete_sq_refs qids : forall st,
  refs_wf st ->
  Forall (fun qid => 0 <= qid < ctrl_nr_queues (ctrl st)) qids ->
  exists st',
    for_each_qid pci_epf_nvme_delete_sq qids st = Ok st' /\
    refs_wf st' /\ delete_frame st st' /\
    (forall j, j ∈ qids -> sq_dead st' j) /\
    (forall j, sq_dead st j -> sq_dead st' j) /\
    (forall j, cq_dead st j -> cq_dead st' j).
Proof.
  induction qids as [|qid qids IH]; intros st Hrefs Hall; cbn [for_each_qid].
  - exists st. split; [done|]. split; [done|].
    split; [apply delete_frame_refl|]. split; [|done].
    intros j Hj. by apply elem_of_nil in Hj.
  - apply Forall_cons in Hall as [Hq Hall].
    destruct (delete_sq_refs st qid Hrefs Hq)
      as (s1 & -> & Hrefs1 & Hf1 & Hd1 & Hsq1 & Hcq1). cbn [bind].
    destruct (IH s1 Hrefs1) as (s2 & -> & Hrefs2 & Hf2 & Hd2 & Hsq2 & Hcq2).
    { by rewrite (delete_frame_nr _ _ Hf1). }
    exists s2. split; [done|]. split; [done|].
    split; [by eapply delete_frame_trans|]. split; [|split].
    + intros j Hj. apply elem_of_cons in Hj as [->|Hj]; [|by apply Hd2].
      by apply Hsq2.
    + intros j Hj. by apply Hsq2, Hsq1.
    + intros j Hj. by apply Hcq2, Hcq1.
Qed.

(** The loop over the completion queues, once no submission queue in use
    is bound to any of them. *)
Lemma for_each_delete_cq_refs qids : forall st,
  refs_wf st ->
  Forall (fun qid => 0 <= qid < ctrl_nr_queues (ctrl st)) qids ->
  Forall (fun qid => sq_bound qid (ctrl_sq (ctrl st)) = 0) qids ->
  exists st',
    for_each_qid pci_epf_nvme_delete_cq qids st = Ok st' /\
    refs_wf st' /\ delete_frame st st' /\
    ctrl_sq (ctrl st') = ctrl_sq (ctrl st) /\
    (forall j, j ∈ qids -> cq_dead st' j) /\
    (forall j, cq_dead st j -> cq_dead st' j).
Proof.
  induction qids as [|qid qids IH]; intros st Hrefs Hall Hb;
    cbn [for_each_qid].
  - exists st. split; [done|]. split; [done|].
    split; [apply delete_frame_refl|]. split; [done|]. split; [|done].
    intros j Hj. by apply elem_of_nil in Hj.
  - apply Forall_cons in Hall as [Hq Hall].
    apply Forall_cons in Hb as [Hb0 Hb].
    destruct (delete_cq_refs st qid Hrefs Hq Hb0)
      as (s1 & -> & Hrefs1 & Hf1 & Hd1 & Hsame1 & Hcq1). cbn [bind].
    destruct (IH s1 Hrefs1) as (s2 & -> & Hrefs2 & Hf2 & Hsame2 & Hd2 & Hcq2).
    { by rewrite (delete_frame_nr _ _ Hf1). }
    { by rewrite Hsame1. }
    exists s2. split; [done|]. split; [done|].
    split; [by eapply delete_frame_trans|].
    split; [by rewrite Hsame2|]. split.
    + intros j Hj. apply elem_of_cons in Hj as [->|Hj]; [|by apply Hd2].
      by apply Hcq2.
    + intros j Hj. by apply Hcq2, Hcq1.
Qed.

(** With every submission queue from [lo] on dead, and the admin
    submission queue bound to the admin completion queue, no submission
    queue in use is bound to a completion queue from [lo] on. *)
Lemma sq_bound_dead st c :
  refs_wf st ->
  (forall j, 1 <= j < ctrl_nr_queues (ctrl st) -> sq_dead st j) ->
  1 <= c \/ sq_dead st 0 ->
  sq_bound c (ctrl_sq (ctrl st)) = 0.
Proof.
  intros (Hwf & Hsqs & Hadm & _) Hdead Hc.
  apply sq_bound_zero. apply Forall_lookup. intros k sq Hk.
  pose proof Hwf as ((Hl1 & _) & _).
  pose proof (lookup_lt_Some _ _ _ Hk) as Hlt.
  assert (get_sq st (Z.of_nat k) = Ok sq) as Hget.
  { unfold get_sq, array_get. destruct (Z.ltb_spec (Z.of_nat k) 0); [lia|].
    by rewrite Nat2Z.id, Hk. }
  destruct (Nat.eq_dec k 0%nat) as [->|Hk0].
  - destruct Hc as [Hc | (sq0 & Hget0 & Hd0)].
    + unfold sq_uses. destruct (Z.eqb_spec (q_ref sq) 0) as [|Hr]; [done|].
      destruct (Hsqs _ _ Hget) as [[? _]|Hr1]; [done|].
      rewrite (Hadm sq Hget Hr1).
      destruct (Z.eqb_spec 0 c); [lia|]. by rewrite andb_false_r.
    + change (Z.of_nat 0%nat) with 0 in Hget. rewrite Hget in Hget0.
      injection Hget0 as <-. apply sq_uses_dead, Hd0.
  - destruct (Hdead (Z.of_nat k)) as (sq' & Hget' & Hd'); [lia|].
    rewrite Hget in Hget'. injection Hget' as <-. apply sq_uses_dead, Hd'.
Qed.

Lemma sq_dead_same st st' j :
  ctrl_sq (ctrl st') = ctrl_sq (ctrl st) -> sq_dead st j -> sq_dead st' j.
Proof. unfold sq_dead, get_sq. by intros ->. Qed.

Lemma cq_dead_same st st' j :
  ctrl_cq (ctrl st') = ctrl_cq (ctrl st) -> cq_dead st j -> cq_dead st' j.
Proof. unfold cq_dead, get_cq. by intros ->. Qed.

(** A disable under consistent counts leaves no queue in use. *)
Lemma disable_ctrl_dead st :
  refs_wf st -> ctrl_enabled st = true ->
  exists st',
    pci_epf_nvme_disable_ctrl st = Ok st' /\
    forall qid, 0 <= qid < ctrl_nr_queues (ctrl st) ->
      sq_dead st' qid /\ cq_dead st' qid.
Proof.
  intros Hrefs Hen. unfold pci_epf_nvme_disable_ctrl. rewrite Hen.
  cbn [negb]. cbv zeta.
  set (n := ctrl_nr_queues (ctrl st)).
  pose proof Hrefs as ((_ & Hn1 & _) & _). fold n in Hn1.
  destruct (for_each_delete_sq_refs (io_qids n) st Hrefs (io_qids_range n))
    as (s1 & -> & Hr1 & Hf1 & Hd1 & Hsq1 & Hcq1). cbn [bind].
  pose proof (delete_frame_nr _ _ Hf1) as Hnr1. fold n in Hnr1.
  assert (forall j, 1 <= j < ctrl_nr_queues (ctrl s1) -> sq_dead s1 j) as Hio1.
  { intros j Hj. apply Hd1, io_qids_elem. lia. }
  destruct (for_each_delete_cq_refs (io_qids n) s1 Hr1)
    as (s2 & -> & Hr2 & Hf2 & Hsame2 & Hd2 & Hcq2).
  { rewrite Hnr1. apply io_qids_range. }
  { apply Forall_forall. intros c Hc. apply io_qids_elem in Hc.
    apply sq_bound_dead; [exact Hr1|exact Hio1|lia]. }
  cbn [bind].
  pose proof (delete_frame_nr _ _ Hf2) as Hnr2. rewrite Hnr1 in Hnr2.
  destruct (delete_sq_refs s2 0 Hr2)
    as (s3 & -> & Hr3 & Hf3 & Hd3 & Hsq3 & Hcq3); [lia|]. cbn [bind].
  pose proof (delete_frame_nr _ _ Hf3) as Hnr3. rewrite Hnr2 in Hnr3.
  assert (forall j, 1 <= j < n -> sq_dead s3 j) as Hio3.
  { intros j Hj. apply Hsq3. apply (sq_dead_same s1); [exact Hsame2|].
    apply Hio1. lia. }
  destruct (delete_cq_refs s3 0 Hr3)
    as (s4 & -> & Hr4 & Hf4 & Hd4 & Hsame4 & Hcq4); [lia| |].
  { apply sq_bound_dead; [exact Hr3| |by right].
    intros j Hj. apply Hio3. lia. }
  cbn [bind].
  assert (forall qid, 0 <= qid < n -> sq_dead s4 qid /\ cq_dead s4 qid)
    as Hall.
  { intros qid Hq. split.
    - apply (sq_dead_same s3); [exact Hsame4|].
      destruct (Z.eq_dec qid 0) as [->|Hne]; [exact Hd3|]. apply Hio3. lia.
    - destruct (Z.eq_dec qid 0) as [->|Hne]; [exact Hd4|].
      apply Hcq4, Hcq3, Hd2, io_qids_elem. lia. }
  destruct (has_bits (ctrl_cc (ctrl s4)) NVME_CC_SHN_NORMAL);
    (eexists; split; [reflexivity|]); intros qid Hq;
    destruct (Hall qid Hq) as [Hs Hc];
    (split; [by apply (sq_dead_same s4)|by apply (cq_dead_same s4)]).
Qed.

(** The calls a disable makes and what it leaves in the registers: the
    queue manager is called for the I/O submission queues, the I/O
    completion queues, the admin submission queue and the admin completion
    queue, in this order; then the ready bit is cleared in CSTS, which is
    published in the BAR, the shutdown-complete bit is set when CC asked
    for a normal shutdown, and the enable-observed state is cleared.  The
    register poll takes this transition when the enable bit was set and is
    now clear, or a normal shutdown is requested. *)
Lemma disable_ctrl_calls (st : pci_epf_nvme) :
  disable_wf st -> ctrl_enabled st = true ->
  (exists st',
     pci_epf_nvme_disable_ctrl st = Ok st' /\
     queue_log st'
     = queue_log st ++ disable_order (ctrl_nr_queues (ctrl st)) /\
     has_bits (ctrl_csts (ctrl st')) NVME_CSTS_RDY = false /\
     pci_epf_nvme_reg_read32 (ctrl st') NVME_REG_CSTS
     = u32 (ctrl_csts (ctrl st')) /\
     has_bits (pci_epf_nvme_reg_read32 (ctrl st') NVME_REG_CSTS) NVME_CSTS_RDY
     = false /\
     (has_bits (ctrl_cc (ctrl st)) NVME_CC_SHN_NORMAL = true ->
      has_bits (ctrl_csts (ctrl st')) NVME_CSTS_SHST_CMPLT = true /\
      has_bits (pci_epf_nvme_reg_read32 (ctrl st') NVME_REG_CSTS)
        NVME_CSTS_SHST_CMPLT = true) /\
     (has_bits (ctrl_cc (ctrl st)) NVME_CC_SHN_NORMAL = false ->
      ctrl_csts (ctrl st') = Z.ldiff (ctrl_csts (ctrl st)) NVME_CSTS_RDY) /\
     has_bits (ctrl_cc (ctrl st')) NVME_CC_ENABLE = false /\
     ctrl_enabled st' = false) /\
  (forall wq_ok,
     has_bits (ctrl_cc (ctrl st)) NVME_CC_ENABLE = true ->
     has_bits (pci_epf_nvme_reg_read32 (ctrl st) NVME_REG_CC) NVME_CC_ENABLE
     = false \/
     has_bits (pci_epf_nvme_reg_read32 (ctrl st) NVME_REG_CC)
       NVME_CC_SHN_NORMAL = true ->
     pci_epf_nvme_reg_poll st wq_ok
     = pci_epf_nvme_disable_ctrl
         (set_ctrl st
            (set_ctrl_cc (ctrl st)
               (pci_epf_nvme_reg_read32 (ctrl st) NVME_REG_CC)))).
Proof.
  intros Hwf Hen. split.
  - unfold pci_epf_nvme_disable_ctrl. rewrite Hen. cbn [negb].
    pose proof Hwf as (Hq & H1 & _).
    set (n := ctrl_nr_queues (ctrl st)) in *.
    destruct (for_each_delete_ok pci_epf_nvme_delete_sq EvDeleteSq
                (io_qids n) st delete_sq_ok Hwf (io_qids_range n))
      as (st1 & -> & Hlog1 & Hf1).
    cbn [bind].
    assert (disable_wf st1) as Hwf1 by (by eapply disable_wf_frame).
    assert (ctrl_nr_queues (ctrl st1) = n) as Hn1 by (by destruct Hf1 as (_&_&_&?&_)).
    destruct (for_each_delete_ok pci_epf_nvme_delete_cq EvDeleteCq
                (io_qids n) st1 delete_cq_ok Hwf1)
      as (st2 & -> & Hlog2 & Hf2).
    { rewrite Hn1. apply io_qids_range. }
    cbn [bind].
    assert (disable_wf st2) as Hwf2 by (by eapply disable_wf_frame).
    assert (ctrl_nr_queues (ctrl st2) = n) as Hn2
      by (destruct Hf2 as (_&_&_&?&_); congruence).
    destruct (delete_sq_ok st2 0 Hwf2) as (st3 & -> & Hlog3 & Hf3); [lia|].
    cbn [bind].
    assert (disable_wf st3) as Hwf3 by (by eapply disable_wf_frame).
    assert (ctrl_nr_queues (ctrl st3) = n) as Hn3
      by (destruct Hf3 as (_&_&_&?&_); congruence).
    destruct (delete_cq_ok st3 0 Hwf3) as (st4 & -> & Hlog4 & Hf4); [lia|].
    cbn [bind].
    assert (delete_frame st st4) as Hf.
    { eapply delete_frame_trans; [|exact Hf4].
      eapply delete_frame_trans; [|exact Hf3].
      eapply delete_frame_trans; [exact Hf1 | exact Hf2]. }
    destruct Hf as (_ & Hcc & Hcsts & _).
    rewrite Hcc, Hcsts.
    destruct (has_bits (ctrl_cc (ctrl st)) NVME_CC_SHN_NORMAL) eqn:Hshn;
      (eexists; split; [reflexivity|]);
      match goal with
      | |- context [pci_epf_nvme_reg_read32 ?c' NVME_REG_CSTS] =>
          assert (pci_epf_nvme_reg_read32 c' NVME_REG_CSTS
                  = u32 (ctrl_csts c')) as Hreg
      end;
      try (unfold pci_epf_nvme_reg_read32, pci_epf_nvme_reg_write32; simpl;
           rewrite lookup_insert_ne by (vm_compute; discriminate);
           rewrite lookup_insert_eq; simpl; apply u32_idemp);
      simpl in Hreg |- *.
    + split.
      { rewrite Hlog4, Hlog3, Hlog2, Hlog1. unfold disable_order.
        rewrite <- !app_assoc. reflexivity. }
      assert (has_bits (Z.lor (Z.ldiff (ctrl_csts (ctrl st)) NVME_CSTS_RDY)
                          NVME_CSTS_SHST_CMPLT) NVME_CSTS_RDY = false) as Hrdy.
      { unfold has_bits. rewrite Z.land_lor_distr_l, land_ldiff_same.
        reflexivity. }
      split; [exact Hrdy|].
      split; [exact Hreg|].
      split; [rewrite Hreg, has_bits_u32 by (vm_compute; done); exact Hrdy|].
      split.
      { intros _. rewrite Hreg, has_bits_u32 by (vm_compute; done).
        split; apply has_bits_lor; vm_compute; discriminate. }
      split; [discriminate|].
      split; [apply has_bits_ldiff | reflexivity].
    + split.
      { rewrite Hlog4, Hlog3, Hlog2, Hlog1. unfold disable_order.
        rewrite <- !app_assoc. reflexivity. }
      split; [apply has_bits_ldiff|].
      split; [exact Hreg|].
      split; [rewrite Hreg, has_bits_u32 by (vm_compute; done);
              apply has_bits_ldiff|].
      split; [discriminate|].
      split; [reflexivity|].
      split; [apply has_bits_ldiff | reflexivity].
  - intros wq_ok Hold Hnew. unfold pci_epf_nvme_reg_poll.
    rewrite Hold. cbn [negb andb].
    destruct Hnew as [Hnew | Hnew]; rewrite Hnew.
    + reflexivity.
    + cbn [negb andb orb]. rewrite orb_true_r.
      destruct (has_bits (pci_epf_nvme_reg_read32 (ctrl st) NVME_REG_CC)
                  NVME_CC_ENABLE); reflexivity.
Qed.


(** X18.  A disable tears every queue down when the reference counts are
    consistent.  On an enabled controller whose counts are as the queue
    manager keeps them under commands in the order of the protocol, the
    disable runs to its end and leaves every submission and completion
    queue, the admin pair included, without a reference and not live.  It
    calls the queue manager for the I/O submission queues, the I/O
    completion queues, the admin submission queue and the admin completion
    queue, in that order, and then clears the ready bit in CSTS and in the
    BAR, sets the shutdown-complete bit when CC asked for a normal
    shutdown, and clears CC.EN and the enable-observed state. *)
Theorem disable_ctrl_tears_down (st : pci_epf_nvme) :
  refs_wf st -> ctrl_enabled st = true ->
  exists st',
    pci_epf_nvme_disable_ctrl st = Ok st' /\
    (forall qid, 0 <= qid < ctrl_nr_queues (ctrl st) ->
       sq_dead st' qid /\ cq_dead st' qid) /\
    queue_log st'
    = queue_log st ++ disable_order (ctrl_nr_queues (ctrl st)) /\
    has_bits (ctrl_csts (ctrl st')) NVME_CSTS_RDY = false /\
    has_bits (pci_epf_nvme_reg_read32 (ctrl st') NVME_REG_CSTS) NVME_CSTS_RDY
    = false /\
    (has_bits (ctrl_cc (ctrl st)) NVME_CC_SHN_NORMAL = true ->
     has_bits (pci_epf_nvme_reg_read32 (ctrl st') NVME_REG_CSTS)
       NVME_CSTS_SHST_CMPLT = true) /\
    has_bits (ctrl_cc (ctrl st')) NVME_CC_ENABLE = false /\
    ctrl_enabled st' = false /\
    pci_epf_nvme_ctrl_ready st' = false.
Proof.
  intros Hrefs Hen. pose proof Hrefs as (Hwf & _).
  destruct (disable_ctrl_dead st Hrefs Hen) as (st' & Hrun & Hdead).
  destruct (proj1 (disable_ctrl_calls st Hwf Hen))
    as (st'' & Hrun' & Hlog & Hrdy & _ & Hreg & Hshn & _ & Hcc & Hdis).
  rewrite Hrun in Hrun'. injection Hrun' as <-.
  exists st'. split; [exact Hrun|]. split; [exact Hdead|].
  split; [exact Hlog|]. split; [exact Hrdy|]. split; [exact Hreg|].
  split; [intros H; by apply Hshn|]. split; [exact Hcc|].
  split; [exact Hdis|]. unfold pci_epf_nvme_ctrl_ready. by rewrite Hdis.
Qed.

Lemma st_cq1_busy_refs_wf : refs_wf st_cq1_busy.
Proof.
  assert (forall (l : list pci_epf_nvme_queue) i q,
            length l = 4%nat -> array_get l i = Ok q ->
            i = 0 \/ i = 1 \/ i = 2 \/ i = 3) as Hidx.
  { intros l i q Hl Hq. apply array_get_Ok in Hq as [H0 Hq].
    apply lookup_lt_Some in Hq. lia. }
  split; [|split; [|split]].
  - split; [split; reflexivity|]. split; [vm_compute; discriminate|].
    vm_compute. repeat constructor; discriminate.
  - intros qid sq H.
    destruct (Hidx (ctrl_sq (ctrl st_cq1_busy)) qid sq eq_refl H)
      as [-> | [-> | [-> | ->]]];
      vm_compute in H; injection H as <-;
      first [ right; reflexivity | left; split; reflexivity ].
  - intros sq H _. vm_compute in H. injection H as <-. reflexivity.
  - intros c cq H.
    destruct (Hidx (ctrl_cq (ctrl st_cq1_busy)) c cq eq_refl H)
      as [-> | [-> | [-> | ->]]];
      vm_compute in H; injection H as <-;
      first [ right; vm_compute; reflexivity
            | left; split; [split; reflexivity|vm_compute; reflexivity] ].
Qed.

Lemma disable_ctrl_tears_down_witness :
  exists st',
    pci_epf_nvme_disable_ctrl st_cq1_busy = Ok st' /\
    sq_dead st' 1 /\ cq_dead st' 1 /\ sq_dead st' 0 /\ cq_dead st' 0 /\
    pci_epf_nvme_ctrl_ready st' = false.
Proof.
  destruct (disable_ctrl_tears_down st_cq1_busy st_cq1_busy_refs_wf eq_refl)
    as (st' & Hrun & Hdead & _ & _ & _ & _ & _ & _ & Hready).
  exists st'. split; [exact Hrun|].
  destruct (Hdead 1) as [Hs1 Hc1]; [vm_compute; split; congruence|].
  destruct (Hdead 0) as [Hs0 Hc0]; [vm_compute; split; congruence|].
  split; [exact Hs1|]. split; [exact Hc1|]. split; [exact Hs0|].
  split; [exact Hc0|exact Hready].
Defined.
(** ** Hooks on the data of admin commands *)

Lemma load_bytes_insert_lt (buf : list Z) n : forall off k x,
  (k < off)%nat ->
  load_bytes (<[k := x]> buf) off n = load_bytes buf off n.
Proof.
  induction n as [|n IH]; intros off k x Hk; [reflexivity|].
  cbn [load_bytes]. rewrite list_lookup_insert_ne by lia.
  rewrite IH by lia. reflexivity.
Qed.

Lemma load_bytes_range (buf : list Z) n : forall off,
  bytes_wf buf -> 0 <= load_bytes buf off n.
Proof.
  induction n as [|n IH]; intros off Hwf; cbn [load_bytes]; [lia|].
  pose proof (IH (S off) Hwf).
  destruct (buf !! off) as [b|] eqn:Hb; cbn; [|lia].
  unfold bytes_wf in Hwf. rewrite Forall_lookup in Hwf.
  pose proof (Hwf _ _ Hb). lia.
Qed.

Lemma byte_split b r :
  0 <= b < 256 -> Z.land (b + 256 * r) 0xff = b /\ Z.shiftr (b + 256 * r) 8 = r.
Proof.
  intros Hb. change 0xff with (Z.ones 8). rewrite Z.land_ones by lia.
  rewrite Z.shiftr_div_pow2 by lia. change (2 ^ 8) with 256. split.
  - rewrite (Z.mul_comm 256 r), Z.mod_add by lia. apply Z.mod_small. lia.
  - rewrite (Z.mul_comm 256 r), Z.div_add by lia.
    rewrite (Z.div_small b) by lia. lia.
Qed.

(** Storing what was loaded changes nothing. *)
Lemma store_load_bytes n : forall (buf : list Z) off,
  bytes_wf buf -> (off + n <= length buf)%nat ->
  store_bytes buf off n (load_bytes buf off n) = buf.
Proof.
  induction n as [|n IH]; intros buf off Hwf Hlen; [reflexivity|].
  cbn [store_bytes load_bytes].
  destruct (lookup_lt_is_Some_2 buf off) as [b Hb]; [lia|].
  rewrite Hb. cbn [default from_option id].
  pose proof Hwf as Hwf'. unfold bytes_wf in Hwf'.
  rewrite Forall_lookup in Hwf'. pose proof (Hwf' _ _ Hb) as Hr.
  destruct (byte_split b (load_bytes buf (S off) n) Hr) as [-> ->].
  rewrite list_insert_id by exact Hb. apply IH; [exact Hwf|lia].
Qed.

Lemma lor_1_byte b : 0 <= b < 256 -> 0 <= Z.lor b 1 < 256.
Proof.
  intros Hb. split; [apply Z.lor_nonneg; lia|].
  destruct (Z.eq_dec b 0) as [->|]; [reflexivity|].
  apply Z.log2_lt_cancel. rewrite Z.log2_lor by lia.
  change (Z.log2 256) with 8. change (Z.log2 1) with 0.
  assert (Z.log2 b < 8); [|lia].
  apply Z.log2_lt_pow2; lia.
Qed.

Lemma lor_1_low b r :
  0 <= b < 256 -> Z.lor (b + 256 * r) 1 = Z.lor b 1 + 256 * r.
Proof.
  intros Hr. pose proof (lor_1_byte b Hr) as Hr'.
  destruct (byte_split b r Hr) as [Hlo Hhi].
  destruct (byte_split (Z.lor b 1) r Hr') as [Hlo' Hhi'].
  apply Z.bits_inj'. intros i Hi.
  destruct (Z.lt_ge_cases i 8) as [Hi8|Hi8].
  - rewrite Z.lor_spec.
    rewrite <- (Z.mod_pow2_bits_low (b + 256 * r) 8 i) by lia.
    rewrite <- (Z.mod_pow2_bits_low (Z.lor b 1 + 256 * r) 8 i) by lia.
    rewrite <- !Z.land_ones by lia. change (Z.ones 8) with 0xff.
    rewrite Hlo, Hlo', Z.lor_spec. reflexivity.
  - rewrite Z.lor_spec.
    replace i with (i - 8 + 8) by lia.
    rewrite <- !Z.shiftr_spec by lia. rewrite Hhi, Hhi'.
    rewrite Z.shiftr_spec by lia.
    rewrite (Z.bits_above_log2 1) by (change (Z.log2 1) with 0; lia).
    apply orb_false_r.
Qed.

(** Storing what was loaded with bit 0 set changes the low byte only. *)
Lemma store_lor_bytes n (buf : list Z) off b :
  bytes_wf buf -> buf !! off = Some b -> (off + S n <= length buf)%nat ->
  store_bytes buf off (S n) (Z.lor (load_bytes buf off (S n)) 1)
  = <[off := Z.lor b 1]> buf.
Proof.
  intros Hwf Hb Hlen.
  pose proof Hwf as Hwf'. unfold bytes_wf in Hwf'.
  rewrite Forall_lookup in Hwf'. pose proof (Hwf' _ _ Hb) as Hr.
  pose proof (lor_1_byte b Hr) as Hr'.
  cbn [store_bytes load_bytes]. rewrite Hb. cbn [default from_option id].
  rewrite lor_1_low by exact Hr.
  destruct (byte_split (Z.lor b 1) (load_bytes buf (S off) n) Hr') as [-> ->].
  rewrite <- (load_bytes_insert_lt buf n (S off) off (Z.lor b 1)) by lia.
  apply store_load_bytes.
  - unfold bytes_wf. apply Forall_insert; [exact Hwf|exact Hr'].
  - rewrite length_insert. lia.
Qed.

(** [log->acs[k] |= CSUPP] sets bit 0 of the low byte of the word. *)
Lemma acs_set_csupp_ok (buf : list Z) (k : Z) :
  bytes_wf buf -> 0 <= k -> 4 * k + 4 <= Z.of_nat (length buf) ->
  acs_set_csupp buf k
  = Ok (byte_update (fun b => Z.lor b 1) (Z.to_nat (4 * k)) buf).
Proof.
  intros Hwf Hk Hlen. unfold acs_set_csupp, buf_load, buf_store, EFFECTS_LOG_ACS.
  change (Z.of_nat 4) with 4.
  destruct (Z.leb_spec (4 * k + 4) (Z.of_nat (length buf))); [|lia].
  cbn [bind]. f_equal. set (off := Z.to_nat (4 * k)).
  destruct (lookup_lt_is_Some_2 buf off) as [b Hb]; [lia|].
  unfold byte_update. rewrite Hb.
  change NVME_CMD_EFFECTS_CSUPP with 1.
  apply (store_lor_bytes 3); [exact Hwf|exact Hb|lia].
Qed.

Lemma byte_update_length f off buf :
  length (byte_update f off buf) = length buf.
Proof.
  unfold byte_update. destruct (buf !! off); [apply length_insert|done].
Qed.

Lemma byte_update_wf f off buf :
  (forall b, 0 <= b < 256 -> 0 <= f b < 256) ->
  bytes_wf buf -> bytes_wf (byte_update f off buf).
Proof.
  intros Hf Hwf. unfold byte_update.
  destruct (buf !! off) as [b|] eqn:Hb; [|exact Hwf].
  apply Forall_insert; [exact Hwf|]. apply Hf.
  unfold bytes_wf in Hwf. rewrite Forall_lookup in Hwf. by eapply Hwf.
Qed.

Lemma acs_set_csupp_short (buf : list Z) (k : Z) :
  Z.of_nat (length buf) < 4 * k + 4 ->
  acs_set_csupp buf k = Fault (OutOfBounds (4 * k)).
Proof.
  intros Hlen. unfold acs_set_csupp, buf_load, EFFECTS_LOG_ACS.
  change (Z.of_nat 4) with 4.
  destruct (Z.leb_spec (4 * k + 4) (Z.of_nat (length buf))); [lia|].
  reflexivity.
Qed.

(** X19.  The hook of Get Log Page.  On a Commands Supported and Effects
    log the hook sets the supported bit of the four queue management
    commands and nothing else: bit 0 of bytes 0, 4, 16 and 20 of the
    buffer, every other byte as the backend left it.  It does so whatever
    the length of the buffer, which is the length the host asked for: on a
    buffer of fewer than 24 bytes it writes past the end of the
    allocation.  Every other log is left alone. *)
Theorem get_log_hook_effects (epcmd : pci_epf_nvme_cmd) (buf : list Z) :
  c_buffer epcmd = Some buf -> bytes_wf buf ->
  (get_log_page_lid (c_cmd epcmd) <> NVME_LOG_CMD_EFFECTS ->
   pci_epf_nvme_get_log_hook epcmd = Ok epcmd) /\
  (get_log_page_lid (c_cmd epcmd) = NVME_LOG_CMD_EFFECTS ->
   (24 <= Z.of_nat (length buf) ->
    pci_epf_nvme_get_log_hook epcmd
    = Ok (set_c_buffer epcmd (Some (effects_patched buf)))) /\
   (Z.of_nat (length buf) < 24 ->
    exists off, 0 <= off <= 20 /\ Z.of_nat (length buf) < off + 4 /\
      pci_epf_nvme_get_log_hook epcmd = Fault (OutOfBounds off))).
Proof.
  intros Hbuf Hwf. unfold pci_epf_nvme_get_log_hook. split.
  { intros Hlid. by destruct (Z.eqb_spec (get_log_page_lid (c_cmd epcmd))
                                NVME_LOG_CMD_EFFECTS). }
  intros ->. rewrite Z.eqb_refl. cbn [negb]. rewrite Hbuf.
  assert (forall b, 0 <= b < 256 -> 0 <= Z.lor b 1 < 256) as Hf
    by exact lor_1_byte.
  split.
  - intros Hlen. unfold effects_patched.
    rewrite (acs_set_csupp_ok buf 0) by (done || lia). cbn [bind].
    set (b1 := byte_update _ _ buf).
    assert (bytes_wf b1 /\ length b1 = length buf) as [Hwf1 Hl1]
      by (split; [by apply byte_update_wf|apply byte_update_length]).
    rewrite (acs_set_csupp_ok b1 1) by (done || lia). cbn [bind].
    set (b2 := byte_update _ _ b1).
    assert (bytes_wf b2 /\ length b2 = length buf) as [Hwf2 Hl2].
    { split; [by apply byte_update_wf|].
      subst b2. by rewrite byte_update_length. }
    rewrite (acs_set_csupp_ok b2 4) by (done || lia). cbn [bind].
    set (b3 := byte_update _ _ b2).
    assert (bytes_wf b3 /\ length b3 = length buf) as [Hwf3 Hl3].
    { split; [by apply byte_update_wf|].
      subst b3. by rewrite byte_update_length. }
    rewrite (acs_set_csupp_ok b3 5) by (done || lia). cbn [bind].
    reflexivity.
  - intros Hlen.
    destruct (Z.lt_ge_cases (Z.of_nat (length buf)) 4) as [H0|H0].
    { exists 0. rewrite (acs_set_csupp_short buf 0) by lia.
      split; [lia|]. split; [lia|reflexivity]. }
    rewrite (acs_set_csupp_ok buf 0) by (done || lia). cbn [bind].
    set (b1 := byte_update _ _ buf).
    assert (bytes_wf b1 /\ length b1 = length buf) as [Hwf1 Hl1]
      by (split; [by apply byte_update_wf|apply byte_update_length]).
    destruct (Z.lt_ge_cases (Z.of_nat (length buf)) 8) as [H1|H1].
    { exists 4. rewrite (acs_set_csupp_short b1 1) by lia.
      split; [lia|]. split; [lia|reflexivity]. }
    rewrite (acs_set_csupp_ok b1 1) by (done || lia). cbn [bind].
    set (b2 := byte_update _ _ b1).
    assert (bytes_wf b2 /\ length b2 = length buf) as [Hwf2 Hl2].
    { split; [by apply byte_update_wf|].
      subst b2. by rewrite byte_update_length. }
    destruct (Z.lt_ge_cases (Z.of_nat (length buf)) 20) as [H4|H4].
    { exists 16. rewrite (acs_set_csupp_short b2 4) by lia.
      split; [lia|]. split; [lia|reflexivity]. }
    rewrite (acs_set_csupp_ok b2 4) by (done || lia). cbn [bind].
    set (b3 := byte_update _ _ b2).
    assert (bytes_wf b3 /\ length b3 = length buf) as [Hwf3 Hl3].
    { split; [by apply byte_update_wf|].
      subst b3. by rewrite byte_update_length. }
    exists 20. rewrite (acs_set_csupp_short b3 5) by lia.
    split; [lia|]. split; [lia|reflexivity].
Qed.

Lemma get_log_hook_effects_witness :
  pci_epf_nvme_get_log_hook
    (set_c_buffer (get_log_cmd NVME_LOG_CMD_EFFECTS) (Some (replicate 24 0)))
  = Ok (set_c_buffer (get_log_cmd NVME_LOG_CMD_EFFECTS)
          (Some [1; 0; 0; 0; 1; 0; 0; 0; 0; 0; 0; 0; 0; 0; 0; 0;
                 1; 0; 0; 0; 1; 0; 0; 0])) /\
  (exists off,
     pci_epf_nvme_get_log_hook
       (set_c_buffer (get_log_cmd NVME_LOG_CMD_EFFECTS)
          (Some (replicate 4 0)))
     = Fault (OutOfBounds off)) /\
  pci_epf_nvme_process_admin_cmd cfg_dma xfer_one_list st_ready
    (exec_env_admin 4) true 4 0 0 (get_log_cmd NVME_LOG_CMD_EFFECTS) []
  = Some (Fault (OutOfBounds 4)).
Proof.
  split; [|split].
  - pose proof (get_log_hook_effects
                  (set_c_buffer (get_log_cmd NVME_LOG_CMD_EFFECTS)
                     (Some (replicate 24 0)))
                  (replicate 24 0)) as H.
    feed H ltac:(first [reflexivity | by apply Forall_replicate]).
    destruct H as [_ H]. destruct (H eq_refl) as [Hok _].
    rewrite Hok by (vm_compute; discriminate). reflexivity.
  - pose proof (get_log_hook_effects
                  (set_c_buffer (get_log_cmd NVME_LOG_CMD_EFFECTS)
                     (Some (replicate 4 0)))
                  (replicate 4 0)) as H.
    feed H ltac:(first [reflexivity | by apply Forall_replicate]).
    destruct H as [_ H]. destruct (H eq_refl) as [_ Hshort].
    destruct Hshort as (off & _ & _ & Hrun); [vm_compute; reflexivity|].
    by exists off.
  - vm_compute. reflexivity.
Defined.

(** *** Identify *)

Lemma length_store_bytes n : forall (buf : list Z) off v,
  length (store_bytes buf off n v) = length buf.
Proof.
  induction n as [|n IH]; intros buf off v; [reflexivity|].
  cbn [store_bytes]. by rewrite IH, length_insert.
Qed.

Lemma store_bytes_lookup_out n : forall (buf : list Z) off v i,
  (i < off \/ off + n <= i)%nat ->
  store_bytes buf off n v !! i = buf !! i.
Proof.
  induction n as [|n IH]; intros buf off v i Hi; [reflexivity|].
  cbn [store_bytes]. rewrite IH by lia.
  apply list_lookup_insert_ne. lia.
Qed.

Lemma store_bytes_lookup_in n : forall (buf : list Z) off v i,
  (off <= i < off + n)%nat -> (i < length buf)%nat ->
  store_bytes buf off n v !! i
  = Some (Z.land (Z.shiftr v (8 * Z.of_nat (i - off))) 0xff).
Proof.
  induction n as [|n IH]; intros buf off v i Hi Hlen; [lia|].
  cbn [store_bytes].
  destruct (Nat.eq_dec i off) as [->|Hne].
  - rewrite store_bytes_lookup_out by lia.
    rewrite list_lookup_insert_eq by lia.
    by rewrite Nat.sub_diag, Z.shiftr_0_r.
  - rewrite IH by (rewrite ?length_insert; lia).
    rewrite Z.shiftr_shiftr by lia. do 3 f_equal. lia.
Qed.

Lemma buf_store_ok (buf : list Z) off n v :
  0 <= off -> off + Z.of_nat n <= Z.of_nat (length buf) ->
  buf_store buf off n v = Ok (store_bytes buf (Z.to_nat off) n v).
Proof.
  intros H0 Hlen. unfold buf_store.
  by destruct (Z.leb_spec (off + Z.of_nat n) (Z.of_nat (length buf))); [|lia].
Qed.

Lemma land_0xff_range x : 0 <= Z.land x 0xff < 256.
Proof.
  change 0xff with (Z.ones 8). rewrite Z.land_ones by lia.
  apply Z.mod_pos_bound. lia.
Qed.

Lemma land_0xff_small x : 0 <= x < 256 -> Z.land x 0xff = x.
Proof.
  intros Hx. change 0xff with (Z.ones 8). rewrite Z.land_ones by lia.
  apply Z.mod_small. lia.
Qed.

(** Evaluates a lookup given as a cascade of decided conditions. *)
Ltac look H :=
  rewrite H; repeat (rewrite bool_decide_false by lia);
  try (rewrite bool_decide_true by lia).

(** X20.  The hook of Identify.  On the Identify Controller data the
    hook writes the vendor identifier of the function into [vid] and
    [ssvid], clears [cmic], [apsta] and [sgls], and sets [mdts]; every
    other byte of the structure is as the backend left it, and every
    other Identify is left alone.  The [mdts] byte is the difference of
    the base-2 logarithms of the transfer limit and of the minimum page
    size of the fabrics controller, kept to 8 bits: with a limit of
    [2^j] KiB it is [(j - 2 - MPSMIN) mod 256], which is 0, the value for
    no limit at all, when the limit is one minimum page, and wraps around
    when the limit is below one page. *)
Theorem identify_hook_ctrl (c : pci_epf_nvme_ctrl) (vendorid fcap : Z)
    (epcmd : pci_epf_nvme_cmd) (buf : list Z) :
  c_buffer epcmd = Some buf -> 540 <= Z.of_nat (length buf) ->
  (identify_cns (c_cmd epcmd) <> NVME_ID_CNS_CTRL ->
   pci_epf_nvme_identify_hook c vendorid fcap epcmd = Ok epcmd) /\
  (identify_cns (c_cmd epcmd) = NVME_ID_CNS_CTRL ->
   exists buf',
     pci_epf_nvme_identify_hook c vendorid fcap epcmd
     = Ok (set_c_buffer epcmd (Some buf')) /\
     length buf' = length buf /\
     (forall i, i ∉ id_ctrl_patched -> buf' !! i = buf !! i) /\
     buf' !! 0%nat = Some (Z.land (u16 vendorid) 0xff) /\
     buf' !! 1%nat = Some (Z.land (Z.shiftr (u16 vendorid) 8) 0xff) /\
     buf' !! 2%nat = buf' !! 0%nat /\ buf' !! 3%nat = buf' !! 1%nat /\
     buf' !! 76%nat = Some 0 /\ buf' !! 265%nat = Some 0 /\
     (forall i, (536 <= i < 540)%nat -> buf' !! i = Some 0) /\
     buf' !! 77%nat
     = Some (u8 (ilog2 (ctrl_mdts c) - (NVME_CAP_MPSMIN fcap + 12))) /\
     (forall j, 0 <= j -> ctrl_mdts c = 2 ^ j * SZ_1K ->
        buf' !! 77%nat = Some ((j - 2 - NVME_CAP_MPSMIN fcap) mod 256))).
Proof.
  intros Hbuf Hlen. unfold pci_epf_nvme_identify_hook. split.
  { intros Hcns. by destruct (Z.eqb_spec (identify_cns (c_cmd epcmd))
                                NVME_ID_CNS_CTRL). }
  intros ->. rewrite Z.eqb_refl. cbn [negb]. rewrite Hbuf.
  unfold ID_CTRL_VID, ID_CTRL_SSVID, ID_CTRL_MDTS, ID_CTRL_CMIC,
    ID_CTRL_APSTA, ID_CTRL_SGLS.
  rewrite buf_store_ok by lia. cbn [bind].
  set (b1 := store_bytes buf _ 2 _).
  assert (length b1 = length buf) as Hl1 by apply length_store_bytes.
  unfold buf_load.
  destruct (Z.leb_spec (0 + Z.of_nat 2) (Z.of_nat (length b1))); [|lia].
  cbn [bind]. set (vid := load_bytes b1 _ 2).
  rewrite buf_store_ok by lia. cbn [bind].
  set (b2 := store_bytes b1 _ 2 vid).
  assert (length b2 = length buf) as Hl2
    by (subst b2; by rewrite length_store_bytes).
  cbv zeta. rewrite buf_store_ok by lia. cbn [bind].
  set (mdts := u8 _). set (b3 := store_bytes b2 _ 1 mdts).
  assert (length b3 = length buf) as Hl3
    by (subst b3; by rewrite length_store_bytes).
  rewrite buf_store_ok by lia. cbn [bind].
  set (b4 := store_bytes b3 _ 1 0).
  assert (length b4 = length buf) as Hl4
    by (subst b4; by rewrite length_store_bytes).
  rewrite buf_store_ok by lia. cbn [bind].
  set (b5 := store_bytes b4 _ 1 0).
  assert (length b5 = length buf) as Hl5
    by (subst b5; by rewrite length_store_bytes).
  rewrite buf_store_ok by lia. cbn [bind].
  set (b6 := store_bytes b5 _ 4 0).
  assert (length b6 = length buf) as Hl6
    by (subst b6; by rewrite length_store_bytes).
  (* the two bytes of the vendor identifier, as read back *)
  assert (b1 !! 0%nat = Some (Z.land (u16 vendorid) 0xff)) as Hv0.
  { subst b1. change (Z.to_nat 0) with 0%nat.
    rewrite store_bytes_lookup_in by lia. by rewrite Z.shiftr_0_r. }
  assert (b1 !! 1%nat = Some (Z.land (Z.shiftr (u16 vendorid) 8) 0xff))
    as Hv1.
  { subst b1. change (Z.to_nat 0) with 0%nat.
    by rewrite store_bytes_lookup_in by lia. }
  assert (vid = Z.land (u16 vendorid) 0xff
                + 256 * Z.land (Z.shiftr (u16 vendorid) 8) 0xff) as Hvid.
  { subst vid. change (Z.to_nat 0) with 0%nat. cbn [load_bytes].
    rewrite Hv0, Hv1. cbn [default from_option id]. lia. }
  pose proof (land_0xff_range (u16 vendorid)) as Hr0.
  pose proof (land_0xff_range (Z.shiftr (u16 vendorid) 8)) as Hr1.
  destruct (byte_split _ (Z.land (Z.shiftr (u16 vendorid) 8) 0xff) Hr0)
    as [Hlo Hhi]. rewrite <- Hvid in Hlo, Hhi.
  assert (forall i : nat,
            b6 !! i
            = if bool_decide (536 <= i < 540)%nat then Some 0
              else if bool_decide (i = 265%nat) then Some 0
              else if bool_decide (i = 76%nat) then Some 0
              else if bool_decide (i = 77%nat)
                   then Some (Z.land mdts 0xff)
              else if bool_decide (2 <= i < 4)%nat
                   then Some (Z.land (Z.shiftr vid (8 * Z.of_nat (i - 2)))
                                0xff)
              else if bool_decide (i < 2)%nat
                   then Some (Z.land (Z.shiftr (u16 vendorid)
                                        (8 * Z.of_nat (i - 0))) 0xff)
              else buf !! i) as Hlook.
  { intros i. subst b6 b5 b4 b3 b2 b1.
    change (Z.to_nat 536) with 536%nat. change (Z.to_nat 265) with 265%nat.
    change (Z.to_nat 76) with 76%nat. change (Z.to_nat 77) with 77%nat.
    change (Z.to_nat 2) with 2%nat. change (Z.to_nat 0) with 0%nat.
    repeat case_bool_decide;
      repeat first
        [ rewrite store_bytes_lookup_in
            by (rewrite ?length_store_bytes; lia)
        | rewrite store_bytes_lookup_out by lia ];
      rewrite ?Z.shiftr_0_l, ?Z.land_0_l; try reflexivity;
      try (subst; reflexivity). }
  exists b6. split; [reflexivity|]. split; [exact Hl6|].
  split.
  { intros i Hi. rewrite Hlook. unfold id_ctrl_patched in Hi.
    repeat (apply not_elem_of_cons in Hi as [? Hi]).
    repeat case_bool_decide; try reflexivity; lia. }
  assert (b6 !! 0%nat = Some (Z.land (u16 vendorid) 0xff)) as L0.
  { look (Hlook 0%nat). change (8 * Z.of_nat (0 - 0)) with 0.
    by rewrite Z.shiftr_0_r. }
  assert (b6 !! 1%nat = Some (Z.land (Z.shiftr (u16 vendorid) 8) 0xff))
    as L1 by (look (Hlook 1%nat); reflexivity).
  assert (b6 !! 2%nat = Some (Z.land (u16 vendorid) 0xff)) as L2.
  { look (Hlook 2%nat). change (8 * Z.of_nat (2 - 2)) with 0.
    by rewrite Z.shiftr_0_r, Hlo. }
  assert (b6 !! 3%nat = Some (Z.land (Z.shiftr (u16 vendorid) 8) 0xff))
    as L3.
  { look (Hlook 3%nat). change (8 * Z.of_nat (3 - 2)) with 8.
    by rewrite Hhi, land_0xff_small by exact Hr1. }
  assert (b6 !! 77%nat = Some (Z.land mdts 0xff)) as L77
    by (look (Hlook 77%nat); reflexivity).
  split; [exact L0|]. split; [exact L1|].
  split; [by rewrite L2, L0|]. split; [by rewrite L3, L1|].
  split; [look (Hlook 76%nat); reflexivity|].
  split; [look (Hlook 265%nat); reflexivity|].
  split.
  { intros i Hi. rewrite Hlook. by rewrite bool_decide_true by lia. }
  assert (u32 (NVME_CAP_MPSMIN fcap + 12) = NVME_CAP_MPSMIN fcap + 12) as Hps.
  { pose proof (land_0xf_range (Z.shiftr fcap 48)) as Hm.
    unfold NVME_CAP_MPSMIN. apply u32_small. lia. }
  assert (Z.land mdts 0xff
          = u8 (ilog2 (ctrl_mdts c) - (NVME_CAP_MPSMIN fcap + 12))) as Hm.
  { subst mdts. rewrite Hps. apply land_0xff_small. unfold u8.
    change (2 ^ 8) with 256. apply Z.mod_pos_bound. lia. }
  rewrite L77, Hm. split; [reflexivity|].
  intros j Hj Hmdts. f_equal. unfold u8.
  change (2 ^ 8) with 256. f_equal.
  rewrite Hmdts. unfold ilog2, SZ_1K. change 1024 with (2 ^ 10).
  rewrite <- Z.pow_add_r by lia.
  assert (0 < 2 ^ (j + 10)) by (apply Z.pow_pos_nonneg; lia).
  destruct (Z.leb_spec (2 ^ (j + 10)) 0); [lia|].
  rewrite Z.log2_pow2 by lia. lia.
Qed.

Lemma identify_hook_ctrl_witness :
  exists buf',
    pci_epf_nvme_identify_hook (ctrl_mdts_kb 4) 0x1b96 0
      (identify_done NVME_ID_CNS_CTRL (replicate 4096 0))
    = Ok (set_c_buffer (identify_done NVME_ID_CNS_CTRL (replicate 4096 0))
            (Some buf')) /\
    buf' !! 0%nat = Some 0x96 /\ buf' !! 1%nat = Some 0x1b /\
    buf' !! 77%nat = Some 0.
Proof.
  pose proof (identify_hook_ctrl (ctrl_mdts_kb 4) 0x1b96 0
                (identify_done NVME_ID_CNS_CTRL (replicate 4096 0))
                (replicate 4096 0)) as H.
  feed H ltac:(first [reflexivity | vm_compute; done]).
  destruct H as [_ H].
  destruct (H eq_refl)
    as (buf' & Hrun & _ & _ & L0 & L1 & _ & _ & _ & _ & _ & _ & Hm).
  exists buf'. split; [exact Hrun|]. split; [exact L0|]. split; [exact L1|].
  apply (Hm 2); [lia|reflexivity].
Defined.
